(** * Ethiopia financial-inclusion dashboard: data access layer and pages

    A shallow embedding of [src/dashboard/utils.py] and of
    [src/dashboard/app.py], with the properties of the specification proved
    or refuted on it, and further properties of the code after them.

    - A pandas [DataFrame] is a list of column names and a list of labelled
      rows; a row maps column names to cells.  Of the dtypes the frame
      records what the code depends on: which columns are [datetime64].
    - Python exceptions are values of [exn], carried by [result].
    - Code that mutates a frame in place ([get_observations], [get_events])
      runs in a state monad over a store of frames, so that aliasing between
      the argument and the returned frame is visible.
    - A load reads the files through [Files], which records for each path
      whether it exists and what the pandas reader makes of it.
    - Streamlit calls append widgets to the rendered page.
    - What pandas and Python do below the dashboard's calls (the sorting
      kernel, date parsing, number formatting) is a parameter, class
      [Pandas]; the theorems hold for every instance, module [Demo] has one
      to compute with.

    - The Overview and Forecasts pages run over a page of widgets; the
      other pages, the sidebar and the script as a whole over a richer page,
      where Streamlit can refuse a widget (section "The other pages and the
      script").  What Python and the libraries do there outside the cases
      of this development is a second parameter, class [Toolkit].

    Not modelled: the memoisation of the loads by [st.cache_data], and what
    Plotly draws from the data a chart is given. *)

From Stdlib Require Import ZArith QArith Qround String Ascii List Sorted Permutation.
From stdpp Require Import base option list strings pretty gmap.

Local Open Scope string_scope.
Local Open Scope list_scope.
Local Open Scope Z_scope.

(** ** Cells *)

(** One cell of a frame.  [NA] stands for every pandas missing marker
    ([NaN], [NaT], [None]).  A timestamp is its [datetime64[ns]] payload, the
    number of nanoseconds since the epoch.  Numeric cells are only carried,
    compared with a constant and tested for zero; they are kept as
    rationals. *)
Inductive cell :=
| NA
| Str (s : string)
| Num (q : Q)
| Date (t : Z).

#[global] Instance Q_eq_dec : EqDecision Q.
Proof. solve_decision. Defined.

#[global] Instance cell_eq_dec : EqDecision cell.
Proof. solve_decision. Defined.

(** [pd.isna] / [Series.notna] on one cell. *)
Definition isna (c : cell) : bool :=
  match c with NA => true | _ => false end.

Definition notna (c : cell) : bool := negb (isna c).

(** Elementwise [==] of a column against a scalar: a missing value equals
    nothing, values of different kinds are different. *)
Definition py_eq (a b : cell) : bool :=
  match a, b with
  | Str s, Str t => String.eqb s t
  | Num p, Num q => Qeq_bool p q
  | Date s, Date t => Z.eqb s t
  | _, _ => false
  end.

(** The kind of a non-missing cell; ordering comparisons in Python are
    defined within one kind only. *)
Inductive kind := KStr | KNum | KDate.

#[global] Instance kind_eq_dec : EqDecision kind.
Proof. solve_decision. Defined.

Definition kind_of (c : cell) : option kind :=
  match c with
  | NA => None
  | Str _ => Some KStr
  | Num _ => Some KNum
  | Date _ => Some KDate
  end.

(** [a <= b] on two cells of one kind. *)
Definition cell_leb (a b : cell) : bool :=
  match a, b with
  | Str s, Str t => String.leb s t
  | Num p, Num q => Qle_bool p q
  | Date s, Date t => Z.leb s t
  | _, _ => false
  end.

(** Python truthiness ([if x:]) of a scalar read from a frame: numbers are
    true unless zero, [nan] is true, strings are true unless empty,
    timestamps are true. *)
Definition truthy (c : cell) : bool :=
  match c with
  | NA => true
  | Str s => match s with EmptyString => false | _ => true end
  | Num q => negb (Qeq_bool q 0)
  | Date _ => true
  end.

(** Truthiness of a value that may be Python's [None]. *)
Definition truthy_opt (v : option cell) : bool :=
  match v with
  | None => false
  | Some c => truthy c
  end.

(** ** Exceptions

    [ReferenceError] is the model's answer to a location outside the store;
    the program never reaches it. *)

Inductive exn :=
| KeyError (key : string)
| TypeError
| AttributeError
| ValueError
| IndexError
| FileNotFoundError
| ReadError (msg : string)
| ReferenceError.

#[global] Instance exn_eq_dec : EqDecision exn.
Proof. solve_decision. Defined.

Inductive result (A : Type) :=
| Ok (a : A)
| Raise (e : exn).
Arguments Ok {A} a.
Arguments Raise {A} e.

#[global] Instance result_ret : MRet result := λ A a, Ok a.
#[global] Instance result_bind : MBind result := λ A B f m,
  match m with
  | Ok a => f a
  | Raise e => Raise e
  end.
#[global] Instance result_fmap : FMap result := λ A B f m,
  match m with
  | Ok a => Ok (f a)
  | Raise e => Raise e
  end.

(** ** Frames *)

Abbreviation Row := (gmap string cell).

(** [datetime64] lists the columns of dtype [datetime64]: the [.dt]
    accessor exists on these only, whatever the cells of the other columns
    hold, and [pd.to_datetime] returns them as they are.  Their cells are
    timestamps and missing values. *)
Record DataFrame := {
  columns : list string;
  rows : list (Z * Row);
  datetime64 : list string
}.

#[global] Instance DataFrame_eq_dec : EqDecision DataFrame.
Proof. solve_decision. Defined.

(** [pd.DataFrame()] *)
Definition empty_frame : DataFrame :=
  {| columns := []; rows := []; datetime64 := [] |}.

(** [df.empty]: some axis has length zero. *)
Definition df_empty (df : DataFrame) : bool :=
  match columns df, rows df with
  | [], _ => true
  | _, [] => true
  | _, _ => false
  end.

(** [c in df.columns] *)
Definition has_column (df : DataFrame) (c : string) : bool :=
  bool_decide (c ∈ columns df).

(** The dtype of [df[c]] is [datetime64]. *)
Definition is_datetime64 (df : DataFrame) (c : string) : bool :=
  bool_decide (c ∈ datetime64 df).

Definition cell_of (c : string) (r : Z * Row) : cell := default NA (r.2 !! c).

(** The cell of row [r] as frame [df] shows it: a column the frame does not
    have holds nothing. *)
Definition frame_cell (df : DataFrame) (c : string) (r : Z * Row) : cell :=
  if has_column df c then cell_of c r else NA.

Definition labels (df : DataFrame) : list Z := map fst (rows df).

(** [df[c]]: the column as a series aligned with the rows. *)
Definition getitem (df : DataFrame) (c : string) : result (list cell) :=
  if has_column df c then Ok (map (cell_of c) (rows df))
  else Raise (KeyError c).

(** [series == v] *)
Definition series_eq (s : list cell) (v : cell) : list bool :=
  map (λ c, py_eq c v) s.

(** [m1 & m2] *)
Definition mask_and (m1 m2 : list bool) : list bool := zip_with andb m1 m2.

Fixpoint select {A} (l : list A) (mask : list bool) : list A :=
  match l, mask with
  | x :: l, b :: mask => if b then x :: select l mask else select l mask
  | _, _ => []
  end.

(** [df[mask]] for a boolean mask aligned with the rows: a new frame. *)
Definition getitem_mask (df : DataFrame) (mask : list bool) : DataFrame :=
  {| columns := columns df; rows := select (rows df) mask;
     datetime64 := datetime64 df |}.

(** [df.dropna(subset=cs)] *)
Definition dropna (df : DataFrame) (subset : list string) : result DataFrame :=
  match List.find (λ c, negb (has_column df c)) subset with
  | Some c => Raise (KeyError c)
  | None =>
      Ok {| columns := columns df;
            rows := List.filter
                      (λ r, forallb (λ c, notna (cell_of c r)) subset)
                      (rows df);
            datetime64 := datetime64 df |}
  end.

(** All non-missing cells are of one kind. *)
Definition homogeneous (s : list cell) : bool :=
  match omap kind_of s with
  | [] => true
  | k :: ks => forallb (λ k', bool_decide (k' = k)) ks
  end.

(** [s.iloc[-1]] and [s.iloc[0]] *)
Definition iloc_last (s : list cell) : result cell :=
  match last s with
  | Some c => Ok c
  | None => Raise IndexError
  end.

Definition iloc_first (s : list cell) : result cell :=
  match s with
  | c :: _ => Ok c
  | [] => Raise IndexError
  end.

(** ** Library primitives

    What pandas, numpy and Python's formatting do below the calls the
    dashboard makes.  The sorting kernel is only known to return an ordered
    rearrangement of its input (pandas' default [quicksort] is not stable);
    the others are left uninterpreted. *)
Class Pandas := {
  (** the sorting kernel under [sort_values] *)
  sort_by : ∀ A : Type, (A → A → bool) → list A → list A;
  (** [Timestamp.year] *)
  dt_year : Z → Z;
  (** what [pd.to_datetime] makes of a scalar that is neither missing nor a
      timestamp; [None] when it cannot be read as a date *)
  parse_datetime : cell → option Z;
  (** the dates [pd.to_datetime] reads in a series are not all of one time
      zone (some carry an offset and some none): it then raises
      [ValueError], also under [errors='coerce'] *)
  mixed_time_zones : list cell → bool;
  (** [str(x)], [Series.astype(str)] *)
  str_of_cell : cell → string;
  (** [f"{x:.1f}"] on a number *)
  fmt_1f : Q → string;
  (** [DataFrame.to_csv(index=False)] *)
  to_csv : DataFrame → string;
  (** [str(e)] for an exception *)
  str_of_exn : exn → string
}.
Arguments sort_by {_ A} le l.

(** The contract of the sorting kernel: an ordered rearrangement, whenever
    the comparison is a total preorder on the values at hand. *)
Class PandasLaws `{Pandas} : Prop := {
  sort_perm : ∀ A (le : A → A → bool) l, sort_by le l ≡ₚ l;
  sort_sorted : ∀ A (le : A → A → bool) l,
    (∀ x y, x ∈ l → y ∈ l → le x y = true ∨ le y x = true) →
    (∀ x y z, x ∈ l → y ∈ l → z ∈ l →
              le x y = true → le y z = true → le x z = true) →
    StronglySorted (λ x y, le x y = true) (sort_by le l)
}.

Section Queries.
Context `{Pandas}.

(** [df.sort_values(by)]: ascending, missing values last.  Comparing two
    values of different kinds raises [TypeError]. *)
Definition sort_values (df : DataFrame) (by_ : string) : result DataFrame :=
  if has_column df by_ then
    let present := List.filter (λ r, notna (cell_of by_ r)) (rows df) in
    let missing := List.filter (λ r, isna (cell_of by_ r)) (rows df) in
    if homogeneous (map (cell_of by_) present) then
      Ok {| columns := columns df;
            rows := sort_by (λ r1 r2, cell_leb (cell_of by_ r1) (cell_of by_ r2))
                         present ++ missing;
            datetime64 := datetime64 df |}
    else Raise TypeError
  else Raise (KeyError by_).

(** [utils.get_indicator_series].  The [.copy()] of the selection is not
    modelled separately: the copy is never mutated. *)
Definition get_indicator_series (observations : DataFrame)
    (indicator_code : cell) : result DataFrame :=
  if df_empty observations then Ok empty_frame
  else
    codes ← getitem observations "indicator_code";
    let data := getitem_mask observations (series_eq codes indicator_code) in
    data ← dropna data ["observation_date"; "value_numeric"];
    data ← sort_values data "observation_date";
    Ok data.

(** [utils.get_latest_value]; [None] is Python's [None]. *)
Definition get_latest_value (observations : DataFrame)
    (indicator_code : cell) : result (option cell) :=
  series ← get_indicator_series observations indicator_code;
  if df_empty series then Ok None
  else
    values ← getitem series "value_numeric";
    v ← iloc_last values;
    Ok (Some v).

(** [utils.get_forecast_value]; the frame argument may be [None]. *)
Definition get_forecast_value (forecast_df : option DataFrame)
    (indicator year scenario : cell) : result (option cell) :=
  match forecast_df with
  | None => Ok None
  | Some forecast_df =>
      if df_empty forecast_df then Ok None
      else
        c1 ← getitem forecast_df "indicator_code";
        c2 ← getitem forecast_df "year";
        c3 ← getitem forecast_df "scenario";
        let mask := mask_and (mask_and (series_eq c1 indicator)
                                       (series_eq c2 year))
                             (series_eq c3 scenario) in
        let result := getitem_mask forecast_df mask in
        if df_empty result then Ok None
        else
          values ← getitem result "forecast_value";
          v ← iloc_first values;
          Ok (Some v)
  end.
End Queries.


(** ** Columns computed from columns *)

(** A cell a [datetime64] column can hold. *)
Definition is_datetime (c : cell) : bool :=
  match c with
  | NA | Date _ => true
  | _ => false
  end.

(** The [datetime64] columns after column [c] got a series that is
    ([datetime]) or is not of that dtype. *)
Definition set_dtype (dtypes : list string) (c : string) (datetime : bool)
    : list string :=
  (if datetime then [c] else [])
  ++ List.filter (λ c', negb (String.eqb c' c)) dtypes.

(** [df[c] = s], on the frame value: the column is replaced, or appended
    when new, and takes the dtype of the series, [datetime64] or not.  A
    series of the wrong length is refused. *)
Definition set_column (df : DataFrame) (c : string) (s : list cell)
    (datetime : bool) : result DataFrame :=
  if bool_decide (length s = length (rows df)) then
    Ok {| columns := if has_column df c then columns df else columns df ++ [c];
          rows := zip_with (λ r v, (r.1, <[c := v]> r.2)) (rows df) s;
          datetime64 := set_dtype (datetime64 df) c datetime |}
  else Raise ValueError.

Section Conversions.
Context `{Pandas}.

(** [pd.to_datetime(x, format='mixed', errors='coerce')] on one value. *)
Definition to_datetime_cell (c : cell) : cell :=
  match c with
  | NA => NA
  | Date t => Date t
  | _ => match parse_datetime c with
         | Some t => Date t
         | None => NA
         end
  end.

(** [pd.to_datetime(s, format='mixed', errors='coerce')] on a series,
    [datetime] telling whether it is [datetime64] already.  Such a series
    is returned as it is (on its cells the parse changes nothing).  Of any
    other the values are parsed one by one; [errors='coerce'] turns what
    cannot be read into a missing date, but not dates of different time
    zones: on these pandas raises [ValueError].  The result is
    [datetime64]. *)
Definition to_datetime_coerce (datetime : bool) (s : list cell)
    : result (list cell) :=
  if negb datetime && mixed_time_zones s then Raise ValueError
  else Ok (map to_datetime_cell s).

(** [pd.to_datetime(s)] with the default [errors='raise']. *)
Fixpoint to_datetime_raise (s : list cell) : result (list cell) :=
  match s with
  | [] => Ok []
  | c :: s' =>
      d ← match c with
          | NA => Ok NA
          | Date t => Ok (Date t)
          | _ => match parse_datetime c with
                 | Some t => Ok (Date t)
                 | None => Raise ValueError
                 end
          end;
      ds ← to_datetime_raise s';
      Ok (d :: ds)
  end.

(** [s.astype(str) + suffix] *)
Definition astype_str_plus (s : list cell) (suffix : string) : list cell :=
  map (λ c, Str (str_of_cell c +:+ suffix)) s.

(** [s.dt.year] on a series, [datetime] telling whether it is
    [datetime64]: pandas has the [.dt] accessor on such a series only,
    whatever the cells of another hold. *)
Definition year_cell (c : cell) : cell :=
  match c with
  | Date t => Num (inject_Z (dt_year t))
  | _ => NA
  end.

Definition dt_year_series (datetime : bool) (s : list cell)
    : result (list cell) :=
  if datetime then Ok (map year_cell s)
  else Raise AttributeError.
End Conversions.

(** ** State and exceptions *)

Definition State (S A : Type) : Type := S → S * result A.

#[global] Instance state_ret {S} : MRet (State S) := λ A a σ, (σ, Ok a).
#[global] Instance state_bind {S} : MBind (State S) := λ A B f m σ,
  match m σ with
  | (σ', Ok a) => f a σ'
  | (σ', Raise e) => (σ', Raise e)
  end.

(** A computation that does not touch the state. *)
Definition lift {S A} (r : result A) : State S A := λ σ, (σ, r).

(** [try: m except: h] *)
Definition try_except {S A} (m : State S A) (h : exn → State S A) : State S A :=
  λ σ, match m σ with
       | (σ', Ok a) => (σ', Ok a)
       | (σ', Raise e) => h e σ'
       end.

(** ** The store of frames

    Python variables hold references.  A frame lives in the store at a
    location; indexing and [.copy()] allocate, column assignment updates in
    place. *)
Abbreviation loc := positive.
Abbreviation store := (gmap positive DataFrame).
Abbreviation Heap := (State (gmap positive DataFrame)).

Definition deref (l : loc) : Heap DataFrame := λ σ,
  match σ !! l with
  | Some df => (σ, Ok df)
  | None => (σ, Raise ReferenceError)
  end.

Definition new_frame (df : DataFrame) : Heap loc := λ σ,
  let l := fresh (dom σ) in (<[l := df]> σ, Ok l).

(** [df.copy()] *)
Definition copy (l : loc) : Heap loc :=
  df ← deref l; new_frame df.

(** [df[mask]] *)
Definition select_rows (l : loc) (mask : list bool) : Heap loc :=
  df ← deref l; new_frame (getitem_mask df mask).

(** [df[c] = s] *)
Definition setitem (l : loc) (c : string) (s : list cell) (datetime : bool)
    : Heap unit := λ σ,
  match σ !! l with
  | Some df =>
      match set_column df c s datetime with
      | Ok df' => (<[l := df']> σ, Ok ())
      | Raise e => (σ, Raise e)
      end
  | None => (σ, Raise ReferenceError)
  end.

Section Partition.
Context `{Pandas}.

(** [utils.get_observations] *)
Definition get_observations (df_main : loc) : Heap loc :=
  d ← deref df_main;
  if df_empty d then new_frame empty_frame
  else
    record_type ← lift (getitem d "record_type");
    selected ← select_rows df_main (series_eq record_type (Str "observation"));
    obs ← copy selected;
    o ← deref obs;
    (if has_column o "observation_date" then
       dates ← lift (getitem o "observation_date");
       years ← lift (dt_year_series (is_datetime64 o "observation_date") dates);
       setitem obs "year" years false
     else mret ());;
    mret obs.

(** [utils.get_events] *)
Definition get_events (df_main : loc) : Heap loc :=
  d ← deref df_main;
  if df_empty d then new_frame empty_frame
  else
    record_type ← lift (getitem d "record_type");
    selected ← select_rows df_main (series_eq record_type (Str "event"));
    events ← copy selected;
    e ← deref events;
    any_event_date ←
      (if has_column e "event_date" then
         event_date ← lift (getitem e "event_date");
         mret (existsb notna event_date)
       else mret false);
    let date_col := if any_event_date : bool then "event_date"
                    else "observation_date" in
    (if has_column e date_col then
       raw ← lift (getitem e date_col);
       dates ← lift (to_datetime_coerce (is_datetime64 e date_col) raw);
       setitem events date_col dates true;;
       e' ← deref events;
       parsed ← lift (getitem e' date_col);
       setitem events "event_date_parsed" parsed (is_datetime64 e' date_col)
     else mret ());;
    mret events.
End Partition.

(** ** The rendered page *)

(** A plotly trace: the data of one [go.Scatter] and its styling options. *)
Record Trace := {
  trace_x : list cell;
  trace_y : list cell;
  trace_mode : string;
  trace_name : string;
  trace_style : list (string * string)
}.

Record Figure := {
  traces : list Trace;
  layout : list (string * string)
}.

#[global] Instance Trace_eq_dec : EqDecision Trace.
Proof. solve_decision. Defined.
#[global] Instance Figure_eq_dec : EqDecision Figure.
Proof. solve_decision. Defined.

(** What a Streamlit call puts on the page.  [Within c w] is widget [w]
    placed in the container [c] of a [with c:] block. *)
Inductive widget :=
| Markdown (body : string)
| Subheader (body : string)
| Metric (label value : string) (delta : option string)
| Write (body : string)
| PlotlyChart (fig : Figure)
| Dataframe (df : DataFrame)
| DownloadButton (label data file_name mime : string)
| Selectbox (label : string) (options : list cell)
| ErrorBox (body : string)
| WarningBox (body : string)
| InfoBox (body : string)
| Within (container : string) (w : widget).

(** A script run: the widgets emitted so far are the state. *)
Abbreviation UI := (State (list widget)).

Definition emit (w : widget) : UI unit := λ page, (page ++ [w], Ok ()).

Definition st_markdown (body : string) : UI unit := emit (Markdown body).
Definition st_subheader (body : string) : UI unit := emit (Subheader body).
Definition st_metric (label value : string) (delta : option string) : UI unit :=
  emit (Metric label value delta).
Definition st_write (body : string) : UI unit := emit (Write body).
Definition st_plotly_chart (fig : Figure) : UI unit := emit (PlotlyChart fig).
Definition st_dataframe (df : DataFrame) : UI unit := emit (Dataframe df).
Definition st_error (body : string) : UI unit := emit (ErrorBox body).
Definition st_warning (body : string) : UI unit := emit (WarningBox body).
Definition st_info (body : string) : UI unit := emit (InfoBox body).

(** [with c: body] *)
Definition within {A} (c : string) (body : UI A) : UI A := λ page,
  let '(inner, r) := body [] in (page ++ map (Within c) inner, r).

(** What [st.selectbox(label, options, index=0 if options else None)]
    returns: the option the user picked, the first one when nothing valid
    is picked, [None] when there is nothing to pick. *)
Definition selectbox_value (options : list cell) (picked : nat) : option cell :=
  match options !! picked with
  | Some o => Some o
  | None => head options
  end.

Definition st_selectbox (label : string) (options : list cell) (picked : nat)
    : UI (option cell) :=
  emit (Selectbox label options);;
  mret (selectbox_value options picked).

(** Messages are user-visible and non-fatal. *)
Definition is_message (w : widget) : bool :=
  match w with
  | ErrorBox _ | WarningBox _ => true
  | _ => false
  end.

(** ** The files on disk

    For each CSV the dashboard reads: [None] when the path does not exist,
    otherwise what [pd.read_csv] makes of it, a frame or an exception.  For
    the workbook: what [pd.read_excel] makes of each of its two sheets
    ([FileNotFoundError] when the workbook is missing). *)
Record Files := {
  enriched_csv : option (result DataFrame);
  workbook_main_sheet : result DataFrame;
  workbook_impact_sheet : result DataFrame;
  event_features_csv : option (result DataFrame);
  event_matrix_csv : option (result DataFrame);
  forecast_long_csv : option (result DataFrame);
  forecast_wide_csv : option (result DataFrame)
}.

Section Loaders.
Context `{Pandas}.

(** [utils.load_unified_data].  The result of the first run is cached by
    [st.cache_data]; the model is that first run. *)
Definition load_unified_data (fs : Files) : UI (DataFrame * DataFrame) :=
  try_except
    (loaded ←
       match enriched_csv fs with
       | Some read =>
           df_main ← lift read;
           record_type ← lift (getitem df_main "record_type");
           mret (df_main,
                 getitem_mask df_main
                   (series_eq record_type (Str "impact_link")))
       | None =>
           df_main ← lift (workbook_main_sheet fs);
           df_impact ← try_except (lift (workbook_impact_sheet fs))
                                  (λ _, mret empty_frame);
           mret (df_main, df_impact)
       end;
     let '(df_main, df_impact) := loaded in
     df_main ←
       (if has_column df_main "observation_date" then
          dates ← lift (getitem df_main "observation_date");
          parsed ← lift (to_datetime_coerce
                           (is_datetime64 df_main "observation_date") dates);
          lift (set_column df_main "observation_date" parsed true)
        else mret df_main);
     mret (df_main, df_impact))
    (λ e,
       st_error ("Error loading unified data: " +:+ str_of_exn e);;
       mret (empty_frame, empty_frame)).

(** [utils.load_event_features] *)
Definition load_event_features (fs : Files) : UI (option DataFrame) :=
  try_except
    (match event_features_csv fs with
     | None =>
         st_warning "Event features not found. Run Task 3 notebook first.";;
         mret None
     | Some read =>
         df ← lift read;
         mret (Some df)
     end)
    (λ e,
       st_error ("Error loading event features: " +:+ str_of_exn e);;
       mret None).

(** [utils.load_event_matrix] *)
Definition load_event_matrix (fs : Files) : UI (option DataFrame) :=
  try_except
    (match event_matrix_csv fs with
     | None =>
         st_warning "Event matrix not found. Run Task 3 notebook first.";;
         mret None
     | Some read =>
         df ← lift read;
         mret (Some df)
     end)
    (λ e,
       st_error ("Error loading event matrix: " +:+ str_of_exn e);;
       mret None).

(** [utils.load_forecasts] *)
Definition load_forecasts (fs : Files)
    : UI (option DataFrame * option DataFrame) :=
  try_except
    (match forecast_long_csv fs with
     | None =>
         st_warning "Forecast data not found. Run Task 4 notebook first.";;
         mret (None, None)
     | Some read_long =>
         df_long ← lift read_long;
         df_wide ←
           match forecast_wide_csv fs with
           | Some read_wide => df ← lift read_wide; mret (Some df)
           | None => mret None
           end;
         mret (Some df_long, df_wide)
     end)
    (λ e,
       st_error ("Error loading forecasts: " +:+ str_of_exn e);;
       mret (None, None)).
End Loaders.

(** ** Python scalars in the pages *)

(** A double quote and a line feed, for the literals that contain them. *)
Definition dq : string := String (ascii_of_nat 34%nat) EmptyString.
Definition nl : string := String (ascii_of_nat 10%nat) EmptyString.

(** Using [None] where a number is expected raises [TypeError]. *)
Definition the (v : option cell) : result cell :=
  match v with
  | Some c => Ok c
  | None => Raise TypeError
  end.

(** [a - b] on what the pages subtract.  The difference of two timestamps
    is a [Timedelta], which the caller cannot format: [TypeError] either
    way. *)
Definition py_sub (a b : cell) : result cell :=
  match a, b with
  | Num p, Num q => Ok (Num (p - q))
  | Num _, NA | NA, Num _ | NA, NA => Ok NA
  | _, _ => Raise TypeError
  end.

(** [-a] *)
Definition py_neg (a : cell) : result cell :=
  match a with
  | Num p => Ok (Num (- p))
  | NA => Ok NA
  | _ => Raise TypeError
  end.

(** [a > 0]; false on [nan]. *)
Definition py_gt0 (a : cell) : result bool :=
  match a with
  | Num p => Ok (negb (Qle_bool p 0))
  | NA => Ok false
  | _ => Raise TypeError
  end.

(** [str.capitalize] on ASCII text. *)
Definition upper (a : ascii) : ascii :=
  let n := nat_of_ascii a in
  if (97 <=? n)%nat && (n <=? 122)%nat then ascii_of_nat (n - 32) else a.

Definition lower (a : ascii) : ascii :=
  let n := nat_of_ascii a in
  if (65 <=? n)%nat && (n <=? 90)%nat then ascii_of_nat (n + 32) else a.

Fixpoint lowercase (s : string) : string :=
  match s with
  | EmptyString => EmptyString
  | String a s' => String (lower a) (lowercase s')
  end.

Definition capitalize (s : string) : string :=
  match s with
  | EmptyString => EmptyString
  | String a s' => String (upper a) (lowercase s')
  end.

(** [Series.unique().tolist()]: first occurrences, in order. *)
Fixpoint unique (s : list cell) : list cell :=
  match s with
  | [] => []
  | c :: s' => c :: List.filter (λ c', negb (bool_decide (c' = c))) (unique s')
  end.

(** ** The script's variables *)

Inductive scenario := base | optimistic | pessimistic.

#[global] Instance scenario_eq_dec : EqDecision scenario.
Proof. solve_decision. Defined.

Definition scenario_name (sc : scenario) : string :=
  match sc with
  | base => "base"
  | optimistic => "optimistic"
  | pessimistic => "pessimistic"
  end.

(** What a page body reads: the datasets loaded at the top of the script,
    the sidebar's scenario selection, and the position picked in the
    Forecasts page's indicator selector. *)
Record Session := {
  observations : DataFrame;
  events : DataFrame;
  forecast_long : option DataFrame;
  forecast_wide : option DataFrame;
  scenario_filter : scenario;
  indicator_pick : nat
}.

Definition with_scenario (s : Session) (sc : scenario) : Session :=
  {| observations := observations s;
     events := events s;
     forecast_long := forecast_long s;
     forecast_wide := forecast_wide s;
     scenario_filter := sc;
     indicator_pick := indicator_pick s |}.

Section Pages.
Context `{Pandas}.

(** [f"{x:.1f}"]: a number to one decimal, [nan] for a missing number; a
    string refuses the format; a timestamp takes the format for a
    [strftime] pattern and gives it back. *)
Definition format_1f (c : cell) : result string :=
  match c with
  | Num q => Ok (fmt_1f q)
  | NA => Ok "nan"
  | Str _ => Raise ValueError
  | Date _ => Ok ".1f"
  end.

Definition format_opt (v : option cell) : result string :=
  c ← the v; format_1f c.

(** [len(df)] in an f-string *)
Definition str_of_len (df : DataFrame) : string :=
  str_of_cell (Num (inject_Z (Z.of_nat (length (rows df))))).

(** *** Overview *)

(** Columns 1 to 3 of the KPI row hold the same block up to the label:
    [if latest: st.metric(label, f"{latest:.1f}%") else: st.metric(label,
    "N/A")]. *)
Definition kpi_metric (label : string) (latest : option cell) : UI unit :=
  if truthy_opt latest then
    text ← lift (format_opt latest);
    st_metric label (text +:+ "%") None
  else st_metric label "N/A" None.

(** Column 4. *)
Definition kpi_forecast (forecast_2027 : option cell) : UI unit :=
  if truthy_opt forecast_2027 then
    target_gap ← lift (f ← the forecast_2027; py_sub (Num 60) f);
    text ← lift (format_opt forecast_2027);
    positive_gap ← lift (py_gt0 target_gap);
    delta ←
      (if positive_gap : bool then
         g ← lift (g ← py_neg target_gap; format_1f g);
         mret (g +:+ "pp to 60% target")
       else mret "✓ Target met");
    st_metric "2027 Forecast (Access)" (text +:+ "%") (Some delta)
  else st_metric "2027 Forecast" "N/A" None.

(** The "Current State" panel. *)
Definition insight_current_state (latest_access latest_mm : option cell)
    (events : DataFrame) : UI unit :=
  st_markdown ("<div class=" +:+ dq +:+ "insight-box" +:+ dq +:+ ">");;
  st_markdown "**📊 Current State**";;
  (if truthy_opt latest_access && truthy_opt latest_mm then
     a ← lift (format_opt latest_access);
     st_write ("- Account ownership: " +:+ a +:+ "%");;
     m ← lift (format_opt latest_mm);
     st_write ("- Mobile money penetration: " +:+ m +:+ "%");;
     g ← lift (x ← the latest_access; y ← the latest_mm;
               d ← py_sub x y; format_1f d);
     st_write ("- Traditional banking dominates: " +:+ g +:+ "pp gap")
   else mret ());;
  st_write ("- Total events tracked: " +:+ str_of_len events);;
  st_markdown "</div>".

(** The "Forecast Outlook" panel. *)
Definition insight_forecast_outlook (forecast_2027 : option cell)
    (forecast_wide : option DataFrame) : UI unit :=
  st_markdown ("<div class=" +:+ dq +:+ "insight-box" +:+ dq +:+ ">");;
  st_markdown "**🎯 Forecast Outlook**";;
  (if truthy_opt forecast_2027 then
     f ← lift (format_opt forecast_2027);
     st_write ("- 2027 base forecast: " +:+ f +:+ "%");;
     match forecast_wide with
     | Some fw =>
         if negb (df_empty fw) then
           years ← lift (getitem fw "year");
           codes ← lift (getitem fw "indicator_code");
           let access_2027 :=
             getitem_mask fw (mask_and (series_eq years (Num 2027))
                                       (series_eq codes (Str "ACC_OWNERSHIP"))) in
           if negb (df_empty access_2027) && has_column access_2027 "lower" then
             lower ← lift (c ← getitem access_2027 "lower"; iloc_first c);
             upper ← lift (c ← getitem access_2027 "upper"; iloc_first c);
             lo ← lift (format_1f lower);
             up ← lift (format_1f upper);
             st_write ("- Uncertainty range: " +:+ lo +:+ "% - " +:+ up +:+ "%")
           else mret ()
         else mret ()
     | None => mret ()
     end
   else mret ());;
  st_write "- Key drivers: Telebirr, M-Pesa, NFIS-II";;
  st_markdown "</div>".

(** The "Historical" trace of both charts, when the series has rows. *)
Definition historical_trace (series : DataFrame) : result (list Trace) :=
  if negb (df_empty series) then
    dates ← getitem series "observation_date";
    values ← getitem series "value_numeric";
    Ok [ {| trace_x := dates; trace_y := values;
            trace_mode := "lines+markers"; trace_name := "Historical";
            trace_style := [("line.color", "#1f77b4"); ("line.width", "3");
                            ("marker.size", "10")] |} ]
  else Ok [].

(** The forecast trace of the Overview chart: the rows of the selected
    scenario. *)
Definition overview_forecast_trace (forecast_long : option DataFrame)
    (scenario_filter : scenario) : result (list Trace) :=
  match forecast_long with
  | Some fl =>
      codes ← getitem fl "indicator_code";
      scenarios ← getitem fl "scenario";
      let selected :=
        getitem_mask fl
          (mask_and (series_eq codes (Str "ACC_OWNERSHIP"))
                    (series_eq scenarios (Str (scenario_name scenario_filter)))) in
      forecast_access ← sort_values selected "year";
      if negb (df_empty forecast_access) then
        years ← getitem forecast_access "year";
        forecast_dates ← to_datetime_raise (astype_str_plus years "-01-01");
        values ← getitem forecast_access "forecast_value";
        Ok [ {| trace_x := forecast_dates; trace_y := values;
                trace_mode := "lines+markers";
                trace_name := "Forecast (" +:+ scenario_name scenario_filter +:+ ")";
                trace_style := [("line.color", "#ff7f0e"); ("line.width", "2");
                                ("line.dash", "dash"); ("marker.size", "8");
                                ("marker.symbol", "triangle-up")] |} ]
      else Ok []
  | None => Ok []
  end.

Definition overview_layout : list (string * string) :=
  [("title", "Account Ownership: Historical + Forecast");
   ("xaxis_title", "Year"); ("yaxis_title", "Percentage (%)");
   ("hovermode", "x unified"); ("height", "400")].

(** The figure of the "Historical Trend + Forecast" section. *)
Definition overview_figure (s : Session) : result Figure :=
  acc_series ← get_indicator_series (observations s) (Str "ACC_OWNERSHIP");
  historical ← historical_trace acc_series;
  forecast ← overview_forecast_trace (forecast_long s) (scenario_filter s);
  Ok {| traces := historical ++ forecast; layout := overview_layout |}.

(** The KPI row and the two insight panels. *)
Definition overview_summary (s : Session) : UI unit :=
  st_subheader "📈 Key Performance Indicators";;
  latest_access ← within "col1" (
    latest ← lift (get_latest_value (observations s) (Str "ACC_OWNERSHIP"));
    kpi_metric "Latest Account Ownership" latest;;
    mret latest);
  latest_mm ← within "col2" (
    latest ← lift (get_latest_value (observations s) (Str "ACC_MM_ACCOUNT"));
    kpi_metric "Mobile Money Accounts" latest;;
    mret latest);
  within "col3" (
    latest ← lift (get_latest_value (observations s) (Str "USG_DIGITAL_PAYMENT"));
    kpi_metric "Digital Payment Usage" latest);;
  forecast_2027 ← within "col4" (
    f ← lift (get_forecast_value (forecast_long s) (Str "ACC_OWNERSHIP")
                (Num 2027) (Str "base"));
    kpi_forecast f;;
    mret f);
  st_markdown "---";;
  st_subheader "🔍 Key Insights";;
  within "col_a" (insight_current_state latest_access latest_mm (events s));;
  within "col_b" (insight_forecast_outlook forecast_2027 (forecast_wide s)).

(** The "Historical Trend + Forecast" section. *)
Definition overview_trend (s : Session) : UI unit :=
  st_markdown "---";;
  st_subheader "📉 Historical Trend + Forecast";;
  if negb (df_empty (observations s)) then
    fig ← lift (overview_figure s);
    st_plotly_chart fig
  else mret ().

Definition page_overview (s : Session) : UI unit :=
  st_markdown ("<p class=" +:+ dq +:+ "main-header" +:+ dq
               +:+ ">Ethiopia Financial Inclusion Dashboard</p>");;
  st_markdown "**Forecasting Access and Usage (2025-2027)**";;
  overview_summary s;;
  overview_trend s.

(** *** Forecasts *)

Definition colors : list (string * string) :=
  [("base", "#ff7f0e"); ("optimistic", "#2ca02c"); ("pessimistic", "#d62728")].

(** [colors.get(scenario, '#999')] *)
Definition colors_get (scenario : string) : string :=
  match List.find (λ kv, String.eqb kv.1 scenario) colors with
  | Some kv => kv.2
  | None => "#999"
  end.

(** One pass of the loop over the scenarios. *)
Definition scenario_trace (forecast_data : DataFrame) (scenario : string)
    : result (list Trace) :=
  scenarios ← getitem forecast_data "scenario";
  scenario_data ← sort_values
                    (getitem_mask forecast_data
                       (series_eq scenarios (Str scenario))) "year";
  if negb (df_empty scenario_data) then
    years ← getitem scenario_data "year";
    forecast_dates ← to_datetime_raise (astype_str_plus years "-01-01");
    values ← getitem scenario_data "forecast_value";
    Ok [ {| trace_x := forecast_dates; trace_y := values;
            trace_mode := "lines+markers";
            trace_name := capitalize scenario;
            trace_style := [("line.color", colors_get scenario);
                            ("line.width", "2"); ("line.dash", "dash");
                            ("marker.size", "8");
                            ("marker.symbol", "triangle-up")] |} ]
  else Ok [].

(** [for scenario in [...]: ...] *)
Fixpoint scenario_traces (forecast_data : DataFrame) (scenarios : list string)
    : result (list Trace) :=
  match scenarios with
  | [] => Ok []
  | scenario :: rest =>
      t ← scenario_trace forecast_data scenario;
      ts ← scenario_traces forecast_data rest;
      Ok (t ++ ts)
  end.

(** The uncertainty band: the upper bound, then the lower bound filled up
    to it. *)
Definition uncertainty_band (forecast_wide : option DataFrame)
    (selected : cell) : result (list Trace) :=
  match forecast_wide with
  | Some fw =>
      codes ← getitem fw "indicator_code";
      wide_data ← sort_values (getitem_mask fw (series_eq codes selected)) "year";
      if negb (df_empty wide_data) && has_column wide_data "lower"
         && has_column wide_data "upper" then
        years ← getitem wide_data "year";
        forecast_dates ← to_datetime_raise (astype_str_plus years "-01-01");
        upper ← getitem wide_data "upper";
        lower ← getitem wide_data "lower";
        Ok [ {| trace_x := forecast_dates; trace_y := upper;
                trace_mode := "lines"; trace_name := "Upper Bound";
                trace_style := [("line.width", "0"); ("showlegend", "False")] |};
             {| trace_x := forecast_dates; trace_y := lower;
                trace_mode := "lines"; trace_name := "Uncertainty Band";
                trace_style := [("line.width", "0");
                                ("fillcolor", "rgba(68, 68, 68, 0.2)");
                                ("fill", "tonexty")] |} ]
      else Ok []
  | None => Ok []
  end.

Definition forecast_layout (selected : cell) : list (string * string) :=
  [("title", str_of_cell selected +:+ ": Historical + Forecast Scenarios");
   ("xaxis_title", "Year"); ("yaxis_title", "Percentage (%)");
   ("hovermode", "x unified"); ("height", "500");
   ("legend.orientation", "h")].

(** The figure of the "Scenario Comparison" section. *)
Definition forecast_figure (s : Session) (fl : DataFrame) (selected : cell)
    : result Figure :=
  historical ← get_indicator_series (observations s) selected;
  codes ← getitem fl "indicator_code";
  let forecast_data := getitem_mask fl (series_eq codes selected) in
  history ← historical_trace historical;
  lines ← scenario_traces forecast_data ["base"; "optimistic"; "pessimistic"];
  band ← uncertainty_band (forecast_wide s) selected;
  Ok {| traces := history ++ lines ++ band;
        layout := forecast_layout selected |}.

(** The two findings that depend on a forecast lookup. *)
Definition finding_access (access_2027_base : option cell) : UI unit :=
  if truthy_opt access_2027_base then
    a ← lift (format_opt access_2027_base);
    st_write ("- **Account Ownership 2027 (base)**: " +:+ a +:+ "%");;
    gap_to_60 ← lift (x ← the access_2027_base; py_sub (Num 60) x);
    positive_gap ← lift (py_gt0 gap_to_60);
    if positive_gap : bool then
      g ← lift (format_1f gap_to_60);
      st_write ("  - Gap to 60% target: " +:+ g +:+ "pp")
    else st_write "  - ✓ On track to meet 60% target"
  else mret ().

Definition finding_usage (usage_2027_base : option cell) : UI unit :=
  if truthy_opt usage_2027_base then
    u ← lift (format_opt usage_2027_base);
    st_write ("- **Digital Payment Usage 2027 (base)**: " +:+ u +:+ "%")
  else mret ().

(** The "Scenario Comparison" section. *)
Definition forecast_comparison (s : Session) (fl : DataFrame) : UI unit :=
  st_subheader "📊 Scenario Comparison";;
  codes ← lift (getitem fl "indicator_code");
  selected ← st_selectbox "Select Indicator" (unique codes) (indicator_pick s);
  match selected with
  | Some sel =>
      if truthy sel then
        fig ← lift (forecast_figure s fl sel);
        st_plotly_chart fig
      else mret ()
  | None => mret ()
  end.

(** The "Forecast Data Table" section. *)
Definition forecast_data_table (s : Session) (fl : DataFrame) : UI unit :=
  st_markdown "---";;
  st_subheader "📋 Forecast Data Table";;
  match forecast_wide s with
  | Some fw => st_dataframe fw
  | None => st_dataframe fl
  end.

(** The "Download Forecasts" section. *)
Definition forecast_download (fl : DataFrame) : UI unit :=
  st_markdown "---";;
  st_subheader "💾 Download Forecasts";;
  emit (DownloadButton "Download Forecast CSV" (to_csv fl)
          "ethiopia_fi_forecast_2025_2027.csv" "text/csv").

(** The "Key Findings" section. *)
Definition forecast_findings (fl : DataFrame) : UI unit :=
  st_markdown "---";;
  st_subheader "🔍 Key Findings";;
  st_markdown ("<div class=" +:+ dq +:+ "insight-box" +:+ dq +:+ ">");;
  st_markdown "**Forecast Interpretation**";;
  access_2027_base ← lift (get_forecast_value (Some fl) (Str "ACC_OWNERSHIP")
                             (Num 2027) (Str "base"));
  finding_access access_2027_base;;
  usage_2027_base ← lift (get_forecast_value (Some fl)
                            (Str "USG_DIGITAL_PAYMENT") (Num 2027) (Str "base"));
  finding_usage usage_2027_base;;
  st_write (nl +:+ "**Key Drivers:**");;
  st_write "- Telebirr expansion (54M+ users)";;
  st_write "- M-Pesa Ethiopia + EthSwitch integration";;
  st_write "- NFIS-II policy implementation";;
  st_write "- Fayda Digital ID rollout";;
  st_write (nl +:+ "**Risks & Uncertainties:**");;
  st_write "- Survey methodology vs operator data discrepancy";;
  st_write "- Account overlap (multiple accounts per person)";;
  st_write "- Cash culture and trust barriers";;
  st_write "- Affordability constraints";;
  st_markdown "</div>".

Definition page_forecasts (s : Session) : UI unit :=
  st_markdown ("<p class=" +:+ dq +:+ "main-header" +:+ dq
               +:+ ">Financial Inclusion Forecasts (2025-2027)</p>");;
  match forecast_long s with
  | None =>
      st_error "Forecast data not available. Run Task 4 notebook to generate forecasts."
  | Some fl =>
      forecast_comparison s fl;;
      forecast_data_table s fl;;
      forecast_download fl;;
      forecast_findings fl
  end.

(** *** The top of the script *)

(** [observations = get_observations(df_main); events = get_events(df_main)]
    on a store that holds [df_main] alone. *)
Definition split_unified (df_main : DataFrame)
    : result (DataFrame * DataFrame) :=
  snd ((obs ← get_observations 1%positive;
        ev ← get_events 1%positive;
        o ← deref obs;
        e ← deref ev;
        mret (o, e)) ({[ 1%positive := df_main ]} : gmap positive DataFrame)).

Definition load_session (fs : Files) (sc : scenario) (pick : nat) : UI Session :=
  loaded ← load_unified_data fs;
  split ← lift (split_unified loaded.1);
  load_event_features fs;;
  load_event_matrix fs;;
  forecasts ← load_forecasts fs;
  mret {| observations := split.1; events := split.2;
          forecast_long := forecasts.1; forecast_wide := forecasts.2;
          scenario_filter := sc; indicator_pick := pick |}.
End Pages.

(** ** The other pages and the script

    The Data Coverage, Trends and Events & Impact pages, the sidebar and
    the script that puts the pages together.  These pages use widgets and
    charts the two pages above do not, and one of them can be refused by
    Streamlit itself, so they run in a monad of their own, [App], over a
    richer page. *)

(** *** Python strings *)

(** [sub in s] *)
Fixpoint contains (sub s : string) : bool :=
  String.prefix sub s
  || match s with
     | EmptyString => false
     | String _ s' => contains sub s'
     end.

(** [s.replace(old, new)] for a non-empty [old]: the occurrences of [old]
    are replaced from the left, without overlap.  [skip] counts the
    characters of an occurrence still to be dropped. *)
Fixpoint replace_from (old new : string) (skip : nat) (s : string) : string :=
  match s with
  | EmptyString => EmptyString
  | String a s' =>
      match skip with
      | S k => replace_from old new k s'
      | O =>
          if String.prefix old s
          then new +:+ replace_from old new (String.length old - 1) s'
          else String a (replace_from old new 0 s')
      end
  end.

Definition str_replace (old new s : string) : string :=
  replace_from old new 0 s.

(** [f"{n:,}"] on a count: the decimal digits, in groups of three from
    the right. *)
Fixpoint group3 (rev_digits : list ascii) : list ascii :=
  match rev_digits with
  | a :: b :: c :: ((_ :: _) as rest) =>
      a :: b :: c :: ","%char :: group3 rest
  | l => l
  end.

Definition fmt_thousands (n : nat) : string :=
  string_of_list_ascii (rev (group3 (rev (list_ascii_of_string (pretty n))))).

(** *** Series and frames *)

(** [len(df)] *)
Definition len (df : DataFrame) : nat := length (rows df).

(** Two values a lookup by value does not tell apart: equal, or both
    missing. *)
Definition same_value (a b : cell) : bool :=
  py_eq a b || (isna a && isna b).

(** [series.isin(values)] *)
Definition isin (s values : list cell) : list bool :=
  map (λ c, existsb (same_value c) values) s.

(** The values of a grouping key: the values present, each once, in order
    of first occurrence. *)
Fixpoint distinct_values (s : list cell) : list cell :=
  match s with
  | [] => []
  | c :: s' =>
      if isna c then distinct_values s'
      else c :: List.filter (λ c', negb (py_eq c' c)) (distinct_values s')
  end.

(** [df[cols]] for a list of column names: the frame restricted to them. *)
Definition getitem_columns (df : DataFrame) (cols : list string)
    : result DataFrame :=
  match List.find (λ c, negb (has_column df c)) cols with
  | Some c => Raise (KeyError c)
  | None =>
      Ok {| columns := cols;
            rows := map (λ r, (r.1, filter (λ kv, kv.1 ∈ cols) r.2))
                        (rows df);
            datetime64 := List.filter (λ c, bool_decide (c ∈ cols))
                            (datetime64 df) |}
  end.

(** The index of a table read with a date index: a label is the
    timestamp. *)
Definition frame_index (df : DataFrame) : list cell :=
  map (λ r, Date r.1) (rows df).

(** A pivot table of counts: the row keys, the column keys and the count
    of every pair. *)
Record Pivot := {
  pivot_index : list cell;
  pivot_columns : list cell;
  pivot_values : list (list Z)
}.

#[global] Instance Pivot_eq_dec : EqDecision Pivot.
Proof. solve_decision. Defined.

Section Tables.
Context `{Pandas}.

(** [str(x)]: a string is itself. *)
Definition text_of (c : cell) : string :=
  match c with
  | Str s => s
  | _ => str_of_cell c
  end.

(** [df.sort_values(by, ascending=False)]: descending, missing values
    last all the same. *)
Definition sort_values_desc (df : DataFrame) (by_ : string) : result DataFrame :=
  if has_column df by_ then
    let present := List.filter (λ r, notna (cell_of by_ r)) (rows df) in
    let missing := List.filter (λ r, isna (cell_of by_ r)) (rows df) in
    if homogeneous (map (cell_of by_) present) then
      Ok {| columns := columns df;
            rows := sort_by (λ r1 r2, cell_leb (cell_of by_ r2) (cell_of by_ r1))
                         present ++ missing;
            datetime64 := datetime64 df |}
    else Raise TypeError
  else Raise (KeyError by_).

(** The rows a [groupby] on the two keys of the coverage table keeps:
    those with both keys. *)
Definition keyed_rows (df : DataFrame) : list (Z * Row) :=
  List.filter (λ r, notna (cell_of "indicator_code" r)
                    && notna (cell_of "year" r)) (rows df).

(** The cell of the coverage table for one indicator and one year: the
    number of rows with both keys and a value. *)
Definition coverage_count (df : DataFrame) (code year : cell) : Z :=
  Z.of_nat (length (List.filter
                      (λ r, py_eq (cell_of "indicator_code" r) code
                            && py_eq (cell_of "year" r) year
                            && notna (cell_of "value_numeric" r))
                      (keyed_rows df))).

(** [df.pivot_table(index='indicator_code', columns='year',
    values='value_numeric', aggfunc='count', fill_value=0)]: one row per
    indicator and one column per year among the rows that have both, keys
    in ascending order; a cell counts the values present, and a pair
    without rows counts zero. *)
Definition pivot_count (df : DataFrame) : result Pivot :=
  if negb (has_column df "value_numeric") then Raise (KeyError "value_numeric")
  else if negb (has_column df "indicator_code")
  then Raise (KeyError "indicator_code")
  else if negb (has_column df "year") then Raise (KeyError "year")
  else
    let index := sort_by cell_leb
                   (distinct_values (map (cell_of "indicator_code")
                                         (keyed_rows df))) in
    let years := sort_by cell_leb
                   (distinct_values (map (cell_of "year") (keyed_rows df))) in
    Ok {| pivot_index := index;
          pivot_columns := years;
          pivot_values :=
            map (λ code, map (coverage_count df code) years) index |}.

(** [series.value_counts()]: the values present with the number of their
    occurrences, most frequent first. *)
Definition value_counts (s : list cell) : list (cell * Z) :=
  let present := List.filter notna s in
  sort_by (λ a b : cell * Z, Z.leb b.2 a.2)
    (map (λ c, (c, Z.of_nat (length (List.filter (λ c', py_eq c' c) present))))
         (distinct_values present)).

(** [series.notna().sum()] and [series.isna().sum()] *)
Definition count_notna (s : list cell) : Z :=
  Z.of_nat (length (List.filter notna s)).

Definition count_isna (s : list cell) : Z :=
  Z.of_nat (length (List.filter isna s)).
End Tables.

(** *** Plotly Express *)

(** What [px.imshow] is given. *)
Inductive image :=
| FrameImage (df : DataFrame)
| PivotImage (p : Pivot).

(** The data of a Plotly Express call. *)
Inductive px_data :=
| Imshow (img : image)
| Bar (x : list cell) (y : list Z)
| Pie (values : list Z) (names : list string)
| Scatter (data_frame : DataFrame) (x y : string) (color : option string)
    (hover_data : list string).

(** A Plotly Express figure: the call, its other keyword arguments and
    the updates made to the figure afterwards. *)
Record Express := {
  px_call : px_data;
  px_args : list (string * string);
  px_updates : list (string * string)
}.

(** *** The page *)

(** What the script puts on the page: a widget of the pages above, one of
    the further widgets, a Plotly Express chart, the coverage table, or
    any of these inside a container ([with c:], [st.sidebar]). *)
Inductive element :=
| Plain (w : widget)
| Title (body : string)
| Radio (label : string) (options : list string)
| Slider (label : string) (min_value max_value : Z) (value : Z * Z)
| Multiselect (label : string) (options default : list cell)
| PxChart (fig : Express)
| PivotTable (p : Pivot)
| Placed (container : string) (e : element).

(** What ends a run before its last statement: a Python exception, or
    Streamlit refusing the arguments of a widget. *)
Inductive failure :=
| PythonError (e : exn)
| StreamlitAPIException.

Inductive outcome (A : Type) :=
| Done (a : A)
| Failed (f : failure).
Arguments Done {A} a.
Arguments Failed {A} f.

(** A script run over the richer page. *)
Definition App (A : Type) : Type := list element → list element * outcome A.

#[global] Instance app_ret : MRet App := λ A a page, (page, Done a).
#[global] Instance app_bind : MBind App := λ A B f m page,
  match m page with
  | (page', Done a) => f a page'
  | (page', Failed e) => (page', Failed e)
  end.

Definition outcome_of {A} (r : result A) : outcome A :=
  match r with
  | Ok a => Done a
  | Raise e => Failed (PythonError e)
  end.

(** Code of the pages above, run on the richer page. *)
Definition ui {A} (m : UI A) : App A := λ page,
  let '(shown, r) := m [] in (page ++ map Plain shown, outcome_of r).

(** Code that shows nothing. *)
Definition py {A} (r : result A) : App A := λ page, (page, outcome_of r).

Definition show (e : element) : App unit := λ page, (page ++ [e], Done ()).

Definition refused {A} : App A := λ page, (page, Failed StreamlitAPIException).

(** [with c: body], [st.sidebar] *)
Definition placed {A} (c : string) (body : App A) : App A := λ page,
  let '(inner, r) := body [] in (page ++ map (Placed c) inner, r).

(** [st.multiselect(label, options, default)]: refused when a default is
    not among the options; returns the options the user picked, by
    position, and the default while the user has not touched the
    widget. *)
Definition multiselect_value (options default : list cell)
    (picked : option (list nat)) : list cell :=
  match picked with
  | None => default
  | Some positions => omap (λ i, options !! i) positions
  end.

Definition st_multiselect (label : string) (options default : list cell)
    (picked : option (list nat)) : App (list cell) :=
  if forallb (λ d, bool_decide (d ∈ options)) default then
    show (Multiselect label options default);;
    mret (multiselect_value options default picked)
  else refused.

(** *** Library primitives of the other pages

    What Python and the two libraries do where the dashboard's arguments
    leave the cases this development knows. *)
Class Toolkit := {
  (** [int(s)] on a string; [None] when [s] is no integer literal *)
  int_of_str : string → option Z;
  (** whether [st.slider] refuses the bounds and the default it is given *)
  slider_refuses : Z → Z → Z * Z → bool;
  (** the exception [px.imshow] raises on an image it cannot draw *)
  imshow_raises : image → option exn
}.

Section OtherPages.
Context `{Pandas} `{Toolkit}.

(** [px.imshow(img, ...)] followed by [fig.update_layout(...)] *)
Definition px_imshow (img : image) (args updates : list (string * string))
    : result Express :=
  match imshow_raises img with
  | Some e => Raise e
  | None => Ok {| px_call := Imshow img; px_args := args;
                  px_updates := updates |}
  end.

(** [px.scatter(data_frame, x=, y=, color=, hover_data=, ...)]: every
    column named must be one of the frame. *)
Definition px_scatter (data_frame : DataFrame) (x y : string)
    (color : option string) (hover_data : list string)
    (args updates : list (string * string)) : result Express :=
  match List.find (λ c, negb (has_column data_frame c))
          ([x; y] ++ option_list color ++ hover_data) with
  | Some _ => Raise ValueError
  | None => Ok {| px_call := Scatter data_frame x y color hover_data;
                  px_args := args; px_updates := updates |}
  end.

Definition main_header (title : string) : string :=
  "<p class=" +:+ dq +:+ "main-header" +:+ dq +:+ ">" +:+ title +:+ "</p>".

(** *** Data Coverage *)

(** The "Indicator Coverage Over Time" section. *)
Definition indicator_coverage (observations : DataFrame) : App unit :=
  ui (st_markdown "---");;
  ui (st_subheader "📊 Indicator Coverage Over Time");;
  if negb (df_empty observations) && has_column observations "year" then
    coverage ← py (pivot_count observations);
    fig ← py (px_imshow (PivotImage coverage)
                [("labels.x", "Year"); ("labels.y", "Indicator");
                 ("labels.color", "Count");
                 ("color_continuous_scale", "Blues"); ("aspect", "auto")]
                [("title", "Data Availability Heatmap"); ("height", "500")]);
    show (PxChart fig);;
    placed "📄 View Coverage Table" (show (PivotTable coverage))
  else ui (st_info "No observation data available").

(** The bar chart of the events by category. *)
Definition category_chart (events : DataFrame) : App unit :=
  if has_column events "category" then
    categories ← py (getitem events "category");
    let category_counts := value_counts categories in
    show (PxChart {| px_call := Bar (map fst category_counts)
                                    (map snd category_counts);
                     px_args := [("labels.x", "Category"); ("labels.y", "Count");
                                 ("title", "Events by Category")];
                     px_updates := [] |})
  else mret ().

(** The pie chart of the events with and without a date. *)
Definition date_availability_chart (events : DataFrame) : App unit :=
  if has_column events "event_date_parsed" then
    parsed ← py (getitem events "event_date_parsed");
    let events_with_dates := count_notna parsed in
    let events_without_dates := count_isna parsed in
    show (PxChart {| px_call := Pie [events_with_dates; events_without_dates]
                                    ["With Date"; "Without Date"];
                     px_args := [("title", "Event Date Availability")];
                     px_updates := [] |})
  else mret ().

(** The "Event Coverage" section. *)
Definition event_coverage (events : DataFrame) : App unit :=
  ui (st_markdown "---");;
  ui (st_subheader "📅 Event Coverage");;
  if negb (df_empty events) then
    placed "col_a" (category_chart events);;
    placed "col_b" (date_availability_chart events)
  else mret ().

Definition page_data_coverage (observations events df_impact : DataFrame)
    : App unit :=
  ui (st_markdown (main_header "Data Coverage & Quality"));;
  ui (st_subheader "📋 Dataset Summary");;
  placed "col1" (
    let n_obs := len observations in
    ui (st_metric "Total Observations" (fmt_thousands n_obs) None));;
  placed "col2" (
    let n_events := len events in
    ui (st_metric "Total Events" (fmt_thousands n_events) None));;
  placed "col3" (
    let n_impact := if negb (df_empty df_impact) then len df_impact else 0%nat in
    ui (st_metric "Impact Links" (fmt_thousands n_impact) None));;
  indicator_coverage observations;;
  event_coverage events.

(** *** Trends *)

(** The options of the indicator selector. *)
Definition available_indicators (observations : DataFrame)
    : result (list cell) :=
  if negb (df_empty observations) then
    codes ← getitem observations "indicator_code";
    Ok (unique codes)
  else Ok [].

(** Its default: the two headline indicators when account ownership is
    among the options, else the first two options. *)
Definition default_indicators (available : list cell) : list cell :=
  if bool_decide (Str "ACC_OWNERSHIP" ∈ available)
  then [Str "ACC_OWNERSHIP"; Str "USG_DIGITAL_PAYMENT"]
  else take 2 available.

(** The line of one indicator, when its series has rows. *)
Definition trend_trace (observations : DataFrame) (indicator : cell)
    : result (list Trace) :=
  series ← get_indicator_series observations indicator;
  if negb (df_empty series) then
    dates ← getitem series "observation_date";
    values ← getitem series "value_numeric";
    Ok [ {| trace_x := dates; trace_y := values;
            trace_mode := "lines+markers"; trace_name := text_of indicator;
            trace_style := [("line.width", "2"); ("marker.size", "8")] |} ]
  else Ok [].

(** [for indicator in selected_indicators: ...] over the figure *)
Fixpoint trend_traces (observations : DataFrame) (selected : list cell)
    : result (list Trace) :=
  match selected with
  | [] => Ok []
  | indicator :: rest =>
      t ← trend_trace observations indicator;
      ts ← trend_traces observations rest;
      Ok (t ++ ts)
  end.

Definition trend_layout : list (string * string) :=
  [("title", "Indicator Trends Over Time"); ("xaxis_title", "Date");
   ("yaxis_title", "Value (%)"); ("hovermode", "x unified");
   ("height", "500"); ("legend.orientation", "h");
   ("legend.yanchor", "bottom"); ("legend.y", "1.02");
   ("legend.xanchor", "right"); ("legend.x", "1")].

(** The table of one indicator, when its series has rows. *)
Definition trend_table (observations : DataFrame) (indicator : cell)
    : UI unit :=
  series ← lift (get_indicator_series observations indicator);
  if negb (df_empty series) then
    st_subheader (text_of indicator);;
    let display_cols :=
      List.filter (has_column series)
        ["observation_date"; "value_numeric"; "year"] in
    shown ← lift (getitem_columns series display_cols);
    st_dataframe shown
  else mret ().

(** [for indicator in selected_indicators: ...] in the expander *)
Fixpoint trend_tables (observations : DataFrame) (selected : list cell)
    : UI unit :=
  match selected with
  | [] => mret ()
  | indicator :: rest =>
      trend_table observations indicator;;
      trend_tables observations rest
  end.

Definition page_trends (observations : DataFrame) (picked : option (list nat))
    : App unit :=
  ui (st_markdown (main_header "Financial Inclusion Trends"));;
  available ← py (available_indicators observations);
  selected_indicators ←
    st_multiselect "Select Indicators to Display" available
      (default_indicators available) picked;
  match selected_indicators with
  | _ :: _ =>
      if negb (df_empty observations) then
        lines ← py (trend_traces observations selected_indicators);
        ui (st_plotly_chart {| traces := lines; layout := trend_layout |});;
        placed "📄 View Data Table"
          (ui (trend_tables observations selected_indicators))
      else ui (st_info "Select indicators to display trends")
  | [] => ui (st_info "Select indicators to display trends")
  end.

(** *** Events & Impact *)

(** The events the timeline and the list show: those with a parsed date,
    of the categories selected, and of every category when none is
    selected. *)
Definition filtered_events (events_with_dates : DataFrame)
    (selected_categories : list cell) : result DataFrame :=
  match selected_categories with
  | _ :: _ =>
      categories ← getitem events_with_dates "category";
      Ok (getitem_mask events_with_dates (isin categories selected_categories))
  | [] => Ok events_with_dates
  end.

(** The "Event Timeline" section. *)
Definition event_timeline (events : DataFrame) (picked : option (list nat))
    : App unit :=
  ui (st_subheader "📅 Event Timeline");;
  if negb (df_empty events) && has_column events "event_date_parsed" then
    parsed ← py (getitem events "event_date_parsed");
    let events_with_dates := getitem_mask events (map notna parsed) in
    if negb (df_empty events_with_dates) then
      categories ←
        (if has_column events_with_dates "category" then
           c ← py (getitem events_with_dates "category");
           mret (unique c)
         else mret []);
      selected_categories ←
        st_multiselect "Filter by Category" categories categories picked;
      shown ← py (filtered_events events_with_dates selected_categories);
      fig ← py (px_scatter shown "event_date_parsed"
                  (if has_column shown "category" then "category"
                   else "indicator")
                  (if has_column shown "category" then Some "category"
                   else None)
                  ["indicator"]
                  [("title", "Event Timeline");
                   ("labels.event_date_parsed", "Date");
                   ("labels.category", "Category")]
                  [("marker.size", "12"); ("height", "400")]);
      show (PxChart fig);;
      placed "📋 View Event List" (
        let display_cols :=
          List.filter (has_column shown)
            ["indicator"; "category"; "event_date_parsed"] in
        listed ← py (getitem_columns shown display_cols);
        sorted ← py (sort_values_desc listed "event_date_parsed");
        ui (st_dataframe sorted))
    else ui (st_warning "No events with valid dates found")
  else ui (st_warning "No event data available").

(** The "Event-Indicator Impact Matrix" section. *)
Definition impact_matrix (event_matrix : option DataFrame) : App unit :=
  ui (st_markdown "---");;
  ui (st_subheader "🔗 Event-Indicator Impact Matrix");;
  match event_matrix with
  | Some matrix =>
      fig ← py (px_imshow (FrameImage matrix)
                  [("labels.x", "Indicator/Pillar"); ("labels.y", "Event");
                   ("labels.color", "Impact Weight");
                   ("color_continuous_scale", "RdYlGn");
                   ("color_continuous_midpoint", "0"); ("aspect", "auto")]
                  [("title", "Event Impact Weights by Indicator");
                   ("height", "600")]);
      show (PxChart fig);;
      placed "📄 View Matrix Data" (ui (st_dataframe matrix))
  | None =>
      ui (st_info "Event matrix not available. Run Task 3 notebook to generate.")
  end.

(** The columns of the event-feature table that are charted: the first
    four whose name contains "event_effect". *)
Definition effect_columns (event_features : DataFrame) : list string :=
  take 4 (List.filter (contains "event_effect") (columns event_features)).

(** [for col in effect_cols[:4]: fig.add_trace(...)] *)
Fixpoint effect_traces (event_features : DataFrame) (cols : list string)
    : result (list Trace) :=
  match cols with
  | [] => Ok []
  | col :: rest =>
      values ← getitem event_features col;
      ts ← effect_traces event_features rest;
      Ok ({| trace_x := frame_index event_features; trace_y := values;
             trace_mode := "lines";
             trace_name := str_replace "event_effect_" "" col;
             trace_style := [("line.width", "2")] |} :: ts)
  end.

Definition effect_layout : list (string * string) :=
  [("title", "Event Effects Timeline"); ("xaxis_title", "Date");
   ("yaxis_title", "Cumulative Effect"); ("hovermode", "x unified");
   ("height", "400")].

(** The "Cumulative Event Effects Over Time" section. *)
Definition event_effects (event_features : option DataFrame) : App unit :=
  match event_features with
  | Some features =>
      ui (st_markdown "---");;
      ui (st_subheader "📈 Cumulative Event Effects Over Time");;
      lines ← py (effect_traces features (effect_columns features));
      ui (st_plotly_chart {| traces := lines; layout := effect_layout |})
  | None => mret ()
  end.

Definition page_events (events : DataFrame)
    (event_matrix event_features : option DataFrame)
    (picked : option (list nat)) : App unit :=
  ui (st_markdown (main_header "Events & Impact Analysis"));;
  event_timeline events picked;;
  impact_matrix event_matrix;;
  event_effects event_features.

(** *** The sidebar *)

(** [sorted(l)]: Python orders values of one kind only. *)
Definition py_sorted (l : list cell) : result (list cell) :=
  if homogeneous l then Ok (sort_by cell_leb l) else Raise TypeError.

(** [min(l)]: the first of the least values. *)
Definition py_min (l : list cell) : result cell :=
  match l with
  | [] => Raise ValueError
  | c :: l' => Ok (fold_left (λ m x, if cell_leb m x then m else x) l' c)
  end.

(** [int(x)]: a number is cut towards zero, a string is read as an integer
    literal. *)
Definition py_int (c : cell) : result Z :=
  match c with
  | Num q => Ok (if Qle_bool 0 q then Qfloor q else Qceiling q)
  | Str s => match int_of_str s with
             | Some z => Ok z
             | None => Raise ValueError
             end
  | NA => Raise ValueError
  | Date _ => Raise TypeError
  end.

(** [st.sidebar.slider(label, min_value=, max_value=, value=)] for a
    range: returns what the user set, and the default before that. *)
Definition st_slider (label : string) (min_value max_value : Z)
    (value : Z * Z) (set : option (Z * Z)) : App (Z * Z) :=
  if slider_refuses min_value max_value value then refused
  else
    show (Slider label min_value max_value value);;
    mret (default value set).

(** The year range filter. *)
Definition year_range_filter (observations : DataFrame)
    (set : option (Z * Z)) : App (Z * Z) :=
  if negb (df_empty observations) && has_column observations "year" then
    year ← py (getitem observations "year");
    years ← py (py_sorted (unique (List.filter notna year)));
    match years with
    | _ :: _ =>
        first_year ← py (m ← py_min years; py_int m);
        st_slider "Year Range" first_year 2027 (first_year, 2027) set
    | [] => mret (2014, 2027)
    end
  else mret (2014, 2027).

(** *** The script *)

Inductive page_name :=
| Overview
| DataCoverage
| Trends
| EventsImpact
| Forecasts.

Definition page_names : list string :=
  ["Overview"; "Data Coverage"; "Trends"; "Events & Impact"; "Forecasts"].

(** What the user has set in the widgets: the page, the year range and
    the scenario in the sidebar, the indicator of the Forecasts page, the
    indicators of the Trends page, the categories of the Events & Impact
    page.  [None] is a widget not touched yet. *)
Record Inputs := {
  page_choice : page_name;
  year_choice : option (Z * Z);
  scenario_choice : scenario;
  indicator_choice : nat;
  trend_choice : option (list nat);
  category_choice : option (list nat)
}.

Definition css : string :=
  String.concat nl
    [ "";
      "<style>";
      "    .main-header {";
      "        font-size: 2.5rem;";
      "        font-weight: bold;";
      "        color: #1f77b4;";
      "        margin-bottom: 1rem;";
      "    }";
      "    .metric-card {";
      "        background-color: #f0f2f6;";
      "        padding: 1rem;";
      "        border-radius: 0.5rem;";
      "        border-left: 4px solid #1f77b4;";
      "    }";
      "    .insight-box {";
      "        background-color: #e8f4f8;";
      "        padding: 1rem;";
      "        border-radius: 0.5rem;";
      "        border-left: 4px solid #2ca02c;";
      "    }";
      "</style>";
      "" ].

Definition footer : string :=
  String.concat nl
    [ "";
      "    <div style='text-align: center; color: #666; font-size: 0.9rem;'>";
      "    Ethiopia Financial Inclusion Dashboard | Data: World Bank Findex, NBE, Operator Reports | ";
      "    Forecasts: 2025-2027";
      "    </div>";
      "    " ].

(** One run of [app.py]: the style sheet, the page selector, the loads
    and the partition, the sidebar filters, the body of the selected page,
    the footer.  [st.set_page_config] puts nothing on the page. *)
Definition script (fs : Files) (inputs : Inputs) : App unit :=
  ui (st_markdown css);;
  placed "sidebar" (show (Title "📊 Navigation"));;
  placed "sidebar" (show (Radio "Select Page" page_names));;
  let page := page_choice inputs in
  loaded ← ui (load_unified_data fs);
  split ← py (split_unified loaded.1);
  event_features ← ui (load_event_features fs);
  event_matrix ← ui (load_event_matrix fs);
  forecasts ← ui (load_forecasts fs);
  placed "sidebar" (ui (st_markdown "---"));;
  placed "sidebar" (ui (st_subheader "Filters"));;
  year_range ← placed "sidebar" (year_range_filter split.1 (year_choice inputs));
  placed "sidebar" (ui (emit (Selectbox "Forecast Scenario"
                                [Str "base"; Str "optimistic";
                                 Str "pessimistic"])));;
  let s := {| observations := split.1; events := split.2;
              forecast_long := forecasts.1; forecast_wide := forecasts.2;
              scenario_filter := scenario_choice inputs;
              indicator_pick := indicator_choice inputs |} in
  match page with
  | Overview => ui (page_overview s)
  | DataCoverage => page_data_coverage split.1 split.2 loaded.2
  | Trends => page_trends split.1 (trend_choice inputs)
  | EventsImpact =>
      page_events split.2 event_matrix event_features (category_choice inputs)
  | Forecasts => ui (page_forecasts s)
  end;;
  ui (st_markdown "---");;
  ui (st_markdown footer).
End OtherPages.

(** ** A concrete instance

    Stand-ins for the library primitives, to run the model on concrete
    tables.  No theorem below depends on them. *)

Fixpoint insert_by {A} (le : A → A → bool) (x : A) (l : list A) : list A :=
  match l with
  | [] => [x]
  | y :: l' => if le x y then x :: l else y :: insert_by le x l'
  end.

Definition isort {A} (le : A → A → bool) (l : list A) : list A :=
  foldr (insert_by le) [] l.

Module Demo.
(** Nanoseconds in a mean Gregorian year. *)
Definition ns_per_year : Z := 31556952000000000.

Definition year_of (t : Z) : Z := 1970 + t / ns_per_year.

(** Midnight of 1 January of year [y]. *)
Definition jan1 (y : Z) : Z := (y - 1970) * ns_per_year.

Definition digit (a : ascii) : option Z :=
  let n := nat_of_ascii a in
  if (48 <=? n)%nat && (n <=? 57)%nat then Some (Z.of_nat (n - 48)) else None.

(** Reads [YYYY-01-01], and [YYYY-01-01+00:00], the same day with the
    offset of UTC: the timestamp, and whether the text carries an
    offset. *)
Definition read_string (s : string) : option (Z * bool) :=
  match s with
  | String a (String b (String c (String d rest))) =>
      match digit a, digit b, digit c, digit d with
      | Some a, Some b, Some c, Some d =>
          let t := jan1 (1000 * a + 100 * b + 10 * c + d) in
          if String.eqb rest "-01-01" then Some (t, false)
          else if String.eqb rest "-01-01+00:00" then Some (t, true)
          else None
      | _, _, _, _ => None
      end
  | _ => None
  end.

Definition parse_string (s : string) : option Z := fst <$> read_string s.

Definition parse (c : cell) : option Z :=
  match c with
  | Str s => parse_string s
  | Num q => Some (Qfloor q)
  | _ => None
  end.

(** The date read in the cell carries an offset ([Some true]) or none
    ([Some false]); a timestamp object and a number carry none. *)
Definition zone (c : cell) : option bool :=
  match c with
  | Str s => snd <$> read_string s
  | Num _ | Date _ => Some false
  | NA => None
  end.

(** Some date of the series carries an offset and some date none. *)
Definition mixed (s : list cell) : bool :=
  existsb (λ c, bool_decide (zone c = Some true)) s
  && existsb (λ c, bool_decide (zone c = Some false)) s.

Definition str (c : cell) : string :=
  match c with
  | NA => "nan"
  | Str s => s
  | Num q => if bool_decide (Qden q = 1%positive) then pretty (Qnum q)
             else pretty (Qnum q) +:+ "/" +:+ pretty (Zpos (Qden q))
  | Date t => pretty t
  end.

(** One decimal, rounding half up. *)
Definition fmt (q : Q) : string :=
  let tenths := Qfloor (q * 10 + (1 # 2))%Q in
  let body := pretty (Z.abs tenths / 10) +:+ "." +:+ pretty (Z.abs tenths mod 10) in
  if (tenths <? 0)%Z then "-" +:+ body else body.

Definition csv_line (cells : list string) : string :=
  String.concat "," cells +:+ nl.

Definition csv (df : DataFrame) : string :=
  csv_line (columns df)
  +:+ String.concat EmptyString
        (map (λ r, csv_line (map (λ c, str (cell_of c r)) (columns df)))
             (rows df)).

Definition exn_name (e : exn) : string :=
  match e with
  | KeyError k => "'" +:+ k +:+ "'"
  | TypeError => "TypeError"
  | AttributeError => "AttributeError"
  | ValueError => "ValueError"
  | IndexError => "IndexError"
  | FileNotFoundError => "No such file or directory"
  | ReadError msg => msg
  | ReferenceError => "ReferenceError"
  end.

#[global] Instance pandas : Pandas := {|
  sort_by := @isort;
  dt_year := year_of;
  parse_datetime := parse;
  mixed_time_zones := mixed;
  str_of_cell := str;
  fmt_1f := fmt;
  to_csv := csv;
  str_of_exn := exn_name
|}.

(** A frame built from its rows, labelled 0, 1, 2, ...: a column that
    holds timestamps, and missing values perhaps, is [datetime64]; a
    column that holds nothing at all is not ([float64]). *)
Definition frame (cols : list string) (data : list (list cell)) : DataFrame :=
  let labelled := imap (λ i r, (Z.of_nat i, list_to_map (zip cols r))) data in
  {| columns := cols;
     rows := labelled;
     datetime64 :=
       List.filter (λ c, forallb (λ r, is_datetime (cell_of c r)) labelled
                         && existsb (λ r, notna (cell_of c r)) labelled)
                   cols |}.

(** Three observations of indicator X, one per year. *)
Definition obs_xyz : DataFrame :=
  frame ["record_type"; "indicator_code"; "observation_date"; "value_numeric"]
    [ [Str "observation"; Str "X"; Date (jan1 2021); Num 20];
      [Str "observation"; Str "X"; Date (jan1 2020); Num 10];
      [Str "observation"; Str "X"; Date (jan1 2022); Num 30] ].

(** A unified table: observations, events and an impact link. *)
Definition unified : DataFrame :=
  frame ["record_type"; "indicator_code"; "observation_date";
         "value_numeric"; "event_date"; "category"]
    [ [Str "observation"; Str "X"; Date (jan1 2020); Num 10; NA; NA];
      [Str "event"; NA; Date (jan1 2020); NA; Str "2021-01-01"; Str "policy"];
      [Str "impact_link"; Str "X"; NA; NA; NA; NA];
      [Str "event"; NA; Date (jan1 2019); NA; NA; Str "product"];
      [Str "observation"; Str "X"; NA; Num 15; NA; NA] ].

(** A unified table as the loader leaves it, whose two events give their
    dates differently: one without an offset, one with the offset of
    UTC. *)
Definition unified_zones : DataFrame :=
  frame ["record_type"; "indicator_code"; "observation_date";
         "value_numeric"; "event_date"; "category"]
    [ [Str "observation"; Str "X"; Date (jan1 2020); Num 10; NA; NA];
      [Str "event"; NA; Date (jan1 2020); NA; Str "2021-01-01"; Str "policy"];
      [Str "event"; NA; Date (jan1 2019); NA; Str "2022-01-01+00:00";
       Str "product"] ].

(** A table as [pd.read_csv] reads it, the dates still text, one of them
    with an offset. *)
Definition unparsed_zones : DataFrame :=
  frame ["record_type"; "indicator_code"; "observation_date"; "value_numeric"]
    [ [Str "observation"; Str "X"; Str "2020-01-01"; Num 10];
      [Str "observation"; Str "X"; Str "2021-01-01+00:00"; Num 15] ].

(** The long forecast table of the specification's scenario. *)
Definition forecast_x : DataFrame :=
  frame ["indicator_code"; "year"; "scenario"; "forecast_value"]
    [ [Str "X"; Num 2025; Str "base"; Num 40];
      [Str "X"; Num 2026; Str "base"; Num 45] ].

(** No enriched file; a workbook without its impact sheet. *)
Definition files_without_impact : Files :=
  {| enriched_csv := None;
     workbook_main_sheet := Ok unified;
     workbook_impact_sheet := Raise (ReadError "Worksheet named 'Impact_sheet' not found");
     event_features_csv := None;
     event_matrix_csv := None;
     forecast_long_csv := Some (Ok forecast_x);
     forecast_wide_csv := None |}.

(** An enriched file whose dates [pd.to_datetime] refuses. *)
Definition files_zones : Files :=
  {| enriched_csv := Some (Ok unparsed_zones);
     workbook_main_sheet := Raise FileNotFoundError;
     workbook_impact_sheet := Raise FileNotFoundError;
     event_features_csv := None;
     event_matrix_csv := None;
     forecast_long_csv := Some (Ok forecast_x);
     forecast_wide_csv := None |}.

(** A long forecast table one of whose years is missing. *)
Definition forecast_gap : DataFrame :=
  frame ["indicator_code"; "year"; "scenario"; "forecast_value"]
    [ [Str "X"; Num 2025; Str "base"; Num 40];
      [Str "X"; NA; Str "base"; Num 45] ].

(** One observation of account ownership, with value 0. *)
Definition obs_zero : DataFrame :=
  frame ["record_type"; "indicator_code"; "observation_date"; "value_numeric"]
    [ [Str "observation"; Str "ACC_OWNERSHIP"; Date (jan1 2021); Num 0] ].

Definition session_zero : Session :=
  {| observations := obs_zero; events := empty_frame;
     forecast_long := Some forecast_x; forecast_wide := None;
     scenario_filter := base; indicator_pick := 0 |}.

Definition session_none : Session :=
  {| observations := empty_frame; events := empty_frame;
     forecast_long := Some forecast_x; forecast_wide := None;
     scenario_filter := base; indicator_pick := 0 |}.

(** The session of the specification's scenario: three observations of X,
    two base forecasts, no wide table. *)
Definition session_x : Session :=
  {| observations := obs_xyz; events := empty_frame;
     forecast_long := Some forecast_x; forecast_wide := None;
     scenario_filter := base; indicator_pick := 0 |}.

(** The same session over the long table with a missing year. *)
Definition session_gap : Session :=
  {| observations := obs_xyz; events := empty_frame;
     forecast_long := Some forecast_gap; forecast_wide := None;
     scenario_filter := base; indicator_pick := 0 |}.

(** Account ownership observed twice, forecast under two scenarios. *)
Definition obs_acc : DataFrame :=
  frame ["record_type"; "indicator_code"; "observation_date"; "value_numeric"]
    [ [Str "observation"; Str "ACC_OWNERSHIP"; Date (jan1 2017); Num 35];
      [Str "observation"; Str "ACC_OWNERSHIP"; Date (jan1 2021); Num 46] ].

Definition forecast_acc : DataFrame :=
  frame ["indicator_code"; "year"; "scenario"; "forecast_value"]
    [ [Str "ACC_OWNERSHIP"; Num 2027; Str "base"; Num 55];
      [Str "ACC_OWNERSHIP"; Num 2027; Str "optimistic"; Num 61] ].

Definition session_acc : Session :=
  {| observations := obs_acc; events := empty_frame;
     forecast_long := Some forecast_acc; forecast_wide := None;
     scenario_filter := base; indicator_pick := 0 |}.
End Demo.

(** ** The tables of the data model *)

(** The cells of a column are those of a [datetime64] column, as
    [load_unified_data] leaves [observation_date]: timestamps and missing
    values. *)
Definition datetime_column (df : DataFrame) (c : string) : bool :=
  forallb (λ r, is_datetime (cell_of c r)) (rows df).

(** An observation table: empty, or with the three columns of an
    observation, the date column holding timestamps. *)
Definition observation_table (df : DataFrame) : bool :=
  df_empty df
  || (has_column df "indicator_code" && has_column df "observation_date"
      && has_column df "value_numeric"
      && datetime_column df "observation_date").

(** A row belongs to the series of [code]: its indicator is [code] and
    neither its date nor its value is missing. *)
Definition in_series (df : DataFrame) (code : cell) (r : Z * Row) : bool :=
  py_eq (frame_cell df "indicator_code" r) code
  && notna (frame_cell df "observation_date" r)
  && notna (frame_cell df "value_numeric" r).

Definition date_of (r : Z * Row) : option Z :=
  match cell_of "observation_date" r with
  | Date t => Some t
  | _ => None
  end.

(** Both rows are dated and the first is not later than the second. *)
Definition date_le (r1 r2 : Z * Row) : Prop :=
  match date_of r1, date_of r2 with
  | Some a, Some b => a ≤ b
  | _, _ => False
  end.

(** Two rows observe the same indicator at the same date. *)
Definition same_key (r1 r2 : Z * Row) : bool :=
  py_eq (cell_of "indicator_code" r1) (cell_of "indicator_code" r2)
  && py_eq (cell_of "observation_date" r1) (cell_of "observation_date" r2).

(** At most one row per (indicator_code, observation_date). *)
Fixpoint unique_keys (l : list (Z * Row)) : bool :=
  match l with
  | [] => true
  | r :: l' => forallb (λ r', negb (same_key r r')) l' && unique_keys l'
  end.

(** A forecast table: absent, empty, or with the four columns of the long
    form. *)
Definition forecast_table (df : option DataFrame) : bool :=
  match df with
  | None => true
  | Some df =>
      df_empty df
      || (has_column df "indicator_code" && has_column df "year"
          && has_column df "scenario" && has_column df "forecast_value")
  end.

(** A row of the forecast table carries the three keys. *)
Definition forecast_match (df : DataFrame) (indicator year scenario : cell)
    (r : Z * Row) : bool :=
  py_eq (frame_cell df "indicator_code" r) indicator
  && py_eq (frame_cell df "year" r) year
  && py_eq (frame_cell df "scenario" r) scenario.

(** The rows of a forecast table, absent or not, that carry the keys. *)
Definition forecast_matches (forecast_df : option DataFrame)
    (indicator year scenario : cell) : list (Z * Row) :=
  match forecast_df with
  | None => []
  | Some df => List.filter (forecast_match df indicator year scenario) (rows df)
  end.

(** The comparison [sort_values(c)] sorts the rows with. *)
Definition by_column (c : string) (r1 r2 : Z * Row) : bool :=
  cell_leb (cell_of c r1) (cell_of c r2).

(** ** The unified table and its parts *)

(** A unified table: empty, or with the [record_type] column, and with
    [observation_date], when present, a [datetime64] column as
    [load_unified_data] leaves it. *)
Definition unified_table (df : DataFrame) : bool :=
  df_empty df
  || (has_column df "record_type"
      && (negb (has_column df "observation_date")
          || (is_datetime64 df "observation_date"
              && datetime_column df "observation_date"))).

(** The rows whose [record_type] is [v]. *)
Definition record_rows (df : DataFrame) (v : string) : list (Z * Row) :=
  List.filter (λ r, py_eq (frame_cell df "record_type" r) (Str v)) (rows df).

(** The rows whose [record_type] is neither of the two known values. *)
Definition excluded_rows (df : DataFrame) : list (Z * Row) :=
  List.filter (λ r, negb (py_eq (frame_cell df "record_type" r) (Str "observation"))
                    && negb (py_eq (frame_cell df "record_type" r) (Str "event")))
              (rows df).

Definition record_frame (df : DataFrame) (v : string) : DataFrame :=
  {| columns := columns df; rows := record_rows df v;
     datetime64 := datetime64 df |}.

(** A frame with column [c] set, row by row, to [f], as a [datetime64]
    column or not. *)
Definition with_column (df : DataFrame) (c : string) (f : Z * Row → cell)
    (datetime : bool) : DataFrame :=
  {| columns := if has_column df c then columns df else columns df ++ [c];
     rows := map (λ r, (r.1, <[c := f r]> r.2)) (rows df);
     datetime64 := set_dtype (datetime64 df) c datetime |}.

(** Frames in the store before a call keep their contents. *)
Definition preserved (σ σ' : gmap positive DataFrame) : Prop :=
  ∀ l, is_Some (σ !! l) → σ' !! l = σ !! l.

(** The column [get_events] reads the dates from: [event_date] when the
    table has it and some event row fills it, else [observation_date]. *)
Definition picked_date_column (df : DataFrame) : string :=
  if has_column df "event_date"
     && existsb (λ r, notna (cell_of "event_date" r)) (record_rows df "event")
  then "event_date" else "observation_date".

Section Frames.
Context `{Pandas}.

(** The date column after [load_unified_data] has parsed it. *)
Definition parsed_dates (df : DataFrame) : DataFrame :=
  if has_column df "observation_date" then
    with_column df "observation_date"
      (λ r, to_datetime_cell (cell_of "observation_date" r)) true
  else df.

(** [pd.to_datetime] refuses the [observation_date] of the table: the
    column is not [datetime64] yet and its dates are of different time
    zones. *)
Definition observation_dates_refused (df : DataFrame) : bool :=
  has_column df "observation_date"
  && negb (is_datetime64 df "observation_date")
  && mixed_time_zones (map (cell_of "observation_date") (rows df)).

(** [pd.to_datetime] refuses the dates [get_events] reads: the table has
    rows and the picked column, the column is not [datetime64], and the
    dates of the event rows in it are of different time zones. *)
Definition event_dates_refused (df : DataFrame) : bool :=
  negb (df_empty df)
  && has_column df (picked_date_column df)
  && negb (is_datetime64 df (picked_date_column df))
  && mixed_time_zones (map (cell_of (picked_date_column df))
                           (record_rows df "event")).

(** What [get_observations] returns on a table with rows. *)
Definition observation_frame (df : DataFrame) : DataFrame :=
  let obs := record_frame df "observation" in
  if has_column obs "observation_date" then
    with_column obs "year" (λ r, year_cell (cell_of "observation_date" r)) false
  else obs.

(** What [get_events] returns on a table with rows. *)
Definition event_frame (df : DataFrame) : DataFrame :=
  let events := record_frame df "event" in
  let date_col := picked_date_column df in
  if has_column events date_col then
    with_column
      (with_column events date_col (λ r, to_datetime_cell (cell_of date_col r))
         true)
      "event_date_parsed" (cell_of date_col) true
  else events.

(** The reading of the specification: the date of an event row is parsed
    from its own [event_date] when it has one, and from its
    [observation_date] otherwise. *)
Definition spec_event_date_parsed (df : DataFrame) (r : Z * Row) : cell :=
  if notna (frame_cell df "event_date" r)
  then to_datetime_cell (frame_cell df "event_date" r)
  else to_datetime_cell (frame_cell df "observation_date" r).

(** The reading of the specification: a pure filter returns the matching
    input rows as they are and leaves the input in place. *)
Definition spec_pure_filter (get : positive → Heap positive) (v : string)
    (df : DataFrame) : Prop :=
  ∀ (σ : gmap positive DataFrame) l,
    σ !! l = Some df →
    ∃ σ' l',
      get l σ = (σ', Ok l')
      ∧ σ' !! l = Some df
      ∧ ∃ out, σ' !! l' = Some out ∧ rows out = record_rows df v.
End Frames.

(** ** Failing loads *)

Definition is_raise {A} (r : result A) : bool :=
  match r with
  | Raise _ => true
  | Ok _ => false
  end.

(** A CSV is missing or cannot be read. *)
Definition csv_fails (f : option (result DataFrame)) : bool :=
  match f with
  | Some (Ok _) => false
  | _ => true
  end.

Section FailingLoads.
Context `{Pandas}.

(** The conditions under which [load_unified_data] reaches its handler: the
    enriched file cannot be read or lacks [record_type], or, without it, the
    main sheet of the workbook cannot be read; or [pd.to_datetime] refuses
    the [observation_date] of the table read. *)
Definition unified_load_fails (fs : Files) : bool :=
  match enriched_csv fs with
  | Some (Ok df) =>
      negb (has_column df "record_type") || observation_dates_refused df
  | Some (Raise _) => true
  | None => match workbook_main_sheet fs with
            | Ok df => observation_dates_refused df
            | Raise _ => true
            end
  end.

(** The workbook is used, its main sheet is read and its dates are
    parsed, and its impact sheet cannot be read. *)
Definition impact_sheet_fails (fs : Files) : bool :=
  match enriched_csv fs, workbook_main_sheet fs with
  | None, Ok df =>
      is_raise (workbook_impact_sheet fs) && negb (observation_dates_refused df)
  | _, _ => false
  end.
End FailingLoads.

(** The long file is missing or unreadable, or the wide file is there and
    unreadable. *)
Definition forecasts_load_fails (fs : Files) : bool :=
  match forecast_long_csv fs with
  | Some (Ok _) => match forecast_wide_csv fs with
                   | Some (Raise _) => true
                   | _ => false
                   end
  | _ => true
  end.

(** The reading of the specification: the load returns whatever happens,
    and every failure it meets is shown as a message. *)
Definition spec_fail_soft {A} (load : Files → UI A) (fails : Files → bool)
    : Prop :=
  ∀ fs page,
    ∃ v page',
      load fs page = (page', Ok v)
      ∧ (fails fs = true →
         ∃ msg, is_message msg = true ∧ page' = page ++ [msg]).

(** ** Zero and absence on the pages *)

(** A looked-up value with zero read as absent. *)
Definition zero_as_absent (v : option cell) : option cell :=
  match v with
  | Some (Num q) => if Qeq_bool q 0 then None else v
  | _ => v
  end.

Section PageSpecs.
Context `{Pandas}.

(** [overview_summary] as a function of what its four lookups return. *)
Definition overview_summary_of
    (access mm usage forecast : result (option cell))
    (events : DataFrame) (forecast_wide : option DataFrame) : UI unit :=
  st_subheader "📈 Key Performance Indicators";;
  latest_access ← within "col1" (
    latest ← lift access;
    kpi_metric "Latest Account Ownership" latest;;
    mret latest);
  latest_mm ← within "col2" (
    latest ← lift mm;
    kpi_metric "Mobile Money Accounts" latest;;
    mret latest);
  within "col3" (
    latest ← lift usage;
    kpi_metric "Digital Payment Usage" latest);;
  forecast_2027 ← within "col4" (
    f ← lift forecast;
    kpi_forecast f;;
    mret f);
  st_markdown "---";;
  st_subheader "🔍 Key Insights";;
  within "col_a" (insight_current_state latest_access latest_mm events);;
  within "col_b" (insight_forecast_outlook forecast_2027 forecast_wide).

(** [forecast_findings] as a function of what its two lookups return. *)
Definition forecast_findings_of (access usage : result (option cell)) : UI unit :=
  st_markdown "---";;
  st_subheader "🔍 Key Findings";;
  st_markdown ("<div class=" +:+ dq +:+ "insight-box" +:+ dq +:+ ">");;
  st_markdown "**Forecast Interpretation**";;
  access_2027_base ← lift access;
  finding_access access_2027_base;;
  usage_2027_base ← lift usage;
  finding_usage usage_2027_base;;
  st_write (nl +:+ "**Key Drivers:**");;
  st_write "- Telebirr expansion (54M+ users)";;
  st_write "- M-Pesa Ethiopia + EthSwitch integration";;
  st_write "- NFIS-II policy implementation";;
  st_write "- Fayda Digital ID rollout";;
  st_write (nl +:+ "**Risks & Uncertainties:**");;
  st_write "- Survey methodology vs operator data discrepancy";;
  st_write "- Account overlap (multiple accounts per person)";;
  st_write "- Cash culture and trust barriers";;
  st_write "- Affordability constraints";;
  st_markdown "</div>".
End PageSpecs.


(** ** The Forecasts page *)

(** A trace of the uncertainty band: one of its two names, or a fill. *)
Definition band_trace (t : Trace) : bool :=
  bool_decide (trace_name t ∈ ["Upper Bound"; "Uncertainty Band"])
  || existsb (λ kv, String.eqb kv.1 "fill") (trace_style t).

Definition is_num (c : cell) : bool :=
  match c with
  | Num _ => true
  | _ => false
  end.

Definition is_numeric (c : cell) : bool :=
  match c with
  | Num _ | NA => true
  | _ => false
  end.

(** A long-form forecast table: the four columns, a number in every
    [year], a number or nothing in every [forecast_value]. *)
Definition forecast_long_table (fl : DataFrame) : bool :=
  has_column fl "indicator_code" && has_column fl "year"
  && has_column fl "scenario" && has_column fl "forecast_value"
  && forallb (λ r, is_num (cell_of "year" r)
                   && is_numeric (cell_of "forecast_value" r)) (rows fl).




(** The chart traces of a rendered page. *)
Definition chart_traces (page : list widget) : list Trace :=
  flat_map (λ w, match w with
                 | PlotlyChart fig => traces fig
                 | _ => []
                 end) page.

Section ForecastSpecs.
Context `{Pandas}.

(** [pd.to_datetime] reads the first of January of every year of the
    table. *)
Definition years_readable (fl : DataFrame) : bool :=
  forallb (λ r, match parse_datetime
                        (Str (str_of_cell (cell_of "year" r) +:+ "-01-01")) with
                | Some _ => true
                | None => false
                end) (rows fl).

(** A row whose year is a number that [pd.to_datetime] reads. *)
Definition readable_year (r : Z * Row) : Prop :=
  is_num (cell_of "year" r) = true
  ∧ is_Some (parse_datetime (Str (str_of_cell (cell_of "year" r) +:+ "-01-01"))).
End ForecastSpecs.

(** A page computation that does not raise: it appends [out] and returns
    [a]. *)
Definition runs {A} (m : UI A) (out : list widget) (a : A) : Prop :=
  ∀ page, m page = (page ++ out, Ok a).

(** ** Further properties: what the statements below speak of *)

(** The dates the series of [code] is sorted by. *)
Definition series_dates (obs : DataFrame) (code : cell) : list cell :=
  map (cell_of "observation_date") (List.filter (in_series obs code) (rows obs)).

(** The three columns [get_indicator_series] reads. *)
Definition series_columns (obs : DataFrame) : bool :=
  has_column obs "indicator_code" && has_column obs "observation_date"
  && has_column obs "value_numeric".

(** [get_observations] can take the years of the dates: the table has no
    [observation_date], or the column is [datetime64]. *)
Definition observation_dates_parsed (d : DataFrame) : bool :=
  negb (has_column d "observation_date")
  || is_datetime64 d "observation_date".

(** The table [load_unified_data] reads when the load succeeds: the
    enriched file when it exists (it must be readable and have
    [record_type]), the main sheet of the workbook otherwise. *)
Definition unified_source (fs : Files) : option DataFrame :=
  match enriched_csv fs with
  | Some (Ok df) => if has_column df "record_type" then Some df else None
  | Some (Raise _) => None
  | None => match workbook_main_sheet fs with
            | Ok df => Some df
            | Raise _ => None
            end
  end.

(** The table [load_unified_data] hands to the script when the load
    succeeds: the table read, with its dates parsed. *)
Definition loaded_table `{Pandas} (fs : Files) : option DataFrame :=
  match unified_source fs with
  | Some src =>
      if observation_dates_refused src then None else Some (parsed_dates src)
  | None => None
  end.

(** ** The Overview page *)

(** A page computation that raises: it appends [out] and raises [e]. *)
Definition fails {A} (m : UI A) (out : list widget) (e : exn) : Prop :=
  ∀ page, m page = (page ++ out, Raise e).

(** Every [value_numeric] of the table is a number or missing. *)
Definition numeric_values (obs : DataFrame) : bool :=
  forallb (λ r, is_numeric (cell_of "value_numeric" r)) (rows obs).

(** A long-form forecast table the pages can chart, or none. *)
Definition chartable_forecast `{Pandas} (fl : option DataFrame) : bool :=
  match fl with
  | None => true
  | Some fl => forecast_long_table fl && years_readable fl
  end.

(** A wide-form forecast table as the Overview page reads it, or none: it
    is empty, or has [year] and [indicator_code], and when it has [lower]
    it has [upper] too and both hold numbers. *)
Definition wide_table (fw : option DataFrame) : bool :=
  match fw with
  | None => true
  | Some fw =>
      df_empty fw
      || (has_column fw "year" && has_column fw "indicator_code"
          && (negb (has_column fw "lower")
              || (has_column fw "upper"
                  && forallb (λ r, is_numeric (cell_of "lower" r)
                                   && is_numeric (cell_of "upper" r))
                             (rows fw))))
  end.

(** The wide table holds a row for account ownership in 2027. *)
Definition has_access_2027 (fw : DataFrame) : bool :=
  existsb (λ r, py_eq (cell_of "year" r) (Num 2027)
                && py_eq (cell_of "indicator_code" r) (Str "ACC_OWNERSHIP"))
          (rows fw).

(** ** The uncertainty band and the target *)

(** The rows of a table that carry the indicator. *)
Definition indicator_rows (df : DataFrame) (code : cell) : list (Z * Row) :=
  List.filter (λ r, py_eq (cell_of "indicator_code" r) code) (rows df).

(** The wide table has both bounds and a row for the indicator. *)
Definition has_band (fw : DataFrame) (code : cell) : bool :=
  has_column fw "lower" && has_column fw "upper"
  && negb (bool_decide (indicator_rows fw code = [])).

(** The two traces of the band over the dates [dates] and the rows
    [wide_data]. *)
Definition band_of (dates : list cell) (wide_data : list (Z * Row))
    : list Trace :=
  [ {| trace_x := dates; trace_y := map (cell_of "upper") wide_data;
       trace_mode := "lines"; trace_name := "Upper Bound";
       trace_style := [("line.width", "0"); ("showlegend", "False")] |};
    {| trace_x := dates; trace_y := map (cell_of "lower") wide_data;
       trace_mode := "lines"; trace_name := "Uncertainty Band";
       trace_style := [("line.width", "0");
                       ("fillcolor", "rgba(68, 68, 68, 0.2)");
                       ("fill", "tonexty")] |} ].

(** A looked-up forecast that is shown and is not below the target of
    60: a number other than zero that is at least 60, or a missing
    number. *)
Definition target_met (v : option cell) : bool :=
  match v with
  | Some (Num q) => negb (Qeq_bool q 0) && Qle_bool 60 q
  | Some NA => true
  | _ => false
  end.

Definition metric_delta (w : widget) : option string :=
  match w with
  | Metric _ _ delta => delta
  | _ => None
  end.

(** ** The other pages *)

(** A run over the richer page that does not fail: it appends [out] and
    returns [a]. *)
Definition renders {A} (m : App A) (out : list element) (a : A) : Prop :=
  ∀ page, m page = (page ++ out, Done a).

(** A run over the richer page that fails: it appends [out] and stops
    with [f]. *)
Definition stops {A} (m : App A) (out : list element) (f : failure) : Prop :=
  ∀ page, m page = (page ++ out, Failed f).

(** The indicator has a complete observation in the table. *)
Definition has_data (obs : DataFrame) (code : cell) : bool :=
  negb (bool_decide (List.filter (in_series obs code) (rows obs) = [])).

(** The subheaders among the widgets shown. *)
Definition subheaders (shown : list widget) : list string :=
  omap (λ w, match w with Subheader body => Some body | _ => None end) shown.

(** The tables among the widgets shown. *)
Definition dataframes (shown : list widget) : list DataFrame :=
  omap (λ w, match w with Dataframe df => Some df | _ => None end) shown.

(** ** The Events & Impact page *)

(** The events with a parsed date. *)
Definition dated_events (events : DataFrame) : list (Z * Row) :=
  List.filter (λ r, notna (cell_of "event_date_parsed" r)) (rows events).

(** The categories of the events with a parsed date. *)
Definition event_categories (events : DataFrame) : list cell :=
  unique (map (cell_of "category") (dated_events events)).

(** The events of the timeline under a selection of categories: those
    with a parsed date whose category is selected, and all those with a
    parsed date when nothing is selected. *)
Definition timeline_rows (events : DataFrame) (selected : list cell)
    : list (Z * Row) :=
  List.filter
    (λ r, match selected with
          | [] => true
          | _ => existsb (same_value (cell_of "category" r)) selected
          end)
    (dated_events events).

(** A row restricted to some columns. *)
Definition restrict_row (cols : list string) (r : Z * Row) : Z * Row :=
  (r.1, filter (λ kv, kv.1 ∈ cols) r.2).

(** Both events are dated and the first is not older than the second. *)
Definition newest_first (r1 r2 : Z * Row) : Prop :=
  match cell_of "event_date_parsed" r1, cell_of "event_date_parsed" r2 with
  | Date a, Date b => b ≤ a
  | _, _ => False
  end.

(** An event table the timeline can draw: it has [event_date_parsed],
    holding timestamps, [category] and [indicator], and some event has a
    date. *)
Definition timeline_table (events : DataFrame) : bool :=
  has_column events "event_date_parsed" && has_column events "category"
  && has_column events "indicator"
  && datetime_column events "event_date_parsed"
  && negb (bool_decide (dated_events events = [])).

(** ** The Data Coverage page *)

(** The sum of a list of counts. *)
Definition total (counts : list Z) : Z := foldr Z.add 0 counts.

(** No two keys are equal. *)
Fixpoint distinct_keys (keys : list cell) : bool :=
  match keys with
  | [] => true
  | k :: keys' => forallb (λ k', negb (py_eq k k')) keys' && distinct_keys keys'
  end.

(** The number of rows whose key [f] is [k]. *)
Definition count_key {A} (f : A → cell) (l : list A) (k : cell) : Z :=
  Z.of_nat (length (List.filter (λ x, py_eq (f x) k) l)).

(** The inputs of a run with the year range of the sidebar set to [range]. *)
Definition with_year_range (inputs : Inputs) (range : option (Z * Z)) : Inputs :=
  {| page_choice := page_choice inputs;
     year_choice := range;
     scenario_choice := scenario_choice inputs;
     indicator_choice := indicator_choice inputs;
     trend_choice := trend_choice inputs;
     category_choice := category_choice inputs |}.

(** Two runs that show the same and end the same way, whatever they
    return. *)
Definition alike {A} (r1 r2 : list element * outcome A) : Prop :=
  r1.1 = r2.1
  ∧ match r1.2, r2.2 with
    | Done _, Done _ => True
    | Failed e1, Failed e2 => e1 = e2
    | _, _ => False
    end.

(** A CSV that is missing or cannot be read. *)
Definition unreadable (file : option (result DataFrame)) : bool :=
  match file with
  | Some (Ok _) => false
  | _ => true
  end.

(** The forecast tables cannot be loaded: the long table is missing or
    cannot be read, or the wide table exists and cannot be read. *)
Definition forecasts_unreadable (fs : Files) : bool :=
  match forecast_long_csv fs with
  | Some (Ok _) => match forecast_wide_csv fs with
                   | Some (Raise _) => true
                   | _ => false
                   end
  | _ => true
  end.

(** ** The year range filter *)

(** The [year] of every row is a whole number or missing. *)
Definition whole_years (obs : DataFrame) : bool :=
  forallb (λ r, match cell_of "year" r with
                | NA => true
                | Num q => Qeq_bool q (inject_Z (Qfloor q))
                | _ => false
                end) (rows obs).

(** The years of the rows that have one. *)
Definition observed_years (obs : DataFrame) : list Z :=
  omap (λ r, match cell_of "year" r with
             | Num q => Some (Qfloor q)
             | _ => None
             end) (rows obs).

(** ** The Forecasts page with a wide table *)

(** A wide-form forecast table the scenario chart can read: it has
    [indicator_code] and [year], and its years are numbers that
    [pd.to_datetime] reads. *)
Definition chartable_wide `{Pandas} (fw : DataFrame) : bool :=
  has_column fw "indicator_code" && has_column fw "year"
  && forallb (λ r, is_num (cell_of "year" r)) (rows fw)
  && years_readable fw.

(** The first of [indicator_code] and [year] that the table lacks. *)
Definition missing_wide_key (fw : DataFrame) : option string :=
  if negb (has_column fw "indicator_code") then Some "indicator_code"
  else if negb (has_column fw "year") then Some "year"
  else None.

(** ** The forecast lookup *)

(** The first of the three key columns that a forecast table lacks. *)
Definition missing_forecast_key (df : DataFrame) : option string :=
  List.find (λ c, negb (has_column df c)) ["indicator_code"; "year"; "scenario"].

(** ** Concrete tables for the other pages

    More stand-ins and tables, to run the pages on.  No theorem below
    depends on them. *)

Module Sample.
(** Reads an unsigned decimal literal. *)
Definition digits (s : string) : option Z :=
  match s with
  | EmptyString => None
  | _ => foldl (λ acc a, n ← acc; d ← Demo.digit a; Some (10 * n + d))
               (Some 0) (list_ascii_of_string s)
  end.

(** A slider takes bounds in order and a default range within them. *)
#[global] Instance toolkit : Toolkit := {|
  int_of_str := digits;
  slider_refuses := λ lo hi value,
    (hi <? lo) || (value.1 <? lo) || (hi <? value.2) || (value.2 <? value.1);
  imshow_raises := λ _, None
|}.

(** A sheet as [pd.read_excel] returns it before the dates are parsed:
    the observation date of the second row is text. *)
Definition unparsed : DataFrame :=
  Demo.frame ["record_type"; "indicator_code"; "observation_date";
              "value_numeric"]
    [ [Str "observation"; Str "X"; Date (Demo.jan1 2020); Num 10];
      [Str "observation"; Str "X"; Str "2021-01-01"; Num 20];
      [Str "event"; NA; NA; NA] ].

(** Observations without the [indicator_code] column. *)
Definition obs_codeless : DataFrame :=
  Demo.frame ["record_type"; "observation_date"; "value_numeric"]
    [ [Str "observation"; Date (Demo.jan1 2020); Num 10] ].

(** Observations without the [value_numeric] column. *)
Definition obs_valueless : DataFrame :=
  Demo.frame ["record_type"; "indicator_code"; "observation_date"]
    [ [Str "observation"; Str "X"; Date (Demo.jan1 2020)] ].

(** A workbook whose main sheet is the demo table with events dated in
    different time zones. *)
Definition files_zones : Files :=
  {| enriched_csv := None;
     workbook_main_sheet := Ok Demo.unified_zones;
     workbook_impact_sheet := Ok empty_frame;
     event_features_csv := None;
     event_matrix_csv := None;
     forecast_long_csv := None;
     forecast_wide_csv := None |}.

(** A workbook whose main sheet has rows and no [record_type]. *)
Definition files_untyped : Files :=
  {| enriched_csv := None;
     workbook_main_sheet := Ok Demo.forecast_x;
     workbook_impact_sheet := Ok empty_frame;
     event_features_csv := None;
     event_matrix_csv := None;
     forecast_long_csv := None;
     forecast_wide_csv := None |}.

(** An enriched file that exists and cannot be read, beside a good
    workbook. *)
Definition files_enriched_unreadable : Files :=
  {| enriched_csv := Some (Raise (ReadError "Error tokenizing data"));
     workbook_main_sheet := Ok Demo.unified;
     workbook_impact_sheet := Ok empty_frame;
     event_features_csv := None;
     event_matrix_csv := None;
     forecast_long_csv := None;
     forecast_wide_csv := None |}.

(** The same enriched file beside no workbook. *)
Definition files_enriched_only : Files :=
  {| enriched_csv := Some (Raise (ReadError "Error tokenizing data"));
     workbook_main_sheet := Raise FileNotFoundError;
     workbook_impact_sheet := Raise FileNotFoundError;
     event_features_csv := None;
     event_matrix_csv := None;
     forecast_long_csv := None;
     forecast_wide_csv := None |}.

(** No data file at all. *)
Definition no_files : Files :=
  {| enriched_csv := None;
     workbook_main_sheet := Raise FileNotFoundError;
     workbook_impact_sheet := Raise FileNotFoundError;
     event_features_csv := None;
     event_matrix_csv := None;
     forecast_long_csv := None;
     forecast_wide_csv := None |}.

(** The widgets untouched, on page [p]. *)
Definition untouched (p : page_name) : Inputs :=
  {| page_choice := p; year_choice := None; scenario_choice := base;
     indicator_choice := 0; trend_choice := None; category_choice := None |}.

(** A wide table with the lower bound only. *)
Definition wide_lower : DataFrame :=
  Demo.frame ["indicator_code"; "year"; "base"; "lower"]
    [ [Str "ACC_OWNERSHIP"; Num 2027; Num 55; Num 50] ].

Definition session_lower : Session :=
  {| observations := Demo.obs_acc; events := empty_frame;
     forecast_long := Some Demo.forecast_acc; forecast_wide := Some wide_lower;
     scenario_filter := base; indicator_pick := 0 |}.

(** A wide table with both bounds, the later year first. *)
Definition wide_both : DataFrame :=
  Demo.frame ["indicator_code"; "year"; "base"; "lower"; "upper"]
    [ [Str "ACC_OWNERSHIP"; Num 2027; Num 55; Num 50; Num 60];
      [Str "ACC_OWNERSHIP"; Num 2026; Num 52; Num 49; Num 56] ].

Definition session_both : Session :=
  {| observations := Demo.obs_acc; events := empty_frame;
     forecast_long := Some Demo.forecast_acc; forecast_wide := Some wide_both;
     scenario_filter := base; indicator_pick := 0 |}.

(** The scenario chart of [session_both] for account ownership. *)
Definition figure_both : Figure :=
  match forecast_figure session_both Demo.forecast_acc (Str "ACC_OWNERSHIP") with
  | Ok fig => fig
  | Raise _ => {| traces := []; layout := [] |}
  end.

(** A wide table without [indicator_code]. *)
Definition wide_keyless : DataFrame :=
  Demo.frame ["year"; "lower"; "upper"] [ [Num 2027; Num 50; Num 60] ].

Definition session_keyless : Session :=
  {| observations := Demo.obs_acc; events := empty_frame;
     forecast_long := Some Demo.forecast_acc;
     forecast_wide := Some wide_keyless;
     scenario_filter := base; indicator_pick := 0 |}.

(** Observations as [get_observations] returns them, with their year:
    two indicators, one value missing, one date missing. *)
Definition obs_years : DataFrame :=
  Demo.frame ["record_type"; "indicator_code"; "observation_date";
              "value_numeric"; "year"]
    [ [Str "observation"; Str "ACC_OWNERSHIP"; Date (Demo.jan1 2021); Num 46;
       Num 2021];
      [Str "observation"; Str "USG_DIGITAL_PAYMENT"; Date (Demo.jan1 2021);
       Num 20; Num 2021];
      [Str "observation"; Str "ACC_OWNERSHIP"; Date (Demo.jan1 2017); Num 35;
       Num 2017];
      [Str "observation"; Str "USG_DIGITAL_PAYMENT"; Date (Demo.jan1 2017); NA;
       Num 2017];
      [Str "observation"; Str "ACC_OWNERSHIP"; NA; Num 40; NA] ].

(** Events as [get_events] returns them: three dated, one not. *)
Definition events : DataFrame :=
  Demo.frame ["record_type"; "indicator"; "category"; "event_date_parsed"]
    [ [Str "event"; Str "Telebirr launch"; Str "product"; Date (Demo.jan1 2021)];
      [Str "event"; Str "NFIS-II"; Str "policy"; Date (Demo.jan1 2020)];
      [Str "event"; Str "M-Pesa launch"; Str "product"; Date (Demo.jan1 2023)];
      [Str "event"; Str "Fayda rollout"; Str "infrastructure"; NA] ].
End Sample.
(** * Properties *)

(** ** The insertion sort is a sorting kernel *)

Lemma insert_by_perm {A} (le : A → A → bool) x l :
  insert_by le x l ≡ₚ x :: l.
Proof.
  induction l as [|y l IH]; simpl; [done|].
  destruct (le x y); [done|].
  rewrite IH. apply perm_swap.
Qed.

Lemma isort_perm {A} (le : A → A → bool) l : isort le l ≡ₚ l.
Proof.
  induction l as [|x l IH]; simpl; [done|].
  rewrite insert_by_perm. by rewrite IH.
Qed.

Lemma insert_by_sorted {A} (le : A → A → bool) x l :
  (∀ y, y ∈ l → le x y = true ∨ le y x = true) →
  (∀ a b c, a ∈ x :: l → b ∈ x :: l → c ∈ x :: l →
            le a b = true → le b c = true → le a c = true) →
  StronglySorted (λ a b, le a b = true) l →
  StronglySorted (λ a b, le a b = true) (insert_by le x l).
Proof.
  intros Htot Htr Hs.
  induction Hs as [|y l Hs IH Hy]; simpl.
  - repeat constructor.
  - rewrite Forall_forall in Hy.
    destruct (le x y) eqn:Hxy.
    + constructor; [by constructor; [|apply Forall_forall]|].
      constructor; [done|].
      apply Forall_forall. intros z Hz.
      apply (Htr x y z); [left|right; left|right; by right|done|by apply Hy].
    + assert (Hyx : le y x = true).
      { destruct (Htot y) as [Ht|Ht]; [left|congruence|done]. }
      constructor.
      * apply IH.
        -- intros z Hz. apply Htot. by right.
        -- intros a b c Ha Hb Hc. apply Htr.
           ++ apply elem_of_cons in Ha as [->|Ha]; [left|right; by right].
           ++ apply elem_of_cons in Hb as [->|Hb]; [left|right; by right].
           ++ apply elem_of_cons in Hc as [->|Hc]; [left|right; by right].
      * apply Forall_forall. intros z Hz.
        rewrite (insert_by_perm le x l) in Hz.
        apply elem_of_cons in Hz as [->|Hz]; [done|by apply Hy].
Qed.

Lemma isort_sorted {A} (le : A → A → bool) l :
  (∀ x y, x ∈ l → y ∈ l → le x y = true ∨ le y x = true) →
  (∀ x y z, x ∈ l → y ∈ l → z ∈ l →
            le x y = true → le y z = true → le x z = true) →
  StronglySorted (λ x y, le x y = true) (isort le l).
Proof.
  induction l as [|x l IH]; intros Htot Htr; simpl; [constructor|].
  apply insert_by_sorted.
  - intros y Hy. rewrite (isort_perm le l) in Hy. apply Htot; [left|by right].
  - intros a b c Ha Hb Hc. rewrite (isort_perm le l) in Ha, Hb, Hc.
    by apply Htr.
  - apply IH.
    + intros a b Ha Hb. apply Htot; by right.
    + intros a b c Ha Hb Hc. apply Htr; by right.
Qed.

#[global] Instance isort_laws : @PandasLaws Demo.pandas.
Proof.
  split.
  - intros A le l. apply isort_perm.
  - intros A le l. apply isort_sorted.
Qed.

(** ** Masks and filters *)

Lemma select_map {A} (p : A → bool) (l : list A) :
  select l (map p l) = List.filter p l.
Proof. induction l as [|x l IH]; simpl; [done|]. by rewrite IH. Qed.

Lemma mask_and_map {A} (p q : A → bool) (l : list A) :
  mask_and (map p l) (map q l) = map (λ x, p x && q x) l.
Proof. unfold mask_and. induction l as [|x l IH]; simpl; [done|]. by f_equal. Qed.

Lemma series_eq_column (c : string) (v : cell) (l : list (Z * Row)) :
  series_eq (map (cell_of c) l) v = map (λ r, py_eq (cell_of c r) v) l.
Proof. unfold series_eq. by rewrite map_map. Qed.

Lemma filter_none {A} (p : A → bool) (l : list A) :
  (∀ x, x ∈ l → p x = false) → List.filter p l = [].
Proof.
  induction l as [|x l IH]; intros Hp; simpl; [done|].
  rewrite (Hp x) by left. apply IH. intros y Hy. apply Hp. by right.
Qed.

Lemma filter_all {A} (p : A → bool) (l : list A) :
  (∀ x, x ∈ l → p x = true) → List.filter p l = l.
Proof.
  induction l as [|x l IH]; intros Hp; simpl; [done|].
  rewrite (Hp x) by left. f_equal. apply IH. intros y Hy. apply Hp. by right.
Qed.

Lemma filter_filter {A} (p q : A → bool) (l : list A) :
  List.filter q (List.filter p l) = List.filter (λ x, p x && q x) l.
Proof.
  induction l as [|x l IH]; simpl; [done|].
  destruct (p x); simpl; [|done]. destruct (q x); by rewrite IH.
Qed.

Lemma elem_of_filter_bool {A} (p : A → bool) (l : list A) x :
  x ∈ List.filter p l ↔ x ∈ l ∧ p x = true.
Proof. rewrite !list_elem_of_In. apply filter_In. Qed.

Lemma df_empty_false df :
  df_empty df = false → columns df ≠ [] ∧ rows df ≠ [].
Proof. unfold df_empty. by destruct (columns df), (rows df). Qed.

Lemma df_empty_true df :
  df_empty df = true → columns df = [] ∨ rows df = [].
Proof. unfold df_empty. destruct (columns df), (rows df); auto; done. Qed.

Lemma df_empty_rows df :
  columns df ≠ [] → df_empty df = bool_decide (rows df = []).
Proof. unfold df_empty. by destruct (columns df), (rows df). Qed.

Lemma frame_cell_has df c r :
  has_column df c = true → frame_cell df c r = cell_of c r.
Proof. unfold frame_cell. by intros ->. Qed.

Lemma frame_cell_no_columns df c r :
  columns df = [] → frame_cell df c r = NA.
Proof.
  unfold frame_cell, has_column. intros ->.
  rewrite bool_decide_eq_false_2; [done|]. apply not_elem_of_nil.
Qed.

(** ** Sorting by a date column *)

Lemma homogeneous_dates (s : list cell) :
  Forall (λ c, ∃ t, c = Date t) s → homogeneous s = true.
Proof.
  unfold homogeneous. intros Hs.
  assert (Hk : Forall (λ k, k = KDate) (omap kind_of s)).
  { induction Hs as [|c s [t ->] _ IH]; simpl; [constructor|by constructor]. }
  destruct (omap kind_of s) as [|k ks]; [done|].
  inversion Hk as [|?? -> Hks]; subst.
  apply forallb_forall. intros k' Hk'.
  apply list_elem_of_In in Hk'.
  rewrite Forall_forall in Hks. rewrite (Hks k' Hk'). by apply bool_decide_eq_true.
Qed.

Lemma StronglySorted_impl_on {A} (R R' : A → A → Prop) (P : A → Prop) l :
  (∀ x y, P x → P y → R x y → R' x y) →
  Forall P l → StronglySorted R l → StronglySorted R' l.
Proof.
  intros HR HP Hs. induction Hs as [|x l Hs IH Hx]; [constructor|].
  inversion HP as [|?? Hpx Hpl]; subst.
  constructor; [by apply IH|].
  rewrite Forall_forall in *. intros y Hy. apply HR; auto.
Qed.

(** ** The pandas operations on frames that have the columns asked for *)

Lemma bind_Ok {A B} (f : A → result B) (a : A) : (Ok a ≫= f) = f a.
Proof. reflexivity. Qed.

Lemma getitem_has df c :
  has_column df c = true → getitem df c = Ok (map (cell_of c) (rows df)).
Proof. unfold getitem. by intros ->. Qed.

Lemma getitem_mask_eq df c v :
  getitem_mask df (series_eq (map (cell_of c) (rows df)) v) =
  {| columns := columns df;
     rows := List.filter (λ r, py_eq (cell_of c r) v) (rows df);
     datetime64 := datetime64 df |}.
Proof. unfold getitem_mask. by rewrite series_eq_column, select_map. Qed.

Lemma dropna_has df subset :
  forallb (has_column df) subset = true →
  dropna df subset =
  Ok {| columns := columns df;
        rows := List.filter (λ r, forallb (λ c, notna (cell_of c r)) subset)
                            (rows df);
        datetime64 := datetime64 df |}.
Proof.
  intros Hs. unfold dropna.
  destruct (List.find _ subset) as [c|] eqn:Hf; [|done].
  apply find_some in Hf as [Hin Hc].
  rewrite forallb_forall in Hs. rewrite (Hs c Hin) in Hc. done.
Qed.

Section QueryLemmas.
Context `{Pandas}.

Lemma sort_values_dates df c :
  has_column df c = true →
  Forall (λ r, ∃ t, cell_of c r = Date t) (rows df) →
  sort_values df c =
  Ok {| columns := columns df; rows := sort_by (by_column c) (rows df);
     datetime64 := datetime64 df |}.
Proof.
  intros Hc Hd. unfold sort_values. rewrite Hc.
  rewrite (filter_all (λ r, notna (cell_of c r))).
  2:{ rewrite Forall_forall in Hd. intros r Hr. by destruct (Hd r Hr) as [t ->]. }
  rewrite (filter_none (λ r, isna (cell_of c r))).
  2:{ rewrite Forall_forall in Hd. intros r Hr. by destruct (Hd r Hr) as [t ->]. }
  rewrite homogeneous_dates.
  2:{ apply Forall_map. eapply Forall_impl; [exact Hd|]. done. }
  by rewrite app_nil_r.
Qed.

(** Rows of a series are dated. *)
Lemma in_series_dated obs code r :
  has_column obs "observation_date" = true →
  datetime_column obs "observation_date" = true →
  r ∈ rows obs → in_series obs code r = true →
  ∃ t, cell_of "observation_date" r = Date t.
Proof.
  intros Hdate Hdt Hr Hin.
  unfold datetime_column in Hdt. rewrite forallb_forall in Hdt.
  apply list_elem_of_In in Hr. specialize (Hdt r Hr).
  unfold in_series in Hin. rewrite (frame_cell_has _ "observation_date") in Hin by done.
  destruct (cell_of "observation_date" r); try done; [|by eexists].
  by rewrite andb_false_r in Hin.
Qed.

(** On a table with rows, the series is the sorted selection. *)
Lemma get_indicator_series_rows obs code :
  df_empty obs = false →
  observation_table obs = true →
  get_indicator_series obs code =
    Ok {| columns := columns obs;
          rows := sort_by (by_column "observation_date")
                    (List.filter (in_series obs code) (rows obs));
          datetime64 := datetime64 obs |}.
Proof.
  intros Hne Hobs. unfold observation_table in Hobs. rewrite Hne in Hobs.
  rewrite orb_false_l in Hobs.
  apply andb_prop in Hobs as [Hobs Hdt].
  apply andb_prop in Hobs as [Hobs Hval].
  apply andb_prop in Hobs as [Hcode Hdate].
  unfold get_indicator_series. rewrite Hne.
  rewrite (getitem_has _ _ Hcode), bind_Ok, getitem_mask_eq.
  rewrite dropna_has.
  2:{ unfold has_column in *. simpl. by rewrite Hdate, Hval. }
  rewrite bind_Ok. cbn [rows columns].
  rewrite filter_filter.
  assert (Heq : List.filter
    (λ x, py_eq (cell_of "indicator_code" x) code
          && forallb (λ c, notna (cell_of c x))
                     ["observation_date"; "value_numeric"])
    (rows obs) = List.filter (in_series obs code) (rows obs)).
  { apply filter_ext. intros r. unfold in_series.
    rewrite !frame_cell_has by done. simpl.
    by rewrite andb_true_r, andb_assoc. }
  rewrite Heq.
  rewrite sort_values_dates; [done|done|].
  apply Forall_forall. intros r Hr. cbn [rows] in Hr.
  apply elem_of_filter_bool in Hr as [Hr Hin].
  by eapply in_series_dated.
Qed.

(** On an empty table the series is the empty frame, and no row of the
    table belongs to any series. *)
Lemma get_indicator_series_empty obs code :
  df_empty obs = true →
  get_indicator_series obs code = Ok empty_frame
  ∧ List.filter (in_series obs code) (rows obs) = [].
Proof.
  intros He. unfold get_indicator_series. rewrite He. split; [done|].
  destruct (df_empty_true _ He) as [Hc|Hr]; [|by rewrite Hr].
  apply filter_none. intros r _. unfold in_series.
  by rewrite (frame_cell_no_columns _ "indicator_code").
Qed.
End QueryLemmas.

(** ** Ordered series *)

Lemma by_column_date_le r1 r2 :
  (∃ t, cell_of "observation_date" r1 = Date t) →
  (∃ t, cell_of "observation_date" r2 = Date t) →
  by_column "observation_date" r1 r2 = true → date_le r1 r2.
Proof.
  intros [a Ha] [b Hb]. unfold by_column, date_le, date_of.
  rewrite Ha, Hb. simpl. apply Z.leb_le.
Qed.

Section SortedSeries.
Context `{PandasLaws}.

Lemma sorted_by_date (l : list (Z * Row)) :
  Forall (λ r, ∃ t, cell_of "observation_date" r = Date t) l →
  StronglySorted date_le (sort_by (by_column "observation_date") l).
Proof.
  intros Hd.
  eapply (StronglySorted_impl_on _ _
            (λ r, ∃ t, cell_of "observation_date" r = Date t)).
  - intros x y. apply by_column_date_le.
  - by rewrite sort_perm.
  - rewrite Forall_forall in Hd. apply sort_sorted.
    + intros x y Hx Hy.
      destruct (Hd x Hx) as [a Ha], (Hd y Hy) as [b Hb].
      unfold by_column. rewrite Ha, Hb. simpl.
      rewrite !Z.leb_le. lia.
    + intros x y z Hx Hy Hz.
      destruct (Hd x Hx) as [a Ha], (Hd y Hy) as [b Hb], (Hd z Hz) as [c Hc].
      unfold by_column. rewrite Ha, Hb, Hc. simpl.
      rewrite !Z.leb_le. lia.
Qed.
End SortedSeries.

Section SeriesShape.
Context `{PandasLaws}.

(** The series of a code is an ordered rearrangement of the selection. *)
Lemma indicator_series_sorted_perm (obs : DataFrame) (code : cell) :
  observation_table obs = true →
  ∃ series,
    get_indicator_series obs code = Ok series
    ∧ rows series ≡ₚ List.filter (in_series obs code) (rows obs)
    ∧ StronglySorted date_le (rows series).
Proof.
  intros Hobs. destruct (df_empty obs) eqn:He.
  - destruct (get_indicator_series_empty obs code He) as [-> Hnone].
    exists empty_frame. rewrite Hnone. simpl.
    split; [done|]. split; [done|constructor].
  - rewrite (get_indicator_series_rows obs code He Hobs).
    eexists. split; [done|]. cbn [rows].
    unfold observation_table in Hobs. rewrite He, orb_false_l in Hobs.
    apply andb_prop in Hobs as [Hobs Hdt].
    apply andb_prop in Hobs as [Hobs Hval].
    apply andb_prop in Hobs as [Hcode Hdate].
    split; [apply sort_perm|].
    apply sorted_by_date. apply Forall_forall. intros r Hr.
    apply elem_of_filter_bool in Hr as [Hr Hin].
    by eapply in_series_dated.
Qed.
End SeriesShape.

(** ** One row per key *)

Lemma py_eq_sym a b : py_eq a b = py_eq b a.
Proof.
  destruct a, b; simpl; try done.
  - apply String.eqb_sym.
  - apply eq_true_iff_eq. rewrite !Qeq_bool_iff. split; intros Hq; by symmetry.
  - apply Z.eqb_sym.
Qed.

Lemma py_eq_via a b c : py_eq a c = true → py_eq b c = true → py_eq a b = true.
Proof.
  destruct a, b, c; simpl; try done.
  - rewrite !String.eqb_eq. congruence.
  - rewrite !Qeq_bool_iff. intros -> Hq. by symmetry.
  - rewrite !Z.eqb_eq. congruence.
Qed.

Lemma same_key_sym r1 r2 : same_key r1 r2 = same_key r2 r1.
Proof. unfold same_key. by rewrite (py_eq_sym (cell_of _ r1)), (py_eq_sym (cell_of "observation_date" r1)). Qed.

Lemma unique_keys_cons r l :
  unique_keys (r :: l) = true ↔
  (∀ r', r' ∈ l → same_key r r' = false) ∧ unique_keys l = true.
Proof.
  simpl. rewrite andb_true_iff, forallb_forall.
  split; intros [Hr Hl]; split; try done.
  - intros r' Hr'. apply list_elem_of_In in Hr'. apply negb_true_iff. auto.
  - intros r' Hr'. apply list_elem_of_In in Hr'. apply negb_true_iff. auto.
Qed.

Lemma unique_keys_perm l l' :
  l ≡ₚ l' → unique_keys l = true → unique_keys l' = true.
Proof.
  induction 1 as [|x l l' Hp IH|x y l|l1 l2 l3 _ IH1 _ IH2]; [done|..].
  - rewrite !unique_keys_cons. intros [Hx Hl]. split; [|by apply IH].
    intros r' Hr'. apply Hx. by rewrite Hp.
  - rewrite !unique_keys_cons. intros [Hy [Hx Hl]]. split; [|split; [|done]].
    + intros r' Hr'. apply elem_of_cons in Hr' as [->|Hr'].
      * rewrite same_key_sym. apply Hy. left.
      * by apply Hx.
    + intros r' Hr'. apply Hy. by right.
  - auto.
Qed.

Lemma unique_keys_filter (p : Z * Row → bool) l :
  unique_keys l = true → unique_keys (List.filter p l) = true.
Proof.
  induction l as [|x l IH]; [done|].
  rewrite unique_keys_cons. intros [Hx Hl]. simpl.
  destruct (p x); [|by apply IH].
  apply unique_keys_cons. split; [|by apply IH].
  intros r' Hr'. apply elem_of_filter_bool in Hr' as [Hr' _]. by apply Hx.
Qed.

Lemma unique_keys_last l r :
  unique_keys (l ++ [r]) = true → ∀ r', r' ∈ l → same_key r' r = false.
Proof.
  induction l as [|x l IH]; intros Hu r' Hr'; [by apply elem_of_nil in Hr'|].
  simpl app in Hu. apply unique_keys_cons in Hu as [Hx Hl].
  apply elem_of_cons in Hr' as [->|Hr'].
  - apply Hx. apply elem_of_app. right. left.
  - by apply IH.
Qed.

Lemma StronglySorted_last {A} (R : A → A → Prop) l x :
  StronglySorted R (l ++ [x]) → ∀ y, y ∈ l → R y x.
Proof.
  induction l as [|a l IH]; intros Hs y Hy; [by apply elem_of_nil in Hy|].
  simpl in Hs. apply StronglySorted_inv in Hs as [Hs Ha].
  apply elem_of_cons in Hy as [->|Hy].
  - rewrite Forall_forall in Ha. apply Ha. apply elem_of_app. right. left.
  - by apply IH.
Qed.

Lemma iloc_last_map {A} (f : A → cell) l x :
  iloc_last (map f (l ++ [x])) = Ok (f x).
Proof. unfold iloc_last. rewrite map_app. simpl. by rewrite last_snoc. Qed.

(** ** Forecast lookup *)

Lemma has_column_nonempty df c : has_column df c = true → columns df ≠ [].
Proof.
  unfold has_column. intros Hc Hnil. rewrite Hnil in Hc.
  by apply bool_decide_eq_true, elem_of_nil in Hc.
Qed.

Section ForecastLemmas.
Context `{Pandas}.

(** The lookup returns the value in the first row that carries the keys. *)
Lemma get_forecast_value_head forecast_df indicator year scenario :
  forecast_table forecast_df = true →
  get_forecast_value forecast_df indicator year scenario =
  Ok (match forecast_df with
      | None => None
      | Some df =>
          frame_cell df "forecast_value"
            <$> head (forecast_matches forecast_df indicator year scenario)
      end).
Proof.
  destruct forecast_df as [df|]; [|done].
  unfold forecast_table, get_forecast_value, forecast_matches.
  destruct (df_empty df) eqn:He; simpl.
  - intros _. destruct (df_empty_true _ He) as [Hc|Hr]; [|by rewrite Hr].
    rewrite filter_none; [done|]. intros r _. unfold forecast_match.
    by rewrite (frame_cell_no_columns _ "indicator_code").
  - intros Hcols.
    apply andb_prop in Hcols as [Hcols Hval].
    apply andb_prop in Hcols as [Hcols Hscen].
    apply andb_prop in Hcols as [Hcode Hyear].
    rewrite (getitem_has _ _ Hcode), bind_Ok.
    rewrite (getitem_has _ _ Hyear), bind_Ok.
    rewrite (getitem_has _ _ Hscen), bind_Ok.
    rewrite !series_eq_column, !mask_and_map.
    unfold getitem_mask. rewrite select_map.
    erewrite (filter_ext _ (forecast_match df indicator year scenario)).
    2:{ intros r. unfold forecast_match. by rewrite !frame_cell_has. }
    rewrite df_empty_rows by (by eapply has_column_nonempty).
    cbn [rows].
    destruct (List.filter _ (rows df)) as [|r l] eqn:Hf.
    + by rewrite bool_decide_eq_true_2.
    + rewrite bool_decide_eq_false_2 by done.
      rewrite getitem_has by done. rewrite bind_Ok. cbn [rows]. simpl.
      by rewrite frame_cell_has.
Qed.
End ForecastLemmas.

(** ** Running the state monad *)

Lemma bind_run {S A B} (m : State S A) (f : A → State S B) σ :
  (m ≫= f) σ = match m σ with
               | (σ', Ok a) => f a σ'
               | (σ', Raise e) => (σ', Raise e)
               end.
Proof. reflexivity. Qed.

Lemma lift_run {S A} (r : result A) (σ : S) : lift r σ = (σ, r).
Proof. reflexivity. Qed.

Lemma ret_run {S A} (a : A) (σ : S) : (mret a : State S A) σ = (σ, Ok a).
Proof. reflexivity. Qed.

Lemma deref_run (σ : gmap positive DataFrame) l :
  deref l σ = (σ, match σ !! l with
                  | Some d => Ok d
                  | None => Raise ReferenceError
                  end).
Proof. unfold deref. by destruct (σ !! l). Qed.

Lemma new_frame_run (σ : gmap positive DataFrame) df :
  new_frame df σ = (<[fresh (dom σ) := df]> σ, Ok (fresh (dom σ))).
Proof. reflexivity. Qed.

Lemma fresh_lookup (σ : gmap positive DataFrame) : σ !! fresh (dom σ) = None.
Proof. apply not_elem_of_dom, is_fresh. Qed.

Lemma lookup_fresh_ne (σ : gmap positive DataFrame) l :
  is_Some (σ !! l) → fresh (dom σ) ≠ l.
Proof. intros Hl Heq. rewrite <- Heq, fresh_lookup in Hl. by destruct Hl. Qed.

Lemma preserved_refl σ : preserved σ σ.
Proof. by intros l _. Qed.

Lemma preserved_alloc σ σ' df :
  preserved σ σ' → preserved σ (<[fresh (dom σ') := df]> σ').
Proof.
  intros Hp l Hl. rewrite lookup_insert_ne; [by apply Hp|].
  apply lookup_fresh_ne. by rewrite Hp.
Qed.

Lemma preserved_update σ σ' l df :
  preserved σ σ' → σ !! l = None → preserved σ (<[l := df]> σ').
Proof.
  intros Hp Hn l' Hl. rewrite lookup_insert_ne; [by apply Hp|].
  intros ->. rewrite Hn in Hl. by destruct Hl.
Qed.

(** The second of two allocations is fresh for the store before the first. *)
Lemma second_fresh (σ : gmap positive DataFrame) df :
  σ !! fresh (dom (<[fresh (dom σ) := df]> σ)) = None.
Proof.
  set (σ1 := <[fresh (dom σ) := df]> σ).
  destruct (σ !! fresh (dom σ1)) as [d|] eqn:Hs; [|done].
  assert (Hs1 : σ1 !! fresh (dom σ1) = Some d).
  { unfold σ1 at 2. rewrite lookup_insert_ne; [done|].
    apply lookup_fresh_ne. by rewrite Hs. }
  by rewrite fresh_lookup in Hs1.
Qed.

(** ** Column assignment *)

Lemma zip_with_map_r {A B C} (g : A → B → C) (f : A → B) (l : list A) :
  zip_with g l (map f l) = map (λ x, g x (f x)) l.
Proof. induction l as [|x l IH]; simpl; [done|]. by rewrite IH. Qed.

Lemma set_column_map df c (f : Z * Row → cell) datetime :
  set_column df c (map f (rows df)) datetime = Ok (with_column df c f datetime).
Proof.
  unfold set_column, with_column.
  rewrite bool_decide_eq_true_2 by apply length_map.
  by rewrite zip_with_map_r.
Qed.

Lemma is_datetime64_with_column df c f :
  is_datetime64 (with_column df c f true) c = true.
Proof. unfold is_datetime64. apply bool_decide_eq_true. left. Qed.

Lemma record_frame_mask df v :
  has_column df "record_type" = true →
  getitem_mask df (series_eq (map (cell_of "record_type") (rows df)) (Str v))
  = record_frame df v.
Proof.
  intros Hc. rewrite getitem_mask_eq. unfold record_frame, record_rows. f_equal.
  apply filter_ext. intros r. by rewrite frame_cell_has.
Qed.

Lemma record_rows_empty df v : df_empty df = true → record_rows df v = [].
Proof.
  intros He. unfold record_rows.
  destruct (df_empty_true _ He) as [Hc|Hr]; [|by rewrite Hr].
  apply filter_none. intros r _. by rewrite frame_cell_no_columns.
Qed.

Section PartitionLemmas.
Context `{Pandas}.

Lemma get_observations_preserves σ l σ' r :
  get_observations l σ = (σ', r) → preserved σ σ'.
Proof.
  unfold get_observations. rewrite bind_run, deref_run.
  destruct (σ !! l) as [d|] eqn:Hl; [|intros [= <- _]; apply preserved_refl].
  destruct (df_empty d).
  { rewrite new_frame_run. intros [= <- _]. apply preserved_alloc, preserved_refl. }
  rewrite bind_run, lift_run.
  destruct (getitem d "record_type") as [rt|e];
    [|intros [= <- _]; apply preserved_refl].
  unfold select_rows, copy.
  rewrite !bind_run, deref_run, Hl, new_frame_run.
  rewrite !bind_run, deref_run, lookup_insert_eq, new_frame_run.
  rewrite !bind_run, deref_run, lookup_insert_eq.
  set (sel := getitem_mask d _).
  pose proof (second_fresh σ sel) as Hl2.
  set (σ1 := <[fresh (dom σ) := sel]> σ) in *.
  set (l2 := fresh (dom σ1)) in *.
  assert (Hp2 : preserved σ (<[l2 := sel]> σ1)).
  { apply preserved_alloc, preserved_alloc, preserved_refl. }
  destruct (has_column sel "observation_date").
  - rewrite !bind_run, lift_run.
    destruct (getitem sel "observation_date") as [dates|e]; [|by intros [= <- _]].
    rewrite !bind_run, lift_run.
    destruct (dt_year_series _ dates) as [years|e]; [|by intros [= <- _]].
    unfold setitem. rewrite lookup_insert_eq.
    destruct (set_column sel "year" years false) as [sel'|e];
      [|by intros [= <- _]].
    cbn beta iota. rewrite ret_run. intros [= <- _]. by apply preserved_update.
  - rewrite bind_run, ret_run. cbn beta iota. rewrite ret_run. by intros [= <- _].
Qed.

Lemma get_observations_run (σ : gmap positive DataFrame) l d :
  σ !! l = Some d →
  unified_table d = true →
  ∃ σ' l',
    get_observations l σ = (σ', Ok l')
    ∧ σ !! l' = None
    ∧ σ' !! l' = Some (if df_empty d then empty_frame else observation_frame d).
Proof.
  intros Hl Hu. unfold get_observations. rewrite bind_run, deref_run, Hl.
  unfold unified_table in Hu.
  destruct (df_empty d) eqn:He.
  { rewrite new_frame_run. eexists _, _. split; [done|].
    split; [apply fresh_lookup|apply lookup_insert_eq]. }
  rewrite orb_false_l in Hu. apply andb_prop in Hu as [Hrt Hdt].
  rewrite bind_run, lift_run, (getitem_has _ _ Hrt).
  unfold select_rows, copy.
  rewrite !bind_run, deref_run, Hl, new_frame_run.
  rewrite !bind_run, deref_run, lookup_insert_eq, new_frame_run.
  rewrite !bind_run, deref_run, lookup_insert_eq.
  rewrite (record_frame_mask _ _ Hrt).
  set (sel := record_frame d "observation").
  pose proof (second_fresh σ sel) as Hl2.
  set (σ1 := <[fresh (dom σ) := sel]> σ) in *.
  set (l2 := fresh (dom σ1)) in *.
  unfold observation_frame. fold sel.
  destruct (has_column sel "observation_date") eqn:Hdate.
  - rewrite !bind_run, lift_run, (getitem_has _ _ Hdate).
    rewrite !bind_run, lift_run.
    unfold dt_year_series.
    assert (Hd : is_datetime64 sel "observation_date" = true).
    { change (has_column sel "observation_date")
        with (has_column d "observation_date") in Hdate.
      rewrite Hdate in Hdt. cbn [negb orb] in Hdt.
      by apply andb_prop in Hdt as [Hdt _]. }
    rewrite Hd, map_map. unfold setitem. rewrite lookup_insert_eq.
    rewrite (set_column_map sel "year"
               (λ r, year_cell (cell_of "observation_date" r))).
    cbn beta iota. rewrite ret_run.
    eexists _, _. split; [done|]. split; [done|apply lookup_insert_eq].
  - rewrite bind_run, ret_run. cbn beta iota. rewrite ret_run.
    eexists _, _. split; [done|]. split; [done|apply lookup_insert_eq].
Qed.

Lemma get_events_preserves σ l σ' r :
  get_events l σ = (σ', r) → preserved σ σ'.
Proof.
  unfold get_events. rewrite bind_run, deref_run.
  destruct (σ !! l) as [d|] eqn:Hl; [|intros [= <- _]; apply preserved_refl].
  destruct (df_empty d).
  { rewrite new_frame_run. intros [= <- _]. apply preserved_alloc, preserved_refl. }
  rewrite bind_run, lift_run.
  destruct (getitem d "record_type") as [rt|e];
    [|intros [= <- _]; apply preserved_refl].
  unfold select_rows, copy.
  rewrite !bind_run, deref_run, Hl, new_frame_run.
  rewrite !bind_run, deref_run, lookup_insert_eq, new_frame_run.
  rewrite !bind_run, deref_run, lookup_insert_eq.
  set (sel := getitem_mask d _).
  pose proof (second_fresh σ sel) as Hl2.
  set (σ1 := <[fresh (dom σ) := sel]> σ) in *.
  set (l2 := fresh (dom σ1)) in *.
  assert (Hp2 : preserved σ (<[l2 := sel]> σ1)).
  { apply preserved_alloc, preserved_alloc, preserved_refl. }
  rewrite bind_run.
  assert (Hany : ∃ b, (if has_column sel "event_date"
                       then event_date ← lift (getitem sel "event_date");
                            mret (existsb notna event_date)
                       else mret false) (<[l2 := sel]> σ1)
                      = (<[l2 := sel]> σ1, b)).
  { destruct (has_column sel "event_date"); [|by eexists].
    rewrite bind_run, lift_run. destruct (getitem sel "event_date"); by eexists. }
  destruct Hany as [b ->].
  destruct b as [any|e]; [|by intros [= <- _]].
  set (date_col := if any then "event_date" else "observation_date").
  destruct (has_column sel date_col).
  - rewrite !bind_run, lift_run.
    destruct (getitem sel date_col) as [raw|e]; [|by intros [= <- _]].
    rewrite bind_run, lift_run.
    destruct (to_datetime_coerce _ raw) as [dates|e]; [|by intros [= <- _]].
    rewrite bind_run. unfold setitem at 1. rewrite lookup_insert_eq.
    destruct (set_column sel date_col _ _) as [sel1|e]; [|by intros [= <- _]].
    cbn beta iota.
    rewrite bind_run, deref_run, lookup_insert_eq. cbn beta iota.
    rewrite bind_run, lift_run.
    destruct (getitem sel1 date_col) as [parsed|e];
      [|intros [= <- _]; by apply preserved_update].
    unfold setitem. rewrite lookup_insert_eq.
    destruct (set_column sel1 _ _ _) as [sel2|e];
      [|intros [= <- _]; by apply preserved_update].
    rewrite ret_run. intros [= <- _].
    apply preserved_update; [by apply preserved_update|done].
  - rewrite bind_run, ret_run. cbn beta iota. rewrite ret_run. by intros [= <- _].
Qed.

Lemma existsb_map {A B} (f : B → bool) (g : A → B) (l : list A) :
  existsb f (map g l) = existsb (λ x, f (g x)) l.
Proof. induction l as [|x l IH]; simpl; [done|]. by rewrite IH. Qed.

(** What [get_events] does on a table with rows and a [record_type]:
    it raises when [pd.to_datetime] refuses the dates, and returns the
    event frame otherwise. *)
Lemma get_events_cases (σ : gmap positive DataFrame) l d :
  σ !! l = Some d →
  df_empty d = false →
  has_column d "record_type" = true →
  ∃ σ',
    σ' !! l = Some d
    ∧ if event_dates_refused d
      then get_events l σ = (σ', Raise ValueError)
      else ∃ l', get_events l σ = (σ', Ok l')
                 ∧ σ !! l' = None
                 ∧ σ' !! l' = Some (event_frame d).
Proof.
  intros Hl He Hrt. unfold get_events. rewrite bind_run, deref_run, Hl, He.
  rewrite bind_run, lift_run, (getitem_has _ _ Hrt).
  unfold select_rows, copy.
  rewrite !bind_run, deref_run, Hl, new_frame_run.
  rewrite !bind_run, deref_run, lookup_insert_eq, new_frame_run.
  rewrite !bind_run, deref_run, lookup_insert_eq.
  rewrite (record_frame_mask _ _ Hrt).
  set (sel := record_frame d "event").
  pose proof (second_fresh σ sel) as Hl2.
  set (σ1 := <[fresh (dom σ) := sel]> σ) in *.
  set (l2 := fresh (dom σ1)) in *.
  rewrite bind_run.
  assert (Hany : (if has_column sel "event_date"
                  then event_date ← lift (getitem sel "event_date");
                       mret (existsb notna event_date)
                  else mret false) (<[l2 := sel]> σ1)
                 = (<[l2 := sel]> σ1,
                    Ok (has_column d "event_date"
                        && existsb (λ r, notna (cell_of "event_date" r))
                                   (record_rows d "event")))).
  { change (has_column sel "event_date") with (has_column d "event_date").
    destruct (has_column d "event_date") eqn:Hed; [|done].
    rewrite bind_run, lift_run, getitem_has by done.
    by rewrite ret_run, existsb_map. }
  rewrite Hany. clear Hany.
  assert (Hkeep : ∀ σ', preserved σ σ' → σ' !! l = Some d).
  { intros σ' Hp. rewrite Hp; [done|by rewrite Hl]. }
  assert (Hp2 : preserved σ (<[l2 := sel]> σ1)).
  { apply preserved_alloc, preserved_alloc, preserved_refl. }
  unfold event_frame, event_dates_refused. rewrite He. cbn [negb andb].
  fold sel. unfold picked_date_column.
  set (date_col := if _ && _ then "event_date" else "observation_date").
  change (has_column d date_col) with (has_column sel date_col).
  change (is_datetime64 d date_col) with (is_datetime64 sel date_col).
  change (record_rows d "event") with (rows sel).
  destruct (has_column sel date_col) eqn:Hdc; cbn [andb].
  - rewrite !bind_run, lift_run, (getitem_has _ _ Hdc).
    rewrite bind_run, lift_run. unfold to_datetime_coerce.
    destruct (negb (is_datetime64 sel date_col)
              && mixed_time_zones (map (cell_of date_col) (rows sel))).
    { eexists. split; [|done]. by apply Hkeep. }
    rewrite bind_run. unfold setitem at 1. rewrite lookup_insert_eq.
    rewrite map_map.
    rewrite (set_column_map sel date_col
               (λ r, to_datetime_cell (cell_of date_col r))).
    set (sel1 := with_column sel date_col _ true).
    rewrite bind_run, deref_run, lookup_insert_eq.
    assert (Hdc1 : has_column sel1 date_col = true).
    { unfold has_column, sel1, with_column. cbn [columns].
      fold (has_column sel date_col). by rewrite Hdc. }
    rewrite bind_run, lift_run, (getitem_has _ _ Hdc1).
    unfold setitem. rewrite lookup_insert_eq.
    assert (Hdt1 : is_datetime64 sel1 date_col = true)
      by apply is_datetime64_with_column.
    rewrite Hdt1.
    rewrite (set_column_map sel1 "event_date_parsed" (cell_of date_col)).
    rewrite ret_run.
    eexists. split.
    { apply Hkeep. apply preserved_update; [by apply preserved_update|done]. }
    eexists. split; [done|]. split; [done|apply lookup_insert_eq].
  - rewrite bind_run, ret_run. cbn beta iota. rewrite ret_run.
    eexists. split; [by apply Hkeep|].
    eexists. split; [done|]. split; [done|apply lookup_insert_eq].
Qed.

Lemma get_events_run (σ : gmap positive DataFrame) l d :
  σ !! l = Some d →
  unified_table d = true →
  event_dates_refused d = false →
  ∃ σ' l',
    get_events l σ = (σ', Ok l')
    ∧ σ !! l' = None
    ∧ σ' !! l' = Some (if df_empty d then empty_frame else event_frame d).
Proof.
  intros Hl Hu Hacc.
  destruct (df_empty d) eqn:He.
  { unfold get_events. rewrite bind_run, deref_run, Hl, He, new_frame_run.
    eexists _, _. split; [done|].
    split; [apply fresh_lookup|apply lookup_insert_eq]. }
  unfold unified_table in Hu. rewrite He, orb_false_l in Hu.
  apply andb_prop in Hu as [Hrt _].
  destruct (get_events_cases σ l d Hl He Hrt) as (σ' & _ & Hrun).
  rewrite Hacc in Hrun. destruct Hrun as (l' & Hrun & Hfresh & Hl').
  by exists σ', l'.
Qed.

(** A table whose event dates [pd.to_datetime] refuses. *)
Lemma get_events_refused (σ : gmap positive DataFrame) l d :
  σ !! l = Some d →
  event_dates_refused d = true →
  has_column d "record_type" = true →
  ∃ σ', get_events l σ = (σ', Raise ValueError) ∧ σ' !! l = Some d.
Proof.
  intros Hl Href Hrt.
  assert (He : df_empty d = false).
  { unfold event_dates_refused in Href. by destruct (df_empty d). }
  destruct (get_events_cases σ l d Hl He Hrt) as (σ' & Hkeep & Hrun).
  rewrite Href in Hrun. by exists σ'.
Qed.
End PartitionLemmas.

(** ** Labels under the partition *)

Lemma labels_with_column df c f dt :
  labels (with_column df c f dt) = labels df.
Proof. unfold labels, with_column. cbn [rows]. by rewrite map_map. Qed.

Lemma label_in_filter (p : Z * Row → bool) (l : list (Z * Row)) r :
  NoDup (map fst l) → r ∈ l →
  r.1 ∈ map fst (List.filter p l) ↔ p r = true.
Proof.
  intros Hnd Hr. split.
  - intros Hin. apply list_elem_of_In, in_map_iff in Hin as (r' & Heq & Hr').
    apply filter_In in Hr' as [Hr' Hp]. apply list_elem_of_In in Hr'.
    assert (r' = r) as <-; [|done].
    clear Hp. induction l as [|x l IH]; [by apply elem_of_nil in Hr|].
    simpl in Hnd. apply NoDup_cons in Hnd as [Hx Hnd].
    apply elem_of_cons in Hr as [->|Hr], Hr' as [->|Hr']; try done.
    + exfalso. apply Hx. rewrite <- Heq. by apply (list_elem_of_fmap_2 fst).
    + exfalso. apply Hx. rewrite Heq. by apply (list_elem_of_fmap_2 fst).
    + by apply IH.
  - intros Hp. apply (list_elem_of_fmap_2 fst). by apply elem_of_filter_bool.
Qed.

Lemma filter_three_way {A} (p q : A → bool) (l : list A) :
  (∀ x, p x = true → q x = false) →
  l ≡ₚ List.filter p l ++ List.filter q l
       ++ List.filter (λ x, negb (p x) && negb (q x)) l.
Proof.
  intros Hpq. induction l as [|x l IH]; [done|]. simpl.
  destruct (p x) eqn:Hp; simpl.
  - rewrite (Hpq x Hp). simpl. by constructor.
  - destruct (q x); simpl.
    + rewrite IH at 1. by rewrite Permutation_middle.
    + rewrite IH at 1.
      by rewrite <- !Permutation_middle.
Qed.

Lemma record_type_exclusive (c : cell) :
  py_eq c (Str "observation") = true → py_eq c (Str "event") = false.
Proof.
  destruct c as [|s| |]; try done. simpl.
  intros Hs. apply String.eqb_eq in Hs as ->. done.
Qed.

Section PartitionShape.
Context `{Pandas}.

Lemma labels_observation_result d :
  labels (if df_empty d then empty_frame else observation_frame d)
  = map fst (record_rows d "observation").
Proof.
  destruct (df_empty d) eqn:He; [by rewrite record_rows_empty|].
  unfold observation_frame.
  destruct (has_column _ "observation_date"); [by rewrite labels_with_column|done].
Qed.

Lemma labels_event_result d :
  labels (if df_empty d then empty_frame else event_frame d)
  = map fst (record_rows d "event").
Proof.
  destruct (df_empty d) eqn:He; [by rewrite record_rows_empty|].
  unfold event_frame.
  destruct (has_column _ (picked_date_column d)); [|done].
  by rewrite !labels_with_column.
Qed.

(** Both calls in sequence, as the script makes them. *)
Lemma observations_then_events (σ : gmap positive DataFrame) l d :
  σ !! l = Some d →
  unified_table d = true →
  event_dates_refused d = false →
  ∃ σ1 lo σ2 le,
    get_observations l σ = (σ1, Ok lo)
    ∧ get_events l σ1 = (σ2, Ok le)
    ∧ σ2 !! l = Some d
    ∧ σ2 !! lo = Some (if df_empty d then empty_frame else observation_frame d)
    ∧ σ2 !! le = Some (if df_empty d then empty_frame else event_frame d).
Proof.
  intros Hl Hu Hacc.
  destruct (get_observations_run σ l d Hl Hu) as (σ1 & lo & Hrun1 & Hfresh1 & Hlo).
  pose proof (get_observations_preserves _ _ _ _ Hrun1) as Hp1.
  assert (Hl1 : σ1 !! l = Some d). { rewrite Hp1; [done|by rewrite Hl]. }
  destruct (get_events_run σ1 l d Hl1 Hu Hacc)
    as (σ2 & le & Hrun2 & Hfresh2 & Hle).
  pose proof (get_events_preserves _ _ _ _ Hrun2) as Hp2.
  exists σ1, lo, σ2, le. split; [done|]. split; [done|].
  split; [rewrite Hp2; [done|by rewrite Hl1]|].
  split; [rewrite Hp2; [done|by rewrite Hlo]|done].
Qed.

Lemma Forall2_map_self {A B} (R : A → B → Prop) (f : A → B) (l : list A) :
  (∀ x, x ∈ l → R x (f x)) → Forall2 R l (map f l).
Proof.
  induction l as [|x l IH]; intros HR; simpl; constructor.
  - apply HR. left.
  - apply IH. intros y Hy. apply HR. by right.
Qed.

Lemma rows_observation_result d :
  Forall2 (λ r r', r'.1 = r.1 ∧ ∀ c, c ≠ "year" → r'.2 !! c = r.2 !! c)
    (record_rows d "observation")
    (rows (if df_empty d then empty_frame else observation_frame d)).
Proof.
  destruct (df_empty d) eqn:He; [rewrite record_rows_empty by done; constructor|].
  unfold observation_frame.
  destruct (has_column _ "observation_date"); cbn [rows with_column record_frame].
  - apply Forall2_map_self. intros r _. split; [done|].
    intros c Hc. simpl. by rewrite lookup_insert_ne.
  - rewrite <- (map_id (record_rows d "observation")) at 2.
    apply Forall2_map_self. by intros r _.
Qed.

Lemma rows_event_result d :
  Forall2 (λ r r', r'.1 = r.1
                   ∧ ∀ c, c ≠ picked_date_column d → c ≠ "event_date_parsed" →
                          r'.2 !! c = r.2 !! c)
    (record_rows d "event")
    (rows (if df_empty d then empty_frame else event_frame d)).
Proof.
  destruct (df_empty d) eqn:He; [rewrite record_rows_empty by done; constructor|].
  unfold event_frame.
  destruct (has_column _ (picked_date_column d)); cbn [rows with_column record_frame].
  - rewrite map_map. apply Forall2_map_self. intros r _. split; [done|].
    intros c Hc1 Hc2. simpl. by rewrite !lookup_insert_ne.
  - rewrite <- (map_id (record_rows d "event")) at 2.
    apply Forall2_map_self. by intros r _.
Qed.

Lemma has_column_with_column df c f dt :
  has_column (with_column df c f dt) c = true.
Proof.
  unfold has_column. apply bool_decide_eq_true. unfold with_column. cbn [columns].
  unfold has_column. destruct (decide (c ∈ columns df)) as [Hin|Hout].
  - by rewrite bool_decide_eq_true_2.
  - rewrite bool_decide_eq_false_2 by done. apply elem_of_app. right. left.
Qed.

(** The parsed date of each event row, when the picked column exists. *)
Lemma event_date_parsed_rows d :
  has_column d (picked_date_column d) = true →
  has_column (event_frame d) "event_date_parsed" = true
  ∧ Forall2 (λ r r', cell_of "event_date_parsed" r'
                     = to_datetime_cell (cell_of (picked_date_column d) r))
      (record_rows d "event") (rows (event_frame d)).
Proof.
  intros Hc. unfold event_frame.
  change (has_column (record_frame d "event") (picked_date_column d))
    with (has_column d (picked_date_column d)).
  rewrite Hc. split.
  - apply has_column_with_column.
  - cbn [rows with_column record_frame]. rewrite map_map.
    apply Forall2_map_self. intros r _. unfold cell_of. simpl.
    by rewrite !lookup_insert_eq.
Qed.
End PartitionShape.

(** ** Running the loaders *)

Lemma try_run {S A} (m : State S A) (h : exn → State S A) σ :
  try_except m h σ = match m σ with
                     | (σ', Ok a) => (σ', Ok a)
                     | (σ', Raise e) => h e σ'
                     end.
Proof. reflexivity. Qed.

Lemma emit_run w page : emit w page = (page ++ [w], Ok ()).
Proof. reflexivity. Qed.

Section LoaderLemmas.
Context `{Pandas}.

Lemma load_unified_data_run fs page :
  load_unified_data fs page =
  match enriched_csv fs with
  | Some (Ok df) =>
      if has_column df "record_type"
      then if observation_dates_refused df
           then (page ++ [ErrorBox ("Error loading unified data: "
                                    +:+ str_of_exn ValueError)],
                 Ok (empty_frame, empty_frame))
           else (page, Ok (parsed_dates df, record_frame df "impact_link"))
      else (page ++ [ErrorBox ("Error loading unified data: "
                               +:+ str_of_exn (KeyError "record_type"))],
            Ok (empty_frame, empty_frame))
  | Some (Raise e) =>
      (page ++ [ErrorBox ("Error loading unified data: " +:+ str_of_exn e)],
       Ok (empty_frame, empty_frame))
  | None =>
      match workbook_main_sheet fs with
      | Ok df =>
          if observation_dates_refused df
          then (page ++ [ErrorBox ("Error loading unified data: "
                                   +:+ str_of_exn ValueError)],
                Ok (empty_frame, empty_frame))
          else (page, Ok (parsed_dates df,
                          match workbook_impact_sheet fs with
                          | Ok impact => impact
                          | Raise _ => empty_frame
                          end))
      | Raise e =>
          (page ++ [ErrorBox ("Error loading unified data: " +:+ str_of_exn e)],
           Ok (empty_frame, empty_frame))
      end
  end.
Proof.
  assert (Hparse : ∀ (df : DataFrame),
    (if has_column df "observation_date"
     then dates ← lift (getitem df "observation_date");
          parsed ← lift (to_datetime_coerce
                           (is_datetime64 df "observation_date") dates);
          lift (set_column df "observation_date" parsed true)
     else mret df) page
    = (page, if observation_dates_refused df then Raise ValueError
             else Ok (parsed_dates df))).
  { intros df. unfold parsed_dates, observation_dates_refused.
    destruct (has_column df "observation_date") eqn:Hc; [|done].
    rewrite bind_run, lift_run, (getitem_has _ _ Hc), bind_run, lift_run.
    unfold to_datetime_coerce. cbn [andb].
    destruct (negb (is_datetime64 df "observation_date") && _); [done|].
    rewrite lift_run, map_map.
    by rewrite (set_column_map df "observation_date"
                  (λ r, to_datetime_cell (cell_of "observation_date" r))). }
  unfold load_unified_data. rewrite try_run, bind_run.
  destruct (enriched_csv fs) as [[df|e]|].
  - rewrite bind_run, lift_run.
    destruct (has_column df "record_type") eqn:Hrt.
    + rewrite bind_run, lift_run, (getitem_has _ _ Hrt), ret_run.
      rewrite record_frame_mask by done.
      rewrite bind_run, Hparse. by destruct (observation_dates_refused df).
    + unfold getitem. by rewrite Hrt.
  - by rewrite bind_run, lift_run.
  - rewrite bind_run, lift_run.
    destruct (workbook_main_sheet fs) as [df|e]; [|done].
    rewrite bind_run, try_run, lift_run.
    destruct (workbook_impact_sheet fs) as [impact|e].
    + rewrite ret_run.
      cbn beta iota; rewrite bind_run, Hparse.
      by destruct (observation_dates_refused df).
    + rewrite !ret_run.
      cbn beta iota. rewrite bind_run, Hparse.
      by destruct (observation_dates_refused df).
Qed.

Lemma load_event_features_run fs page :
  load_event_features fs page =
  match event_features_csv fs with
  | None =>
      (page ++ [WarningBox "Event features not found. Run Task 3 notebook first."],
       Ok None)
  | Some (Ok df) => (page, Ok (Some df))
  | Some (Raise e) =>
      (page ++ [ErrorBox ("Error loading event features: " +:+ str_of_exn e)],
       Ok None)
  end.
Proof.
  unfold load_event_features. rewrite try_run.
  by destruct (event_features_csv fs) as [[df|e]|].
Qed.

Lemma load_event_matrix_run fs page :
  load_event_matrix fs page =
  match event_matrix_csv fs with
  | None =>
      (page ++ [WarningBox "Event matrix not found. Run Task 3 notebook first."],
       Ok None)
  | Some (Ok df) => (page, Ok (Some df))
  | Some (Raise e) =>
      (page ++ [ErrorBox ("Error loading event matrix: " +:+ str_of_exn e)],
       Ok None)
  end.
Proof.
  unfold load_event_matrix. rewrite try_run.
  by destruct (event_matrix_csv fs) as [[df|e]|].
Qed.

Lemma load_forecasts_run fs page :
  load_forecasts fs page =
  match forecast_long_csv fs with
  | None =>
      (page ++ [WarningBox "Forecast data not found. Run Task 4 notebook first."],
       Ok (None, None))
  | Some (Ok df_long) =>
      match forecast_wide_csv fs with
      | None => (page, Ok (Some df_long, None))
      | Some (Ok df_wide) => (page, Ok (Some df_long, Some df_wide))
      | Some (Raise e) =>
          (page ++ [ErrorBox ("Error loading forecasts: " +:+ str_of_exn e)],
           Ok (None, None))
      end
  | Some (Raise e) =>
      (page ++ [ErrorBox ("Error loading forecasts: " +:+ str_of_exn e)],
       Ok (None, None))
  end.
Proof.
  unfold load_forecasts. rewrite try_run.
  destruct (forecast_long_csv fs) as [[df|e]|]; try done.
  by destruct (forecast_wide_csv fs) as [[dw|e]|].
Qed.
End LoaderLemmas.

(** ** The tables the script passes on *)

Lemma has_column_with_column_other df c f dt c' :
  has_column df c' = true → has_column (with_column df c f dt) c' = true.
Proof.
  unfold has_column at 1 2, with_column. cbn [columns]. intros Hc.
  apply bool_decide_eq_true in Hc. apply bool_decide_eq_true.
  destruct (has_column df c); [done|]. apply elem_of_app. by left.
Qed.

Section TableLemmas.
Context `{Pandas}.

Lemma to_datetime_cell_datetime c : is_datetime (to_datetime_cell c) = true.
Proof. destruct c; simpl; try done; by destruct (parse_datetime _). Qed.

(** [load_unified_data] leaves a [datetime64] date column. *)
Lemma parsed_dates_datetime df :
  has_column df "observation_date" = true →
  datetime_column (parsed_dates df) "observation_date" = true.
Proof.
  intros Hc. unfold parsed_dates, datetime_column. rewrite Hc.
  apply forallb_forall. intros r Hr. cbn [rows with_column] in Hr.
  apply in_map_iff in Hr as (r0 & <- & _).
  unfold cell_of at 1. simpl. rewrite lookup_insert_eq. simpl.
  apply to_datetime_cell_datetime.
Qed.

(** A loaded table that has the discriminator column is a unified table. *)
Lemma loaded_table_unified fs page page' df_main df_impact :
  load_unified_data fs page = (page', Ok (df_main, df_impact)) →
  (df_empty df_main = false → has_column df_main "record_type" = true) →
  unified_table df_main = true.
Proof.
  rewrite load_unified_data_run. intros Hrun Hrt. unfold unified_table.
  destruct (df_empty df_main) eqn:He; [done|]. rewrite (Hrt eq_refl). simpl.
  assert (Hparsed : ∀ df, df_main = parsed_dates df →
            negb (has_column df_main "observation_date")
            || is_datetime64 df_main "observation_date"
               && datetime_column df_main "observation_date" = true).
  { intros df ->. destruct (has_column df "observation_date") eqn:Hc.
    - rewrite (parsed_dates_datetime df Hc). unfold parsed_dates. rewrite Hc.
      rewrite is_datetime64_with_column. apply orb_true_r.
    - unfold parsed_dates. rewrite Hc. by rewrite Hc. }
  destruct (enriched_csv fs) as [[df|e]|].
  - destruct (has_column df "record_type").
    + destruct (observation_dates_refused df).
      * injection Hrun as _ <- _. done.
      * injection Hrun as _ Hm _. by apply (Hparsed df).
    + injection Hrun as _ <- _. done.
  - injection Hrun as _ <- _. done.
  - destruct (workbook_main_sheet fs) as [df|e].
    + destruct (observation_dates_refused df).
      * injection Hrun as _ <- _. done.
      * injection Hrun as _ Hm _. by apply (Hparsed df).
    + injection Hrun as _ <- _. done.
Qed.

(** The observations of a unified table that has the observation columns
    form an observation table. *)
Lemma observation_frame_table d :
  unified_table d = true →
  has_column d "indicator_code" = true →
  has_column d "observation_date" = true →
  has_column d "value_numeric" = true →
  observation_table (if df_empty d then empty_frame else observation_frame d)
  = true.
Proof.
  intros Hu Hcode Hdate Hval. unfold unified_table in Hu.
  destruct (df_empty d) eqn:He; [done|]. rewrite orb_false_l in Hu.
  apply andb_prop in Hu as [_ Hdt]. rewrite Hdate in Hdt. simpl in Hdt.
  apply andb_prop in Hdt as [_ Hdt].
  unfold observation_table. apply orb_true_iff. right.
  unfold observation_frame.
  change (has_column (record_frame d "observation") "observation_date")
    with (has_column d "observation_date"). rewrite Hdate.
  rewrite !has_column_with_column_other by done. simpl.
  unfold datetime_column in *. rewrite forallb_forall in Hdt.
  apply forallb_forall. intros r Hr. cbn [rows with_column record_frame] in Hr.
  apply in_map_iff in Hr as (r0 & <- & Hr0).
  unfold cell_of at 1. simpl. rewrite lookup_insert_ne by done.
  apply Hdt. unfold record_rows in Hr0. by apply filter_In in Hr0 as [Hr0 _].
Qed.
End TableLemmas.

Ltac fail_soft :=
  repeat split; intros; try done;
  try (eexists; split; [|reflexivity]; reflexivity).


(** ** Zero is shown as absent *)

Section ZeroLemmas.
Context `{Pandas}.

Lemma overview_summary_unfold s :
  overview_summary s =
  overview_summary_of
    (get_latest_value (observations s) (Str "ACC_OWNERSHIP"))
    (get_latest_value (observations s) (Str "ACC_MM_ACCOUNT"))
    (get_latest_value (observations s) (Str "USG_DIGITAL_PAYMENT"))
    (get_forecast_value (forecast_long s) (Str "ACC_OWNERSHIP") (Num 2027) (Str "base"))
    (events s) (forecast_wide s).
Proof. reflexivity. Qed.

Lemma forecast_findings_unfold fl :
  forecast_findings fl =
  forecast_findings_of
    (get_forecast_value (Some fl) (Str "ACC_OWNERSHIP") (Num 2027) (Str "base"))
    (get_forecast_value (Some fl) (Str "USG_DIGITAL_PAYMENT") (Num 2027) (Str "base")).
Proof. reflexivity. Qed.

Lemma truthy_zero_as_absent v : truthy_opt (zero_as_absent v) = truthy_opt v.
Proof.
  destruct v as [[| |q|]|]; simpl; try done.
  destruct (Qeq_bool q 0) eqn:Hq; simpl; by rewrite ?Hq.
Qed.

Lemma zero_as_absent_truthy v : truthy_opt v = true → zero_as_absent v = v.
Proof.
  destruct v as [[| |q|]|]; simpl; try done.
  by destruct (Qeq_bool q 0).
Qed.

Lemma kpi_metric_zero label v :
  kpi_metric label (zero_as_absent v) = kpi_metric label v.
Proof.
  unfold kpi_metric. rewrite truthy_zero_as_absent.
  destruct (truthy_opt v) eqn:Ht; [|done]. by rewrite zero_as_absent_truthy.
Qed.

Lemma kpi_forecast_zero v : kpi_forecast (zero_as_absent v) = kpi_forecast v.
Proof.
  unfold kpi_forecast. rewrite truthy_zero_as_absent.
  destruct (truthy_opt v) eqn:Ht; [|done]. by rewrite zero_as_absent_truthy.
Qed.

Lemma insight_current_state_zero a m ev :
  insight_current_state (zero_as_absent a) (zero_as_absent m) ev
  = insight_current_state a m ev.
Proof.
  unfold insight_current_state. rewrite !truthy_zero_as_absent.
  destruct (truthy_opt a) eqn:Ha, (truthy_opt m) eqn:Hm; try done.
  by rewrite !zero_as_absent_truthy.
Qed.

Lemma insight_forecast_outlook_zero f fw :
  insight_forecast_outlook (zero_as_absent f) fw = insight_forecast_outlook f fw.
Proof.
  unfold insight_forecast_outlook. rewrite truthy_zero_as_absent.
  destruct (truthy_opt f) eqn:Ht; [|done]. by rewrite zero_as_absent_truthy.
Qed.

Lemma finding_access_zero v : finding_access (zero_as_absent v) = finding_access v.
Proof.
  unfold finding_access. rewrite truthy_zero_as_absent.
  destruct (truthy_opt v) eqn:Ht; [|done]. by rewrite zero_as_absent_truthy.
Qed.

Lemma finding_usage_zero v : finding_usage (zero_as_absent v) = finding_usage v.
Proof.
  unfold finding_usage. rewrite truthy_zero_as_absent.
  destruct (truthy_opt v) eqn:Ht; [|done]. by rewrite zero_as_absent_truthy.
Qed.

Lemma bind_ext {S A B} (m : State S A) (f g : A → State S B) σ :
  (∀ a σ', f a σ' = g a σ') → (m ≫= f) σ = (m ≫= g) σ.
Proof.
  intros Hfg. rewrite !bind_run. destruct (m σ) as [σ' [a|e]]; [apply Hfg|done].
Qed.

(** A column block that shows a looked-up value and hands it on. *)
Lemma block_zero {B} c (show : option cell → UI unit) v
    (k k' : option cell → UI B) page :
  show (zero_as_absent v) = show v →
  (∀ page', k (zero_as_absent v) page' = k' v page') →
  (within c (latest ← lift (Ok (zero_as_absent v)); show latest;; mret latest)
   ≫= k) page
  = (within c (latest ← lift (Ok v); show latest;; mret latest) ≫= k') page.
Proof.
  intros Hshow Hk. rewrite !bind_run. unfold within.
  rewrite !bind_run, !lift_run. cbn beta iota. rewrite !bind_run, Hshow.
  destruct (show v []) as [inner [[]|e]]; [|done].
  rewrite !ret_run. apply Hk.
Qed.

(** A column block that only shows a looked-up value. *)
Lemma block_zero_shown {B} c (show : option cell → UI unit) v
    (k k' : unit → UI B) page :
  show (zero_as_absent v) = show v →
  (∀ page', k () page' = k' () page') →
  (within c (latest ← lift (Ok (zero_as_absent v)); show latest) ≫= k) page
  = (within c (latest ← lift (Ok v); show latest) ≫= k') page.
Proof.
  intros Hshow Hk. rewrite !bind_run. unfold within.
  rewrite !bind_run, !lift_run. cbn beta iota. rewrite Hshow.
  destruct (show v []) as [inner [[]|e]]; [|done]. apply Hk.
Qed.

Lemma overview_summary_of_zero r1 r2 r3 r4 ev fw page :
  overview_summary_of (zero_as_absent <$> r1) (zero_as_absent <$> r2)
                      (zero_as_absent <$> r3) (zero_as_absent <$> r4) ev fw page
  = overview_summary_of r1 r2 r3 r4 ev fw page.
Proof.
  unfold overview_summary_of.
  apply bind_ext. intros _ p1.
  destruct r1 as [v1|e1]; [|reflexivity]. cbn [fmap result_fmap].
  apply block_zero; [apply kpi_metric_zero|]. intros p2.
  destruct r2 as [v2|e2]; [|reflexivity]. cbn [fmap result_fmap].
  apply block_zero; [apply kpi_metric_zero|]. intros p3.
  destruct r3 as [v3|e3]; [|reflexivity]. cbn [fmap result_fmap].
  apply block_zero_shown; [apply kpi_metric_zero|]. intros p4.
  destruct r4 as [v4|e4]; [|reflexivity]. cbn [fmap result_fmap].
  apply block_zero; [apply kpi_forecast_zero|]. intros p5.
  by rewrite insight_current_state_zero, insight_forecast_outlook_zero.
Qed.

Lemma forecast_findings_of_zero r1 r2 page :
  forecast_findings_of (zero_as_absent <$> r1) (zero_as_absent <$> r2) page
  = forecast_findings_of r1 r2 page.
Proof.
  unfold forecast_findings_of.
  do 4 (apply bind_ext; intros _ ?).
  destruct r1 as [v1|e1]; [|reflexivity]. cbn [fmap result_fmap].
  rewrite !(bind_run (lift _)), !lift_run, finding_access_zero.
  apply bind_ext. intros _ ?.
  destruct r2 as [v2|e2]; [|reflexivity]. cbn [fmap result_fmap].
  rewrite !(bind_run (lift _)), !lift_run. by rewrite finding_usage_zero.
Qed.
End ZeroLemmas.

(** ** Sorting in general *)

Lemma homogeneous_kind (k : kind) (s : list cell) :
  Forall (λ c, kind_of c = Some k) s → homogeneous s = true.
Proof.
  unfold homogeneous. intros Hs.
  assert (Hk : Forall (λ k', k' = k) (omap kind_of s)).
  { induction Hs as [|c s Hc _ IH]; simpl; [constructor|].
    rewrite Hc. by constructor. }
  destruct (omap kind_of s) as [|k0 ks]; [done|].
  inversion Hk as [|?? -> Hks]; subst.
  apply forallb_forall. intros k' Hk'.
  apply list_elem_of_In in Hk'.
  rewrite Forall_forall in Hks. rewrite (Hks k' Hk'). by apply bool_decide_eq_true.
Qed.

Lemma filter_split {A} (p : A → bool) (l : list A) :
  List.filter p l ++ List.filter (λ x, negb (p x)) l ≡ₚ l.
Proof.
  induction l as [|x l IH]; [done|]. simpl. destruct (p x); simpl.
  - by rewrite IH.
  - by rewrite <- Permutation_middle, IH.
Qed.

Section SortLemmas.
Context `{Pandas}.

Lemma sort_values_kind (k : kind) df c :
  has_column df c = true →
  Forall (λ r, kind_of (cell_of c r) = Some k) (rows df) →
  sort_values df c =
  Ok {| columns := columns df; rows := sort_by (by_column c) (rows df);
     datetime64 := datetime64 df |}.
Proof.
  intros Hc Hd. unfold sort_values. rewrite Hc.
  assert (Hnotna : ∀ r, r ∈ rows df → notna (cell_of c r) = true).
  { rewrite Forall_forall in Hd. intros r Hr. specialize (Hd r Hr).
    by destruct (cell_of c r). }
  rewrite (filter_all (λ r, notna (cell_of c r))) by done.
  rewrite (filter_none (λ r, isna (cell_of c r))).
  2:{ intros r Hr. specialize (Hnotna r Hr). by destruct (cell_of c r). }
  rewrite (homogeneous_kind k).
  2:{ apply Forall_map. eapply Forall_impl; [exact Hd|]. done. }
  by rewrite app_nil_r.
Qed.
End SortLemmas.

Section SortPerm.
Context `{PandasLaws}.

(** Sorting keeps the columns and rearranges the rows. *)
Lemma sort_values_perm df c df' :
  sort_values df c = Ok df' →
  has_column df c = true ∧ columns df' = columns df ∧ rows df' ≡ₚ rows df.
Proof.
  unfold sort_values. destruct (has_column df c); [|done].
  destruct (homogeneous _); [|done]. intros [= <-]. cbn [columns rows].
  split; [done|]. split; [done|].
  rewrite sort_perm.
  rewrite <- (filter_split (λ r, notna (cell_of c r)) (rows df)) at 3.
  apply Permutation_app_head.
  erewrite filter_ext; [done|]. intros r. unfold notna. by rewrite negb_involutive.
Qed.
End SortPerm.

(** ** Dates of the forecast years *)

Section DateLemmas.
Context `{Pandas}.

Lemma to_datetime_raise_ok (s : list cell) :
  Forall (λ c, is_Some (parse_datetime c)) s →
  ∃ ds, to_datetime_raise s = Ok ds.
Proof.
  induction 1 as [|c s [t Ht] _ [ds IH]]; [by eexists|].
  simpl. rewrite IH.
  destruct c; try rewrite Ht; by eexists.
Qed.

Lemma forecast_dates_ok (l : list (Z * Row)) :
  Forall (λ r, is_Some (parse_datetime
                          (Str (str_of_cell (cell_of "year" r) +:+ "-01-01")))) l →
  ∃ ds, to_datetime_raise (astype_str_plus (map (cell_of "year") l) "-01-01")
        = Ok ds.
Proof.
  intros Hl. apply to_datetime_raise_ok.
  unfold astype_str_plus. rewrite map_map. by apply Forall_map.
Qed.
End DateLemmas.

(** ** The figure of the Forecasts page *)

Lemma Forall_filter_bool {A} (P : A → Prop) (p : A → bool) (l : list A) :
  Forall P l → Forall P (List.filter p l).
Proof.
  rewrite !Forall_forall. intros HP x Hx.
  apply elem_of_filter_bool in Hx as [Hx _]. by apply HP.
Qed.

Section FigureLemmas.
Context `{PandasLaws}.

Lemma forecast_rows_readable fl :
  forecast_long_table fl = true → years_readable fl = true →
  Forall readable_year (rows fl).
Proof.
  unfold forecast_long_table, years_readable. intros Ht Hy.
  apply andb_prop in Ht as [_ Ht].
  rewrite forallb_forall in Ht, Hy. apply Forall_forall. intros r Hr.
  apply list_elem_of_In in Hr. specialize (Ht r Hr). specialize (Hy r Hr).
  apply andb_prop in Ht as [Ht _]. split; [done|].
  by destruct (parse_datetime _).
Qed.

Lemma scenario_trace_shape fd sc :
  has_column fd "scenario" = true → has_column fd "year" = true →
  has_column fd "forecast_value" = true →
  Forall readable_year (rows fd) →
  ∃ ts, scenario_trace fd sc = Ok ts
        ∧ Forall (λ t, trace_name t = capitalize sc
                       ∧ trace_style t =
                           [("line.color", colors_get sc); ("line.width", "2");
                            ("line.dash", "dash"); ("marker.size", "8");
                            ("marker.symbol", "triangle-up")]) ts.
Proof.
  intros Hsc Hyear Hval Hrows. unfold scenario_trace.
  rewrite (getitem_has _ _ Hsc), bind_Ok, getitem_mask_eq.
  set (sel := List.filter _ (rows fd)).
  assert (Hsel : Forall readable_year sel) by by apply Forall_filter_bool.
  rewrite (sort_values_kind KNum); [|done|].
  2:{ cbn [rows]. eapply Forall_impl; [exact Hsel|]. intros r [Hn _].
      by destruct (cell_of "year" r). }
  rewrite bind_Ok. cbn [rows columns].
  set (sorted := sort_by (by_column "year") sel).
  destruct (df_empty _); cbn [negb]; [eexists; split; [done|constructor]|].
  rewrite (getitem_has {| columns := columns fd; rows := sorted;
                          datetime64 := _ |} "year" Hyear).
  rewrite bind_Ok. cbn [rows].
  destruct (forecast_dates_ok sorted) as [ds ->].
  { eapply Forall_impl; [unfold sorted; rewrite sort_perm; exact Hsel|].
    by intros r [_ Hp]. }
  rewrite bind_Ok.
  rewrite (getitem_has {| columns := columns fd; rows := sorted;
                          datetime64 := _ |} "forecast_value" Hval).
  rewrite bind_Ok.
  eexists. split; [done|]. by repeat constructor.
Qed.

Lemma scenario_traces_no_band fd :
  has_column fd "scenario" = true → has_column fd "year" = true →
  has_column fd "forecast_value" = true →
  Forall readable_year (rows fd) →
  ∃ ts, scenario_traces fd ["base"; "optimistic"; "pessimistic"] = Ok ts
        ∧ Forall (λ t, band_trace t = false) ts.
Proof.
  intros Hsc Hyear Hval Hrows. cbn [scenario_traces].
  destruct (scenario_trace_shape fd "base" Hsc Hyear Hval Hrows) as (t1 & -> & H1).
  destruct (scenario_trace_shape fd "optimistic" Hsc Hyear Hval Hrows)
    as (t2 & -> & H2).
  destruct (scenario_trace_shape fd "pessimistic" Hsc Hyear Hval Hrows)
    as (t3 & -> & H3).
  rewrite !bind_Ok. eexists. split; [done|].
  rewrite app_nil_r, !Forall_app.
  split; [|split]; (eapply Forall_impl; [eassumption|]);
    intros t [Hn Hs]; unfold band_trace; by rewrite Hn, Hs.
Qed.

Lemma historical_trace_no_band obs code :
  observation_table obs = true →
  ∃ series ts,
    get_indicator_series obs code = Ok series
    ∧ historical_trace series = Ok ts
    ∧ Forall (λ t, band_trace t = false) ts.
Proof.
  intros Hobs. destruct (df_empty obs) eqn:He.
  - destruct (get_indicator_series_empty obs code He) as [-> _].
    eexists _, _. split; [done|]. split; [done|constructor].
  - rewrite (get_indicator_series_rows obs code He Hobs).
    unfold observation_table in Hobs. rewrite He, orb_false_l in Hobs.
    apply andb_prop in Hobs as [Hobs Hdt].
    apply andb_prop in Hobs as [Hobs Hval].
    apply andb_prop in Hobs as [Hcode Hdate].
    set (series := Build_DataFrame _ _ _).
    assert (Hd' : has_column series "observation_date" = true) by exact Hdate.
    assert (Hv' : has_column series "value_numeric" = true) by exact Hval.
    exists series. unfold historical_trace.
    destruct (df_empty series); cbn [negb];
      [eexists; split; [done|]; split; [done|constructor]|].
    rewrite (getitem_has _ _ Hd'), bind_Ok, (getitem_has _ _ Hv'), bind_Ok.
    eexists. split; [done|]. split; [done|].
    constructor; [reflexivity|constructor].
Qed.

Lemma forecast_figure_no_band s fl sel :
  forecast_wide s = None →
  observation_table (observations s) = true →
  forecast_long_table fl = true →
  years_readable fl = true →
  ∃ fig, forecast_figure s fl sel = Ok fig
         ∧ Forall (λ t, band_trace t = false) (traces fig).
Proof.
  intros Hw Hobs Ht Hy. unfold forecast_figure.
  destruct (historical_trace_no_band (observations s) sel Hobs)
    as (series & hs & -> & Hh & Hhs).
  rewrite bind_Ok.
  pose proof (forecast_rows_readable fl Ht Hy) as Hrows.
  unfold forecast_long_table in Ht.
  apply andb_prop in Ht as [Ht _].
  apply andb_prop in Ht as [Ht Hval].
  apply andb_prop in Ht as [Ht Hscen].
  apply andb_prop in Ht as [Hcode Hyear].
  rewrite (getitem_has _ _ Hcode), bind_Ok, getitem_mask_eq, Hh, bind_Ok.
  destruct (scenario_traces_no_band
              {| columns := columns fl;
                 rows := List.filter (λ r, py_eq (cell_of "indicator_code" r) sel)
                           (rows fl);
                 datetime64 := datetime64 fl |})
    as (ls & -> & Hls); try done.
  { cbn [rows]. by apply Forall_filter_bool. }
  rewrite bind_Ok, Hw. cbn [uncertainty_band]. rewrite bind_Ok.
  eexists. split; [done|]. cbn [traces].
  rewrite app_nil_r. by apply Forall_app.
Qed.
End FigureLemmas.

(** ** Pages that do not raise *)

Lemma runs_ret {A} (a : A) : runs (mret a) [] a.
Proof. intros page. by rewrite app_nil_r. Qed.

Lemma runs_lift {A} (a : A) : runs (lift (Ok a)) [] a.
Proof. intros page. by rewrite app_nil_r. Qed.

Lemma runs_emit w : runs (emit w) [w] ().
Proof. by intros page. Qed.

Lemma runs_bind {A B} (m : UI A) (f : A → UI B) o1 o2 a b :
  runs m o1 a → runs (f a) o2 b → runs (m ≫= f) (o1 ++ o2) b.
Proof.
  intros Hm Hf page. rewrite bind_run, Hm, Hf. by rewrite app_assoc.
Qed.

Lemma chart_traces_app p1 p2 :
  chart_traces (p1 ++ p2) = chart_traces p1 ++ chart_traces p2.
Proof. unfold chart_traces. by rewrite flat_map_app. Qed.

Ltac emits :=
  repeat (eapply runs_bind; [apply runs_emit|]; cbn beta).

Section PageLemmas.
Context `{PandasLaws}.

Lemma finding_access_runs v :
  (∀ c, v = Some c → is_numeric c = true) →
  ∃ out, runs (finding_access v) out () ∧ chart_traces out = [].
Proof.
  intros Hv. unfold finding_access.
  destruct v as [c|]; [|eexists; split; [apply runs_ret|done]].
  specialize (Hv c eq_refl). destruct c as [| |q|]; try done; cbn [truthy_opt truthy].
  - eexists. split.
    { eapply runs_bind; [apply runs_lift|].
      eapply runs_bind; [apply runs_emit|].
      eapply runs_bind; [apply runs_lift|].
      eapply runs_bind; [apply runs_lift|]. apply runs_emit. }
    reflexivity.
  - destruct (Qeq_bool q 0); cbn [negb]; [eexists; split; [apply runs_ret|done]|].
    destruct (Qle_bool (60 - q) 0) eqn:Hgap.
    + eexists. split.
      { eapply runs_bind; [apply runs_lift|].
        eapply runs_bind; [apply runs_emit|].
        eapply runs_bind; [apply runs_lift|].
        eapply runs_bind; [unfold py_gt0; rewrite Hgap; apply runs_lift|].
        apply runs_emit. }
      reflexivity.
    + eexists. split.
      { eapply runs_bind; [apply runs_lift|].
        eapply runs_bind; [apply runs_emit|].
        eapply runs_bind; [apply runs_lift|].
        eapply runs_bind; [unfold py_gt0; rewrite Hgap; apply runs_lift|].
        eapply runs_bind; [apply runs_lift|]. apply runs_emit. }
      reflexivity.
Qed.

Lemma finding_usage_runs v :
  (∀ c, v = Some c → is_numeric c = true) →
  ∃ out, runs (finding_usage v) out () ∧ chart_traces out = [].
Proof.
  intros Hv. unfold finding_usage.
  destruct v as [c|]; [|eexists; split; [apply runs_ret|done]].
  specialize (Hv c eq_refl). destruct c as [| |q|]; try done; cbn [truthy_opt truthy].
  - eexists. split.
    { eapply runs_bind; [apply runs_lift|]. apply runs_emit. }
    reflexivity.
  - destruct (Qeq_bool q 0); cbn [negb]; [eexists; split; [apply runs_ret|done]|].
    eexists. split.
    { eapply runs_bind; [apply runs_lift|]. apply runs_emit. }
    reflexivity.
Qed.

(** A forecast lookup on a long-form table returns a number or nothing. *)
Lemma get_forecast_value_numeric fl indicator year scenario :
  forecast_long_table fl = true →
  ∃ v, get_forecast_value (Some fl) indicator year scenario = Ok v
       ∧ ∀ c, v = Some c → is_numeric c = true.
Proof.
  intros Ht.
  assert (Htable : forecast_table (Some fl) = true).
  { unfold forecast_long_table in Ht. unfold forecast_table.
    apply andb_prop in Ht as [Ht _]. rewrite Ht. apply orb_true_r. }
  rewrite (get_forecast_value_head _ _ _ _ Htable).
  eexists. split; [done|]. intros c Hc.
  unfold forecast_matches in Hc.
  destruct (List.filter _ (rows fl)) as [|r l] eqn:Hf; [done|].
  injection Hc as <-.
  assert (Hr : r ∈ rows fl).
  { eapply (elem_of_filter_bool (forecast_match fl indicator year scenario)).
    rewrite Hf. left. }
  unfold forecast_long_table in Ht. apply andb_prop in Ht as [Hcols Ht].
  apply andb_prop in Hcols as [_ Hval].
  rewrite forallb_forall in Ht. apply list_elem_of_In in Hr.
  specialize (Ht r Hr). apply andb_prop in Ht as [_ Ht].
  by rewrite frame_cell_has.
Qed.

Lemma forecast_findings_runs fl :
  forecast_long_table fl = true →
  ∃ out, runs (forecast_findings fl) out () ∧ chart_traces out = [].
Proof.
  intros Ht. unfold forecast_findings.
  destruct (get_forecast_value_numeric fl (Str "ACC_OWNERSHIP") (Num 2027)
              (Str "base") Ht) as (a & -> & Ha).
  destruct (get_forecast_value_numeric fl (Str "USG_DIGITAL_PAYMENT") (Num 2027)
              (Str "base") Ht) as (u & -> & Hu).
  destruct (finding_access_runs a Ha) as (oa & Hoa & Hca).
  destruct (finding_usage_runs u Hu) as (ou & Hou & Hcu).
  eexists. split.
  { unfold st_markdown, st_subheader, st_write. emits.
    eapply runs_bind; [apply runs_lift|].
    eapply runs_bind; [exact Hoa|].
    eapply runs_bind; [apply runs_lift|].
    eapply runs_bind; [exact Hou|].
    emits. apply runs_emit. }
  rewrite !chart_traces_app, Hca, Hcu. reflexivity.
Qed.

Lemma forecast_comparison_runs s fl :
  forecast_wide s = None →
  observation_table (observations s) = true →
  forecast_long_table fl = true →
  years_readable fl = true →
  ∃ out,
    runs (forecast_comparison s fl) out ()
    ∧ Forall (λ t, band_trace t = false) (chart_traces out)
    ∧ ∀ sel,
        selectbox_value (unique (map (cell_of "indicator_code") (rows fl)))
          (indicator_pick s) = Some sel →
        truthy sel = true →
        ∃ fig, forecast_figure s fl sel = Ok fig ∧ PlotlyChart fig ∈ out.
Proof.
  intros Hw Hobs Ht Hy. unfold forecast_comparison.
  assert (Hcode : has_column fl "indicator_code" = true).
  { unfold forecast_long_table in Ht. by repeat apply andb_prop in Ht as [Ht _]. }
  rewrite (getitem_has _ _ Hcode).
  destruct (selectbox_value (unique (map (cell_of "indicator_code") (rows fl)))
              (indicator_pick s)) as [sel|] eqn:Hsel.
  - destruct (truthy sel) eqn:Htr.
    + destruct (forecast_figure_no_band s fl sel Hw Hobs Ht Hy) as (fig & Hfig & Hnb).
      eexists. split; [|split].
      { unfold st_subheader, st_selectbox. emits.
        eapply runs_bind; [apply runs_lift|].
        eapply runs_bind.
        { eapply runs_bind; [apply runs_emit|]. apply runs_ret. }
        rewrite Hsel, Htr, Hfig.
        eapply runs_bind; [apply runs_lift|]. apply runs_emit. }
      { simpl. by rewrite app_nil_r. }
      intros sel' [= <-] _. exists fig. split; [done|].
      rewrite !elem_of_app. right. right. right. right. left.
    + eexists. split; [|split].
      { unfold st_subheader, st_selectbox. emits.
        eapply runs_bind; [apply runs_lift|].
        eapply runs_bind.
        { eapply runs_bind; [apply runs_emit|]. apply runs_ret. }
        rewrite Hsel, Htr. apply runs_ret. }
      { simpl. constructor. }
      intros sel' [= <-] Htr'. congruence.
  - eexists. split; [|split].
    { unfold st_subheader, st_selectbox. emits.
      eapply runs_bind; [apply runs_lift|].
      eapply runs_bind.
      { eapply runs_bind; [apply runs_emit|]. apply runs_ret. }
      rewrite Hsel. apply runs_ret. }
    { simpl. constructor. }
    intros sel' Hs. discriminate Hs.
Qed.
End PageLemmas.

(** ** The scenario filter *)

Lemma getitem_Ok df c s :
  getitem df c = Ok s → has_column df c = true ∧ s = map (cell_of c) (rows df).
Proof. unfold getitem. destruct (has_column df c); [|done]. by intros [= <-]. Qed.

Lemma bind_Ok_inv {A B} (m : result A) (f : A → result B) b :
  m ≫= f = Ok b → ∃ a, m = Ok a ∧ f a = Ok b.
Proof. destruct m as [a|e]; [|done]. intros Hf. by exists a. Qed.

Section ScenarioLemmas.
Context `{PandasLaws}.

(** The forecast trace of the Overview chart holds the values of the rows
    of the selected scenario. *)
Lemma overview_forecast_trace_rows fl sc f :
  overview_forecast_trace (Some fl) sc = Ok f →
  Forall (λ t,
            trace_name t = "Forecast (" +:+ scenario_name sc +:+ ")"
            ∧ trace_y t ≡ₚ
                map (cell_of "forecast_value")
                    (List.filter
                       (λ r, py_eq (cell_of "indicator_code" r) (Str "ACC_OWNERSHIP")
                             && py_eq (cell_of "scenario" r)
                                      (Str (scenario_name sc)))
                       (rows fl))) f.
Proof.
  unfold overview_forecast_trace. intros Hf.
  apply bind_Ok_inv in Hf as (codes & Hcodes & Hf).
  apply getitem_Ok in Hcodes as [Hcode ->].
  apply bind_Ok_inv in Hf as (scens & Hscens & Hf).
  apply getitem_Ok in Hscens as [Hscen ->].
  rewrite !series_eq_column, mask_and_map in Hf.
  unfold getitem_mask in Hf. rewrite select_map in Hf.
  apply bind_Ok_inv in Hf as (fa & Hsort & Hf).
  apply sort_values_perm in Hsort as (Hyear & Hcols & Hperm). cbn [rows columns] in *.
  destruct (df_empty fa); cbn [negb] in Hf; [injection Hf as <-; constructor|].
  apply bind_Ok_inv in Hf as (years & _ & Hf).
  apply bind_Ok_inv in Hf as (dates & _ & Hf).
  apply bind_Ok_inv in Hf as (values & Hvalues & Hf).
  apply getitem_Ok in Hvalues as [_ ->].
  injection Hf as <-. constructor; [|constructor]. cbn [trace_name trace_y].
  split; [done|]. by apply Permutation_map.
Qed.


End ScenarioLemmas.

(** ** The lines of the scenario chart *)

Section LineLemmas.
Context `{PandasLaws}.




End LineLemmas.

(** * Further properties of the code *)

(** ** The series of an indicator, whatever the table *)

Lemma filter_in_series obs code :
  series_columns obs = true →
  List.filter
    (λ r, forallb (λ c, notna (cell_of c r)) ["observation_date"; "value_numeric"])
    (List.filter (λ r, py_eq (cell_of "indicator_code" r) code) (rows obs))
  = List.filter (in_series obs code) (rows obs).
Proof.
  unfold series_columns. intros Hc.
  apply andb_prop in Hc as [Hc Hval]. apply andb_prop in Hc as [Hcode Hdate].
  rewrite filter_filter. apply filter_ext. intros r. unfold in_series.
  rewrite !frame_cell_has by done. simpl.
  by rewrite andb_true_r, andb_assoc.
Qed.

Lemma in_series_notna obs code r :
  series_columns obs = true → in_series obs code r = true →
  notna (cell_of "observation_date" r) = true
  ∧ notna (cell_of "value_numeric" r) = true.
Proof.
  unfold series_columns. intros Hc.
  apply andb_prop in Hc as [Hc Hval]. apply andb_prop in Hc as [Hcode Hdate].
  unfold in_series. rewrite !frame_cell_has by done.
  intros Hin. apply andb_prop in Hin as [Hin Hv]. by apply andb_prop in Hin as [_ Hd].
Qed.


Section SeriesOutcome.
Context `{Pandas}.

(** What [get_indicator_series] does on a table with rows, case by case. *)
Lemma get_indicator_series_cases obs code :
  df_empty obs = false →
  get_indicator_series obs code =
  if has_column obs "indicator_code" then
    if has_column obs "observation_date" then
      if has_column obs "value_numeric" then
        if homogeneous (series_dates obs code) then
          Ok {| columns := columns obs;
                rows := sort_by (by_column "observation_date")
                          (List.filter (in_series obs code) (rows obs));
                datetime64 := datetime64 obs |}
        else Raise TypeError
      else Raise (KeyError "value_numeric")
    else Raise (KeyError "observation_date")
  else Raise (KeyError "indicator_code").
Proof.
  intros Hne. unfold get_indicator_series. rewrite Hne.
  unfold getitem at 1.
  destruct (has_column obs "indicator_code") eqn:Hcode; [|done].
  rewrite bind_Ok, getitem_mask_eq.
  assert (Hsame : ∀ l c,
    has_column {| columns := columns obs; rows := l;
     datetime64 := datetime64 obs |} c = has_column obs c) by done.
  destruct (has_column obs "observation_date") eqn:Hdate.
  2:{ unfold dropna. cbn [List.find]. by rewrite Hsame, Hdate. }
  destruct (has_column obs "value_numeric") eqn:Hval.
  2:{ unfold dropna. cbn [List.find]. by rewrite !Hsame, Hdate, Hval. }
  rewrite dropna_has.
  2:{ cbn [forallb]. by rewrite !Hsame, Hdate, Hval. }
  rewrite bind_Ok. cbn [rows columns].
  rewrite filter_in_series by (unfold series_columns; by rewrite Hcode, Hdate, Hval).
  unfold sort_values. rewrite Hsame, Hdate. cbn [rows columns].
  rewrite (filter_all (λ r, notna (cell_of "observation_date" r))).
  2:{ intros r Hr. apply elem_of_filter_bool in Hr as [_ Hin].
      eapply in_series_notna; [|exact Hin].
      unfold series_columns. by rewrite Hcode, Hdate, Hval. }
  rewrite (filter_none (λ r, isna (cell_of "observation_date" r))).
  2:{ intros r Hr. apply elem_of_filter_bool in Hr as [_ Hin].
      eapply in_series_notna in Hin as [Hd _];
        [|unfold series_columns; by rewrite Hcode, Hdate, Hval].
      unfold notna in Hd. by destruct (isna _). }
  fold (series_dates obs code).
  destruct (homogeneous (series_dates obs code)); [|done].
  by rewrite bind_Ok, app_nil_r.
Qed.
End SeriesOutcome.

Section SeriesInversion.
Context `{PandasLaws}.

End SeriesInversion.

(** ** The partition, whatever the table *)

Lemma forallb_map_comp {A B} (f : B → bool) (g : A → B) (l : list A) :
  forallb f (map g l) = forallb (λ x, f (g x)) l.
Proof. induction l as [|x l IH]; simpl; [done|]. by rewrite IH. Qed.

Section PartitionOutcome.
Context `{Pandas}.

Lemma partition_needs_record_type (σ : gmap positive DataFrame) l d :
  σ !! l = Some d → df_empty d = false → has_column d "record_type" = false →
  get_observations l σ = (σ, Raise (KeyError "record_type"))
  ∧ get_events l σ = (σ, Raise (KeyError "record_type")).
Proof.
  intros Hl He Hrt. unfold get_observations, get_events.
  rewrite !bind_run, deref_run, Hl, He, !bind_run, lift_run.
  unfold getitem. by rewrite Hrt.
Qed.

(** [get_observations] on a table with rows and a [record_type]. *)
Lemma get_observations_outcome (σ : gmap positive DataFrame) l d :
  σ !! l = Some d → df_empty d = false → has_column d "record_type" = true →
  if observation_dates_parsed d then
    ∃ σ' l',
      get_observations l σ = (σ', Ok l')
      ∧ σ !! l' = None
      ∧ σ' !! l' = Some (observation_frame d)
  else ∃ σ', get_observations l σ = (σ', Raise AttributeError).
Proof.
  intros Hl He Hrt. unfold get_observations. rewrite bind_run, deref_run, Hl, He.
  rewrite bind_run, lift_run, (getitem_has _ _ Hrt).
  unfold select_rows, copy.
  rewrite !bind_run, deref_run, Hl, new_frame_run.
  rewrite !bind_run, deref_run, lookup_insert_eq, new_frame_run.
  rewrite !bind_run, deref_run, lookup_insert_eq.
  rewrite (record_frame_mask _ _ Hrt).
  set (sel := record_frame d "observation").
  pose proof (second_fresh σ sel) as Hl2.
  set (σ1 := <[fresh (dom σ) := sel]> σ) in *.
  set (l2 := fresh (dom σ1)) in *.
  unfold observation_frame, observation_dates_parsed. fold sel.
  change (has_column sel "observation_date")
    with (has_column d "observation_date").
  destruct (has_column d "observation_date") eqn:Hdate; cbn [negb orb].
  - change (has_column d "observation_date")
      with (has_column sel "observation_date") in Hdate.
    rewrite !bind_run, lift_run, (getitem_has _ _ Hdate).
    rewrite !bind_run, lift_run.
    unfold dt_year_series.
    change (is_datetime64 sel "observation_date")
      with (is_datetime64 d "observation_date").
    destruct (is_datetime64 d "observation_date") eqn:Hd.
    + rewrite map_map. unfold setitem. rewrite lookup_insert_eq.
      rewrite (set_column_map sel "year"
                 (λ r, year_cell (cell_of "observation_date" r))).
      cbn beta iota. rewrite ret_run.
      eexists _, _. split; [done|]. split; [done|apply lookup_insert_eq].
    + by eexists.
  - rewrite bind_run, ret_run. cbn beta iota. rewrite ret_run.
    eexists _, _. split; [done|]. split; [done|apply lookup_insert_eq].
Qed.

(** [get_events] on a table with rows and a [record_type]. *)
Lemma get_events_outcome (σ : gmap positive DataFrame) l d :
  σ !! l = Some d → df_empty d = false → has_column d "record_type" = true →
  if event_dates_refused d then
    ∃ σ', get_events l σ = (σ', Raise ValueError)
  else
    ∃ σ' l',
      get_events l σ = (σ', Ok l')
      ∧ σ !! l' = None
      ∧ σ' !! l' = Some (event_frame d).
Proof.
  intros Hl He Hrt.
  destruct (get_events_cases σ l d Hl He Hrt) as (σ' & _ & Hrun).
  destruct (event_dates_refused d).
  - by exists σ'.
  - destruct Hrun as (l' & Hrun). by exists σ', l'.
Qed.
End PartitionOutcome.

(** ** The loaded table *)

Section LoadedTable.
Context `{Pandas}.

Lemma parsed_dates_columns df : columns (parsed_dates df) = columns df.
Proof.
  unfold parsed_dates. destruct (has_column df "observation_date") eqn:Hc; [|done].
  unfold with_column. cbn [columns]. by rewrite Hc.
Qed.

Lemma parsed_dates_has_column df c :
  has_column (parsed_dates df) c = has_column df c.
Proof. unfold has_column. by rewrite parsed_dates_columns. Qed.

Lemma parsed_dates_labels df : labels (parsed_dates df) = labels df.
Proof.
  unfold parsed_dates. destruct (has_column df "observation_date"); [|done].
  apply labels_with_column.
Qed.

Lemma parsed_dates_empty df : df_empty (parsed_dates df) = df_empty df.
Proof.
  unfold df_empty. rewrite parsed_dates_columns.
  destruct (columns df); [done|].
  unfold parsed_dates. destruct (has_column df "observation_date"); [|done].
  cbn [rows with_column]. by destruct (rows df).
Qed.

Lemma parsed_dates_unified df :
  df_empty df = true ∨ has_column df "record_type" = true →
  unified_table (parsed_dates df) = true.
Proof.
  intros Hd. unfold unified_table. rewrite parsed_dates_empty.
  destruct (df_empty df) eqn:He; [done|]. destruct Hd as [|Hrt]; [done|].
  rewrite !parsed_dates_has_column, Hrt. cbn [orb andb].
  destruct (has_column df "observation_date") eqn:Hc; [|done].
  rewrite (parsed_dates_datetime df Hc). unfold parsed_dates. rewrite Hc.
  by rewrite is_datetime64_with_column.
Qed.

(** The two calls at the top of the script, on a unified table. *)
Lemma split_unified_run d :
  unified_table d = true →
  event_dates_refused d = false →
  split_unified d
  = Ok (if df_empty d then (empty_frame, empty_frame)
        else (observation_frame d, event_frame d)).
Proof.
  intros Hu Hacc. unfold split_unified.
  set (σ := ({[1%positive := d]} : gmap positive DataFrame)).
  assert (Hl : σ !! 1%positive = Some d) by apply lookup_singleton_eq.
  destruct (observations_then_events σ 1%positive d Hl Hu Hacc)
    as (σ1 & lo & σ2 & le & Hobs & Hev & _ & Hlo & Hle).
  rewrite bind_run, Hobs. cbn beta iota.
  rewrite bind_run, Hev. cbn beta iota.
  rewrite bind_run, deref_run, Hlo. cbn beta iota.
  rewrite bind_run, deref_run, Hle. cbn beta iota.
  rewrite ret_run. cbn [snd]. by destruct (df_empty d).
Qed.

(** The second of the two calls raises on refused event dates. *)
Lemma split_unified_refused d :
  unified_table d = true →
  has_column d "record_type" = true →
  event_dates_refused d = true →
  split_unified d = Raise ValueError.
Proof.
  intros Hu Hrt Href. unfold split_unified.
  set (σ := ({[1%positive := d]} : gmap positive DataFrame)).
  assert (Hl : σ !! 1%positive = Some d) by apply lookup_singleton_eq.
  destruct (get_observations_run σ 1%positive d Hl Hu)
    as (σ1 & lo & Hobs & _ & _).
  pose proof (get_observations_preserves _ _ _ _ Hobs) as Hp.
  assert (Hl1 : σ1 !! 1%positive = Some d). { rewrite Hp; [done|by rewrite Hl]. }
  destruct (get_events_refused σ1 1%positive d Hl1 Href Hrt) as (σ2 & Hev & _).
  rewrite bind_run, Hobs. cbn beta iota. by rewrite bind_run, Hev.
Qed.

Lemma split_unified_raise d :
  df_empty d = false → has_column d "record_type" = false →
  split_unified d = Raise (KeyError "record_type").
Proof.
  intros He Hrt. unfold split_unified.
  set (σ := ({[1%positive := d]} : gmap positive DataFrame)).
  assert (Hl : σ !! 1%positive = Some d) by apply lookup_singleton_eq.
  destruct (partition_needs_record_type σ 1%positive d Hl He Hrt) as [Hobs _].
  by rewrite bind_run, Hobs.
Qed.
End LoadedTable.

(** ** The Overview page *)

Lemma runs_within {A} c (body : UI A) out a :
  runs body out a → runs (within c body) (map (Within c) out) a.
Proof. intros Hb page. unfold within. by rewrite (Hb []). Qed.

Lemma fails_bind {A B} (m : UI A) (f : A → UI B) o1 o2 a e :
  runs m o1 a → fails (f a) o2 e → fails (m ≫= f) (o1 ++ o2) e.
Proof.
  intros Hm Hf page. rewrite bind_run, Hm, Hf. by rewrite app_assoc.
Qed.

Lemma fails_first {A B} (m : UI A) (f : A → UI B) out e :
  fails m out e → fails (m ≫= f) out e.
Proof. intros Hm page. by rewrite bind_run, Hm. Qed.

Lemma fails_within {A} c (body : UI A) out e :
  fails body out e → fails (within c body) (map (Within c) out) e.
Proof. intros Hb page. unfold within. by rewrite (Hb []). Qed.

Lemma fails_lift {A} e : fails (A := A) (lift (Raise e)) [] e.
Proof. intros page. by rewrite app_nil_r. Qed.

Lemma chart_traces_within c out :
  chart_traces (map (Within c) out) = [].
Proof. unfold chart_traces. induction out as [|w out IH]; [done|]. exact IH. Qed.

Section OverviewLemmas.
Context `{PandasLaws}.

(** On an observation table with numeric values a latest value is a
    number. *)
Lemma get_latest_value_number obs code :
  observation_table obs = true → numeric_values obs = true →
  ∃ v, get_latest_value obs code = Ok v
       ∧ ∀ c, v = Some c → is_num c = true.
Proof.
  intros Hobs Hnum.
  destruct (indicator_series_sorted_perm obs code Hobs)
    as (series & Hser & Hperm & _).
  unfold get_latest_value. rewrite Hser, bind_Ok.
  destruct (df_empty series) eqn:He; [by eexists|].
  destruct (df_empty obs) eqn:Heo.
  { destruct (get_indicator_series_empty obs code Heo) as [Hs' _].
    rewrite Hs' in Hser. injection Hser as <-. done. }
  rewrite (get_indicator_series_rows obs code Heo Hobs) in Hser.
  injection Hser as <-.
  unfold observation_table in Hobs. rewrite Heo, orb_false_l in Hobs.
  apply andb_prop in Hobs as [Hobs Hdt].
  apply andb_prop in Hobs as [Hobs Hval].
  apply andb_prop in Hobs as [Hcode Hdate].
  set (series := Build_DataFrame _ _ _) in *.
  assert (Hv' : has_column series "value_numeric" = true) by exact Hval.
  rewrite (getitem_has _ _ Hv'), bind_Ok.
  apply df_empty_false in He as [_ Hrows].
  destruct (exists_last Hrows) as (l' & r & Hr). rewrite Hr.
  rewrite iloc_last_map, bind_Ok. eexists. split; [done|].
  intros c [= <-].
  assert (Hin : r ∈ List.filter (in_series obs code) (rows obs)).
  { rewrite <- Hperm, Hr. rewrite elem_of_app. right. by left. }
  apply elem_of_filter_bool in Hin as [Hin Hs].
  unfold numeric_values in Hnum. rewrite forallb_forall in Hnum.
  apply list_elem_of_In in Hin. specialize (Hnum r Hin).
  unfold in_series in Hs. rewrite (frame_cell_has _ "value_numeric") in Hs by done.
  apply andb_prop in Hs as [_ Hs].
  by destruct (cell_of "value_numeric" r).
Qed.

Lemma kpi_metric_runs label v :
  (∀ c, v = Some c → is_numeric c = true) →
  ∃ text, runs (kpi_metric label v) [Metric label text None] ().
Proof.
  intros Hv. unfold kpi_metric, st_metric.
  destruct v as [c|]; [|eexists; apply runs_emit].
  specialize (Hv c eq_refl). destruct c as [| |q|]; try done; cbn [truthy_opt truthy].
  - eexists. eapply (runs_bind _ _ []); [apply runs_lift|]. apply runs_emit.
  - destruct (Qeq_bool q 0); cbn [negb]; [eexists; apply runs_emit|].
    eexists. eapply (runs_bind _ _ []); [apply runs_lift|]. apply runs_emit.
Qed.

Lemma kpi_forecast_runs v :
  (∀ c, v = Some c → is_numeric c = true) →
  ∃ label text delta, runs (kpi_forecast v) [Metric label text delta] ().
Proof.
  intros Hv. unfold kpi_forecast, st_metric.
  destruct v as [c|]; [|eexists _, _, _; apply runs_emit].
  specialize (Hv c eq_refl). destruct c as [| |q|]; try done; cbn [truthy_opt truthy].
  - eexists _, _, _.
    eapply (runs_bind _ _ []); [apply runs_lift|].
    eapply (runs_bind _ _ []); [apply runs_lift|].
    eapply (runs_bind _ _ []); [apply runs_lift|].
    eapply (runs_bind _ _ []); [apply runs_ret|]. apply runs_emit.
  - destruct (Qeq_bool q 0); cbn [negb]; [eexists _, _, _; apply runs_emit|].
    destruct (Qle_bool (60 - q) 0) eqn:Hgap.
    + eexists _, _, _.
      eapply (runs_bind _ _ []); [apply runs_lift|].
      eapply (runs_bind _ _ []); [apply runs_lift|].
      eapply (runs_bind _ _ []); [unfold py_gt0; rewrite Hgap; apply runs_lift|].
      eapply (runs_bind _ _ []); [apply runs_ret|]. apply runs_emit.
    + eexists _, _, _.
      eapply (runs_bind _ _ []); [apply runs_lift|].
      eapply (runs_bind _ _ []); [apply runs_lift|].
      eapply (runs_bind _ _ []); [unfold py_gt0; rewrite Hgap; apply runs_lift|].
      eapply (runs_bind _ _ []).
      { eapply (runs_bind _ _ []); [apply runs_lift|]. apply runs_ret. }
      apply runs_emit.
Qed.

Lemma insight_current_state_runs a m ev :
  (∀ c, a = Some c → is_num c = true) →
  (∀ c, m = Some c → is_num c = true) →
  ∃ out, runs (insight_current_state a m ev) out () ∧ chart_traces out = [].
Proof.
  intros Ha Hm. unfold insight_current_state, st_markdown, st_write.
  destruct (truthy_opt a && truthy_opt m) eqn:Ht.
  - apply andb_prop in Ht as [Hta Htm].
    destruct a as [ca|]; [|done]. destruct m as [cm|]; [|done].
    specialize (Ha ca eq_refl). specialize (Hm cm eq_refl).
    destruct ca as [| |qa|]; try done. destruct cm as [| |qm|]; try done.
    eexists. split.
    { emits. eapply runs_bind.
      { eapply runs_bind; [apply runs_lift|].
        eapply runs_bind; [apply runs_emit|].
        eapply runs_bind; [apply runs_lift|].
        eapply runs_bind; [apply runs_emit|].
        eapply runs_bind; [apply runs_lift|]. apply runs_emit. }
      emits. apply runs_emit. }
    reflexivity.
  - eexists. split.
    { emits. eapply runs_bind; [apply runs_ret|]. emits. apply runs_emit. }
    reflexivity.
Qed.

Lemma format_1f_numeric c :
  is_numeric c = true → ∃ text, format_1f c = Ok text.
Proof. destruct c; try done; by eexists. Qed.

(** The 2027 rows of account ownership in the wide table. *)
Lemma access_2027_rows fw :
  getitem_mask fw
    (mask_and (series_eq (map (cell_of "year") (rows fw)) (Num 2027))
              (series_eq (map (cell_of "indicator_code") (rows fw))
                         (Str "ACC_OWNERSHIP")))
  = {| columns := columns fw;
       rows := List.filter
                 (λ r, py_eq (cell_of "year" r) (Num 2027)
                       && py_eq (cell_of "indicator_code" r) (Str "ACC_OWNERSHIP"))
                 (rows fw);
       datetime64 := datetime64 fw |}.
Proof.
  unfold getitem_mask. by rewrite !series_eq_column, mask_and_map, select_map.
Qed.

Lemma insight_forecast_outlook_runs f fw :
  (∀ c, f = Some c → is_numeric c = true) →
  wide_table fw = true →
  ∃ out, runs (insight_forecast_outlook f fw) out () ∧ chart_traces out = [].
Proof.
  intros Hf Hw. unfold insight_forecast_outlook, st_markdown, st_write.
  destruct (truthy_opt f) eqn:Ht.
  2:{ eexists. split.
      { emits. eapply runs_bind; [apply runs_ret|]. emits. apply runs_emit. }
      reflexivity. }
  destruct f as [c|]; [|done]. specialize (Hf c eq_refl).
  destruct (format_1f_numeric c Hf) as [text Htext].
  change (format_opt (Some c)) with (format_1f c). rewrite Htext.
  assert (Hrange : ∃ out,
    runs (match fw with
          | Some fw =>
              if negb (df_empty fw) then
                years ← lift (getitem fw "year");
                codes ← lift (getitem fw "indicator_code");
                let access_2027 :=
                  getitem_mask fw (mask_and (series_eq years (Num 2027))
                                            (series_eq codes (Str "ACC_OWNERSHIP"))) in
                if negb (df_empty access_2027) && has_column access_2027 "lower" then
                  lower ← lift (c ← getitem access_2027 "lower"; iloc_first c);
                  upper ← lift (c ← getitem access_2027 "upper"; iloc_first c);
                  lo ← lift (format_1f lower);
                  up ← lift (format_1f upper);
                  emit (Write ("- Uncertainty range: " +:+ lo +:+ "% - " +:+ up +:+ "%"))
                else mret ()
              else mret ()
          | None => mret ()
          end) out () ∧ chart_traces out = []).
  { destruct fw as [fw|]; [|eexists; split; [apply runs_ret|done]].
    cbn [wide_table] in Hw.
    destruct (df_empty fw) eqn:He; cbn [negb];
      [eexists; split; [apply runs_ret|done]|].
    rewrite orb_false_l in Hw. apply andb_prop in Hw as [Hcols Hlow].
    apply andb_prop in Hcols as [Hyear Hcode].
    rewrite (getitem_has _ _ Hyear), (getitem_has _ _ Hcode).
    set (access :=
      {| columns := columns fw;
         rows := List.filter
                   (λ r, py_eq (cell_of "year" r) (Num 2027)
                         && py_eq (cell_of "indicator_code" r)
                                  (Str "ACC_OWNERSHIP"))
                   (rows fw);
         datetime64 := datetime64 fw |}).
    destruct (negb (df_empty access) && has_column access "lower") eqn:Hcond.
    2:{ eexists. split.
        { eapply (runs_bind _ _ []); [apply runs_lift|].
          eapply (runs_bind _ _ []); [apply runs_lift|]. cbn zeta.
          rewrite access_2027_rows. fold access. rewrite Hcond. apply runs_ret. }
        reflexivity. }
    apply andb_prop in Hcond as [Hne Hlower].
    apply negb_true_iff in Hne.
    change (has_column access "lower") with (has_column fw "lower") in Hlower.
    rewrite Hlower in Hlow. cbn [negb orb] in Hlow.
    apply andb_prop in Hlow as [Hupper Hnum].
    apply df_empty_false in Hne as [_ Hrows].
    destruct (rows access) as [|r l] eqn:Hacc; [done|].
    assert (Hr : r ∈ rows fw).
    { assert (Hr : r ∈ rows access) by (rewrite Hacc; left).
      by apply elem_of_filter_bool in Hr as [Hr _]. }
    rewrite forallb_forall in Hnum. apply list_elem_of_In in Hr.
    specialize (Hnum r Hr). apply andb_prop in Hnum as [Hlo Hup].
    destruct (format_1f_numeric _ Hlo) as [lo Hlo'].
    destruct (format_1f_numeric _ Hup) as [up Hup'].
    eexists. split.
    { eapply (runs_bind _ _ []); [apply runs_lift|].
      eapply (runs_bind _ _ []); [apply runs_lift|]. cbn zeta.
      rewrite access_2027_rows. fold access.
      assert (Hc : negb (df_empty access) && has_column access "lower" = true).
      { unfold df_empty. rewrite Hacc.
        change (has_column access "lower") with (has_column fw "lower").
        rewrite Hlower. destruct (columns access) eqn:Hca; [|done].
        apply has_column_nonempty in Hyear. done. }
      rewrite Hc.
      rewrite (getitem_has access "lower") by exact Hlower.
      rewrite (getitem_has access "upper") by exact Hupper.
      rewrite !bind_Ok, Hacc. cbn [map iloc_first].
      eapply (runs_bind _ _ []); [apply runs_lift|].
      eapply (runs_bind _ _ []); [apply runs_lift|].
      rewrite Hlo', Hup'.
      eapply (runs_bind _ _ []); [apply runs_lift|].
      eapply (runs_bind _ _ []); [apply runs_lift|]. apply runs_emit. }
    reflexivity. }
  destruct Hrange as (range & Hrange & Hcharts).
  eexists. split.
  { emits. eapply runs_bind.
    { eapply (runs_bind _ _ []); [apply runs_lift|].
      eapply runs_bind; [apply runs_emit|]. exact Hrange. }
    emits. apply runs_emit. }
  rewrite !chart_traces_app, Hcharts. reflexivity.
Qed.

Lemma overview_forecast_trace_ok fl sc :
  chartable_forecast fl = true →
  ∃ f, overview_forecast_trace fl sc = Ok f.
Proof.
  destruct fl as [fl|]; [|by eexists]. cbn [chartable_forecast]. intros Hc.
  apply andb_prop in Hc as [Ht Hy].
  pose proof (forecast_rows_readable fl Ht Hy) as Hrows.
  unfold forecast_long_table in Ht.
  apply andb_prop in Ht as [Ht _].
  apply andb_prop in Ht as [Ht Hval].
  apply andb_prop in Ht as [Ht Hscen].
  apply andb_prop in Ht as [Hcode Hyear].
  unfold overview_forecast_trace.
  rewrite (getitem_has _ _ Hcode), bind_Ok, (getitem_has _ _ Hscen), bind_Ok.
  rewrite !series_eq_column, mask_and_map. unfold getitem_mask. rewrite select_map.
  set (sel := List.filter _ (rows fl)).
  assert (Hsel : Forall readable_year sel) by by apply Forall_filter_bool.
  rewrite (sort_values_kind KNum); [|done|].
  2:{ cbn [rows]. eapply Forall_impl; [exact Hsel|]. intros r [Hn _].
      by destruct (cell_of "year" r). }
  rewrite bind_Ok. cbn [rows columns].
  set (sorted := sort_by (by_column "year") sel).
  destruct (df_empty _); cbn [negb]; [by eexists|].
  rewrite (getitem_has {| columns := columns fl; rows := sorted;
     datetime64 := _ |} "year" Hyear).
  rewrite bind_Ok. cbn [rows].
  destruct (forecast_dates_ok sorted) as [ds ->].
  { eapply Forall_impl; [unfold sorted; rewrite sort_perm; exact Hsel|].
    by intros r [_ Hp]. }
  rewrite bind_Ok.
  rewrite (getitem_has {| columns := columns fl; rows := sorted;
     datetime64 := _ |}
             "forecast_value" Hval).
  rewrite bind_Ok. by eexists.
Qed.


Lemma overview_figure_ok s :
  observation_table (observations s) = true →
  chartable_forecast (forecast_long s) = true →
  ∃ fig, overview_figure s = Ok fig.
Proof.
  intros Hobs Hfl. unfold overview_figure.
  destruct (historical_trace_no_band (observations s) (Str "ACC_OWNERSHIP") Hobs)
    as (series & hs & Hs & Hh & _).
  destruct (overview_forecast_trace_ok (forecast_long s) (scenario_filter s) Hfl)
    as [f Hf].
  rewrite Hs, bind_Ok, Hh, bind_Ok, Hf, bind_Ok. by eexists.
Qed.

(** A forecast lookup on a chartable table returns a number or nothing. *)
Lemma forecast_lookup_numeric fl indicator year scenario :
  chartable_forecast fl = true →
  ∃ v, get_forecast_value fl indicator year scenario = Ok v
       ∧ ∀ c, v = Some c → is_numeric c = true.
Proof.
  destruct fl as [fl|]; [|by eexists]. cbn [chartable_forecast]. intros Hc.
  apply andb_prop in Hc as [Ht _].
  by apply get_forecast_value_numeric.
Qed.

Lemma is_num_numeric (v : option cell) :
  (∀ c, v = Some c → is_num c = true) → ∀ c, v = Some c → is_numeric c = true.
Proof. intros Hv c Hc. specialize (Hv c Hc). by destruct c. Qed.

(** The KPI row and the insight panels, when the four lookups return. *)
Lemma overview_summary_of_runs a m u f ev fw :
  (∀ c, a = Some c → is_num c = true) →
  (∀ c, m = Some c → is_num c = true) →
  (∀ c, u = Some c → is_num c = true) →
  (∀ c, f = Some c → is_numeric c = true) →
  wide_table fw = true →
  ∃ out,
    runs (overview_summary_of (Ok a) (Ok m) (Ok u) (Ok f) ev fw) out ()
    ∧ chart_traces out = []
    ∧ (∃ t1 t2 t3 l4 t4 d4,
         Within "col1" (Metric "Latest Account Ownership" t1 None) ∈ out
         ∧ Within "col2" (Metric "Mobile Money Accounts" t2 None) ∈ out
         ∧ Within "col3" (Metric "Digital Payment Usage" t3 None) ∈ out
         ∧ Within "col4" (Metric l4 t4 d4) ∈ out).
Proof.
  intros Ha Hm Hu Hf Hw. unfold overview_summary_of, st_subheader, st_markdown.
  destruct (kpi_metric_runs "Latest Account Ownership" a (is_num_numeric a Ha))
    as [t1 H1].
  destruct (kpi_metric_runs "Mobile Money Accounts" m (is_num_numeric m Hm))
    as [t2 H2].
  destruct (kpi_metric_runs "Digital Payment Usage" u (is_num_numeric u Hu))
    as [t3 H3].
  destruct (kpi_forecast_runs f Hf) as (l4 & t4 & d4 & H4).
  destruct (insight_current_state_runs a m ev Ha Hm) as (oa & Hoa & Hca).
  destruct (insight_forecast_outlook_runs f fw Hf Hw) as (ob & Hob & Hcb).
  eexists. split; [|split].
  { eapply runs_bind; [apply runs_emit|]. cbn beta.
    eapply runs_bind.
    { apply runs_within. eapply (runs_bind _ _ []); [apply runs_lift|].
      eapply runs_bind; [exact H1|]. apply runs_ret. }
    eapply runs_bind.
    { apply runs_within. eapply (runs_bind _ _ []); [apply runs_lift|].
      eapply runs_bind; [exact H2|]. apply runs_ret. }
    eapply runs_bind.
    { apply runs_within. eapply (runs_bind _ _ []); [apply runs_lift|]. exact H3. }
    eapply runs_bind.
    { apply runs_within. eapply (runs_bind _ _ []); [apply runs_lift|].
      eapply runs_bind; [exact H4|]. apply runs_ret. }
    eapply runs_bind; [apply runs_emit|].
    eapply runs_bind; [apply runs_emit|].
    eapply runs_bind; [apply runs_within; exact Hoa|].
    apply runs_within. exact Hob. }
  { rewrite !chart_traces_app, !chart_traces_within. reflexivity. }
  exists t1, t2, t3, l4, t4, d4. cbn [map app].
  repeat split; rewrite !elem_of_cons; auto 10.
Qed.
End OverviewLemmas.

Section OverviewFailure.
Context `{PandasLaws}.

Lemma insight_forecast_outlook_fails q fw :
  Qeq_bool q 0 = false →
  has_column fw "year" = true → has_column fw "indicator_code" = true →
  has_column fw "lower" = true → has_column fw "upper" = false →
  has_access_2027 fw = true →
  ∃ out, fails (insight_forecast_outlook (Some (Num q)) (Some fw)) out
           (KeyError "upper")
         ∧ chart_traces out = [].
Proof.
  intros Hq Hyear Hcode Hlower Hupper Hrow.
  unfold insight_forecast_outlook, st_markdown, st_write.
  cbn [truthy_opt truthy]. rewrite Hq. cbn [negb].
  change (format_opt (Some (Num q))) with (Ok (fmt_1f q) : result string).
  set (access :=
    {| columns := columns fw;
       rows := List.filter
                 (λ r, py_eq (cell_of "year" r) (Num 2027)
                       && py_eq (cell_of "indicator_code" r)
                                (Str "ACC_OWNERSHIP"))
                 (rows fw);
       datetime64 := datetime64 fw |}).
  assert (Hne : df_empty fw = false).
  { unfold has_access_2027 in Hrow. unfold df_empty.
    destruct (columns fw) eqn:Hc; [by apply has_column_nonempty in Hyear|].
    by destruct (rows fw). }
  assert (Hacc : ∃ r l, rows access = r :: l).
  { unfold has_access_2027 in Hrow. apply existsb_exists in Hrow as (r & Hr & Hp).
    apply list_elem_of_In in Hr.
    assert (Hin : r ∈ rows access) by by apply elem_of_filter_bool.
    destruct (rows access) as [|r' l]; [by apply elem_of_nil in Hin|by eexists _, _]. }
  destruct Hacc as (r & l & Hacc).
  eexists. split.
  { eapply fails_bind; [apply runs_emit|]. cbn beta.
    eapply fails_bind; [apply runs_emit|]. cbn beta.
    apply fails_first.
    eapply (fails_bind _ _ []); [apply runs_lift|].
    eapply fails_bind; [apply runs_emit|]. cbn beta.
    rewrite Hne. cbn [negb].
    rewrite (getitem_has _ _ Hyear), (getitem_has _ _ Hcode).
    eapply (fails_bind _ _ []); [apply runs_lift|].
    eapply (fails_bind _ _ []); [apply runs_lift|]. cbn zeta.
    rewrite access_2027_rows. fold access.
    assert (Hc : negb (df_empty access) && has_column access "lower" = true).
    { unfold df_empty. rewrite Hacc.
      change (has_column access "lower") with (has_column fw "lower").
      rewrite Hlower. destruct (columns access) eqn:Hca; [|done].
      apply has_column_nonempty in Hyear. done. }
    rewrite Hc.
    rewrite (getitem_has access "lower") by exact Hlower.
    rewrite bind_Ok, Hacc. cbn [map iloc_first].
    eapply (fails_bind _ _ []); [apply runs_lift|].
    apply fails_first. unfold getitem.
    change (has_column access "upper") with (has_column fw "upper").
    rewrite Hupper. apply fails_lift. }
  reflexivity.
Qed.

(** The summary stops in the Forecast Outlook panel. *)
Lemma overview_summary_of_fails a m u q ev fw :
  (∀ c, a = Some c → is_num c = true) →
  (∀ c, m = Some c → is_num c = true) →
  (∀ c, u = Some c → is_num c = true) →
  Qeq_bool q 0 = false →
  has_column fw "year" = true → has_column fw "indicator_code" = true →
  has_column fw "lower" = true → has_column fw "upper" = false →
  has_access_2027 fw = true →
  ∃ out,
    fails (overview_summary_of (Ok a) (Ok m) (Ok u) (Ok (Some (Num q))) ev
             (Some fw)) out (KeyError "upper")
    ∧ chart_traces out = [].
Proof.
  intros Ha Hm Hu Hq Hyear Hcode Hlower Hupper Hrow.
  unfold overview_summary_of, st_subheader, st_markdown.
  destruct (kpi_metric_runs "Latest Account Ownership" a (is_num_numeric a Ha))
    as [t1 H1].
  destruct (kpi_metric_runs "Mobile Money Accounts" m (is_num_numeric m Hm))
    as [t2 H2].
  destruct (kpi_metric_runs "Digital Payment Usage" u (is_num_numeric u Hu))
    as [t3 H3].
  destruct (kpi_forecast_runs (Some (Num q))) as (l4 & t4 & d4 & H4).
  { by intros c [= <-]. }
  destruct (insight_current_state_runs a m ev Ha Hm) as (oa & Hoa & Hca).
  destruct (insight_forecast_outlook_fails q fw Hq Hyear Hcode Hlower Hupper Hrow)
    as (ob & Hob & Hcb).
  eexists. split.
  { eapply fails_bind; [apply runs_emit|]. cbn beta.
    eapply fails_bind.
    { apply runs_within. eapply (runs_bind _ _ []); [apply runs_lift|].
      eapply runs_bind; [exact H1|]. apply runs_ret. }
    eapply fails_bind.
    { apply runs_within. eapply (runs_bind _ _ []); [apply runs_lift|].
      eapply runs_bind; [exact H2|]. apply runs_ret. }
    eapply fails_bind.
    { apply runs_within. eapply (runs_bind _ _ []); [apply runs_lift|]. exact H3. }
    eapply fails_bind.
    { apply runs_within. eapply (runs_bind _ _ []); [apply runs_lift|].
      eapply runs_bind; [exact H4|]. apply runs_ret. }
    eapply fails_bind; [apply runs_emit|].
    eapply fails_bind; [apply runs_emit|].
    eapply fails_bind; [apply runs_within; exact Hoa|].
    apply fails_within. exact Hob. }
  rewrite !chart_traces_app, !chart_traces_within. reflexivity.
Qed.
End OverviewFailure.

(** ** The uncertainty band *)

Section BandLemmas.
Context `{PandasLaws}.

Lemma uncertainty_band_inv fw sel band :
  uncertainty_band (Some fw) sel = Ok band →
  if has_band fw sel
  then ∃ wide_data dates,
         wide_data ≡ₚ indicator_rows fw sel
         ∧ length dates = length wide_data
         ∧ band = band_of dates wide_data
  else band = [].
Proof.
  unfold uncertainty_band. intros Hb.
  apply bind_Ok_inv in Hb as (codes & Hcodes & Hb).
  apply getitem_Ok in Hcodes as [Hcode ->].
  rewrite getitem_mask_eq in Hb. fold (indicator_rows fw sel) in Hb.
  apply bind_Ok_inv in Hb as (wd & Hsort & Hb).
  apply sort_values_perm in Hsort as (Hyear & Hcols & Hperm).
  cbn [rows columns] in *.
  unfold has_band.
  assert (Hlo : has_column wd "lower" = has_column fw "lower").
  { unfold has_column. by rewrite Hcols. }
  assert (Hup : has_column wd "upper" = has_column fw "upper").
  { unfold has_column. by rewrite Hcols. }
  assert (Hemp : negb (df_empty wd) = negb (bool_decide (indicator_rows fw sel = []))).
  { f_equal. rewrite df_empty_rows.
    2:{ rewrite Hcols. by eapply has_column_nonempty. }
    apply bool_decide_ext. split; intros Hnil.
    - rewrite Hnil in Hperm. by apply Permutation_nil in Hperm.
    - rewrite Hnil in Hperm. by apply Permutation_nil_r in Hperm. }
  rewrite Hemp, Hlo, Hup in Hb.
  replace (negb (bool_decide (indicator_rows fw sel = []))
           && has_column fw "lower" && has_column fw "upper")
    with (has_column fw "lower" && has_column fw "upper"
          && negb (bool_decide (indicator_rows fw sel = []))) in Hb
    by (destruct (has_column fw "lower"), (has_column fw "upper"),
          (bool_decide _); done).
  destruct (_ && _ && _); [|by injection Hb as <-].
  apply bind_Ok_inv in Hb as (years & Hyears & Hb).
  apply getitem_Ok in Hyears as [_ ->].
  apply bind_Ok_inv in Hb as (dates & Hdates & Hb).
  apply bind_Ok_inv in Hb as (upper & Hupper & Hb).
  apply getitem_Ok in Hupper as [_ ->].
  apply bind_Ok_inv in Hb as (lower & Hlower & Hb).
  apply getitem_Ok in Hlower as [_ ->].
  injection Hb as <-.
  exists (rows wd), dates. split; [done|]. split; [|done].
  clear -Hdates. unfold astype_str_plus in Hdates. rewrite map_map in Hdates.
  revert dates Hdates. induction (rows wd) as [|r l IH]; intros dates Hd.
  - by injection Hd as <-.
  - cbn [map to_datetime_raise] in Hd.
    apply bind_Ok_inv in Hd as (d & _ & Hd).
    apply bind_Ok_inv in Hd as (ds & Hds & Hd).
    injection Hd as <-. cbn [length]. f_equal. by apply IH.
Qed.

Lemma historical_trace_plain series ts :
  historical_trace series = Ok ts → Forall (λ t, band_trace t = false) ts.
Proof.
  unfold historical_trace. destruct (df_empty series); cbn [negb]; intros Hts.
  - injection Hts as <-. constructor.
  - apply bind_Ok_inv in Hts as (dates & _ & Hts).
    apply bind_Ok_inv in Hts as (values & _ & Hts).
    injection Hts as <-. by repeat constructor.
Qed.

Lemma scenario_trace_plain fd name ts :
  name ∈ ["base"; "optimistic"; "pessimistic"] →
  scenario_trace fd name = Ok ts → Forall (λ t, band_trace t = false) ts.
Proof.
  intros Hname Hts. apply Forall_forall. intros t Ht.
  unfold scenario_trace in Hts.
  apply bind_Ok_inv in Hts as (scens & _ & Hts).
  apply bind_Ok_inv in Hts as (sd & _ & Hts).
  destruct (df_empty sd); cbn [negb] in Hts.
  { injection Hts as <-. by apply elem_of_nil in Ht. }
  apply bind_Ok_inv in Hts as (years & _ & Hts).
  apply bind_Ok_inv in Hts as (dates & _ & Hts).
  apply bind_Ok_inv in Hts as (values & _ & Hts).
  injection Hts as <-. apply list_elem_of_singleton in Ht as ->.
  repeat (apply elem_of_cons in Hname as [->|Hname]; [reflexivity|]).
  by apply elem_of_nil in Hname.
Qed.

Lemma scenario_traces_plain fd ts :
  scenario_traces fd ["base"; "optimistic"; "pessimistic"] = Ok ts →
  Forall (λ t, band_trace t = false) ts.
Proof.
  cbn [scenario_traces]. intros Hts.
  apply bind_Ok_inv in Hts as (t1 & H1 & Hts).
  apply bind_Ok_inv in Hts as (ts1 & Hts1 & Hts).
  apply bind_Ok_inv in Hts1 as (t2 & H2 & Hts1).
  apply bind_Ok_inv in Hts1 as (ts2 & Hts2 & Hts1).
  apply bind_Ok_inv in Hts2 as (t3 & H3 & Hts2).
  injection Hts2 as <-. injection Hts1 as <-. injection Hts as <-.
  rewrite app_nil_r, !Forall_app.
  split; [|split]; eapply scenario_trace_plain; try eassumption;
    rewrite !elem_of_cons; auto.
Qed.
End BandLemmas.


(** ** The target of 60% *)

Lemma string_length_app (s1 s2 : string) :
  String.length (s1 +:+ s2) = (String.length s1 + String.length s2)%nat.
Proof. induction s1 as [|a s1 IH]; simpl; [done|]. by rewrite IH. Qed.

Lemma gap_nonpositive (q : Q) : Qle_bool (60 - q) 0 = Qle_bool 60 q.
Proof.
  apply eq_true_iff_eq. rewrite !Qle_bool_iff.
  rewrite <- (Qplus_le_l (60 - q) 0 q).
  assert (H1 : (60 - q + q == 60)%Q) by ring.
  assert (H2 : (0 + q == q)%Q) by ring.
  by rewrite H1, H2.
Qed.

Lemma delta_not_met (g : string) : g +:+ "pp to 60% target" ≠ "✓ Target met".
Proof.
  intros Heq. apply (f_equal String.length) in Heq.
  rewrite string_length_app in Heq. simpl in Heq. lia.
Qed.

(** ** Runs over the richer page *)

Lemma app_bind_run {A B} (m : App A) (f : A → App B) page :
  (m ≫= f) page = match m page with
                  | (page', Done a) => f a page'
                  | (page', Failed e) => (page', Failed e)
                  end.
Proof. reflexivity. Qed.

Lemma renders_ret {A} (a : A) : renders (mret a) [] a.
Proof. intros page. by rewrite app_nil_r. Qed.

Lemma renders_py {A} (a : A) : renders (py (Ok a)) [] a.
Proof. intros page. by rewrite app_nil_r. Qed.

Lemma renders_show e : renders (show e) [e] ().
Proof. by intros page. Qed.

Lemma renders_ui {A} (m : UI A) out a :
  runs m out a → renders (ui m) (map Plain out) a.
Proof. intros Hm page. unfold ui. by rewrite (Hm []). Qed.

Lemma renders_plain w : renders (ui (emit w)) [Plain w] ().
Proof. by intros page. Qed.

Lemma renders_bind {A B} (m : App A) (f : A → App B) o1 o2 a b :
  renders m o1 a → renders (f a) o2 b → renders (m ≫= f) (o1 ++ o2) b.
Proof.
  intros Hm Hf page. rewrite app_bind_run, Hm, Hf. by rewrite app_assoc.
Qed.

Lemma renders_placed {A} c (body : App A) out a :
  renders body out a → renders (placed c body) (map (Placed c) out) a.
Proof. intros Hb page. unfold placed. by rewrite (Hb []). Qed.

Lemma stops_py {A} e : stops (A := A) (py (Raise e)) [] (PythonError e).
Proof. intros page. by rewrite app_nil_r. Qed.

Lemma stops_refused {A} : stops (A := A) refused [] StreamlitAPIException.
Proof. intros page. by rewrite app_nil_r. Qed.

Lemma stops_ui {A} (m : UI A) out e :
  fails m out e → stops (ui m) (map Plain out) (PythonError e).
Proof. intros Hm page. unfold ui. by rewrite (Hm []). Qed.

Lemma stops_first {A B} (m : App A) (f : A → App B) out e :
  stops m out e → stops (m ≫= f) out e.
Proof. intros Hm page. by rewrite app_bind_run, Hm. Qed.

Lemma stops_bind {A B} (m : App A) (f : A → App B) o1 o2 a e :
  renders m o1 a → stops (f a) o2 e → stops (m ≫= f) (o1 ++ o2) e.
Proof.
  intros Hm Hf page. rewrite app_bind_run, Hm, Hf. by rewrite app_assoc.
Qed.

Lemma stops_placed {A} c (body : App A) out e :
  stops body out e → stops (placed c body) (map (Placed c) out) e.
Proof. intros Hb page. unfold placed. by rewrite (Hb []). Qed.

Ltac shows :=
  repeat (eapply renders_bind;
          [first [apply renders_show|apply renders_plain|apply renders_py]|];
          cbn beta).

(** ** The Trends page *)

Lemma elem_of_unique (c : cell) (s : list cell) : c ∈ unique s ↔ c ∈ s.
Proof.
  induction s as [|x s IH]; [done|]. cbn [unique].
  rewrite !elem_of_cons, elem_of_filter_bool, IH.
  split.
  - intros [->|[Hc _]]; auto.
  - intros [->|Hc]; [by left|].
    destruct (decide (c = x)) as [->|Hne]; [by left|]. right. split; [done|].
    by rewrite bool_decide_eq_false_2.
Qed.

Lemma subheaders_app a b : subheaders (a ++ b) = subheaders a ++ subheaders b.
Proof. unfold subheaders. apply omap_app. Qed.

Lemma dataframes_app a b : dataframes (a ++ b) = dataframes a ++ dataframes b.
Proof. unfold dataframes. apply omap_app. Qed.

Section TrendsLemmas.
Context `{PandasLaws} `{Toolkit}.

Lemma st_multiselect_renders label options default picked :
  forallb (λ d, bool_decide (d ∈ options)) default = true →
  renders (st_multiselect label options default picked)
    [Multiselect label options default]
    (multiselect_value options default picked).
Proof.
  intros Hd. unfold st_multiselect. rewrite Hd. by intros page.
Qed.

Lemma st_multiselect_refused label options default picked :
  forallb (λ d, bool_decide (d ∈ options)) default = false →
  stops (st_multiselect label options default picked) [] StreamlitAPIException.
Proof. intros Hd. unfold st_multiselect. rewrite Hd. apply stops_refused. Qed.

(** The series of an indicator has rows exactly when the indicator has
    data. *)
Lemma series_has_data obs code :
  observation_table obs = true → df_empty obs = false →
  ∃ series,
    get_indicator_series obs code = Ok series
    ∧ columns series = columns obs
    ∧ rows series ≡ₚ List.filter (in_series obs code) (rows obs)
    ∧ negb (df_empty series) = has_data obs code.
Proof.
  intros Hobs He. rewrite (get_indicator_series_rows obs code He Hobs).
  eexists. split; [done|]. cbn [columns rows]. split; [done|].
  split; [apply sort_perm|].
  unfold has_data. f_equal. rewrite df_empty_rows; cbn [columns rows].
  2:{ by apply df_empty_false in He as [? _]. }
  apply bool_decide_ext. split; intros Hnil.
  - pose proof (sort_perm _ (by_column "observation_date")
                  (List.filter (in_series obs code) (rows obs))) as Hp.
    rewrite Hnil in Hp. by apply Permutation_nil in Hp.
  - rewrite Hnil.
    pose proof (sort_perm _ (by_column "observation_date") ([] : list (Z * Row)))
      as Hp.
    by apply Permutation_nil_r in Hp.
Qed.

Lemma observation_table_columns obs :
  observation_table obs = true → df_empty obs = false →
  has_column obs "indicator_code" = true
  ∧ has_column obs "observation_date" = true
  ∧ has_column obs "value_numeric" = true.
Proof.
  unfold observation_table. intros Hobs He. rewrite He, orb_false_l in Hobs.
  apply andb_prop in Hobs as [Hobs _].
  apply andb_prop in Hobs as [Hobs Hval].
  by apply andb_prop in Hobs as [Hcode Hdate].
Qed.

Lemma trend_trace_shape obs code :
  observation_table obs = true → df_empty obs = false →
  ∃ ts,
    trend_trace obs code = Ok ts
    ∧ if has_data obs code
      then ∃ t, ts = [t] ∧ trace_name t = text_of code
                ∧ trace_y t ≡ₚ map (cell_of "value_numeric")
                                 (List.filter (in_series obs code) (rows obs))
      else ts = [].
Proof.
  intros Hobs He.
  destruct (series_has_data obs code Hobs He) as (series & Hs & Hcols & Hperm & Hd).
  destruct (observation_table_columns obs Hobs He) as (_ & Hdate & Hval).
  unfold trend_trace. rewrite Hs, bind_Ok, Hd.
  destruct (has_data obs code); [|by eexists].
  assert (Hdate' : has_column series "observation_date" = true).
  { unfold has_column. by rewrite Hcols. }
  assert (Hval' : has_column series "value_numeric" = true).
  { unfold has_column. by rewrite Hcols. }
  rewrite (getitem_has _ _ Hdate'), bind_Ok, (getitem_has _ _ Hval'), bind_Ok.
  eexists. split; [done|]. eexists. split; [done|]. split; [done|].
  cbn [trace_y]. by apply Permutation_map.
Qed.

Lemma trend_traces_shape obs selected :
  observation_table obs = true → df_empty obs = false →
  ∃ lines,
    trend_traces obs selected = Ok lines
    ∧ Forall2 (λ code t,
                 trace_name t = text_of code
                 ∧ trace_y t ≡ₚ map (cell_of "value_numeric")
                                  (List.filter (in_series obs code) (rows obs)))
        (List.filter (has_data obs) selected) lines.
Proof.
  intros Hobs He. induction selected as [|code rest (lines & IH & Hlines)].
  { exists []. split; [done|constructor]. }
  destruct (trend_trace_shape obs code Hobs He) as (ts & Hts & Hshape).
  cbn [trend_traces List.filter]. rewrite Hts, bind_Ok, IH, bind_Ok.
  eexists. split; [done|].
  destruct (has_data obs code).
  - destruct Hshape as (t & -> & Hname & Hy). by constructor.
  - by rewrite Hshape.
Qed.

Lemma getitem_columns_present df cols :
  getitem_columns df (List.filter (has_column df) cols)
  = Ok {| columns := List.filter (has_column df) cols;
          rows := map (λ r, (r.1, filter (λ kv, kv.1 ∈ List.filter (has_column df) cols)
                                         r.2))
                      (rows df);
          datetime64 :=
            List.filter (λ c, bool_decide (c ∈ List.filter (has_column df) cols))
                        (datetime64 df) |}.
Proof.
  unfold getitem_columns.
  destruct (List.find _ _) as [c|] eqn:Hf; [|done].
  apply find_some in Hf as [Hin Hc].
  apply filter_In in Hin as [_ Hin]. by rewrite Hin in Hc.
Qed.

Lemma trend_tables_shape obs selected :
  observation_table obs = true → df_empty obs = false →
  ∃ tables,
    runs (trend_tables obs selected) tables ()
    ∧ subheaders tables = map text_of (List.filter (has_data obs) selected)
    ∧ length (dataframes tables) = length (List.filter (has_data obs) selected).
Proof.
  intros Hobs He. induction selected as [|code rest (tables & IH & Hsub & Hdf)].
  { exists []. split; [apply runs_ret|done]. }
  destruct (series_has_data obs code Hobs He) as (series & Hs & Hcols & Hperm & Hd).
  cbn [trend_tables List.filter]. unfold trend_table.
  destruct (has_data obs code) eqn:Hdata.
  - eexists. split; [|split].
    + eapply runs_bind.
      { rewrite Hs. eapply (runs_bind _ _ []); [apply runs_lift|].
        rewrite Hd. unfold st_subheader, st_dataframe.
        eapply runs_bind; [apply runs_emit|].
        rewrite getitem_columns_present.
        eapply (runs_bind _ _ []); [apply runs_lift|]. apply runs_emit. }
      exact IH.
    + rewrite !subheaders_app, Hsub. reflexivity.
    + rewrite !dataframes_app, !length_app, Hdf. reflexivity.
  - eexists. split; [|split].
    + eapply (runs_bind _ _ []).
      { rewrite Hs. eapply (runs_bind _ _ []); [apply runs_lift|].
        rewrite Hd. apply runs_ret. }
      exact IH.
    + done.
    + done.
Qed.

(** The default of the indicator selector is among its options unless
    account ownership is observed and digital payment usage is not. *)
Lemma default_indicators_valid (codes : list cell) :
  forallb (λ d, bool_decide (d ∈ unique codes)) (default_indicators (unique codes))
  = negb (bool_decide (Str "ACC_OWNERSHIP" ∈ codes)
          && negb (bool_decide (Str "USG_DIGITAL_PAYMENT" ∈ codes))).
Proof.
  unfold default_indicators.
  rewrite (bool_decide_ext _ (Str "ACC_OWNERSHIP" ∈ codes)) by apply elem_of_unique.
  destruct (bool_decide (Str "ACC_OWNERSHIP" ∈ codes)) eqn:Hacc.
  - cbn [forallb andb].
    rewrite (bool_decide_ext (_ ∈ unique codes) (Str "ACC_OWNERSHIP" ∈ codes))
      by apply elem_of_unique.
    rewrite Hacc.
    rewrite (bool_decide_ext (_ ∈ unique codes) (Str "USG_DIGITAL_PAYMENT" ∈ codes))
      by apply elem_of_unique.
    cbn [andb]. by rewrite andb_true_r, negb_involutive.
  - cbn [andb negb]. apply forallb_forall. intros d Hd.
    apply bool_decide_eq_true. apply list_elem_of_In in Hd.
    apply elem_of_take in Hd as (i & Hi & _). by eapply list_elem_of_lookup_2.
Qed.

Lemma available_indicators_codes obs :
  df_empty obs = true ∨ has_column obs "indicator_code" = true →
  available_indicators obs
  = Ok (unique (if df_empty obs then []
                else map (cell_of "indicator_code") (rows obs))).
Proof.
  unfold available_indicators. intros [He|Hc].
  - by rewrite He.
  - destruct (df_empty obs); [done|]. cbn [negb]. by rewrite (getitem_has _ _ Hc).
Qed.
End TrendsLemmas.

(** ** The Events & Impact page *)

Lemma cell_of_restrict_row cols c r :
  cell_of c (restrict_row cols r) = if bool_decide (c ∈ cols) then cell_of c r else NA.
Proof.
  unfold cell_of, restrict_row. cbn [snd].
  destruct (r.2 !! c) as [v|] eqn:Hv.
  - case_bool_decide as Hc.
    + by rewrite (map_lookup_filter_Some_2 (λ kv : string * cell, kv.1 ∈ cols) r.2 c v Hv Hc).
    + destruct (filter _ r.2 !! c) as [v'|] eqn:Hf; [|done].
      apply map_lookup_filter_Some in Hf as [_ Hf]. done.
  - destruct (filter _ r.2 !! c) as [v'|] eqn:Hf.
    + apply map_lookup_filter_Some in Hf as [Hf _]. congruence.
    + by case_bool_decide.
Qed.

Lemma same_value_refl c : same_value c c = true.
Proof.
  unfold same_value. destruct c as [|s|q|t]; cbn; try done.
  - by rewrite String.eqb_refl.
  - apply orb_true_iff. left. apply Qeq_bool_iff. reflexivity.
  - by rewrite Z.eqb_refl.
Qed.

Lemma options_are_options (l : list cell) :
  forallb (λ d, bool_decide (d ∈ l)) l = true.
Proof.
  apply forallb_forall. intros d Hd. apply bool_decide_eq_true.
  by apply list_elem_of_In.
Qed.

Lemma timeline_rows_all events :
  timeline_rows events (event_categories events) = timeline_rows events [].
Proof.
  unfold timeline_rows.
  rewrite (filter_all (λ _ : Z * Row, true)) by done.
  apply filter_all. intros r Hr.
  destruct (event_categories events) as [|c l] eqn:Hc; [done|].
  rewrite <- Hc. apply existsb_exists. exists (cell_of "category" r).
  split; [|apply same_value_refl].
  apply list_elem_of_In. unfold event_categories. apply elem_of_unique.
  by apply list_elem_of_fmap_2.
Qed.

Lemma isin_column c (l : list (Z * Row)) (values : list cell) :
  isin (map (cell_of c) l) values
  = map (λ r, existsb (same_value (cell_of c r)) values) l.
Proof. unfold isin. by rewrite map_map. Qed.

Section EventsLemmas.
Context `{PandasLaws} `{Toolkit}.

Lemma sort_values_desc_dates df c :
  has_column df c = true →
  Forall (λ r, ∃ t, cell_of c r = Date t) (rows df) →
  ∃ sorted,
    sort_values_desc df c = Ok {| columns := columns df; rows := sorted;
     datetime64 := datetime64 df |}
    ∧ sorted ≡ₚ rows df
    ∧ StronglySorted
        (λ r1 r2, match cell_of c r1, cell_of c r2 with
                  | Date a, Date b => b ≤ a
                  | _, _ => False
                  end) sorted.
Proof.
  intros Hc Hd. unfold sort_values_desc. rewrite Hc.
  rewrite (filter_all (λ r, notna (cell_of c r))).
  2:{ rewrite Forall_forall in Hd. intros r Hr. by destruct (Hd r Hr) as [t ->]. }
  rewrite (filter_none (λ r, isna (cell_of c r))).
  2:{ rewrite Forall_forall in Hd. intros r Hr. by destruct (Hd r Hr) as [t ->]. }
  rewrite homogeneous_dates.
  2:{ apply Forall_map. eapply Forall_impl; [exact Hd|]. done. }
  rewrite app_nil_r. eexists. split; [done|]. split; [apply sort_perm|].
  set (le := λ r1 r2 : Z * Row, cell_leb (cell_of c r2) (cell_of c r1)).
  assert (Hsorted : StronglySorted (λ x y, le x y = true) (sort_by le (rows df))).
  { rewrite Forall_forall in Hd. apply sort_sorted.
    - intros x y Hx Hy. destruct (Hd x Hx) as [a Ha], (Hd y Hy) as [b Hb].
      unfold le. rewrite Ha, Hb. cbn. rewrite !Z.leb_le. lia.
    - intros x y z Hx Hy Hz. destruct (Hd x Hx) as [a Ha], (Hd y Hy) as [b Hb],
        (Hd z Hz) as [d Hd'].
      unfold le. rewrite Ha, Hb, Hd'. cbn. rewrite !Z.leb_le. lia. }
  eapply (StronglySorted_impl_on _ _ (λ r, ∃ t, cell_of c r = Date t));
    [| |exact Hsorted].
  - intros x y [a Ha] [b Hb]. unfold le. rewrite Ha, Hb. cbn. by rewrite Z.leb_le.
  - rewrite sort_perm. exact Hd.
Qed.

Lemma px_scatter_ok df x y color hover args updates :
  Forall (λ c, has_column df c = true) ([x; y] ++ option_list color ++ hover) →
  px_scatter df x y color hover args updates
  = Ok {| px_call := Scatter df x y color hover; px_args := args;
          px_updates := updates |}.
Proof.
  intros Hc. unfold px_scatter.
  destruct (List.find _ _) as [c|] eqn:Hf; [|done].
  apply find_some in Hf as [Hin Hno]. rewrite Forall_forall in Hc.
  apply list_elem_of_In in Hin. by rewrite (Hc c Hin) in Hno.
Qed.

Lemma getitem_columns_ok df cols :
  Forall (λ c, has_column df c = true) cols →
  getitem_columns df cols
  = Ok {| columns := cols; rows := map (restrict_row cols) (rows df);
          datetime64 := List.filter (λ c, bool_decide (c ∈ cols))
                          (datetime64 df) |}.
Proof.
  intros Hc. unfold getitem_columns.
  destruct (List.find _ _) as [c|] eqn:Hf; [|done].
  apply find_some in Hf as [Hin Hno]. rewrite Forall_forall in Hc.
  apply list_elem_of_In in Hin. by rewrite (Hc c Hin) in Hno.
Qed.

Lemma timeline_table_inv events :
  timeline_table events = true →
  has_column events "event_date_parsed" = true
  ∧ has_column events "category" = true
  ∧ has_column events "indicator" = true
  ∧ Forall (λ r, ∃ t, cell_of "event_date_parsed" r = Date t) (dated_events events)
  ∧ dated_events events ≠ []
  ∧ df_empty events = false.
Proof.
  unfold timeline_table. intros Ht.
  apply andb_prop in Ht as [Ht Hsome].
  apply andb_prop in Ht as [Ht Hdt].
  apply andb_prop in Ht as [Ht Hind].
  apply andb_prop in Ht as [Hdate Hcat].
  apply negb_true_iff, bool_decide_eq_false in Hsome.
  split; [done|]. split; [done|]. split; [done|]. split; [|split; [done|]].
  - apply Forall_forall. intros r Hr.
    apply elem_of_filter_bool in Hr as [Hr Hn].
    unfold datetime_column in Hdt. rewrite forallb_forall in Hdt.
    apply list_elem_of_In in Hr. specialize (Hdt r Hr).
    destruct (cell_of "event_date_parsed" r); try done. by eexists.
  - unfold df_empty.
    destruct (columns events) eqn:Hc; [by apply has_column_nonempty in Hdate|].
    destruct (rows events) eqn:Hr; [|done].
    unfold dated_events in Hsome. by rewrite Hr in Hsome.
Qed.

(** The timeline section over a table it can draw. *)
Lemma event_timeline_runs events picked :
  timeline_table events = true →
  let categories := event_categories events in
  let selected := multiselect_value categories categories picked in
  let cols := ["indicator"; "category"; "event_date_parsed"] in
  ∃ fig listed,
    renders (event_timeline events picked)
      [Plain (Subheader "📅 Event Timeline");
       Multiselect "Filter by Category" categories categories;
       PxChart fig;
       Placed "📋 View Event List" (Plain (Dataframe listed))] ()
    ∧ px_call fig
      = Scatter {| columns := columns events;
                   rows := timeline_rows events selected;
                   datetime64 := datetime64 events |}
          "event_date_parsed" "category" (Some "category") ["indicator"]
    ∧ columns listed = cols
    ∧ rows listed ≡ₚ map (restrict_row cols) (timeline_rows events selected)
    ∧ StronglySorted newest_first (rows listed).
Proof.
  intros Ht categories selected cols.
  destruct (timeline_table_inv events Ht)
    as (Hdate & Hcat & Hind & Hdated & Hsome & He).
  set (ewd := {| columns := columns events; rows := dated_events events;
     datetime64 := datetime64 events |}).
  set (shown := {| columns := columns events;
                   rows := timeline_rows events selected;
                   datetime64 := datetime64 events |}).
  assert (Hmask : getitem_mask events
                    (map notna (map (cell_of "event_date_parsed") (rows events)))
                  = ewd).
  { unfold getitem_mask. by rewrite map_map, select_map. }
  assert (Hewd : df_empty ewd = false).
  { unfold df_empty. cbn [columns rows ewd].
    destruct (columns events) eqn:Hc; [by apply has_column_nonempty in Hdate|].
    by destruct (dated_events events). }
  assert (Hshown : filtered_events ewd selected = Ok shown).
  { unfold filtered_events, shown, timeline_rows.
    destruct selected as [|c l] eqn:Hsel.
    - by rewrite (filter_all (λ _ : Z * Row, true)).
    - rewrite (getitem_has ewd "category") by exact Hcat. rewrite bind_Ok.
      cbn [rows ewd]. rewrite isin_column. unfold getitem_mask.
      by rewrite select_map. }
  assert (Hlisted_rows :
    Forall (λ r, ∃ t, cell_of "event_date_parsed" r = Date t)
      (map (restrict_row cols) (timeline_rows events selected))).
  { apply Forall_map. apply Forall_forall. intros r Hr.
    apply elem_of_filter_bool in Hr as [Hr _].
    rewrite Forall_forall in Hdated. destruct (Hdated r Hr) as [t Hd].
    exists t. rewrite cell_of_restrict_row. by rewrite bool_decide_eq_true_2
      by (unfold cols; rewrite !elem_of_cons; auto). }
  destruct (sort_values_desc_dates
              {| columns := cols;
                 rows := map (restrict_row cols) (timeline_rows events selected);
                 datetime64 := List.filter (λ c, bool_decide (c ∈ cols))
                                 (datetime64 events) |}
              "event_date_parsed")
    as (sorted & Hsort & Hperm & Hsorted); [done|exact Hlisted_rows|].
  cbn [columns rows] in Hsort, Hperm.
  exists {| px_call := Scatter shown "event_date_parsed" "category"
                          (Some "category") ["indicator"];
            px_args := [("title", "Event Timeline");
                        ("labels.event_date_parsed", "Date");
                        ("labels.category", "Category")];
            px_updates := [("marker.size", "12"); ("height", "400")] |},
         {| columns := cols; rows := sorted;
            datetime64 := List.filter (λ c, bool_decide (c ∈ cols))
                            (datetime64 events) |}.
  split; [|split; [reflexivity|split; [done|split; [done|exact Hsorted]]]].
  unfold event_timeline, st_subheader, st_dataframe.
  rewrite He, Hdate. cbn [negb andb].
  rewrite (getitem_has _ _ Hdate).
  eapply (renders_bind _ _ [_]); [apply renders_plain|]. cbn beta.
  eapply (renders_bind _ _ []); [apply renders_py|]. cbn beta zeta.
  rewrite Hmask, Hewd. cbn [negb].
  change (has_column ewd "category") with (has_column events "category").
  rewrite Hcat, (getitem_has ewd "category") by exact Hcat.
  cbn [rows ewd]. fold (event_categories events). fold categories.
  eapply (renders_bind _ _ []).
  { eapply (renders_bind _ _ []); [apply renders_py|]. apply renders_ret. }
  eapply (renders_bind _ _ [_]);
    [apply st_multiselect_renders, options_are_options|]. cbn beta.
  fold selected. rewrite Hshown.
  eapply (renders_bind _ _ []); [apply renders_py|]. cbn beta.
  change (has_column shown "category") with (has_column events "category").
  rewrite Hcat.
  rewrite px_scatter_ok.
  2:{ cbn [app option_list]. by repeat constructor. }
  eapply (renders_bind _ _ []); [apply renders_py|]. cbn beta.
  eapply (renders_bind _ _ [_]); [apply renders_show|]. cbn beta.
  match goal with
  | |- renders _ [Placed ?c ?w] _ => change [Placed c w] with (map (Placed c) [w])
  end.
  apply renders_placed. cbn zeta.
  cbn [List.filter].
  change (has_column shown ?c) with (has_column events c).
  rewrite Hdate, Hcat, Hind. fold cols.
  rewrite getitem_columns_ok by (by repeat constructor).
  eapply (renders_bind _ _ []); [apply renders_py|]. cbn beta.
  cbn [rows datetime64 shown].
  rewrite Hsort.
  eapply (renders_bind _ _ []); [apply renders_py|]. cbn beta.
  apply renders_plain.
Qed.
End EventsLemmas.

(** ** The event effects *)

Lemma replace_absent (old new s : string) :
  contains old s = false → replace_from old new 0 s = s.
Proof.
  induction s as [|a s IH]; [done|]. cbn [contains replace_from].
  intros Hc. apply orb_false_iff in Hc as [Hp Hc].
  rewrite Hp. by rewrite IH.
Qed.

Lemma prefix_app (p s : string) : String.prefix p (p +:+ s) = true.
Proof.
  induction p as [|a p IH]; [by destruct s|].
  change (String a p +:+ s) with (String a (p +:+ s)). cbn [String.prefix].
  by destruct (ascii_dec a a).
Qed.

Lemma replace_skip (old new p s : string) :
  replace_from old new (String.length p) (p +:+ s) = replace_from old new 0 s.
Proof.
  induction p as [|a p IH]; [done|].
  change (String a p +:+ s) with (String a (p +:+ s)). exact IH.
Qed.

(** An occurrence at the front is replaced, and the rest is searched. *)
Lemma replace_front (old new rest : string) :
  old ≠ EmptyString →
  str_replace old new (old +:+ rest) = new +:+ str_replace old new rest.
Proof.
  unfold str_replace. destruct old as [|a old]; [done|]. intros _.
  change (String a old +:+ rest) with (String a (old +:+ rest)).
  cbn [replace_from].
  change (String a (old +:+ rest)) with (String a old +:+ rest).
  rewrite prefix_app.
  assert (Hl : (String.length (String a old) - 1)%nat = String.length old)
    by (cbn [String.length]; lia).
  by rewrite Hl, replace_skip.
Qed.

Lemma replace_effect_prefix (rest : string) :
  contains "event_effect_" rest = false →
  str_replace "event_effect_" "" ("event_effect_" +:+ rest) = rest.
Proof.
  intros Hc. rewrite replace_front by done. unfold str_replace.
  by rewrite replace_absent.
Qed.

Section EffectLemmas.
Context `{Pandas}.

Lemma effect_traces_total ef cols :
  Forall (λ col, col ∈ columns ef) cols →
  ∃ lines,
    effect_traces ef cols = Ok lines
    ∧ Forall2 (λ col t,
                 trace_name t = str_replace "event_effect_" "" col
                 ∧ trace_x t = frame_index ef
                 ∧ trace_y t = map (cell_of col) (rows ef)
                 ∧ trace_mode t = "lines")
        cols lines.
Proof.
  induction 1 as [|col cols Hcol _ (lines & IH & Hlines)].
  { exists []. split; [done|constructor]. }
  cbn [effect_traces]. rewrite getitem_has, bind_Ok, IH, bind_Ok.
  2:{ by apply bool_decide_eq_true. }
  eexists. split; [done|]. by constructor.
Qed.

Lemma effect_columns_spec ef :
  (length (effect_columns ef) ≤ 4)%nat
  ∧ Forall (λ col, col ∈ columns ef ∧ contains "event_effect" col = true)
      (effect_columns ef).
Proof.
  unfold effect_columns. split; [rewrite length_take; lia|].
  apply Forall_forall. intros col Hcol.
  apply elem_of_take in Hcol as (i & Hi & _).
  apply list_elem_of_lookup_2 in Hi. by apply elem_of_filter_bool in Hi.
Qed.
End EffectLemmas.

(** ** Counting by key *)

Lemma total_app a b : total (a ++ b) = total a + total b.
Proof. unfold total. induction a as [|x a IH]; simpl; lia. Qed.

Lemma total_perm a b : a ≡ₚ b → total a = total b.
Proof. unfold total. induction 1; simpl; lia. Qed.

Lemma py_eq_refl c : notna c = true → py_eq c c = true.
Proof.
  destruct c as [|s|q|t]; cbn; try done; intros _.
  - apply String.eqb_refl.
  - apply Qeq_bool_iff. reflexivity.
  - apply Z.eqb_refl.
Qed.

Lemma py_eq_notna a b : py_eq a b = true → notna a = true ∧ notna b = true.
Proof. by destruct a, b. Qed.

Lemma py_eq_trans a b c : py_eq a b = true → py_eq b c = true → py_eq a c = true.
Proof.
  intros Hab Hbc. rewrite (py_eq_sym b c) in Hbc. by eapply py_eq_via.
Qed.

Lemma distinct_keys_cons k keys :
  distinct_keys (k :: keys) = true ↔
  (∀ k', k' ∈ keys → py_eq k k' = false) ∧ distinct_keys keys = true.
Proof.
  cbn [distinct_keys]. rewrite andb_true_iff, forallb_forall.
  split; intros [Hk Hl]; (split; [|done]); intros k' Hk'.
  - apply list_elem_of_In in Hk'. by apply negb_true_iff, Hk.
  - apply list_elem_of_In in Hk'. by apply negb_true_iff, Hk.
Qed.

Lemma distinct_keys_perm l l' :
  l ≡ₚ l' → distinct_keys l = true → distinct_keys l' = true.
Proof.
  induction 1 as [|x l l' Hp IH|x y l|l l' l'' Hp1 IH1 Hp2 IH2]; [done| | |auto].
  - rewrite !distinct_keys_cons. intros [Hx Hl]. split; [|by apply IH].
    intros k' Hk'. apply Hx. by rewrite Hp.
  - rewrite !distinct_keys_cons. intros [Hy [Hx Hl]]. split; [|split; [|done]].
    + intros k' Hk'. apply elem_of_cons in Hk' as [->|Hk'].
      * rewrite py_eq_sym. apply Hy. left.
      * by apply Hx.
    + intros k' Hk'. apply Hy. by right.
Qed.

Lemma distinct_keys_filter (p : cell → bool) l :
  distinct_keys l = true → distinct_keys (List.filter p l) = true.
Proof.
  induction l as [|x l IH]; [done|].
  rewrite distinct_keys_cons. intros [Hx Hl]. simpl.
  destruct (p x); [|by apply IH].
  apply distinct_keys_cons. split; [|by apply IH].
  intros k' Hk'. apply elem_of_filter_bool in Hk' as [Hk' _]. by apply Hx.
Qed.

(** The values of a grouping key are distinct, and every value present
    is one of them. *)
Lemma distinct_values_distinct s : distinct_keys (distinct_values s) = true.
Proof.
  induction s as [|c s IH]; [done|]. cbn [distinct_values].
  destruct (isna c); [done|].
  apply distinct_keys_cons. split; [|by apply distinct_keys_filter].
  intros k' Hk'. apply elem_of_filter_bool in Hk' as [_ Hk'].
  apply negb_true_iff in Hk'. by rewrite py_eq_sym.
Qed.

Lemma distinct_values_cover s c :
  c ∈ s → notna c = true → ∃ k, k ∈ distinct_values s ∧ py_eq c k = true.
Proof.
  induction s as [|x s IH]; intros Hc Hn; [by apply elem_of_nil in Hc|].
  cbn [distinct_values].
  apply elem_of_cons in Hc as [->|Hc].
  - destruct (isna x) eqn:Hx; [unfold notna in Hn; by rewrite Hx in Hn|].
    exists x. split; [left|by apply py_eq_refl].
  - destruct (IH Hc Hn) as (k & Hk & Hck).
    destruct (isna x) eqn:Hx; [by exists k|].
    destruct (py_eq k x) eqn:Hkx.
    + exists x. split; [left|by eapply py_eq_trans].
    + exists k. split; [|done]. right. apply elem_of_filter_bool.
      split; [done|]. by rewrite Hkx.
Qed.

Lemma distinct_values_present s k :
  k ∈ distinct_values s → k ∈ s ∧ notna k = true.
Proof.
  induction s as [|x s IH]; [intros Hk; by apply elem_of_nil in Hk|].
  cbn [distinct_values]. destruct (isna x) eqn:Hx.
  - intros Hk. destruct (IH Hk) as [Hin Hn]. split; [by right|done].
  - intros Hk. apply elem_of_cons in Hk as [->|Hk].
    + split; [left|]. unfold notna. by rewrite Hx.
    + apply elem_of_filter_bool in Hk as [Hk _].
      destruct (IH Hk) as [Hin Hn]. split; [by right|done].
Qed.

(** Among distinct keys, a value equal to one of them is equal to exactly
    one. *)
Lemma one_key_matches (keys : list cell) (c : cell) :
  distinct_keys keys = true →
  (∃ k, k ∈ keys ∧ py_eq c k = true) →
  total (map (λ k, if py_eq c k then 1 else 0) keys) = 1.
Proof.
  induction keys as [|k keys IH]; intros Hd (k0 & Hk0 & Hc).
  { by apply elem_of_nil in Hk0. }
  apply distinct_keys_cons in Hd as [Hk Hd]. cbn [map total foldr].
  fold (total (map (λ k, if py_eq c k then 1 else 0) keys)).
  destruct (py_eq c k) eqn:Hck.
  - assert (Hzero : total (map (λ k, if py_eq c k then 1 else 0) keys) = 0).
    { clear IH Hk0 Hc k0. induction keys as [|k' keys IH]; [done|].
      cbn [map total foldr].
      fold (total (map (λ k, if py_eq c k then 1 else 0) keys)).
      assert (Hck' : py_eq c k' = false).
      { destruct (py_eq c k') eqn:Hck'; [|done].
        rewrite <- (Hk k') by left. symmetry.
        eapply py_eq_trans; [|exact Hck']. by rewrite py_eq_sym. }
      rewrite Hck'. apply distinct_keys_cons in Hd as [_ Hd].
      rewrite IH; [done| |done]. intros k'' Hk''. apply Hk. by right. }
    lia.
  - apply elem_of_cons in Hk0 as [->|Hk0]; [congruence|].
    rewrite IH; [lia|done|by exists k0].
Qed.

Lemma total_zero {A} (g : A → Z) (l : list A) :
  (∀ x, g x = 0) → total (map g l) = 0.
Proof.
  intros Hg. induction l as [|x l IH]; [done|].
  cbn [map total foldr]. fold (total (map g l)). rewrite Hg, IH. done.
Qed.

(** Rows whose keys are among distinct keys are counted once each by the
    counts per key. *)
Lemma counts_per_key {A} (f : A → cell) (keys : list cell) (l : list A) :
  distinct_keys keys = true →
  (∀ x, x ∈ l → ∃ k, k ∈ keys ∧ py_eq (f x) k = true) →
  total (map (count_key f l) keys) = Z.of_nat (length l).
Proof.
  intros Hd. induction l as [|x l IH]; intros Hcover.
  { by apply total_zero. }
  assert (Hstep : ∀ keys',
    total (map (count_key f (x :: l)) keys')
    = total (map (λ k, if py_eq (f x) k then 1 else 0) keys')
      + total (map (count_key f l) keys')).
  { induction keys' as [|k keys' IHk]; [done|].
    cbn [map total foldr].
    fold (total (map (count_key f (x :: l)) keys')).
    fold (total (map (λ k, if py_eq (f x) k then 1 else 0) keys')).
    fold (total (map (count_key f l) keys')).
    rewrite IHk. unfold count_key at 1 3. cbn [List.filter].
    destruct (py_eq (f x) k); cbn [length]; lia. }
  rewrite Hstep, IH.
  2:{ intros y Hy. apply Hcover. by right. }
  rewrite one_key_matches; [cbn [length]; lia|done|].
  apply Hcover. left.
Qed.

Lemma length_filter_split {A} (p : A → bool) (l : list A) :
  (length (List.filter p l) + length (List.filter (λ x, negb (p x)) l))%nat
  = length l.
Proof. rewrite <- length_app. by rewrite (filter_split p l). Qed.

Lemma filter_map_comm {A B} (p : B → bool) (f : A → B) (l : list A) :
  List.filter p (map f l) = map f (List.filter (λ x, p (f x)) l).
Proof.
  induction l as [|x l IH]; [done|]. cbn [map List.filter].
  destruct (p (f x)); cbn [map]; by rewrite IH.
Qed.

Lemma filter_py_eq_notna (c : cell) (s : list cell) :
  List.filter (λ c', py_eq c' c) (List.filter notna s)
  = List.filter (λ c', py_eq c' c) s.
Proof.
  rewrite filter_filter. apply filter_ext. intros c'.
  destruct (py_eq c' c) eqn:Hc; [|by rewrite andb_false_r].
  apply py_eq_notna in Hc as [-> _]. done.
Qed.

Section CoverageLemmas.
Context `{PandasLaws}.

(** The bars of the category chart. *)
Lemma value_counts_spec (s : list cell) :
  total (map snd (value_counts s)) = Z.of_nat (length (List.filter notna s))
  ∧ Forall (λ bar : cell * Z,
              bar.2 = Z.of_nat (length (List.filter (λ c, py_eq c bar.1) s))
              ∧ 0 < bar.2) (value_counts s)
  ∧ distinct_keys (map fst (value_counts s)) = true
  ∧ StronglySorted (λ a b : cell * Z, b.2 ≤ a.2) (value_counts s).
Proof.
  unfold value_counts.
  set (present := List.filter notna s).
  set (counted := map (λ c, (c, Z.of_nat (length (List.filter (λ c', py_eq c' c)
                                                   present))))
                      (distinct_values present)).
  set (le := λ a b : cell * Z, b.2 <=? a.2).
  pose proof (sort_perm _ le counted) as Hperm.
  split; [|split; [|split]].
  - rewrite (total_perm _ (map snd counted)) by by apply Permutation_map.
    unfold counted. rewrite map_map. cbn [snd].
    apply (counts_per_key (λ c, c) (distinct_values present) present).
    + apply distinct_values_distinct.
    + intros c Hc. apply distinct_values_cover; [done|].
      by apply elem_of_filter_bool in Hc as [_ Hc].
  - rewrite Hperm. unfold counted. apply Forall_map. apply Forall_forall.
    intros c Hc. cbn [fst snd]. unfold present.
    rewrite filter_py_eq_notna. split; [done|].
    apply distinct_values_present in Hc as [Hc Hn].
    apply elem_of_filter_bool in Hc as [Hc _].
    assert (Hin : c ∈ List.filter (λ c', py_eq c' c) s).
    { apply elem_of_filter_bool. split; [done|by apply py_eq_refl]. }
    destruct (List.filter (λ c' : cell, py_eq c' c) s) as [|x l0];
      [by apply elem_of_nil in Hin|]. cbn [length]. lia.
  - apply (distinct_keys_perm (map fst counted)).
    + symmetry. by apply Permutation_map.
    + unfold counted. rewrite map_map. cbn [fst]. rewrite map_id.
      apply distinct_values_distinct.
  - assert (Hs : StronglySorted (λ x y, le x y = true) (sort_by le counted)).
    { apply sort_sorted.
      - intros x y _ _. unfold le. rewrite !Z.leb_le. lia.
      - intros x y z _ _ _. unfold le. rewrite !Z.leb_le. lia. }
    eapply StronglySorted_impl_on with (P := λ _, True); [|by apply Forall_true|exact Hs].
    intros x y _ _. unfold le. by rewrite Z.leb_le.
Qed.

(** The rows counted in the coverage table for an indicator, over all
    years. *)
Lemma coverage_row_total df code :
  total (map (coverage_count df code)
             (sort_by cell_leb
                (distinct_values (map (cell_of "year") (keyed_rows df)))))
  = Z.of_nat (length (List.filter
                        (λ r, py_eq (cell_of "indicator_code" r) code
                              && notna (cell_of "value_numeric" r))
                        (keyed_rows df))).
Proof.
  set (years := sort_by cell_leb _).
  set (l := List.filter _ (keyed_rows df)).
  rewrite (map_ext (coverage_count df code) (count_key (cell_of "year") l)).
  2:{ intros y. unfold coverage_count, count_key, l. rewrite filter_filter.
      do 2 f_equal. apply filter_ext. intros r.
      destruct (py_eq (cell_of "indicator_code" r) code),
        (py_eq (cell_of "year" r) y), (notna (cell_of "value_numeric" r)); done. }
  apply counts_per_key.
  - apply (distinct_keys_perm (distinct_values (map (cell_of "year") (keyed_rows df)))).
    + symmetry. apply sort_perm.
    + apply distinct_values_distinct.
  - intros r Hr. apply elem_of_filter_bool in Hr as [Hr _].
    assert (Hy : notna (cell_of "year" r) = true).
    { unfold keyed_rows in Hr. apply elem_of_filter_bool in Hr as [_ Hr].
      by apply andb_prop in Hr as [_ Hr]. }
    destruct (distinct_values_cover (map (cell_of "year") (keyed_rows df))
                (cell_of "year" r)) as (k & Hk & Hrk); [|done|].
    { by apply list_elem_of_fmap_2. }
    exists k. split; [|done]. unfold years. by rewrite sort_perm.
Qed.
End CoverageLemmas.

(** ** The script *)

Lemma app_bind_ext {A B} (m : App A) (f g : A → App B) :
  (∀ a page, f a page = g a page) → ∀ page, (m ≫= f) page = (m ≫= g) page.
Proof.
  intros Hfg page. rewrite !app_bind_run. destruct (m page) as [page' [a|e]]; [|done].
  apply Hfg.
Qed.

Lemma alike_refl {A} (r : list element * outcome A) : alike r r.
Proof. split; [done|]. by destruct (r.2). Qed.

Lemma alike_bind {A B} (m : App A) (f g : A → App B) page :
  (∀ a page', alike (f a page') (g a page')) →
  alike ((m ≫= f) page) ((m ≫= g) page).
Proof.
  intros Hfg. rewrite !app_bind_run. destruct (m page) as [page' [a|e]].
  - apply Hfg.
  - apply alike_refl.
Qed.

Lemma alike_placed {A} c (m1 m2 : App A) page :
  alike (m1 []) (m2 []) → alike (placed c m1 page) (placed c m2 page).
Proof.
  unfold placed, alike. destruct (m1 []) as [o1 r1], (m2 []) as [o2 r2].
  cbn [fst snd]. by intros [-> Hr].
Qed.

(** Alike computations are interchangeable before code that does not read
    their result. *)
Lemma app_bind_unread {A B} (m1 m2 : App A) (k : App B) :
  (∀ page, alike (m1 page) (m2 page)) →
  ∀ page, (m1 ≫= λ _, k) page = (m2 ≫= λ _, k) page.
Proof.
  intros Hm page. rewrite !app_bind_run. specialize (Hm page).
  destruct (m1 page) as [p1 [a1|e1]], (m2 page) as [p2 [a2|e2]];
    destruct Hm as [Hp Hm]; cbn [fst snd] in Hp, Hm; subst; done.
Qed.

Ltac render :=
  first [ apply renders_plain | apply renders_show | apply renders_py
        | apply renders_ret
        | apply renders_placed; render
        | eapply renders_bind; [render|cbn beta; render] ].

Section ScriptLemmas.
Context `{Pandas} `{Toolkit}.

Lemma year_range_filter_unread obs set1 set2 page :
  alike (year_range_filter obs set1 page) (year_range_filter obs set2 page).
Proof.
  unfold year_range_filter.
  destruct (negb (df_empty obs) && has_column obs "year"); [|apply alike_refl].
  apply alike_bind. intros year page1.
  apply alike_bind. intros years page2.
  destruct years as [|y years]; [apply alike_refl|].
  apply alike_bind. intros first_year page3.
  unfold st_slider.
  destruct (slider_refuses first_year 2027 (first_year, 2027));
    [apply alike_refl|].
  by split.
Qed.

Lemma renders_eq {A} (m : App A) out out' a :
  renders m out a → out = out' → renders m out' a.
Proof. by intros Hm <-. Qed.

Lemma renders_ui_from_empty {A} (m : UI A) out a :
  m [] = (out, Ok a) → renders (ui m) (map Plain out) a.
Proof. intros Hm page. unfold ui. by rewrite Hm. Qed.

Ltac message := eexists; (split; [|intros ?; reflexivity]); reflexivity.

Lemma loads_without_data fs :
  unified_source fs = None →
  unreadable (event_features_csv fs) = true →
  unreadable (event_matrix_csv fs) = true →
  forecasts_unreadable fs = true →
  ∃ m1 m2 m3 m4,
    Forall (λ w, is_message w = true) [m1; m2; m3; m4]
    ∧ runs (load_unified_data fs) [m1] (empty_frame, empty_frame)
    ∧ runs (load_event_features fs) [m2] None
    ∧ runs (load_event_matrix fs) [m3] None
    ∧ runs (load_forecasts fs) [m4] (None, None).
Proof.
  unfold unified_source, unreadable, forecasts_unreadable, runs.
  intros Hu Hf Hm Hfc.
  assert (∃ m1, is_message m1 = true
                ∧ ∀ page, load_unified_data fs page
                          = (page ++ [m1], Ok (empty_frame, empty_frame)))
    as (m1 & Hm1 & H1).
  { setoid_rewrite load_unified_data_run.
    destruct (enriched_csv fs) as [[df|e]|].
    - destruct (has_column df "record_type"); [done|]. message.
    - message.
    - destruct (workbook_main_sheet fs) as [df|e]; [done|]. message. }
  assert (∃ m2, is_message m2 = true
                ∧ ∀ page, load_event_features fs page = (page ++ [m2], Ok None))
    as (m2 & Hm2 & H2).
  { setoid_rewrite load_event_features_run.
    destruct (event_features_csv fs) as [[?|?]|]; [done| |]; message. }
  assert (∃ m3, is_message m3 = true
                ∧ ∀ page, load_event_matrix fs page = (page ++ [m3], Ok None))
    as (m3 & Hm3 & H3).
  { setoid_rewrite load_event_matrix_run.
    destruct (event_matrix_csv fs) as [[?|?]|]; [done| |]; message. }
  assert (∃ m4, is_message m4 = true
                ∧ ∀ page, load_forecasts fs page = (page ++ [m4], Ok (None, None)))
    as (m4 & Hm4 & H4).
  { setoid_rewrite load_forecasts_run.
    destruct (forecast_long_csv fs) as [[?|?]|]; [| |]; [|message..].
    destruct (forecast_wide_csv fs) as [[?|?]|]; [done| |done]. message. }
  exists m1, m2, m3, m4. split; [by repeat constructor|done].
Qed.
End ScriptLemmas.

(** ** The year range filter *)

Lemma py_int_whole q :
  Qeq_bool q (inject_Z (Qfloor q)) = true →
  (if Qle_bool 0 q then Qfloor q else Qceiling q) = Qfloor q.
Proof.
  intros Hq. apply Qeq_bool_iff in Hq.
  destruct (Qle_bool 0 q); [done|].
  rewrite Hq at 1. by rewrite Qceiling_Z.
Qed.

Lemma py_min_least (c : cell) (l : list cell) :
  Forall (λ x, kind_of x = Some KNum) (c :: l) →
  ∃ m, py_min (c :: l) = Ok m ∧ m ∈ c :: l
       ∧ ∀ x, x ∈ c :: l → cell_leb m x = true.
Proof.
  cbn [py_min]. revert c. induction l as [|y l IH]; intros c Hk.
  { exists c. split; [done|]. split; [left|].
    intros x Hx. apply list_elem_of_singleton in Hx as ->.
    inversion Hk as [|?? Hc _]; subst. destruct c; try done.
    cbn. apply Qle_bool_iff, Qle_refl. }
  inversion Hk as [|?? Hc Hk']; subst. cbn [fold_left].
  inversion Hk' as [|?? Hy Hl]; subst.
  destruct c as [| |p|]; try done. destruct y as [| |q|]; try done.
  cbn [cell_leb]. destruct (Qle_bool p q) eqn:Hpq.
  - destruct (IH (Num p)) as (m & Hm & Hin & Hle); [by constructor|].
    exists m. split; [done|]. split.
    + apply elem_of_cons in Hin as [->|Hin]; [left|]. right. by right.
    + intros x Hx. apply elem_of_cons in Hx as [->|Hx]; [apply Hle; left|].
      apply elem_of_cons in Hx as [->|Hx]; [|apply Hle; by right].
      assert (Hmp : cell_leb m (Num p) = true) by (apply Hle; left).
      destruct m as [| |r|]; try done. cbn in *.
      apply Qle_bool_iff in Hmp, Hpq. apply Qle_bool_iff. eapply Qle_trans; eassumption.
  - destruct (IH (Num q)) as (m & Hm & Hin & Hle); [by constructor|].
    exists m. split; [done|]. split.
    + by right.
    + intros x Hx. apply elem_of_cons in Hx as [->|Hx]; [|by apply Hle].
      assert (Hmq : cell_leb m (Num q) = true) by (apply Hle; left).
      destruct m as [| |r|]; try done. cbn in *.
      apply Qle_bool_iff in Hmq. apply Qle_bool_iff.
      assert (Hqp : (q <= p)%Q).
      { apply Qlt_le_weak, Qnot_le_lt. intros Hle'.
        apply Qle_bool_iff in Hle'. congruence. }
      eapply Qle_trans; eassumption.
Qed.

Lemma observed_years_spec obs y :
  whole_years obs = true →
  y ∈ observed_years obs ↔
  ∃ q, Num q ∈ List.filter notna (map (cell_of "year") (rows obs))
       ∧ Qfloor q = y.
Proof.
  intros _. unfold observed_years. rewrite list_elem_of_omap. split.
  - intros (r & Hr & Hy). destruct (cell_of "year" r) as [| |q|] eqn:Hc; try done.
    injection Hy as <-. exists q. split; [|done].
    apply elem_of_filter_bool. split; [|done].
    rewrite <- Hc. by apply list_elem_of_fmap_2.
  - intros (q & Hq & <-). apply elem_of_filter_bool in Hq as [Hq _].
    apply list_elem_of_fmap in Hq as (r & Hq & Hr).
    exists r. split; [done|]. by rewrite <- Hq.
Qed.

Lemma year_cells_numeric obs :
  whole_years obs = true →
  Forall (λ c, ∃ q, c = Num q ∧ Qeq_bool q (inject_Z (Qfloor q)) = true)
    (List.filter notna (map (cell_of "year") (rows obs))).
Proof.
  intros Hw. apply Forall_forall. intros c Hc.
  apply elem_of_filter_bool in Hc as [Hc Hn].
  apply list_elem_of_fmap in Hc as (r & -> & Hr).
  unfold whole_years in Hw. rewrite forallb_forall in Hw.
  apply list_elem_of_In in Hr. specialize (Hw r Hr).
  destruct (cell_of "year" r) as [| |q|]; try done. by exists q.
Qed.

(** ** The Forecasts page with a wide table *)

Section WideLemmas.
Context `{PandasLaws}.

Lemma uncertainty_band_total fw sel :
  chartable_wide fw = true →
  ∃ band, uncertainty_band (Some fw) sel = Ok band.
Proof.
  unfold chartable_wide. intros Hw.
  apply andb_prop in Hw as [Hw Hread].
  apply andb_prop in Hw as [Hw Hnum].
  apply andb_prop in Hw as [Hcode Hyear].
  assert (Hrows : Forall readable_year (rows fw)).
  { unfold years_readable in Hread. rewrite forallb_forall in Hnum, Hread.
    apply Forall_forall. intros r Hr. apply list_elem_of_In in Hr.
    specialize (Hnum r Hr). specialize (Hread r Hr). split; [done|].
    by destruct (parse_datetime _). }
  unfold uncertainty_band.
  rewrite (getitem_has _ _ Hcode), bind_Ok, getitem_mask_eq.
  set (sel_rows := List.filter _ (rows fw)).
  assert (Hsel : Forall readable_year sel_rows) by by apply Forall_filter_bool.
  rewrite (sort_values_kind KNum); [|done|].
  2:{ cbn [rows]. eapply Forall_impl; [exact Hsel|]. intros r [Hn _].
      by destruct (cell_of "year" r). }
  rewrite bind_Ok. cbn [rows columns].
  set (sorted := sort_by (by_column "year") sel_rows).
  set (wd := {| columns := columns fw; rows := sorted;
     datetime64 := _ |}).
  destruct (negb (df_empty wd) && has_column wd "lower" && has_column wd "upper")
    eqn:Hband; [|by eexists].
  apply andb_prop in Hband as [Hband Hup].
  apply andb_prop in Hband as [_ Hlo].
  rewrite (getitem_has wd "year" Hyear), bind_Ok. cbn [rows wd].
  destruct (forecast_dates_ok sorted) as [ds ->].
  { eapply Forall_impl; [unfold sorted; rewrite sort_perm; exact Hsel|].
    by intros r [_ Hp]. }
  rewrite bind_Ok, (getitem_has wd "upper" Hup), bind_Ok.
  rewrite (getitem_has wd "lower" Hlo), bind_Ok. by eexists.
Qed.

Lemma uncertainty_band_needs_keys fw sel c :
  missing_wide_key fw = Some c →
  uncertainty_band (Some fw) sel = Raise (KeyError c).
Proof.
  unfold missing_wide_key, uncertainty_band, getitem.
  destruct (has_column fw "indicator_code") eqn:Hcode; cbn [negb].
  2:{ by intros [= <-]. }
  destruct (has_column fw "year") eqn:Hyear; cbn [negb]; [done|].
  intros [= <-]. rewrite bind_Ok. unfold sort_values.
  change (has_column (getitem_mask fw _) "year") with (has_column fw "year").
  by rewrite Hyear.
Qed.

Lemma band_of_has_band dates wide_data :
  existsb band_trace (band_of dates wide_data) = true.
Proof. reflexivity. Qed.

Lemma forecast_lines_ok s fl sel :
  observation_table (observations s) = true →
  forecast_long_table fl = true →
  years_readable fl = true →
  ∃ series hs ls,
    get_indicator_series (observations s) sel = Ok series
    ∧ has_column fl "indicator_code" = true
    ∧ historical_trace series = Ok hs
    ∧ scenario_traces
        {| columns := columns fl;
           rows := List.filter (λ r, py_eq (cell_of "indicator_code" r) sel)
                     (rows fl);
           datetime64 := datetime64 fl |}
        ["base"; "optimistic"; "pessimistic"] = Ok ls
    ∧ Forall (λ t, band_trace t = false) (hs ++ ls).
Proof.
  intros Hobs Ht Hy.
  destruct (historical_trace_no_band (observations s) sel Hobs)
    as (series & hs & Hs & Hh & Hhs).
  pose proof (forecast_rows_readable fl Ht Hy) as Hrows.
  unfold forecast_long_table in Ht.
  apply andb_prop in Ht as [Ht _].
  apply andb_prop in Ht as [Ht Hval].
  apply andb_prop in Ht as [Ht Hscen].
  apply andb_prop in Ht as [Hcode Hyear].
  destruct (scenario_traces_no_band
              {| columns := columns fl;
                 rows := List.filter (λ r, py_eq (cell_of "indicator_code" r) sel)
                           (rows fl);
                 datetime64 := datetime64 fl |})
    as (ls & Hl & Hls); try done.
  { cbn [rows]. by apply Forall_filter_bool. }
  exists series, hs, ls. repeat split; try done. by apply Forall_app.
Qed.

Lemma forecast_figure_with_wide s fl fw sel :
  forecast_wide s = Some fw →
  observation_table (observations s) = true →
  forecast_long_table fl = true →
  years_readable fl = true →
  chartable_wide fw = true →
  ∃ fig, forecast_figure s fl sel = Ok fig
         ∧ existsb band_trace (traces fig) = has_band fw sel.
Proof.
  intros Hw Hobs Ht Hy Hcw.
  destruct (forecast_lines_ok s fl sel Hobs Ht Hy)
    as (series & hs & ls & Hs & Hcode & Hh & Hl & Hplain).
  destruct (uncertainty_band_total fw sel Hcw) as [band Hband].
  unfold forecast_figure.
  rewrite Hs, bind_Ok, (getitem_has _ _ Hcode), bind_Ok, getitem_mask_eq.
  rewrite Hh, bind_Ok, Hl, bind_Ok, Hw, Hband, bind_Ok.
  eexists. split; [done|]. cbn [traces].
  rewrite app_assoc, existsb_app.
  replace (existsb band_trace (hs ++ ls)) with false.
  2:{ symmetry. apply not_true_is_false. intros Hex.
      apply existsb_exists in Hex as (t & Hin & Hb).
      rewrite Forall_forall in Hplain. apply list_elem_of_In in Hin.
      rewrite (Hplain t Hin) in Hb. done. }
  cbn [orb]. pose proof (uncertainty_band_inv fw sel band Hband) as Hinv.
  destruct (has_band fw sel).
  - destruct Hinv as (wd & dates & _ & _ & ->). apply band_of_has_band.
  - by rewrite Hinv.
Qed.

Lemma forecast_figure_needs_keys s fl fw sel c :
  forecast_wide s = Some fw →
  observation_table (observations s) = true →
  forecast_long_table fl = true →
  years_readable fl = true →
  missing_wide_key fw = Some c →
  forecast_figure s fl sel = Raise (KeyError c).
Proof.
  intros Hw Hobs Ht Hy Hc.
  destruct (forecast_lines_ok s fl sel Hobs Ht Hy)
    as (series & hs & ls & Hs & Hcode & Hh & Hl & Hplain).
  unfold forecast_figure.
  rewrite Hs, bind_Ok, (getitem_has _ _ Hcode), bind_Ok, getitem_mask_eq.
  rewrite Hh, bind_Ok, Hl, bind_Ok, Hw.
  by rewrite (uncertainty_band_needs_keys fw sel c Hc).
Qed.

Lemma forecast_comparison_runs_wide s fl fw :
  forecast_wide s = Some fw →
  observation_table (observations s) = true →
  forecast_long_table fl = true →
  years_readable fl = true →
  chartable_wide fw = true →
  ∃ out,
    runs (forecast_comparison s fl) out ()
    ∧ ∀ sel,
        selectbox_value (unique (map (cell_of "indicator_code") (rows fl)))
          (indicator_pick s) = Some sel →
        truthy sel = true →
        ∃ fig, forecast_figure s fl sel = Ok fig ∧ PlotlyChart fig ∈ out
               ∧ existsb band_trace (traces fig) = has_band fw sel.
Proof.
  intros Hw Hobs Ht Hy Hcw. unfold forecast_comparison.
  assert (Hcode : has_column fl "indicator_code" = true).
  { unfold forecast_long_table in Ht. by repeat apply andb_prop in Ht as [Ht _]. }
  rewrite (getitem_has _ _ Hcode).
  destruct (selectbox_value (unique (map (cell_of "indicator_code") (rows fl)))
              (indicator_pick s)) as [sel|] eqn:Hsel.
  - destruct (truthy sel) eqn:Htr.
    + destruct (forecast_figure_with_wide s fl fw sel Hw Hobs Ht Hy Hcw)
        as (fig & Hfig & Hband).
      eexists. split.
      { unfold st_subheader, st_selectbox. emits.
        eapply runs_bind; [apply runs_lift|].
        eapply runs_bind.
        { eapply runs_bind; [apply runs_emit|]. apply runs_ret. }
        rewrite Hsel, Htr, Hfig.
        eapply runs_bind; [apply runs_lift|]. apply runs_emit. }
      intros sel' [= <-] _. exists fig. split; [done|]. split; [|done].
      rewrite !elem_of_app. right. right. right. right. left.
    + eexists. split.
      { unfold st_subheader, st_selectbox. emits.
        eapply runs_bind; [apply runs_lift|].
        eapply runs_bind.
        { eapply runs_bind; [apply runs_emit|]. apply runs_ret. }
        rewrite Hsel, Htr. apply runs_ret. }
      intros sel' [= <-] Htr'. congruence.
  - eexists. split.
    { unfold st_subheader, st_selectbox. emits.
      eapply runs_bind; [apply runs_lift|].
      eapply runs_bind.
      { eapply runs_bind; [apply runs_emit|]. apply runs_ret. }
      rewrite Hsel. apply runs_ret. }
    intros sel' Hs. discriminate Hs.
Qed.

Lemma forecast_comparison_fails_wide s fl fw sel c :
  forecast_wide s = Some fw →
  observation_table (observations s) = true →
  forecast_long_table fl = true →
  years_readable fl = true →
  missing_wide_key fw = Some c →
  selectbox_value (unique (map (cell_of "indicator_code") (rows fl)))
    (indicator_pick s) = Some sel →
  truthy sel = true →
  fails (forecast_comparison s fl)
    [Subheader "📊 Scenario Comparison";
     Selectbox "Select Indicator"
       (unique (map (cell_of "indicator_code") (rows fl)))]
    (KeyError c).
Proof.
  intros Hw Hobs Ht Hy Hc Hsel Htr. unfold forecast_comparison.
  assert (Hcode : has_column fl "indicator_code" = true).
  { unfold forecast_long_table in Ht. by repeat apply andb_prop in Ht as [Ht _]. }
  rewrite (getitem_has _ _ Hcode).
  unfold st_subheader, st_selectbox.
  eapply (fails_bind _ _ [_] [_]); [apply runs_emit|]. cbn beta.
  eapply (fails_bind _ _ [] [_]); [apply runs_lift|]. cbn beta.
  eapply (fails_bind _ _ [_] []).
  { eapply (runs_bind _ _ [_] []); [apply runs_emit|]. apply runs_ret. }
  cbn beta. rewrite Hsel, Htr.
  rewrite (forecast_figure_needs_keys s fl fw sel c Hw Hobs Ht Hy Hc).
  apply fails_first, fails_lift.
Qed.
End WideLemmas.

(** * The claims *)

Section Claims.
Context `{PandasLaws}.

(** C1. On every observation table and for every indicator code,
    [get_indicator_series] returns a frame and does not raise; its rows
    are the rows of the table that carry the code and miss neither date
    nor value, in non-decreasing order of date; when no row carries the
    code (in particular on an empty table) it has no rows. *)
Theorem get_indicator_series_spec (obs : DataFrame) (code : cell) :
  observation_table obs = true →
  ∃ series,
    get_indicator_series obs code = Ok series
    ∧ rows series ≡ₚ List.filter (in_series obs code) (rows obs)
    ∧ StronglySorted date_le (rows series)
    ∧ ((∀ r, r ∈ rows obs →
             py_eq (frame_cell obs "indicator_code" r) code = false) →
       rows series = [] ∧ df_empty series = true).
Proof.
  intros Hobs.
  destruct (indicator_series_sorted_perm obs code Hobs)
    as (series & Hser & Hperm & Hsorted).
  exists series. split; [done|]. split; [done|]. split; [done|].
  intros Hno. rewrite (filter_none (in_series obs code)) in Hperm.
  2:{ intros r Hr. unfold in_series. by rewrite (Hno r Hr). }
  apply Permutation_nil_r in Hperm. split; [done|].
  unfold df_empty. rewrite Hperm. by destruct (columns series).
Qed.

(** C2. On every observation table with at most one row per
    (indicator_code, observation_date): when the series of a code has no
    rows [get_latest_value] returns [None]; otherwise it returns the
    [value_numeric] of a row of the series whose date is strictly later
    than the date of every other row of the series. *)
Theorem get_latest_value_spec (obs : DataFrame) (code : cell) :
  observation_table obs = true →
  unique_keys (rows obs) = true →
  ∃ series,
    get_indicator_series obs code = Ok series
    ∧ (rows series = [] → get_latest_value obs code = Ok None)
    ∧ (rows series ≠ [] →
       ∃ r t,
         r ∈ rows series ∧ date_of r = Some t
         ∧ get_latest_value obs code = Ok (Some (cell_of "value_numeric" r))
         ∧ ∀ r', r' ∈ rows series →
                 r' = r ∨ ∃ t', date_of r' = Some t' ∧ t' < t).
Proof.
  intros Hobs Huniq.
  destruct (indicator_series_sorted_perm obs code Hobs)
    as (series & Hser & Hperm & Hsorted).
  exists series. split; [done|].
  unfold get_latest_value. rewrite Hser, bind_Ok.
  split.
  - intros Hnil. unfold df_empty. rewrite Hnil. by destruct (columns series).
  - intros Hrows.
    destruct (df_empty obs) eqn:He.
    { destruct (get_indicator_series_empty obs code He) as [Hs' _].
      rewrite Hs' in Hser. by injection Hser as <-. }
    rewrite (get_indicator_series_rows obs code He Hobs) in Hser.
    injection Hser as <-. cbn [rows columns] in *.
    unfold observation_table in Hobs. rewrite He, orb_false_l in Hobs.
    apply andb_prop in Hobs as [Hobs Hdt].
    apply andb_prop in Hobs as [Hobs Hval].
    apply andb_prop in Hobs as [Hcode Hdate].
    set (S := sort_by (by_column "observation_date")
                (List.filter (in_series obs code) (rows obs))) in *.
    destruct (exists_last Hrows) as (l & r & HS).
    assert (Hin : ∀ x, x ∈ S → x ∈ rows obs ∧ in_series obs code x = true).
    { intros x Hx. rewrite Hperm in Hx. by apply elem_of_filter_bool in Hx. }
    assert (Hr : r ∈ S). { rewrite HS. apply elem_of_app. right. left. }
    destruct (Hin r Hr) as [Hro Hrs].
    destruct (in_series_dated obs code r Hdate Hdt Hro Hrs) as [t Ht].
    exists r, t. split; [done|]. split; [unfold date_of; by rewrite Ht|].
    split.
    + rewrite df_empty_rows.
      2:{ cbn [columns]. intros Hc. unfold has_column in Hcode.
          rewrite Hc in Hcode.
          by apply bool_decide_eq_true, elem_of_nil in Hcode. }
      cbn [rows]. rewrite bool_decide_eq_false_2 by done.
      rewrite getitem_has by (unfold has_column; done).
      rewrite bind_Ok. cbn [rows]. rewrite HS, iloc_last_map. done.
    + intros r' Hr'. rewrite HS in Hr'.
      apply elem_of_app in Hr' as [Hr'|Hr'];
        [right|left; by apply list_elem_of_singleton in Hr'].
      assert (Hle : date_le r' r).
      { rewrite HS in Hsorted. by eapply StronglySorted_last. }
      assert (Hkey : same_key r' r = false).
      { eapply unique_keys_last; [|done]. rewrite <- HS.
        eapply unique_keys_perm; [symmetry; exact Hperm|].
        by apply unique_keys_filter. }
      assert (Hr'S : r' ∈ S). { rewrite HS. apply elem_of_app. by left. }
      destruct (Hin r' Hr'S) as [Hro' Hrs'].
      unfold date_le, date_of in *. rewrite Ht in Hle.
      destruct (cell_of "observation_date" r') as [| | |t'] eqn:Ht'; try done.
      exists t'. split; [done|].
      unfold same_key in Hkey. rewrite Ht, Ht' in Hkey.
      unfold in_series in Hrs, Hrs'.
      rewrite !frame_cell_has in Hrs, Hrs' by done.
      apply andb_prop in Hrs as [Hrs _]. apply andb_prop in Hrs as [Hrs _].
      apply andb_prop in Hrs' as [Hrs' _]. apply andb_prop in Hrs' as [Hrs' _].
      rewrite (py_eq_via _ _ _ Hrs' Hrs) in Hkey. simpl in Hkey.
      apply Z.eqb_neq in Hkey. lia.
Qed.

(** C3. On every forecast table, absent or not, and for every three keys,
    [get_forecast_value] returns and does not raise: [None] when the
    table is absent or no row carries the three keys, and the
    [forecast_value] of the row when exactly one row carries them. *)
Theorem get_forecast_value_spec (forecast_df : option DataFrame)
    (indicator year scenario : cell) :
  forecast_table forecast_df = true →
  ∃ v,
    get_forecast_value forecast_df indicator year scenario = Ok v
    ∧ (forecast_df = None → v = None)
    ∧ (forecast_matches forecast_df indicator year scenario = [] → v = None)
    ∧ (∀ df r,
         forecast_df = Some df →
         forecast_matches forecast_df indicator year scenario = [r] →
         v = Some (frame_cell df "forecast_value" r)).
Proof.
  intros Ht. rewrite (get_forecast_value_head _ _ _ _ Ht).
  eexists. split; [done|]. split; [by intros ->|]. split.
  - intros Hm. destruct forecast_df; [|done]. by rewrite Hm.
  - intros df r -> Hm. by rewrite Hm.
Qed.


(** C4, as amended.  On every unified table whose rows carry distinct
    labels, [get_observations] and [get_events] are called one after the
    other as the script does.  [get_observations] returns, and the rows of
    its result are the rows of the table whose [record_type] is
    "observation", identified by their labels.  When [pd.to_datetime]
    accepts the dates of the events, [get_events] returns too: the rows of
    its result are the rows whose [record_type] is "event"; a row of any
    other type is in neither result; no label is in both; and the labels of
    the table are those of the two results and of the excluded rows, each
    once.  When [pd.to_datetime] refuses them, because the picked date
    column is not [datetime64] and the dates of the events in it are of
    different time zones, [get_events] raises [ValueError], and the table
    and the observations stay as they are. *)
Theorem partition_by_record_type (σ : gmap positive DataFrame) l d :
  σ !! l = Some d →
  unified_table d = true →
  NoDup (labels d) →
  ∃ σ1 lo obs,
    get_observations l σ = (σ1, Ok lo)
    ∧ σ1 !! lo = Some obs
    ∧ labels obs = map fst (record_rows d "observation")
    ∧ (∀ r, r ∈ rows d →
         r.1 ∈ labels obs ↔
         py_eq (frame_cell d "record_type" r) (Str "observation") = true)
    ∧ if event_dates_refused d
      then ∃ σ2,
             get_events l σ1 = (σ2, Raise ValueError)
             ∧ σ2 !! l = Some d ∧ σ2 !! lo = Some obs
      else ∃ σ2 le ev,
             get_events l σ1 = (σ2, Ok le)
             ∧ σ2 !! lo = Some obs ∧ σ2 !! le = Some ev
             ∧ labels ev = map fst (record_rows d "event")
             ∧ (∀ r, r ∈ rows d →
                  r.1 ∈ labels ev ↔
                  py_eq (frame_cell d "record_type" r) (Str "event") = true)
             ∧ (∀ i, i ∈ labels obs → i ∉ labels ev)
             ∧ labels d ≡ₚ labels obs ++ labels ev ++ map fst (excluded_rows d).
Proof.
  intros Hl Hu Hnd.
  assert (Hiff : ∀ v r, r ∈ rows d →
            r.1 ∈ map fst (record_rows d v) ↔
            py_eq (frame_cell d "record_type" r) (Str v) = true).
  { intros v r Hr. unfold record_rows.
    by apply (label_in_filter (λ r, py_eq (frame_cell d "record_type" r) (Str v))). }
  destruct (get_observations_run σ l d Hl Hu) as (σ1 & lo & Hrun1 & Hfresh1 & Hlo).
  pose proof (get_observations_preserves _ _ _ _ Hrun1) as Hp1.
  assert (Hl1 : σ1 !! l = Some d). { rewrite Hp1; [done|by rewrite Hl]. }
  eexists σ1, lo, _. split; [done|]. split; [exact Hlo|].
  rewrite labels_observation_result. split; [done|].
  split; [intros r Hr; by apply Hiff|].
  destruct (event_dates_refused d) eqn:Href.
  - assert (He : df_empty d = false).
    { unfold event_dates_refused in Href. by destruct (df_empty d). }
    assert (Hrt : has_column d "record_type" = true).
    { unfold unified_table in Hu. rewrite He, orb_false_l in Hu.
      by apply andb_prop in Hu as [Hrt _]. }
    destruct (get_events_refused σ1 l d Hl1 Href Hrt) as (σ2 & Hrun2 & Hl2).
    pose proof (get_events_preserves _ _ _ _ Hrun2) as Hp2.
    exists σ2. split; [done|]. split; [done|].
    rewrite Hp2; [done|by rewrite Hlo].
  - destruct (get_events_run σ1 l d Hl1 Hu Href)
      as (σ2 & le & Hrun2 & Hfresh2 & Hle).
    pose proof (get_events_preserves _ _ _ _ Hrun2) as Hp2.
    eexists σ2, le, _. split; [done|].
    split; [rewrite Hp2; [done|by rewrite Hlo]|]. split; [exact Hle|].
    rewrite labels_event_result. split; [done|].
    split; [intros r Hr; by apply Hiff|]. split.
    + intros i Hobs Hev.
      apply list_elem_of_In, in_map_iff in Hobs as (r & <- & Hr).
      apply filter_In in Hr as [Hr Hp]. apply list_elem_of_In in Hr.
      apply (Hiff "event" r Hr) in Hev.
      by rewrite (record_type_exclusive _ Hp) in Hev.
    + unfold labels, record_rows, excluded_rows. rewrite <- !map_app.
      apply Permutation_map, filter_three_way.
      intros r. apply record_type_exclusive.
Qed.

(** C7, as amended.  On every unified table [get_observations] and
    [get_events] leave every frame already in the store unchanged, the input
    table included.  [get_observations] returns a frame at a new location,
    and so does [get_events] when [pd.to_datetime] accepts the dates of the
    events; that frame holds the input rows whose [record_type] matches, in
    order and under their labels, each agreeing with its input row on every
    column except the derived ones: [year] for [get_observations]; the
    picked date column and [event_date_parsed] for [get_events].  When
    [pd.to_datetime] refuses the dates of the events, [get_events] raises
    [ValueError] and returns no frame. *)
Theorem filters_leave_input (σ : gmap positive DataFrame) l d :
  σ !! l = Some d →
  unified_table d = true →
  (∃ σ' lo obs,
     get_observations l σ = (σ', Ok lo)
     ∧ preserved σ σ' ∧ σ' !! l = Some d
     ∧ σ !! lo = None ∧ σ' !! lo = Some obs
     ∧ Forall2 (λ r r', r'.1 = r.1 ∧ ∀ c, c ≠ "year" → r'.2 !! c = r.2 !! c)
         (record_rows d "observation") (rows obs))
  ∧ if event_dates_refused d
    then ∃ σ',
           get_events l σ = (σ', Raise ValueError)
           ∧ preserved σ σ' ∧ σ' !! l = Some d
    else ∃ σ' le ev,
           get_events l σ = (σ', Ok le)
           ∧ preserved σ σ' ∧ σ' !! l = Some d
           ∧ σ !! le = None ∧ σ' !! le = Some ev
           ∧ Forall2 (λ r r', r'.1 = r.1
                              ∧ ∀ c, c ≠ picked_date_column d →
                                     c ≠ "event_date_parsed" →
                                     r'.2 !! c = r.2 !! c)
               (record_rows d "event") (rows ev).
Proof.
  intros Hl Hu. split.
  - destruct (get_observations_run σ l d Hl Hu) as (σ' & lo & Hrun & Hfresh & Hlo).
    pose proof (get_observations_preserves _ _ _ _ Hrun) as Hp.
    eexists σ', lo, _. split; [done|]. split; [done|].
    split; [rewrite Hp; [done|by rewrite Hl]|].
    split; [done|]. split; [exact Hlo|]. apply rows_observation_result.
  - destruct (event_dates_refused d) eqn:Href.
    + assert (He : df_empty d = false).
      { unfold event_dates_refused in Href. by destruct (df_empty d). }
      assert (Hrt : has_column d "record_type" = true).
      { unfold unified_table in Hu. rewrite He, orb_false_l in Hu.
        by apply andb_prop in Hu as [Hrt _]. }
      destruct (get_events_refused σ l d Hl Href Hrt) as (σ' & Hrun & Hl').
      exists σ'. split; [done|]. split; [|done].
      by eapply get_events_preserves.
    + destruct (get_events_run σ l d Hl Hu Href)
        as (σ' & le & Hrun & Hfresh & Hle).
      pose proof (get_events_preserves _ _ _ _ Hrun) as Hp.
      eexists σ', le, _. split; [done|]. split; [done|].
      split; [rewrite Hp; [done|by rewrite Hl]|].
      split; [done|]. split; [exact Hle|]. apply rows_event_result.
Qed.

(** C6, as amended.  On a unified table with rows [get_events] reads the
    dates of all event rows from one column, [event_date] when the table
    has that column and some event row fills it, [observation_date]
    otherwise.  When [pd.to_datetime] accepts the dates it reads,
    [get_events] returns: when the table has the picked column, the
    [event_date_parsed] of each event row is the parse of the row's value
    in that column; when it has not, the event rows are returned as they
    are; on a table without rows the result is the empty frame.  A value
    that cannot be parsed gives a missing date.  When [pd.to_datetime]
    refuses the dates, because the picked column is not [datetime64] and
    the dates of the events in it are of different time zones,
    [get_events] raises [ValueError]. *)
Theorem event_date_parsed_column (σ : gmap positive DataFrame) l d :
  σ !! l = Some d →
  unified_table d = true →
  (if event_dates_refused d
   then ∃ σ', get_events l σ = (σ', Raise ValueError)
   else ∃ σ' le ev,
          get_events l σ = (σ', Ok le) ∧ σ' !! le = Some ev
          ∧ (df_empty d = true → ev = empty_frame)
          ∧ (df_empty d = false → has_column d (picked_date_column d) = true →
             has_column ev "event_date_parsed" = true
             ∧ Forall2 (λ r r', cell_of "event_date_parsed" r'
                                = to_datetime_cell
                                    (cell_of (picked_date_column d) r))
                 (record_rows d "event") (rows ev))
          ∧ (df_empty d = false →
             has_column d (picked_date_column d) = false →
             ev = record_frame d "event"))
  ∧ (∀ c, parse_datetime c = None → (∀ t, c ≠ Date t) → to_datetime_cell c = NA).
Proof.
  intros Hl Hu. split.
  - destruct (event_dates_refused d) eqn:Href.
    + assert (He : df_empty d = false).
      { unfold event_dates_refused in Href. by destruct (df_empty d). }
      assert (Hrt : has_column d "record_type" = true).
      { unfold unified_table in Hu. rewrite He, orb_false_l in Hu.
        by apply andb_prop in Hu as [Hrt _]. }
      destruct (get_events_refused σ l d Hl Href Hrt) as (σ' & Hrun & _).
      by exists σ'.
    + destruct (get_events_run σ l d Hl Hu Href)
        as (σ' & le & Hrun & Hfresh & Hle).
      eexists σ', le, _. split; [done|]. split; [exact Hle|].
      split; [by intros ->|]. split.
      * intros -> Hc. by apply event_date_parsed_rows.
      * intros -> Hc. unfold event_frame.
        change (has_column (record_frame d "event") (picked_date_column d))
          with (has_column d (picked_date_column d)). by rewrite Hc.
  - intros c Hp Hd. destruct c; simpl; try done; try by rewrite Hp.
    by destruct (Hd t).
Qed.

(** C5, as amended.  Whatever the files hold, each of the four loads
    returns a value and lets no exception out.  When the load reaches its
    missing-file check or its handler, it returns the placeholder (empty
    tables, [None]) and shows one warning or error message; otherwise it
    shows nothing.  [load_unified_data] reaches its handler also when
    [pd.to_datetime] refuses the [observation_date] of the table read.  The
    one failure that is not reported is that of the workbook's impact sheet
    in [load_unified_data]: the main table is returned with an empty impact
    table and no message. *)
Theorem loads_fail_soft (fs : Files) (page : list widget) :
  (∃ v page',
     load_unified_data fs page = (page', Ok v)
     ∧ (unified_load_fails fs = true →
        v = (empty_frame, empty_frame)
        ∧ ∃ msg, is_message msg = true ∧ page' = page ++ [msg])
     ∧ (unified_load_fails fs = false → page' = page)
     ∧ (impact_sheet_fails fs = true → v.2 = empty_frame ∧ page' = page))
  ∧ (∃ v page',
       load_event_features fs page = (page', Ok v)
       ∧ (csv_fails (event_features_csv fs) = true →
          v = None ∧ ∃ msg, is_message msg = true ∧ page' = page ++ [msg])
       ∧ (csv_fails (event_features_csv fs) = false → page' = page))
  ∧ (∃ v page',
       load_event_matrix fs page = (page', Ok v)
       ∧ (csv_fails (event_matrix_csv fs) = true →
          v = None ∧ ∃ msg, is_message msg = true ∧ page' = page ++ [msg])
       ∧ (csv_fails (event_matrix_csv fs) = false → page' = page))
  ∧ (∃ v page',
       load_forecasts fs page = (page', Ok v)
       ∧ (forecasts_load_fails fs = true →
          v = (None, None)
          ∧ ∃ msg, is_message msg = true ∧ page' = page ++ [msg])
       ∧ (forecasts_load_fails fs = false → page' = page)).
Proof.
  split; [|split; [|split]].
  - rewrite load_unified_data_run.
    unfold unified_load_fails, impact_sheet_fails.
    destruct (enriched_csv fs) as [[df|e]|];
      [destruct (has_column df "record_type");
       [destruct (observation_dates_refused df)|]| |
       destruct (workbook_main_sheet fs) as [df|e];
       [destruct (observation_dates_refused df);
        destruct (workbook_impact_sheet fs)|]];
      eexists _, _; (split; [done|]); simpl; fail_soft.
  - rewrite load_event_features_run.
    destruct (event_features_csv fs) as [[df|e]|]; eexists _, _;
      (split; [done|]); simpl; fail_soft.
  - rewrite load_event_matrix_run.
    destruct (event_matrix_csv fs) as [[df|e]|]; eexists _, _;
      (split; [done|]); simpl; fail_soft.
  - rewrite load_forecasts_run. unfold forecasts_load_fails.
    destruct (forecast_long_csv fs) as [[df|e]|];
      [destruct (forecast_wide_csv fs) as [[dw|e]|]|..]; eexists _, _;
      (split; [done|]); simpl; fail_soft.
Qed.

(** C10. A looked-up value that is exactly zero is shown as an absent
    one.  Each KPI metric shows "N/A" for zero as for [None]; the insight
    panels and the two forecast findings omit for zero the lines they omit
    for [None].  Hence two sessions whose lookups differ only in zero
    against absent get the same Overview summary, and two forecast tables
    whose lookups differ only so get the same Key Findings. *)
Theorem zero_rendered_as_absent (q : Q) :
  Qeq_bool q 0 = true →
  (∀ label page,
     kpi_metric label (Some (Num q)) page
     = (page ++ [Metric label "N/A" None], Ok ())
     ∧ kpi_metric label None page = (page ++ [Metric label "N/A" None], Ok ()))
  ∧ (∀ page,
       kpi_forecast (Some (Num q)) page
       = (page ++ [Metric "2027 Forecast" "N/A" None], Ok ())
       ∧ kpi_forecast None page
         = (page ++ [Metric "2027 Forecast" "N/A" None], Ok ()))
  ∧ (∀ other ev,
       insight_current_state (Some (Num q)) other ev
       = insight_current_state None other ev
       ∧ insight_current_state other (Some (Num q)) ev
         = insight_current_state other None ev)
  ∧ (∀ fw, insight_forecast_outlook (Some (Num q)) fw
           = insight_forecast_outlook None fw)
  ∧ (∀ page, finding_access (Some (Num q)) page = (page, Ok ())
             ∧ finding_access None page = (page, Ok ())
             ∧ finding_usage (Some (Num q)) page = (page, Ok ())
             ∧ finding_usage None page = (page, Ok ()))
  ∧ (∀ s s' page,
       events s = events s' → forecast_wide s = forecast_wide s' →
       zero_as_absent <$> get_latest_value (observations s) (Str "ACC_OWNERSHIP")
       = zero_as_absent <$> get_latest_value (observations s') (Str "ACC_OWNERSHIP") →
       zero_as_absent <$> get_latest_value (observations s) (Str "ACC_MM_ACCOUNT")
       = zero_as_absent <$> get_latest_value (observations s') (Str "ACC_MM_ACCOUNT") →
       zero_as_absent <$> get_latest_value (observations s) (Str "USG_DIGITAL_PAYMENT")
       = zero_as_absent <$> get_latest_value (observations s') (Str "USG_DIGITAL_PAYMENT") →
       zero_as_absent <$> get_forecast_value (forecast_long s) (Str "ACC_OWNERSHIP")
                            (Num 2027) (Str "base")
       = zero_as_absent <$> get_forecast_value (forecast_long s') (Str "ACC_OWNERSHIP")
                              (Num 2027) (Str "base") →
       overview_summary s page = overview_summary s' page)
  ∧ (∀ fl fl' page,
       zero_as_absent <$> get_forecast_value (Some fl) (Str "ACC_OWNERSHIP")
                            (Num 2027) (Str "base")
       = zero_as_absent <$> get_forecast_value (Some fl') (Str "ACC_OWNERSHIP")
                              (Num 2027) (Str "base") →
       zero_as_absent <$> get_forecast_value (Some fl) (Str "USG_DIGITAL_PAYMENT")
                            (Num 2027) (Str "base")
       = zero_as_absent <$> get_forecast_value (Some fl') (Str "USG_DIGITAL_PAYMENT")
                              (Num 2027) (Str "base") →
       forecast_findings fl page = forecast_findings fl' page).
Proof.
  intros Hq.
  assert (Hz : zero_as_absent (Some (Num q)) = None) by (simpl; by rewrite Hq).
  split; [|split; [|split; [|split; [|split; [|split]]]]].
  - intros label page. by rewrite <- kpi_metric_zero, Hz.
  - intros page. by rewrite <- kpi_forecast_zero, Hz.
  - intros other ev. split.
    + rewrite <- insight_current_state_zero, Hz.
      by rewrite <- (insight_current_state_zero None).
    + rewrite <- insight_current_state_zero, Hz.
      by rewrite <- (insight_current_state_zero other None).
  - intros fw. by rewrite <- insight_forecast_outlook_zero, Hz.
  - intros page. by rewrite <- finding_access_zero, <- finding_usage_zero, Hz.
  - intros s s' page Hev Hfw H1 H2 H3 H4.
    rewrite !overview_summary_unfold.
    rewrite <- overview_summary_of_zero, H1, H2, H3, H4, Hev, Hfw.
    apply overview_summary_of_zero.
  - intros fl fl' page H1 H2.
    rewrite !forecast_findings_unfold.
    rewrite <- forecast_findings_of_zero, H1, H2.
    apply forecast_findings_of_zero.
Qed.

(** C8, as amended.  With a long-form forecast table whose years
    [pd.to_datetime] reads, and no wide table, over an observation table,
    the Forecasts page renders to the end without raising; no chart on it
    has a trace of the uncertainty band; its data table shows the long
    table; and when an indicator is selected the scenario chart is on the
    page. *)
Theorem forecasts_page_without_wide (s : Session) (fl : DataFrame) :
  forecast_long s = Some fl →
  forecast_wide s = None →
  observation_table (observations s) = true →
  forecast_long_table fl = true →
  years_readable fl = true →
  ∃ out,
    (∀ page, page_forecasts s page = (page ++ out, Ok ()))
    ∧ Forall (λ t, band_trace t = false) (chart_traces out)
    ∧ Dataframe fl ∈ out
    ∧ ∀ sel,
        selectbox_value (unique (map (cell_of "indicator_code") (rows fl)))
          (indicator_pick s) = Some sel →
        truthy sel = true →
        ∃ fig, forecast_figure s fl sel = Ok fig ∧ PlotlyChart fig ∈ out.
Proof.
  intros Hl Hw Hobs Ht Hy.
  destruct (forecast_comparison_runs s fl Hw Hobs Ht Hy)
    as (oc & Hoc & Hband & Hchart).
  destruct (forecast_findings_runs fl Ht) as (ofi & Hofi & Hfc).
  eexists. split; [|split; [|split]].
  - match goal with
    | |- ∀ page, _ = (page ++ ?o, _) => change (runs (page_forecasts s) o ())
    end.
    unfold page_forecasts. rewrite Hl. unfold st_markdown.
    eapply runs_bind; [apply runs_emit|].
    eapply runs_bind; [exact Hoc|].
    eapply runs_bind.
    { unfold forecast_data_table. rewrite Hw.
      unfold st_markdown, st_subheader, st_dataframe. emits. apply runs_emit. }
    eapply runs_bind; [|exact Hofi].
    unfold forecast_download, st_markdown, st_subheader. emits. apply runs_emit.
  - rewrite !chart_traces_app, Hfc. simpl. by rewrite !app_nil_r.
  - rewrite !elem_of_app. right. right. left. right. right. left.
  - intros sel Hsel Htr. destruct (Hchart sel Hsel Htr) as (fig & Hfig & Hin).
    exists fig. split; [done|]. rewrite !elem_of_app. right. by left.
Qed.

End Claims.

(** C1 on the three observations of indicator X. *)
Lemma get_indicator_series_spec_witness :
  ∃ series,
    get_indicator_series Demo.obs_xyz (Str "X") = Ok series
    ∧ rows series ≡ₚ List.filter (in_series Demo.obs_xyz (Str "X"))
                       (rows Demo.obs_xyz)
    ∧ StronglySorted date_le (rows series)
    ∧ ((∀ r, r ∈ rows Demo.obs_xyz →
             py_eq (frame_cell Demo.obs_xyz "indicator_code" r) (Str "X")
             = false) →
       rows series = [] ∧ df_empty series = true).
Proof.
  apply (get_indicator_series_spec Demo.obs_xyz (Str "X")).
  reflexivity.
Defined.

(** C2 on the three observations of indicator X. *)
Lemma get_latest_value_spec_witness :
  observation_table Demo.obs_xyz = true
  ∧ unique_keys (rows Demo.obs_xyz) = true
  ∧ ∃ series,
      get_indicator_series Demo.obs_xyz (Str "X") = Ok series
      ∧ (rows series = [] → get_latest_value Demo.obs_xyz (Str "X") = Ok None)
      ∧ (rows series ≠ [] →
         ∃ r t,
           r ∈ rows series ∧ date_of r = Some t
           ∧ get_latest_value Demo.obs_xyz (Str "X")
             = Ok (Some (cell_of "value_numeric" r))
           ∧ ∀ r', r' ∈ rows series →
                   r' = r ∨ ∃ t', date_of r' = Some t' ∧ t' < t).
Proof.
  split; [reflexivity|]. split; [reflexivity|].
  apply (get_latest_value_spec Demo.obs_xyz (Str "X")); reflexivity.
Defined.

(** C3 on the two-row forecast table. *)
Lemma get_forecast_value_spec_witness :
  forecast_table (Some Demo.forecast_x) = true
  ∧ ∃ v,
      get_forecast_value (Some Demo.forecast_x) (Str "X") (Num 2026) (Str "base")
      = Ok v
      ∧ (Some Demo.forecast_x = None → v = None)
      ∧ (forecast_matches (Some Demo.forecast_x) (Str "X") (Num 2026) (Str "base")
         = [] → v = None)
      ∧ (∀ df r,
           Some Demo.forecast_x = Some df →
           forecast_matches (Some Demo.forecast_x) (Str "X") (Num 2026) (Str "base")
           = [r] →
           v = Some (frame_cell df "forecast_value" r)).
Proof.
  split; [reflexivity|].
  apply (get_forecast_value_spec (Some Demo.forecast_x)); reflexivity.
Defined.


(** C4 fails as stated: the demo table with two events, one dated
    without an offset and one with the offset of UTC, is a unified table
    with distinct labels, and [get_events] raises [ValueError] on it, so
    there is no event part. *)
Lemma mixed_time_zones_counterexample :
  unified_table Demo.unified_zones = true
  ∧ NoDup (labels Demo.unified_zones)
  ∧ ∃ σ',
      get_events 1%positive
        ({[1%positive := Demo.unified_zones]} : gmap positive DataFrame)
      = (σ', Raise ValueError).
Proof.
  split; [reflexivity|]. split.
  { apply (bool_decide_unpack _). vm_compute. exact I. }
  pose (σ := {[1%positive := Demo.unified_zones]} : gmap positive DataFrame).
  assert (Hl : σ !! 1%positive = Some Demo.unified_zones)
    by apply lookup_singleton_eq.
  assert (Href : event_dates_refused Demo.unified_zones = true)
    by (vm_compute; reflexivity).
  destruct (get_events_refused σ 1%positive Demo.unified_zones Hl Href eq_refl)
    as (σ' & Hrun & _).
  by exists σ'.
Qed.

(** C7 fails as stated: on the demo table the frame [get_observations]
    returns is not made of the input rows as they are, it carries the
    derived [year] column; and on the demo table whose events are dated in
    different time zones [get_events] returns no frame. *)
Lemma pure_filter_counterexample :
  ¬ spec_pure_filter get_observations "observation" Demo.unified
  ∧ ¬ spec_pure_filter get_events "event" Demo.unified_zones.
Proof.
  split.
  - intros Hc.
    pose (σ := {[1%positive := Demo.unified]} : gmap positive DataFrame).
    assert (Hl : σ !! 1%positive = Some Demo.unified) by apply lookup_singleton_eq.
    destruct (Hc σ 1%positive Hl) as (σ' & l' & Hrun & _ & out & Hout & Hrows).
    destruct (get_observations_run σ 1%positive Demo.unified Hl eq_refl)
      as (σ'' & l'' & Hrun' & _ & Hout').
    rewrite Hrun in Hrun'. injection Hrun' as <- <-.
    rewrite Hout in Hout'. injection Hout' as ->.
    apply (f_equal (map (cell_of "year"))) in Hrows.
    vm_compute in Hrows. discriminate Hrows.
  - intros Hc.
    pose (σ := {[1%positive := Demo.unified_zones]} : gmap positive DataFrame).
    assert (Hl : σ !! 1%positive = Some Demo.unified_zones)
      by apply lookup_singleton_eq.
    destruct (Hc σ 1%positive Hl) as (σ' & l' & Hrun & _).
    assert (Href : event_dates_refused Demo.unified_zones = true)
      by (vm_compute; reflexivity).
    destruct (get_events_refused σ 1%positive Demo.unified_zones Hl Href eq_refl)
      as (σ'' & Hrun' & _).
    rewrite Hrun in Hrun'. discriminate Hrun'.
Qed.

(** C6 fails as stated: on the demo table the second event row has no
    [event_date] and an [observation_date], and its [event_date_parsed] is
    missing, not the parsed [observation_date]; and on the demo table whose
    events are dated in different time zones the call ends in
    [ValueError]. *)
Lemma event_date_fallback_counterexample :
  (∃ σ' le ev,
     get_events 1%positive
       ({[1%positive := Demo.unified]} : gmap positive DataFrame)
     = (σ', Ok le)
     ∧ σ' !! le = Some ev
     ∧ ¬ Forall2 (λ r r', cell_of "event_date_parsed" r'
                          = spec_event_date_parsed Demo.unified r)
           (record_rows Demo.unified "event") (rows ev))
  ∧ ∃ σ',
      get_events 1%positive
        ({[1%positive := Demo.unified_zones]} : gmap positive DataFrame)
      = (σ', Raise ValueError).
Proof.
  split.
  - pose (σ := {[1%positive := Demo.unified]} : gmap positive DataFrame).
    assert (Hl : σ !! 1%positive = Some Demo.unified) by apply lookup_singleton_eq.
    assert (Hacc : event_dates_refused Demo.unified = false)
      by (vm_compute; reflexivity).
    destruct (get_events_run σ 1%positive Demo.unified Hl eq_refl Hacc)
      as (σ' & le & Hrun & _ & Hout).
    exists σ', le, (event_frame Demo.unified). split; [done|]. split; [done|].
    intros HF.
    assert (Hmap : map (cell_of "event_date_parsed")
                     (rows (event_frame Demo.unified))
                   = map (spec_event_date_parsed Demo.unified)
                         (record_rows Demo.unified "event")).
    { clear -HF. induction HF as [|r r' l l' Hr _ IH]; simpl; [done|].
      by rewrite Hr, IH. }
    vm_compute in Hmap. discriminate Hmap.
  - pose (σ := {[1%positive := Demo.unified_zones]} : gmap positive DataFrame).
    assert (Hl : σ !! 1%positive = Some Demo.unified_zones)
      by apply lookup_singleton_eq.
    assert (Href : event_dates_refused Demo.unified_zones = true)
      by (vm_compute; reflexivity).
    destruct (get_events_refused σ 1%positive Demo.unified_zones Hl Href eq_refl)
      as (σ' & Hrun & _).
    by exists σ'.
Qed.

(** C5 fails as stated: with no enriched file and a workbook whose impact
    sheet cannot be read, [load_unified_data] returns an empty impact table
    and shows no message. *)
Lemma silent_impact_sheet_counterexample :
  ¬ spec_fail_soft load_unified_data
      (λ fs, unified_load_fails fs || impact_sheet_fails fs).
Proof.
  intros Hc.
  destruct (Hc Demo.files_without_impact []) as (v & page' & Hrun & Hmsg).
  rewrite load_unified_data_run in Hrun.
  cbn [Demo.files_without_impact enriched_csv workbook_main_sheet
       workbook_impact_sheet] in Hrun.
  assert (Hdates : observation_dates_refused Demo.unified = false)
    by (vm_compute; reflexivity).
  rewrite Hdates in Hrun.
  injection Hrun as <- _.
  destruct (Hmsg eq_refl) as (msg & _ & Hpage).
  discriminate Hpage.
Qed.

(** C8 fails as stated: in the long table with the rows (X, 2025, base,
    40) and (X, missing, base, 45) a year is missing, [pd.to_datetime]
    does not read the dates of the base scenario, and without a wide table
    the Forecasts page raises [ValueError] after the indicator selector. *)
Lemma unreadable_year_counterexample :
  forecast_table (Some Demo.forecast_gap) = true
  ∧ forecast_long Demo.session_gap = Some Demo.forecast_gap
  ∧ forecast_wide Demo.session_gap = None
  ∧ ∃ shown, page_forecasts Demo.session_gap [] = (shown, Raise ValueError).
Proof.
  split; [reflexivity|]. split; [reflexivity|]. split; [reflexivity|].
  eexists. vm_compute. reflexivity.
Qed.


(** C4, as amended, on the demo table, whose event dates are accepted, and
    on the demo table whose events are dated in different time zones. *)
Lemma partition_by_record_type_witness :
  let σ : gmap positive DataFrame := {[1%positive := Demo.unified]} in
  let τ : gmap positive DataFrame := {[1%positive := Demo.unified_zones]} in
  (σ !! 1%positive = Some Demo.unified
   ∧ unified_table Demo.unified = true
   ∧ NoDup (labels Demo.unified)
   ∧ ∃ σ1 lo σ2 le obs ev,
       get_observations 1%positive σ = (σ1, Ok lo)
       ∧ get_events 1%positive σ1 = (σ2, Ok le)
       ∧ σ2 !! lo = Some obs ∧ σ2 !! le = Some ev
       ∧ labels obs = map fst (record_rows Demo.unified "observation")
       ∧ labels ev = map fst (record_rows Demo.unified "event")
       ∧ (∀ i, i ∈ labels obs → i ∉ labels ev)
       ∧ labels Demo.unified
         ≡ₚ labels obs ++ labels ev ++ map fst (excluded_rows Demo.unified))
  ∧ (τ !! 1%positive = Some Demo.unified_zones
     ∧ unified_table Demo.unified_zones = true
     ∧ NoDup (labels Demo.unified_zones)
     ∧ ∃ τ1 lo obs τ2,
         get_observations 1%positive τ = (τ1, Ok lo)
         ∧ τ1 !! lo = Some obs
         ∧ labels obs = map fst (record_rows Demo.unified_zones "observation")
         ∧ get_events 1%positive τ1 = (τ2, Raise ValueError)
         ∧ τ2 !! 1%positive = Some Demo.unified_zones
         ∧ τ2 !! lo = Some obs).
Proof.
  intros σ τ. split.
  - assert (Hl : σ !! 1%positive = Some Demo.unified) by apply lookup_singleton_eq.
    assert (Hnd : NoDup (labels Demo.unified)).
    { apply (bool_decide_unpack _). vm_compute. exact I. }
    split; [exact Hl|]. split; [reflexivity|]. split; [exact Hnd|].
    destruct (partition_by_record_type σ 1%positive Demo.unified Hl eq_refl Hnd)
      as (σ1 & lo & obs & Hrun1 & Hlo & Hlabels & _ & Hev).
    assert (Hdates : event_dates_refused Demo.unified = false)
      by (vm_compute; reflexivity).
    rewrite Hdates in Hev.
    destruct Hev as (σ2 & le & ev & Hrun2 & Hlo2 & Hle & Hlev & _ & Hdis & Hperm).
    by exists σ1, lo, σ2, le, obs, ev.
  - assert (Hl : τ !! 1%positive = Some Demo.unified_zones)
      by apply lookup_singleton_eq.
    assert (Hnd : NoDup (labels Demo.unified_zones)).
    { apply (bool_decide_unpack _). vm_compute. exact I. }
    split; [exact Hl|]. split; [reflexivity|]. split; [exact Hnd|].
    destruct (partition_by_record_type τ 1%positive Demo.unified_zones Hl
                eq_refl Hnd)
      as (τ1 & lo & obs & Hrun1 & Hlo & Hlabels & _ & Hev).
    assert (Hdates : event_dates_refused Demo.unified_zones = true)
      by (vm_compute; reflexivity).
    rewrite Hdates in Hev.
    destruct Hev as (τ2 & Hrun2 & Hl2 & Hlo2).
    by exists τ1, lo, obs, τ2.
Defined.

(** C7, as amended, on the same two tables. *)
Lemma filters_leave_input_witness :
  let σ : gmap positive DataFrame := {[1%positive := Demo.unified]} in
  let τ : gmap positive DataFrame := {[1%positive := Demo.unified_zones]} in
  (σ !! 1%positive = Some Demo.unified
   ∧ unified_table Demo.unified = true
   ∧ (∃ σ' lo obs,
        get_observations 1%positive σ = (σ', Ok lo)
        ∧ preserved σ σ' ∧ σ' !! 1%positive = Some Demo.unified
        ∧ σ !! lo = None ∧ σ' !! lo = Some obs
        ∧ Forall2 (λ r r', r'.1 = r.1 ∧ ∀ c, c ≠ "year" → r'.2 !! c = r.2 !! c)
            (record_rows Demo.unified "observation") (rows obs))
   ∧ (∃ σ' le ev,
        get_events 1%positive σ = (σ', Ok le)
        ∧ preserved σ σ' ∧ σ' !! 1%positive = Some Demo.unified
        ∧ σ !! le = None ∧ σ' !! le = Some ev
        ∧ Forall2 (λ r r', r'.1 = r.1
                           ∧ ∀ c, c ≠ picked_date_column Demo.unified →
                                  c ≠ "event_date_parsed" →
                                  r'.2 !! c = r.2 !! c)
            (record_rows Demo.unified "event") (rows ev)))
  ∧ (τ !! 1%positive = Some Demo.unified_zones
     ∧ unified_table Demo.unified_zones = true
     ∧ ∃ τ',
         get_events 1%positive τ = (τ', Raise ValueError)
         ∧ preserved τ τ' ∧ τ' !! 1%positive = Some Demo.unified_zones).
Proof.
  intros σ τ. split.
  - assert (Hl : σ !! 1%positive = Some Demo.unified) by apply lookup_singleton_eq.
    split; [exact Hl|]. split; [reflexivity|].
    destruct (filters_leave_input σ 1%positive Demo.unified Hl eq_refl)
      as [Hobs Hev].
    assert (Hdates : event_dates_refused Demo.unified = false)
      by (vm_compute; reflexivity).
    rewrite Hdates in Hev.
    split; [exact Hobs|exact Hev].
  - assert (Hl : τ !! 1%positive = Some Demo.unified_zones)
      by apply lookup_singleton_eq.
    split; [exact Hl|]. split; [reflexivity|].
    destruct (filters_leave_input τ 1%positive Demo.unified_zones Hl eq_refl)
      as [_ Hev].
    assert (Hdates : event_dates_refused Demo.unified_zones = true)
      by (vm_compute; reflexivity).
    rewrite Hdates in Hev.
    exact Hev.
Defined.

(** C6, as amended, on the same two tables. *)
Lemma event_date_parsed_column_witness :
  let σ : gmap positive DataFrame := {[1%positive := Demo.unified]} in
  let τ : gmap positive DataFrame := {[1%positive := Demo.unified_zones]} in
  (σ !! 1%positive = Some Demo.unified
   ∧ unified_table Demo.unified = true
   ∧ ∃ σ' le ev,
       get_events 1%positive σ = (σ', Ok le) ∧ σ' !! le = Some ev
       ∧ has_column ev "event_date_parsed" = true
       ∧ Forall2 (λ r r', cell_of "event_date_parsed" r'
                          = to_datetime_cell
                              (cell_of (picked_date_column Demo.unified) r))
           (record_rows Demo.unified "event") (rows ev))
  ∧ (τ !! 1%positive = Some Demo.unified_zones
     ∧ unified_table Demo.unified_zones = true
     ∧ ∃ τ', get_events 1%positive τ = (τ', Raise ValueError)).
Proof.
  intros σ τ. split.
  - assert (Hl : σ !! 1%positive = Some Demo.unified) by apply lookup_singleton_eq.
    split; [exact Hl|]. split; [reflexivity|].
    destruct (event_date_parsed_column σ 1%positive Demo.unified Hl eq_refl)
      as [Hev _].
    assert (Hdates : event_dates_refused Demo.unified = false)
      by (vm_compute; reflexivity).
    rewrite Hdates in Hev.
    destruct Hev as (σ' & le & ev & Hrun & Hle & _ & Hparsed & _).
    exists σ', le, ev. split; [exact Hrun|]. split; [exact Hle|].
    apply Hparsed; reflexivity.
  - assert (Hl : τ !! 1%positive = Some Demo.unified_zones)
      by apply lookup_singleton_eq.
    split; [exact Hl|]. split; [reflexivity|].
    destruct (event_date_parsed_column τ 1%positive Demo.unified_zones Hl eq_refl)
      as [Hev _].
    assert (Hdates : event_dates_refused Demo.unified_zones = true)
      by (vm_compute; reflexivity).
    rewrite Hdates in Hev.
    exact Hev.
Defined.

(** C10 at zero, and on two sessions: the latest account ownership is 0 in
    one and absent in the other. *)
Lemma zero_rendered_as_absent_witness :
  Qeq_bool 0 0 = true
  ∧ (∀ label page,
       kpi_metric label (Some (Num 0)) page
       = (page ++ [Metric label "N/A" None], Ok ()))
  ∧ overview_summary Demo.session_zero [] = overview_summary Demo.session_none [].
Proof.
  split; [reflexivity|].
  destruct (zero_rendered_as_absent 0 eq_refl)
    as (Hmetric & _ & _ & _ & _ & Hsummary & _).
  split.
  - intros label page. apply Hmetric.
  - apply Hsummary; reflexivity.
Defined.

(** C8 on the specification's scenario: rows (X, 2025, base, 40) and
    (X, 2026, base, 45), no wide table. *)
Lemma forecasts_page_without_wide_witness :
  forecast_long Demo.session_x = Some Demo.forecast_x
  ∧ forecast_wide Demo.session_x = None
  ∧ observation_table (observations Demo.session_x) = true
  ∧ forecast_long_table Demo.forecast_x = true
  ∧ years_readable Demo.forecast_x = true
  ∧ ∃ out,
      (∀ page, page_forecasts Demo.session_x page = (page ++ out, Ok ()))
      ∧ Forall (λ t, band_trace t = false) (chart_traces out)
      ∧ Dataframe Demo.forecast_x ∈ out
      ∧ ∀ sel,
          selectbox_value
            (unique (map (cell_of "indicator_code") (rows Demo.forecast_x)))
            (indicator_pick Demo.session_x) = Some sel →
          truthy sel = true →
          ∃ fig, forecast_figure Demo.session_x Demo.forecast_x sel = Ok fig
                 ∧ PlotlyChart fig ∈ out.
Proof.
  do 5 (split; [reflexivity|]).
  apply (forecasts_page_without_wide Demo.session_x Demo.forecast_x);
    reflexivity.
Defined.


(** ** The scenarios of the specification, evaluated *)

Example series_of_x :
  (λ df, map (cell_of "value_numeric") (rows df))
    <$> get_indicator_series Demo.obs_xyz (Str "X")
  = Ok [Num 10; Num 20; Num 30].
Proof. reflexivity. Qed.

Example latest_of_x : get_latest_value Demo.obs_xyz (Str "X") = Ok (Some (Num 30)).
Proof. reflexivity. Qed.

Example absent_indicator :
  get_indicator_series Demo.obs_xyz (Str "Y")
  = Ok {| columns := columns Demo.obs_xyz; rows := [];
     datetime64 := datetime64 Demo.obs_xyz |}.
Proof. reflexivity. Qed.

Example forecast_lookup :
  get_forecast_value (Some Demo.forecast_x) (Str "X") (Num 2025) (Str "base")
  = Ok (Some (Num 40))
  ∧ get_forecast_value (Some Demo.forecast_x) (Str "X") (Num 2027) (Str "base")
    = Ok None.
Proof. split; reflexivity. Qed.

Example forecasts_page_of_x :
  let run := page_forecasts Demo.session_x [] in
  run.2 = Ok ()
  ∧ map trace_name (chart_traces run.1) = ["Historical"; "Base"].
Proof. split; vm_compute; reflexivity. Qed.

Example overview_chart_by_scenario :
  (λ fig, map trace_name (traces fig))
    <$> overview_figure (with_scenario Demo.session_acc base)
  = Ok ["Historical"; "Forecast (base)"]
  ∧ (λ fig, map trace_name (traces fig))
      <$> overview_figure (with_scenario Demo.session_acc optimistic)
    = Ok ["Historical"; "Forecast (optimistic)"].
Proof. split; vm_compute; reflexivity. Qed.

Example silent_impact_sheet :
  load_unified_data Demo.files_without_impact []
  = ([], Ok (parsed_dates Demo.unified, empty_frame)).
Proof. reflexivity. Qed.

Example refused_dates_reported :
  load_unified_data Demo.files_zones []
  = ([ErrorBox "Error loading unified data: ValueError"],
     Ok (empty_frame, empty_frame)).
Proof. reflexivity. Qed.

Example mixed_event_dates :
  (get_events 1%positive
     ({[1%positive := Demo.unified_zones]} : gmap positive DataFrame)).2
  = Raise ValueError.
Proof. reflexivity. Qed.

Example forecasts_page_with_gap :
  (page_forecasts Demo.session_gap []).2 = Raise ValueError.
Proof. vm_compute. reflexivity. Qed.

Example missing_event_matrix :
  load_event_matrix Demo.files_without_impact []
  = ([WarningBox "Event matrix not found. Run Task 3 notebook first."], Ok None).
Proof. reflexivity. Qed.

(** * Further properties, as theorems *)

Section Extras.
Context `{PandasLaws} `{Toolkit}.

(** X1. On a table with rows, [get_indicator_series] raises [KeyError]
    when the table lacks [indicator_code], [observation_date] or
    [value_numeric], and [TypeError] when the dates of the complete
    observations of the indicator are of different kinds; in every other
    case it returns the complete observations of the indicator under the
    columns of the table. *)
Theorem get_indicator_series_failures (obs : DataFrame) (code : cell) :
  df_empty obs = false →
  (has_column obs "indicator_code" = false →
   get_indicator_series obs code = Raise (KeyError "indicator_code"))
  ∧ (has_column obs "indicator_code" = true →
     has_column obs "observation_date" && has_column obs "value_numeric" = false →
     ∃ k, get_indicator_series obs code = Raise (KeyError k))
  ∧ (series_columns obs = true →
     homogeneous (series_dates obs code) = false →
     get_indicator_series obs code = Raise TypeError)
  ∧ (series_columns obs = true →
     homogeneous (series_dates obs code) = true →
     ∃ series,
       get_indicator_series obs code = Ok series
       ∧ columns series = columns obs
       ∧ rows series ≡ₚ List.filter (in_series obs code) (rows obs)).
Proof.
  intros Hne. rewrite (get_indicator_series_cases obs code Hne).
  unfold series_columns. repeat split.
  - by intros ->.
  - intros -> Hc. destruct (has_column obs "observation_date"); [|by eexists].
    cbn in Hc. rewrite Hc. by eexists.
  - intros Hc Hh. apply andb_prop in Hc as [Hc ->]. apply andb_prop in Hc as [-> ->].
    by rewrite Hh.
  - intros Hc Hh. apply andb_prop in Hc as [Hc ->]. apply andb_prop in Hc as [-> ->].
    rewrite Hh. eexists. split; [done|]. split; [done|]. apply sort_perm.
Qed.


(** X3. On a table with rows and a [record_type], whose
    [observation_date], when it has one, is a [datetime64] column,
    [get_observations] returns.  When the table has [observation_date],
    the result has a [year] column, appended unless the table already had
    one, and the year of every returned row is the year of its own
    [observation_date], missing when the date is missing: a [year] column
    of the input is overwritten.  When the table has no
    [observation_date], the result is the observation rows as they are,
    with no [year] derived. *)
Theorem observation_year_column (σ : gmap positive DataFrame) l d :
  σ !! l = Some d →
  df_empty d = false →
  has_column d "record_type" = true →
  observation_dates_parsed d = true →
  ∃ σ' lo obs,
    get_observations l σ = (σ', Ok lo) ∧ σ' !! lo = Some obs
    ∧ (has_column d "observation_date" = true →
       columns obs = (if has_column d "year" then columns d
                      else columns d ++ ["year"])
       ∧ Forall (λ r, cell_of "year" r =
                      match cell_of "observation_date" r with
                      | Date t => Num (inject_Z (dt_year t))
                      | _ => NA
                      end) (rows obs))
    ∧ (has_column d "observation_date" = false →
       obs = record_frame d "observation").
Proof.
  intros Hl He Hrt Hp.
  pose proof (get_observations_outcome σ l d Hl He Hrt) as Hrun.
  rewrite Hp in Hrun. destruct Hrun as (σ' & lo & Hrun & _ & Hobs).
  exists σ', lo, (observation_frame d). split; [done|]. split; [done|].
  unfold observation_frame.
  change (has_column (record_frame d "observation") "observation_date")
    with (has_column d "observation_date").
  split; intros Hdate; rewrite Hdate; [|done].
  split; [done|].
  apply Forall_forall. intros r Hr. cbn [rows with_column] in Hr.
  apply list_elem_of_fmap in Hr as (r0 & -> & Hr0).
  unfold cell_of. cbn [snd]. rewrite lookup_insert_eq.
  rewrite lookup_insert_ne by done. cbn [default].
  fold (cell_of "observation_date" r0).
  by destruct (cell_of "observation_date" r0).
Qed.

(** X4. On a table with rows: without a [record_type] column both
    [get_observations] and [get_events] raise [KeyError] and leave the
    store as it was.  With the column, [get_events] raises [ValueError]
    when the date column it picks is not [datetime64] and the dates of the
    events in it are of different time zones, and returns the event rows
    otherwise; [get_observations] raises [AttributeError] when the table
    has [observation_date] and the column is not [datetime64], and
    returns the observation rows otherwise; the input table stays in
    place in every case. *)
Theorem partition_failures (σ : gmap positive DataFrame) l d :
  σ !! l = Some d →
  df_empty d = false →
  (has_column d "record_type" = false →
   get_observations l σ = (σ, Raise (KeyError "record_type"))
   ∧ get_events l σ = (σ, Raise (KeyError "record_type")))
  ∧ (has_column d "record_type" = true →
     (event_dates_refused d = true →
      ∃ σ', get_events l σ = (σ', Raise ValueError) ∧ σ' !! l = Some d)
     ∧ (event_dates_refused d = false →
        ∃ σ' le ev,
          get_events l σ = (σ', Ok le) ∧ σ' !! le = Some ev
          ∧ σ' !! l = Some d
          ∧ labels ev = map fst (record_rows d "event"))
     ∧ (observation_dates_parsed d = false →
        ∃ σ', get_observations l σ = (σ', Raise AttributeError)
              ∧ σ' !! l = Some d)
     ∧ (observation_dates_parsed d = true →
        ∃ σ' lo obs,
          get_observations l σ = (σ', Ok lo) ∧ σ' !! lo = Some obs
          ∧ σ' !! l = Some d
          ∧ labels obs = map fst (record_rows d "observation"))).
Proof.
  intros Hl He. split; [by apply partition_needs_record_type|].
  intros Hrt.
  assert (Hkeep : ∀ σ', preserved σ σ' → σ' !! l = Some d).
  { intros σ' Hp. rewrite <- Hl. by apply Hp. }
  split; [|split; [|split]].
  - intros Href. pose proof (get_events_outcome σ l d Hl He Hrt) as Hrun.
    rewrite Href in Hrun. destruct Hrun as (σ' & Hrun). exists σ'.
    split; [done|]. by eapply Hkeep, get_events_preserves.
  - intros Href. pose proof (get_events_outcome σ l d Hl He Hrt) as Hrun.
    rewrite Href in Hrun. destruct Hrun as (σ' & le & Hrun & _ & Hev).
    exists σ', le, (event_frame d). split; [done|]. split; [done|].
    split; [by eapply Hkeep, get_events_preserves|].
    pose proof (labels_event_result d) as Hlab. by rewrite He in Hlab.
  - intros Hp. pose proof (get_observations_outcome σ l d Hl He Hrt) as Hrun.
    rewrite Hp in Hrun. destruct Hrun as (σ' & Hrun). exists σ'.
    split; [done|]. by eapply Hkeep, get_observations_preserves.
  - intros Hp. pose proof (get_observations_outcome σ l d Hl He Hrt) as Hrun.
    rewrite Hp in Hrun. destruct Hrun as (σ' & lo & Hrun & _ & Hobs).
    exists σ', lo, (observation_frame d). split; [done|]. split; [done|].
    split; [by eapply Hkeep, get_observations_preserves|].
    pose proof (labels_observation_result d) as Hlab. by rewrite He in Hlab.
Qed.

(** X5. [load_unified_data] reads its table from the enriched file, or
    else from the main sheet of the workbook.  When [pd.to_datetime]
    refuses the [observation_date] of the table read, because the column
    is not [datetime64] and its dates are of different time zones, the
    load shows the error and returns two empty tables.  Otherwise it
    shows no message and returns the table with the same rows under the
    same labels and the same columns, every cell as read except in
    [observation_date]: there each cell is the parse of the cell read,
    and the column is [datetime64], holding timestamps and missing values
    only.  On the enriched path the impact table is made of the
    [impact_link] rows of the file as read, their dates not parsed. *)
Theorem load_parses_dates_only (fs : Files) (page : list widget)
    (src : DataFrame) :
  unified_source fs = Some src →
  (observation_dates_refused src = true →
   load_unified_data fs page
   = (page ++ [ErrorBox ("Error loading unified data: "
                         +:+ str_of_exn ValueError)],
      Ok (empty_frame, empty_frame)))
  ∧ (observation_dates_refused src = false →
     ∃ main impact,
       load_unified_data fs page = (page, Ok (main, impact))
       ∧ labels main = labels src
       ∧ columns main = columns src
       ∧ Forall2 (λ r r', ∀ c, c ≠ "observation_date" → r'.2 !! c = r.2 !! c)
           (rows src) (rows main)
       ∧ (has_column src "observation_date" = true →
          Forall2 (λ r r', cell_of "observation_date" r'
                           = to_datetime_cell (cell_of "observation_date" r))
            (rows src) (rows main)
          ∧ is_datetime64 main "observation_date" = true
          ∧ datetime_column main "observation_date" = true)
       ∧ (has_column src "observation_date" = false → main = src)
       ∧ (is_Some (enriched_csv fs) → impact = record_frame src "impact_link")).
Proof.
  intros Hsrc.
  assert (Hrun :
    load_unified_data fs page
    = (if observation_dates_refused src
       then (page ++ [ErrorBox ("Error loading unified data: "
                                +:+ str_of_exn ValueError)],
             Ok (empty_frame, empty_frame))
       else (page, Ok (parsed_dates src,
                       match enriched_csv fs with
                       | Some _ => record_frame src "impact_link"
                       | None => match workbook_impact_sheet fs with
                                 | Ok impact => impact
                                 | Raise _ => empty_frame
                                 end
                       end)))).
  { rewrite load_unified_data_run. unfold unified_source in Hsrc.
    destruct (enriched_csv fs) as [[df|e]|]; [| done |].
    - destruct (has_column df "record_type"); [|done].
      by injection Hsrc as ->.
    - destruct (workbook_main_sheet fs) as [df|e]; [|done].
      by injection Hsrc as ->. }
  split; intros Href; rewrite Href in Hrun; [exact Hrun|].
  eexists (parsed_dates src), _. split; [exact Hrun|].
  split; [apply parsed_dates_labels|]. split; [apply parsed_dates_columns|].
  assert (Himpact : is_Some (enriched_csv fs) →
            match enriched_csv fs with
            | Some _ => record_frame src "impact_link"
            | None => match workbook_impact_sheet fs with
                      | Ok impact => impact
                      | Raise _ => empty_frame
                      end
            end = record_frame src "impact_link").
  { intros [r Hr]. by rewrite Hr. }
  unfold parsed_dates.
  destruct (has_column src "observation_date") eqn:Hc.
  - split; [|split; [|split; [done|exact Himpact]]].
    + cbn [rows with_column]. apply Forall2_map_self. intros r _ c Hne.
      cbn [snd]. by rewrite lookup_insert_ne.
    + intros _. split; [|split].
      * cbn [rows with_column]. apply Forall2_map_self. intros r _.
        unfold cell_of at 1. cbn [snd]. by rewrite lookup_insert_eq.
      * apply is_datetime64_with_column.
      * pose proof (parsed_dates_datetime src Hc) as Hdt.
        unfold parsed_dates in Hdt. by rewrite Hc in Hdt.
  - split; [|split; [done|split; [done|exact Himpact]]].
    apply Forall2_same_length_lookup_2; [done|]. intros i r r' Hr Hr' c _.
    rewrite Hr in Hr'. by injection Hr' as ->.
Qed.

(** X6. The workbook is read only when the enriched file does not exist:
    two file systems with the same enriched file, whatever their
    workbooks hold, load the same tables and show the same messages.  In
    particular an enriched file that exists and cannot be read gives two
    empty tables and an error message, not the tables of the workbook. *)
Theorem enriched_file_shadows_workbook (fs fs' : Files) (page : list widget) :
  is_Some (enriched_csv fs) →
  enriched_csv fs' = enriched_csv fs →
  load_unified_data fs' page = load_unified_data fs page
  ∧ (∀ e, enriched_csv fs = Some (Raise e) →
          load_unified_data fs page
          = (page ++ [ErrorBox ("Error loading unified data: " +:+ str_of_exn e)],
             Ok (empty_frame, empty_frame))).
Proof.
  intros [r Hr] Heq. rewrite !load_unified_data_run, Heq, Hr.
  split; [done|]. by intros e [= ->].
Qed.

(** X7. The data preparation at the top of the script (the four loads
    and the two partition calls) raises in two cases only, both on a
    table that was loaded and has rows: when the table has no
    [record_type], which the main sheet of the workbook may lack, the
    [KeyError] of [get_observations] ends the script; when the dates of
    its events are of different time zones in a picked date column that is
    not [datetime64], the [ValueError] of [get_events] does.  In every
    other case the preparation returns the tables of the session, whatever
    the files hold: the two parts of the loaded table, and two empty
    frames when the table has no rows or could not be loaded.
    [get_observations] does not raise [AttributeError] here, the loader
    having left [observation_date] a [datetime64] column. *)
Theorem load_session_outcome (fs : Files) (sc : scenario) (pick : nat)
    (page : list widget) :
  match loaded_table fs with
  | Some d =>
      if df_empty d then
        ∃ page' s,
          load_session fs sc pick page = (page', Ok s)
          ∧ scenario_filter s = sc ∧ indicator_pick s = pick
          ∧ observations s = empty_frame ∧ events s = empty_frame
      else if negb (has_column d "record_type") then
        load_session fs sc pick page = (page, Raise (KeyError "record_type"))
      else if event_dates_refused d then
        load_session fs sc pick page = (page, Raise ValueError)
      else
        ∃ page' s,
          load_session fs sc pick page = (page', Ok s)
          ∧ scenario_filter s = sc ∧ indicator_pick s = pick
          ∧ observations s = observation_frame d ∧ events s = event_frame d
  | None =>
      ∃ page' s,
        load_session fs sc pick page = (page', Ok s)
        ∧ scenario_filter s = sc ∧ indicator_pick s = pick
        ∧ observations s = empty_frame ∧ events s = empty_frame
  end.
Proof.
  assert (Hrest : ∀ page1 split,
    ∃ page' s,
      (load_event_features fs;;
       load_event_matrix fs;;
       forecasts ← load_forecasts fs;
       mret {| observations := split.1; events := split.2;
               forecast_long := forecasts.1; forecast_wide := forecasts.2;
               scenario_filter := sc; indicator_pick := pick |}) page1
      = (page', Ok s)
      ∧ scenario_filter s = sc ∧ indicator_pick s = pick
      ∧ observations s = split.1 ∧ events s = split.2).
  { intros page1 split.
    rewrite bind_run, load_event_features_run.
    destruct (event_features_csv fs) as [[?|?]|]; cbn beta iota;
      rewrite bind_run, load_event_matrix_run;
      destruct (event_matrix_csv fs) as [[?|?]|]; cbn beta iota;
      rewrite bind_run, load_forecasts_run;
      destruct (forecast_long_csv fs) as [[?|?]|]; cbn beta iota;
      try destruct (forecast_wide_csv fs) as [[?|?]|]; cbn beta iota;
      rewrite ret_run; by eexists _, _. }
  assert (Hempty : ∀ page1 impact,
    load_unified_data fs page = (page1, Ok (empty_frame, impact)) →
    ∃ page' s,
      load_session fs sc pick page = (page', Ok s)
      ∧ scenario_filter s = sc ∧ indicator_pick s = pick
      ∧ observations s = empty_frame ∧ events s = empty_frame).
  { intros page1 impact Hload. unfold load_session.
    rewrite bind_run, Hload. cbn beta iota. cbn [fst].
    rewrite bind_run, lift_run, split_unified_run by done.
    cbn beta iota. apply (Hrest page1 (empty_frame, empty_frame)). }
  assert (Hloaded : ∀ d impact,
    load_unified_data fs page = (page, Ok (d, impact)) →
    df_empty d = true ∨ unified_table d = true ∨ has_column d "record_type" = false →
    if df_empty d then
      ∃ page' s,
        load_session fs sc pick page = (page', Ok s)
        ∧ scenario_filter s = sc ∧ indicator_pick s = pick
        ∧ observations s = empty_frame ∧ events s = empty_frame
    else if negb (has_column d "record_type") then
      load_session fs sc pick page = (page, Raise (KeyError "record_type"))
    else if event_dates_refused d then
      load_session fs sc pick page = (page, Raise ValueError)
    else
      ∃ page' s,
        load_session fs sc pick page = (page', Ok s)
        ∧ scenario_filter s = sc ∧ indicator_pick s = pick
        ∧ observations s = observation_frame d ∧ events s = event_frame d).
  { intros d impact Hload Hd. unfold load_session.
    rewrite bind_run, Hload. cbn beta iota. cbn [fst].
    rewrite bind_run, lift_run.
    destruct (df_empty d) eqn:He.
    { rewrite split_unified_run.
      - rewrite He. cbn beta iota. apply (Hrest page (empty_frame, empty_frame)).
      - unfold unified_table. by rewrite He.
      - unfold event_dates_refused. by rewrite He. }
    destruct (has_column d "record_type") eqn:Hrt; cbn [negb].
    2:{ by rewrite split_unified_raise. }
    assert (Hu : unified_table d = true).
    { by destruct Hd as [Hd|[Hd|Hd]]. }
    destruct (event_dates_refused d) eqn:Href.
    { by rewrite split_unified_refused. }
    rewrite split_unified_run by done. rewrite He. cbn beta iota.
    apply (Hrest page (observation_frame d, event_frame d)). }
  pose proof (load_unified_data_run fs page) as Hload.
  unfold loaded_table, unified_source.
  destruct (enriched_csv fs) as [[df|e]|].
  - destruct (has_column df "record_type") eqn:Hrt;
      [|by eapply Hempty].
    destruct (observation_dates_refused df); [by eapply Hempty|].
    eapply Hloaded; [exact Hload|]. right. left.
    apply parsed_dates_unified. by right.
  - by eapply Hempty.
  - destruct (workbook_main_sheet fs) as [df|e]; [|by eapply Hempty].
    destruct (observation_dates_refused df); [by eapply Hempty|].
    eapply Hloaded; [exact Hload|].
    destruct (df_empty df) eqn:He.
    { left. by rewrite parsed_dates_empty. }
    destruct (has_column df "record_type") eqn:Hrt.
    + right. left. apply parsed_dates_unified. by right.
    + right. right. by rewrite parsed_dates_has_column.
Qed.

(** X8. Over an observation table with numeric values, a chartable
    long-form forecast table or none, and a wide table that is absent,
    empty, or has its key columns and both bounds when it has the lower
    one, the Overview page renders to the end without raising.  The four
    KPI metrics are on it, one in each column, and the trend chart is on it
    exactly when the observation table is not empty. *)
Theorem overview_page_renders (s : Session) :
  observation_table (observations s) = true →
  numeric_values (observations s) = true →
  chartable_forecast (forecast_long s) = true →
  wide_table (forecast_wide s) = true →
  ∃ out,
    (∀ page, page_overview s page = (page ++ out, Ok ()))
    ∧ (∃ t1 t2 t3 l4 t4 d4,
         Within "col1" (Metric "Latest Account Ownership" t1 None) ∈ out
         ∧ Within "col2" (Metric "Mobile Money Accounts" t2 None) ∈ out
         ∧ Within "col3" (Metric "Digital Payment Usage" t3 None) ∈ out
         ∧ Within "col4" (Metric l4 t4 d4) ∈ out)
    ∧ (df_empty (observations s) = true → chart_traces out = [])
    ∧ (df_empty (observations s) = false →
       ∃ fig, overview_figure s = Ok fig ∧ PlotlyChart fig ∈ out).
Proof.
  intros Hobs Hnum Hfl Hw.
  destruct (get_latest_value_number (observations s) (Str "ACC_OWNERSHIP")
              Hobs Hnum) as (a & Ha & Hna).
  destruct (get_latest_value_number (observations s) (Str "ACC_MM_ACCOUNT")
              Hobs Hnum) as (m & Hm & Hnm).
  destruct (get_latest_value_number (observations s) (Str "USG_DIGITAL_PAYMENT")
              Hobs Hnum) as (u & Hu & Hnu).
  destruct (forecast_lookup_numeric (forecast_long s) (Str "ACC_OWNERSHIP")
              (Num 2027) (Str "base") Hfl) as (f & Hf & Hnf).
  destruct (overview_summary_of_runs a m u f (events s) (forecast_wide s)
              Hna Hnm Hnu Hnf Hw) as (os & Hos & Hcs & Hmetrics).
  destruct (overview_figure_ok s Hobs Hfl) as [fig Hfig].
  assert (Htrend : ∃ ot,
    runs (overview_trend s) ot ()
    ∧ (df_empty (observations s) = true → chart_traces ot = [])
    ∧ (df_empty (observations s) = false → PlotlyChart fig ∈ ot)).
  { unfold overview_trend, st_markdown, st_subheader, st_plotly_chart.
    destruct (df_empty (observations s)); cbn [negb].
    - eexists. split; [|split].
      + emits. apply runs_ret.
      + reflexivity.
      + done.
    - eexists. split; [|split].
      + emits. rewrite Hfig. eapply (runs_bind _ _ []); [apply runs_lift|].
        apply runs_emit.
      + done.
      + intros _. cbn [app]. rewrite !elem_of_cons. auto. }
  destruct Htrend as (ot & Hot & Hnone & Hchart).
  eexists. split; [|split; [|split]].
  - unfold page_overview, st_markdown.
    change (∀ page, ?m page = (page ++ ?o, Ok ())) with (runs m o ()).
    emits. rewrite overview_summary_unfold, Ha, Hm, Hu, Hf.
    eapply runs_bind; [exact Hos|]. exact Hot.
  - destruct Hmetrics as (t1 & t2 & t3 & l4 & t4 & d4 & M1 & M2 & M3 & M4).
    exists t1, t2, t3, l4, t4, d4.
    cbn [app]. repeat split; rewrite !elem_of_cons, elem_of_app; auto 10.
  - intros He. rewrite !chart_traces_app, Hcs, (Hnone He). reflexivity.
  - intros He. exists fig. split; [done|].
    cbn [app]. rewrite !elem_of_cons, !elem_of_app. auto 10.
Qed.

(** X9. The Forecast Outlook panel of the Overview page tests for the
    [lower] column of the wide table and then reads [upper] as well: when
    the 2027 base forecast of account ownership is a number other than
    zero and the wide table has [year], [indicator_code] and [lower], a row
    for account ownership in 2027, and no [upper], the page raises
    [KeyError] in that panel, before the trend chart is drawn. *)
Theorem overview_needs_upper_bound (s : Session) (fw : DataFrame) (q : Q) :
  observation_table (observations s) = true →
  numeric_values (observations s) = true →
  get_forecast_value (forecast_long s) (Str "ACC_OWNERSHIP") (Num 2027)
    (Str "base") = Ok (Some (Num q)) →
  Qeq_bool q 0 = false →
  forecast_wide s = Some fw →
  has_column fw "year" = true →
  has_column fw "indicator_code" = true →
  has_column fw "lower" = true →
  has_column fw "upper" = false →
  has_access_2027 fw = true →
  ∃ out,
    (∀ page, page_overview s page = (page ++ out, Raise (KeyError "upper")))
    ∧ chart_traces out = [].
Proof.
  intros Hobs Hnum Hf Hq Hfw Hyear Hcode Hlower Hupper Hrow.
  destruct (get_latest_value_number (observations s) (Str "ACC_OWNERSHIP")
              Hobs Hnum) as (a & Ha & Hna).
  destruct (get_latest_value_number (observations s) (Str "ACC_MM_ACCOUNT")
              Hobs Hnum) as (m & Hm & Hnm).
  destruct (get_latest_value_number (observations s) (Str "USG_DIGITAL_PAYMENT")
              Hobs Hnum) as (u & Hu & Hnu).
  destruct (overview_summary_of_fails a m u q (events s) fw
              Hna Hnm Hnu Hq Hyear Hcode Hlower Hupper Hrow) as (os & Hos & Hcs).
  eexists. split.
  - unfold page_overview, st_markdown.
    change (∀ page, ?m page = (page ++ ?o, Raise ?e)) with (fails m o e).
    eapply fails_bind; [apply runs_emit|]. cbn beta.
    eapply fails_bind; [apply runs_emit|]. cbn beta.
    apply fails_first.
    rewrite overview_summary_unfold, Ha, Hm, Hu, Hf, Hfw. exact Hos.
  - rewrite !chart_traces_app, Hcs. reflexivity.
Qed.

(** X10. A scenario chart that was drawn ends with the uncertainty band
    and has no band trace before it.  The band is there exactly when the
    wide table is present, has both [lower] and [upper] and has a row for
    the selected indicator; with a wide table that lacks a bound the chart
    has no band trace at all.  The band is two traces, "Upper Bound"
    then "Uncertainty Band", over the same dates, whose values are the
    [upper] and the [lower] of the same rows in the same order: the rows
    of the wide table for the indicator, rearranged by the sort. *)
Theorem forecast_band_shape (s : Session) (fl : DataFrame) (sel : cell)
    (fig : Figure) :
  forecast_figure s fl sel = Ok fig →
  ∃ lines band,
    traces fig = lines ++ band
    ∧ Forall (λ t, band_trace t = false) lines
    ∧ match forecast_wide s with
      | None => band = []
      | Some fw =>
          if has_band fw sel
          then ∃ wide_data dates,
                 wide_data ≡ₚ indicator_rows fw sel
                 ∧ length dates = length wide_data
                 ∧ band = band_of dates wide_data
          else band = []
      end.
Proof.
  unfold forecast_figure. intros Hfig.
  apply bind_Ok_inv in Hfig as (series & _ & Hfig).
  apply bind_Ok_inv in Hfig as (codes & _ & Hfig).
  apply bind_Ok_inv in Hfig as (hist & Hhist & Hfig).
  apply bind_Ok_inv in Hfig as (lines & Hlines & Hfig).
  apply bind_Ok_inv in Hfig as (band & Hband & Hfig).
  injection Hfig as <-. cbn [traces].
  exists (hist ++ lines), band. split; [by rewrite app_assoc|].
  split.
  { apply Forall_app. split;
      [by eapply historical_trace_plain|by eapply scenario_traces_plain]. }
  destruct (forecast_wide s) as [fw|].
  - by apply uncertainty_band_inv.
  - by injection Hband as <-.
Qed.

(** X11. The Overview page and the Key Findings of the Forecasts page
    judge the same lookup, the 2027 base forecast of account ownership,
    against the target of 60, and agree: the KPI metric carries the delta
    "✓ Target met" exactly when the findings carry the line "✓ On track to
    meet 60% target", which is exactly when the forecast is a number other
    than zero that is at least 60, or a missing number (a missing number
    is shown as met).  With no forecast, or a forecast of zero, the metric
    shows "N/A" with no delta and the findings have no line on it. *)
Theorem target_verdicts_agree (v : option cell) :
  (∀ c, v = Some c → is_numeric c = true) →
  ∃ kpi findings,
    (∀ page, kpi_forecast v page = (page ++ [kpi], Ok ()))
    ∧ (∀ page, finding_access v page = (page ++ findings, Ok ()))
    ∧ (metric_delta kpi = Some "✓ Target met" ↔ target_met v = true)
    ∧ (Write "  - ✓ On track to meet 60% target" ∈ findings
       ↔ target_met v = true)
    ∧ (truthy_opt v = false →
       kpi = Metric "2027 Forecast" "N/A" None ∧ findings = []).
Proof.
  intros Hv. unfold kpi_forecast, finding_access, st_metric, st_write.
  destruct v as [c|].
  2:{ eexists _, []. split; [apply runs_emit|]. split; [apply runs_ret|].
      split; [done|]. split; [|done]. split; [|done].
      intros Hin. by apply elem_of_nil in Hin. }
  specialize (Hv c eq_refl). destruct c as [| |q|]; try done;
    cbn [truthy_opt truthy target_met].
  - eexists _, _. split; [|split].
    { change (∀ page, ?m page = (page ++ ?o, Ok ())) with (runs m o ()).
      eapply (runs_bind _ _ []); [apply runs_lift|].
      eapply (runs_bind _ _ []); [apply runs_lift|].
      eapply (runs_bind _ _ []); [apply runs_lift|].
      eapply (runs_bind _ _ []); [apply runs_ret|]. apply runs_emit. }
    { change (∀ page, ?m page = (page ++ ?o, Ok ())) with (runs m o ()).
      eapply (runs_bind _ _ []); [apply runs_lift|].
      eapply runs_bind; [apply runs_emit|].
      eapply (runs_bind _ _ []); [apply runs_lift|].
      eapply (runs_bind _ _ []); [apply runs_lift|]. apply runs_emit. }
    split; [done|]. split; [|done]. split; [done|]. intros _.
    cbn [app]. rewrite !elem_of_cons. auto.
  - destruct (Qeq_bool q 0) eqn:Hq; cbn [negb andb].
    { eexists _, []. split; [apply runs_emit|]. split; [apply runs_ret|].
      split; [done|]. split; [|done]. split; [|done].
      intros Hin. by apply elem_of_nil in Hin. }
    rewrite <- (gap_nonpositive q).
    destruct (Qle_bool (60 - q) 0) eqn:Hgap.
    + eexists _, _. split; [|split].
      { change (∀ page, ?m page = (page ++ ?o, Ok ())) with (runs m o ()).
        eapply (runs_bind _ _ []); [apply runs_lift|].
        eapply (runs_bind _ _ []); [apply runs_lift|].
        eapply (runs_bind _ _ []);
          [unfold py_gt0; rewrite Hgap; apply runs_lift|].
        eapply (runs_bind _ _ []); [apply runs_ret|]. apply runs_emit. }
      { change (∀ page, ?m page = (page ++ ?o, Ok ())) with (runs m o ()).
        eapply (runs_bind _ _ []); [apply runs_lift|].
        eapply runs_bind; [apply runs_emit|].
        eapply (runs_bind _ _ []); [apply runs_lift|].
        eapply (runs_bind _ _ []);
          [unfold py_gt0; rewrite Hgap; apply runs_lift|]. apply runs_emit. }
      split; [done|]. split; [|done]. split; [done|]. intros _.
      cbn [app]. rewrite !elem_of_cons. auto.
    + eexists _, _. split; [|split].
      { change (∀ page, ?m page = (page ++ ?o, Ok ())) with (runs m o ()).
        eapply (runs_bind _ _ []); [apply runs_lift|].
        eapply (runs_bind _ _ []); [apply runs_lift|].
        eapply (runs_bind _ _ []);
          [unfold py_gt0; rewrite Hgap; apply runs_lift|].
        eapply (runs_bind _ _ []).
        { eapply (runs_bind _ _ []); [apply runs_lift|]. apply runs_ret. }
        apply runs_emit. }
      { change (∀ page, ?m page = (page ++ ?o, Ok ())) with (runs m o ()).
        eapply (runs_bind _ _ []); [apply runs_lift|].
        eapply runs_bind; [apply runs_emit|].
        eapply (runs_bind _ _ []); [apply runs_lift|].
        eapply (runs_bind _ _ []);
          [unfold py_gt0; rewrite Hgap; apply runs_lift|].
        eapply (runs_bind _ _ []); [apply runs_lift|]. apply runs_emit. }
      split; [|split; [|done]].
      * split; [|done]. cbn [metric_delta]. intros [= Hd].
        by apply delta_not_met in Hd.
      * split; [|done]. cbn [app]. rewrite !elem_of_cons.
        intros [Hw|[Hw|Hw]].
        -- injection Hw as Hw. simpl in Hw. discriminate Hw.
        -- injection Hw as Hw. simpl in Hw. discriminate Hw.
        -- by apply elem_of_nil in Hw.
Qed.


(** X12. On the Trends page, over an observation table with rows, when
    the selector accepts its default and the selection is not empty, the
    page renders to the end: the selector, the chart and the expander
    with the tables.  The chart has one line for each selected indicator
    that has a complete observation, in the order of the selection, named
    after the indicator and carrying the values of the complete
    observations of the indicator; the expander has a subheader and a
    table for the same indicators in the same order.  A selected indicator
    without data gets neither line nor table. *)
Theorem trends_page_shows_selection (obs : DataFrame)
    (picked : option (list nat)) :
  observation_table obs = true →
  df_empty obs = false →
  let options := unique (map (cell_of "indicator_code") (rows obs)) in
  let selected := multiselect_value options (default_indicators options) picked in
  forallb (λ d, bool_decide (d ∈ options)) (default_indicators options) = true →
  selected ≠ [] →
  ∃ lines tables,
    (∀ page,
       page_trends obs picked page
       = (page
          ++ [Plain (Markdown (main_header "Financial Inclusion Trends"));
              Multiselect "Select Indicators to Display" options
                (default_indicators options);
              Plain (PlotlyChart {| traces := lines; layout := trend_layout |})]
          ++ map (λ w, Placed "📄 View Data Table" (Plain w)) tables,
          Done ()))
    ∧ Forall2 (λ code t,
                 trace_name t = text_of code
                 ∧ trace_y t ≡ₚ map (cell_of "value_numeric")
                                  (List.filter (in_series obs code) (rows obs)))
        (List.filter (has_data obs) selected) lines
    ∧ subheaders tables = map text_of (List.filter (has_data obs) selected)
    ∧ length (dataframes tables) = length lines.
Proof.
  intros Hobs He options selected Hdefault Hsel.
  destruct (observation_table_columns obs Hobs He) as (Hcode & _ & _).
  destruct (trend_traces_shape obs selected Hobs He) as (lines & Hlines & Hshape).
  destruct (trend_tables_shape obs selected Hobs He)
    as (tables & Htables & Hsub & Hdf).
  exists lines, tables. split; [|split; [done|split; [done|]]].
  2:{ rewrite Hdf. by eapply Forall2_length. }
  change (renders (page_trends obs picked)
            ([Plain (Markdown (main_header "Financial Inclusion Trends"));
              Multiselect "Select Indicators to Display" options
                (default_indicators options);
              Plain (PlotlyChart {| traces := lines; layout := trend_layout |})]
             ++ map (λ w, Placed "📄 View Data Table" (Plain w)) tables) ()).
  unfold page_trends, st_markdown, st_plotly_chart.
  rewrite (available_indicators_codes obs (or_intror Hcode)), He.
  fold options.
  eapply (renders_bind _ _ [_]); [apply renders_plain|]. cbn beta.
  eapply (renders_bind _ _ []); [apply renders_py|]. cbn beta.
  eapply (renders_bind _ _ [_]);
    [by apply st_multiselect_renders|]. cbn beta.
  fold selected. destruct selected as [|c rest] eqn:Hs; [done|].
  cbn [negb]. rewrite Hlines.
  eapply (renders_bind _ _ []); [apply renders_py|]. cbn beta.
  eapply (renders_bind _ _ [_]); [apply renders_plain|]. cbn beta.
  rewrite <- (map_map Plain (Placed "📄 View Data Table")).
  apply renders_placed, renders_ui. exact Htables.
Qed.

(** X13. The default of the indicator selector of the Trends page names
    account ownership and digital payment usage whenever account
    ownership is among the observed indicators.  So over a table with
    rows in which account ownership is observed and digital payment usage
    is not, Streamlit refuses the selector and the page ends after its
    header, whatever the user has picked; in every other case (also over
    an empty table) the selector the page builds is accepted and shown. *)
Theorem trends_default_refused (obs : DataFrame) (picked : option (list nat)) :
  df_empty obs = true ∨ has_column obs "indicator_code" = true →
  let codes := if df_empty obs then []
               else map (cell_of "indicator_code") (rows obs) in
  (Str "ACC_OWNERSHIP" ∈ codes → Str "USG_DIGITAL_PAYMENT" ∉ codes →
   ∀ page,
     page_trends obs picked page
     = (page ++ [Plain (Markdown (main_header "Financial Inclusion Trends"))],
        Failed StreamlitAPIException))
  ∧ (¬ (Str "ACC_OWNERSHIP" ∈ codes ∧ Str "USG_DIGITAL_PAYMENT" ∉ codes) →
     ∀ page,
       st_multiselect "Select Indicators to Display" (unique codes)
         (default_indicators (unique codes)) picked page
       = (page ++ [Multiselect "Select Indicators to Display" (unique codes)
                     (default_indicators (unique codes))],
          Done (multiselect_value (unique codes)
                  (default_indicators (unique codes)) picked))).
Proof.
  intros Hcols codes. unfold page_trends.
  rewrite (available_indicators_codes obs Hcols). fold codes.
  pose proof (default_indicators_valid codes) as Hvalid.
  split.
  - intros Hacc Husg.
    change (stops (ui (st_markdown (main_header "Financial Inclusion Trends"));;
                   available ← py (Ok (unique codes));
                   selected_indicators ←
                     st_multiselect "Select Indicators to Display" available
                       (default_indicators available) picked;
                   match selected_indicators with
                   | _ :: _ =>
                       if negb (df_empty obs) then
                         lines ← py (trend_traces obs selected_indicators);
                         ui (st_plotly_chart {| traces := lines;
                                                layout := trend_layout |});;
                         placed "📄 View Data Table"
                           (ui (trend_tables obs selected_indicators))
                       else ui (st_info "Select indicators to display trends")
                   | [] => ui (st_info "Select indicators to display trends")
                   end)
              [Plain (Markdown (main_header "Financial Inclusion Trends"))]
              StreamlitAPIException).
    eapply (stops_bind _ _ [_] []); [apply renders_plain|]. cbn beta.
    eapply (stops_bind _ _ [] []); [apply renders_py|]. cbn beta.
    apply stops_first, st_multiselect_refused. rewrite Hvalid.
    rewrite bool_decide_eq_true_2 by done.
    by rewrite bool_decide_eq_false_2.
  - intros Hok.
    assert (Hd : forallb (λ d, bool_decide (d ∈ unique codes))
                   (default_indicators (unique codes)) = true).
    { rewrite Hvalid. apply negb_true_iff, andb_false_iff.
      destruct (decide (Str "ACC_OWNERSHIP" ∈ codes)) as [Hacc|Hacc].
      - right. apply negb_false_iff, bool_decide_eq_true.
        destruct (decide (Str "USG_DIGITAL_PAYMENT" ∈ codes)); [done|].
        exfalso. by apply Hok.
      - left. by apply bool_decide_eq_false. }
    by apply st_multiselect_renders.
Qed.

(** X14. Over an event table with [event_date_parsed], [category] and
    [indicator] in which some event has a date, the Event Timeline section
    renders to the end: the category selector, whose options and default
    are the categories of the dated events, the timeline and the event
    list.  The timeline is drawn from the events that have a date and
    whose category is among those selected.  Deselecting every category
    does not empty the timeline: with nothing selected it shows every
    dated event, the same events as with every category selected. *)
Theorem timeline_shows_selected_categories (events : DataFrame)
    (picked : option (list nat)) :
  timeline_table events = true →
  let categories := event_categories events in
  let selected := multiselect_value categories categories picked in
  ∃ fig listed,
    (∀ page,
       event_timeline events picked page
       = (page ++ [Plain (Subheader "📅 Event Timeline");
                   Multiselect "Filter by Category" categories categories;
                   PxChart fig;
                   Placed "📋 View Event List" (Plain (Dataframe listed))],
          Done ()))
    ∧ px_call fig
      = Scatter {| columns := columns events;
                   rows := timeline_rows events selected;
                   datetime64 := datetime64 events |}
          "event_date_parsed" "category" (Some "category") ["indicator"]
    ∧ (∀ r, r ∈ timeline_rows events selected ↔
            r ∈ rows events
            ∧ notna (cell_of "event_date_parsed" r) = true
            ∧ (selected = []
               ∨ ∃ c, c ∈ selected ∧ same_value (cell_of "category" r) c = true))
    ∧ timeline_rows events [] = dated_events events
    ∧ timeline_rows events categories = dated_events events.
Proof.
  intros Ht categories selected.
  destruct (event_timeline_runs events picked Ht)
    as (fig & listed & Hrun & Hcall & _).
  exists fig, listed. split; [exact Hrun|]. split; [exact Hcall|].
  assert (Hall : timeline_rows events [] = dated_events events).
  { unfold timeline_rows. by apply filter_all. }
  split; [|split; [done|]].
  - intros r. unfold timeline_rows, dated_events.
    rewrite !elem_of_filter_bool. split.
    + intros [[Hr Hd] Hc]. split; [done|]. split; [done|].
      destruct selected as [|c l]; [by left|]. right.
      apply existsb_exists in Hc as (c' & Hin & Hc').
      exists c'. split; [by apply list_elem_of_In|done].
    + intros (Hr & Hd & Hc). split; [done|].
      destruct selected as [|c l]; [done|].
      destruct Hc as [Hc|(c' & Hin & Hc')]; [done|].
      apply existsb_exists. exists c'. split; [by apply list_elem_of_In|done].
  - unfold categories. by rewrite timeline_rows_all.
Qed.

(** X15. The event list under the timeline holds the events of the
    timeline, each once and under its label, restricted to the columns
    [indicator], [category] and [event_date_parsed], and lists them from
    the newest to the oldest. *)
Theorem event_list_newest_first (events : DataFrame)
    (picked : option (list nat)) :
  timeline_table events = true →
  let categories := event_categories events in
  let selected := multiselect_value categories categories picked in
  let cols := ["indicator"; "category"; "event_date_parsed"] in
  ∃ fig listed,
    (∀ page,
       event_timeline events picked page
       = (page ++ [Plain (Subheader "📅 Event Timeline");
                   Multiselect "Filter by Category" categories categories;
                   PxChart fig;
                   Placed "📋 View Event List" (Plain (Dataframe listed))],
          Done ()))
    ∧ columns listed = cols
    ∧ rows listed ≡ₚ map (restrict_row cols) (timeline_rows events selected)
    ∧ (∀ r c, c ∈ cols → cell_of c (restrict_row cols r) = cell_of c r)
    ∧ StronglySorted newest_first (rows listed).
Proof.
  intros Ht categories selected cols.
  destruct (event_timeline_runs events picked Ht)
    as (fig & listed & Hrun & _ & Hcols & Hperm & Hsorted).
  exists fig, listed. split; [exact Hrun|]. split; [done|]. split; [done|].
  split; [|done]. intros r c Hc. rewrite cell_of_restrict_row.
  by rewrite bool_decide_eq_true_2.
Qed.

(** X16. Whatever the event-feature table holds, the section "Cumulative
    Event Effects Over Time" renders without raising: its rule, its
    subheader and one chart.  The chart has a line for each of the first
    four columns whose name contains "event_effect", in the order of the
    columns, and for no other column, so at most four lines; each line
    carries the values of its column over the index of the table and is
    named after the column with every "event_effect_" taken out, which for
    a column "event_effect_" followed by a name free of that text is the
    name.  Without a table the section shows nothing. *)
Theorem event_effects_chart (features : DataFrame) :
  ∃ lines,
    (∀ page,
       event_effects (Some features) page
       = (page ++ [Plain (Markdown "---");
                   Plain (Subheader "📈 Cumulative Event Effects Over Time");
                   Plain (PlotlyChart {| traces := lines;
                                         layout := effect_layout |})],
          Done ()))
    ∧ (length lines ≤ 4)%nat
    ∧ Forall2 (λ col t,
                 trace_name t = str_replace "event_effect_" "" col
                 ∧ trace_x t = frame_index features
                 ∧ trace_y t = map (cell_of col) (rows features)
                 ∧ trace_mode t = "lines")
        (take 4 (List.filter (contains "event_effect") (columns features)))
        lines
    ∧ (∀ rest, contains "event_effect_" rest = false →
               str_replace "event_effect_" "" ("event_effect_" +:+ rest) = rest)
    ∧ (∀ page, event_effects None page = (page, Done ())).
Proof.
  destruct (effect_columns_spec features) as [Hlen Hcols].
  destruct (effect_traces_total features (effect_columns features))
    as (lines & Hlines & Hshape).
  { eapply Forall_impl; [exact Hcols|]. by intros col [Hc _]. }
  exists lines. split; [|split; [|split; [exact Hshape|split]]].
  - change (renders (event_effects (Some features))
              [Plain (Markdown "---");
               Plain (Subheader "📈 Cumulative Event Effects Over Time");
               Plain (PlotlyChart {| traces := lines; layout := effect_layout |})]
              ()).
    unfold event_effects, st_markdown, st_subheader, st_plotly_chart.
    rewrite Hlines.
    eapply (renders_bind _ _ [_]); [apply renders_plain|]. cbn beta.
    eapply (renders_bind _ _ [_]); [apply renders_plain|]. cbn beta.
    eapply (renders_bind _ _ []); [apply renders_py|]. cbn beta.
    apply renders_plain.
  - apply Forall2_length in Hshape. by rewrite <- Hshape.
  - apply replace_effect_prefix.
  - done.
Qed.

(** X17. Over an event table with rows that has [category] and
    [event_date_parsed], the Event Coverage section of the Data Coverage
    page renders to the end, with its bar chart and its pie chart, and the
    two charts add up.  The two slices of the pie, events with and without
    a date, sum to the number of events, the figure of the "Total Events"
    metric.  The bar chart has one bar for each category that occurs, no
    category twice, each as high as the number of events of the category,
    the highest first; the bars sum to the number of events that have a
    category, so events without category are in no bar. *)
Theorem event_coverage_adds_up (events : DataFrame) :
  df_empty events = false →
  has_column events "category" = true →
  has_column events "event_date_parsed" = true →
  ∃ bars with_date without_date,
    (∀ page,
       event_coverage events page
       = (page
          ++ [Plain (Markdown "---");
              Plain (Subheader "📅 Event Coverage");
              Placed "col_a"
                (PxChart {| px_call := Bar (map fst bars) (map snd bars);
                            px_args := [("labels.x", "Category");
                                        ("labels.y", "Count");
                                        ("title", "Events by Category")];
                            px_updates := [] |});
              Placed "col_b"
                (PxChart {| px_call := Pie [with_date; without_date]
                                           ["With Date"; "Without Date"];
                            px_args := [("title", "Event Date Availability")];
                            px_updates := [] |})],
          Done ()))
    ∧ with_date + without_date = Z.of_nat (len events)
    ∧ with_date = Z.of_nat (length (dated_events events))
    ∧ total (map snd bars)
      = Z.of_nat (length (List.filter (λ r, notna (cell_of "category" r))
                                      (rows events)))
    ∧ Forall (λ bar : cell * Z,
                bar.2 = Z.of_nat (length (List.filter
                                            (λ r, py_eq (cell_of "category" r) bar.1)
                                            (rows events)))
                ∧ 0 < bar.2) bars
    ∧ distinct_keys (map fst bars) = true
    ∧ StronglySorted (λ a b : cell * Z, b.2 ≤ a.2) bars.
Proof.
  intros He Hcat Hdate.
  set (categories := map (cell_of "category") (rows events)).
  set (parsed := map (cell_of "event_date_parsed") (rows events)).
  destruct (value_counts_spec categories) as (Htotal & Hbars & Hdistinct & Hsorted).
  exists (value_counts categories), (count_notna parsed), (count_isna parsed).
  split; [|split; [|split; [|split; [|split; [|split; [done|done]]]]]].
  - change (renders (event_coverage events)
              [Plain (Markdown "---");
               Plain (Subheader "📅 Event Coverage");
               Placed "col_a"
                 (PxChart {| px_call := Bar (map fst (value_counts categories))
                                            (map snd (value_counts categories));
                             px_args := [("labels.x", "Category");
                                         ("labels.y", "Count");
                                         ("title", "Events by Category")];
                             px_updates := [] |});
               Placed "col_b"
                 (PxChart {| px_call := Pie [count_notna parsed; count_isna parsed]
                                            ["With Date"; "Without Date"];
                             px_args := [("title", "Event Date Availability")];
                             px_updates := [] |})] ()).
    unfold event_coverage, category_chart, date_availability_chart,
      st_markdown, st_subheader.
    rewrite He, Hcat, Hdate. cbn [negb].
    rewrite (getitem_has _ _ Hcat), (getitem_has _ _ Hdate).
    eapply (renders_bind _ _ [_]); [apply renders_plain|]. cbn beta.
    eapply (renders_bind _ _ [_]); [apply renders_plain|]. cbn beta.
    eapply (renders_bind _ _ [_]).
    { apply (renders_placed _ _ [_]).
      eapply (renders_bind _ _ []); [apply renders_py|]. apply renders_show. }
    apply (renders_placed _ _ [_]).
    eapply (renders_bind _ _ []); [apply renders_py|]. apply renders_show.
  - unfold count_notna, count_isna, len, parsed.
    rewrite <- Nat2Z.inj_add.
    rewrite <- (length_map (cell_of "event_date_parsed") (rows events)).
    rewrite <- (length_filter_split notna (map (cell_of "event_date_parsed")
                                              (rows events))).
    do 3 f_equal. apply filter_ext. intros c. unfold notna.
    by rewrite negb_involutive.
  - unfold count_notna, parsed, dated_events.
    by rewrite filter_map_comm, length_map.
  - rewrite Htotal. unfold categories. by rewrite filter_map_comm, length_map.
  - eapply Forall_impl; [exact Hbars|]. intros bar [Hn Hpos]. split; [|done].
    rewrite Hn. unfold categories. by rewrite filter_map_comm, length_map.
Qed.

(** X18. Over an observation table with rows whose [year] is missing
    exactly where the date is, as [get_observations] derives it, the
    coverage table of the Data Coverage page is built without raising.
    Its rows are distinct indicators and its columns distinct years; a
    cell counts the rows of the indicator in the year that have a value.
    Every indicator with a complete observation has a row, and the counts
    of the row of an indicator sum to the number of complete observations
    of the indicator: the length of the series the other pages draw for
    it.  When [px.imshow] takes the table, the section renders to the end
    with the heatmap and, in its expander, the table. *)
Theorem coverage_counts_the_series (obs : DataFrame) :
  observation_table obs = true →
  df_empty obs = false →
  has_column obs "year" = true →
  (∀ r, r ∈ rows obs →
        isna (cell_of "year" r) = isna (cell_of "observation_date" r)) →
  ∃ coverage,
    pivot_count obs = Ok coverage
    ∧ pivot_values coverage
      = map (λ code, map (coverage_count obs code) (pivot_columns coverage))
            (pivot_index coverage)
    ∧ distinct_keys (pivot_index coverage) = true
    ∧ distinct_keys (pivot_columns coverage) = true
    ∧ (∀ code,
         total (map (coverage_count obs code) (pivot_columns coverage))
         = Z.of_nat (length (List.filter (in_series obs code) (rows obs))))
    ∧ (∀ code, has_data obs code = true →
               ∃ k, k ∈ pivot_index coverage ∧ py_eq code k = true)
    ∧ (imshow_raises (PivotImage coverage) = None →
       ∃ fig,
         px_call fig = Imshow (PivotImage coverage)
         ∧ ∀ page,
             indicator_coverage obs page
             = (page ++ [Plain (Markdown "---");
                         Plain (Subheader "📊 Indicator Coverage Over Time");
                         PxChart fig;
                         Placed "📄 View Coverage Table" (PivotTable coverage)],
                Done ())).
Proof.
  intros Hobs He Hyear Hlink.
  destruct (observation_table_columns obs Hobs He) as (Hcode & Hdate & Hval).
  unfold pivot_count. rewrite Hval, Hcode, Hyear. cbn [negb].
  eexists. split; [done|]. cbn [pivot_values pivot_index pivot_columns].
  assert (Hseries : ∀ code,
    List.filter (λ r, py_eq (cell_of "indicator_code" r) code
                      && notna (cell_of "value_numeric" r)) (keyed_rows obs)
    = List.filter (in_series obs code) (rows obs)).
  { intros code. unfold keyed_rows. rewrite filter_filter.
    apply filter_ext_in. intros r Hr. apply list_elem_of_In in Hr.
    unfold in_series. rewrite !frame_cell_has by done.
    unfold notna at 2 4. rewrite (Hlink r Hr).
    destruct (py_eq (cell_of "indicator_code" r) code) eqn:Hc.
    - apply py_eq_notna in Hc as [-> _]. cbn [andb].
      by destruct (negb (isna (cell_of "observation_date" r))).
    - by rewrite !andb_false_r. }
  split; [done|]. split; [|split; [|split; [|split]]].
  - apply (distinct_keys_perm
             (distinct_values (map (cell_of "indicator_code") (keyed_rows obs)))).
    + symmetry. apply sort_perm.
    + apply distinct_values_distinct.
  - apply (distinct_keys_perm
             (distinct_values (map (cell_of "year") (keyed_rows obs)))).
    + symmetry. apply sort_perm.
    + apply distinct_values_distinct.
  - intros code. by rewrite coverage_row_total, Hseries.
  - intros code Hdata. unfold has_data in Hdata.
    apply negb_true_iff, bool_decide_eq_false in Hdata.
    destruct (List.filter (in_series obs code) (rows obs)) as [|r l] eqn:Hf; [done|].
    assert (Hr : r ∈ List.filter (in_series obs code) (rows obs)).
    { rewrite Hf. left. }
    rewrite <- Hseries in Hr. apply elem_of_filter_bool in Hr as [Hr Hp].
    apply andb_prop in Hp as [Hp _].
    destruct (distinct_values_cover
                (map (cell_of "indicator_code") (keyed_rows obs))
                (cell_of "indicator_code" r)) as (k & Hk & Hrk).
    { by apply list_elem_of_fmap_2. }
    { by apply py_eq_notna in Hp as [? _]. }
    exists k. split; [by rewrite sort_perm|].
    eapply py_eq_trans; [|exact Hrk]. by rewrite py_eq_sym.
  - intros Himshow. eexists. split; [|intros page].
    2:{ revert page.
        match goal with
        | |- ∀ page, ?m page = (page ++ ?o, Done ()) => change (renders m o ())
        end.
        unfold indicator_coverage, st_markdown, st_subheader.
        rewrite He, Hyear. cbn [negb andb].
        unfold pivot_count. rewrite Hval, Hcode, Hyear. cbn [negb].
        eapply (renders_bind _ _ [_]); [apply renders_plain|]. cbn beta.
        eapply (renders_bind _ _ [_]); [apply renders_plain|]. cbn beta.
        eapply (renders_bind _ _ []); [apply renders_py|]. cbn beta.
        unfold px_imshow. rewrite Himshow.
        eapply (renders_bind _ _ []); [apply renders_py|]. cbn beta.
        eapply (renders_bind _ _ [_]); [apply renders_show|]. cbn beta.
        apply (renders_placed _ _ [_]). apply renders_show. }
    reflexivity.
Qed.

(** X19. The year range of the sidebar filters nothing: whatever the
    files hold and whichever page is selected, a run with the slider set
    to any range puts the same elements on the page, and ends the same
    way, as the run with the slider untouched. *)
Theorem year_range_is_ignored (fs : Files) (inputs : Inputs)
    (range : option (Z * Z)) (page : list element) :
  script fs (with_year_range inputs range) page = script fs inputs page.
Proof.
  unfold script. cbn [with_year_range page_choice year_choice scenario_choice
                      indicator_choice trend_choice category_choice].
  do 3 (apply app_bind_ext; intros ? ?).
  apply app_bind_ext. intros loaded ?.
  apply app_bind_ext. intros split ?.
  do 3 (apply app_bind_ext; intros ? ?).
  do 2 (apply app_bind_ext; intros ? ?).
  apply app_bind_unread. intros ?. apply alike_placed, year_range_filter_unread.
Qed.

(** X20. When nothing can be loaded (the unified table cannot be read,
    the event features and the event matrix are missing or unreadable,
    and so are the forecasts), no page raises.  Each loader shows one
    error or warning message; the sidebar has the scenario selector and
    no year slider; and every page renders to the footer, with
    placeholders where its data would be: "N/A" metrics and a trend
    section without chart on Overview, zero counts on Data Coverage, a
    selector without options on Trends, a warning and a note on Events &
    Impact, an error on Forecasts.  No chart and no table is drawn. *)
Theorem script_survives_missing_data (fs : Files) (inputs : Inputs) :
  unified_source fs = None →
  unreadable (event_features_csv fs) = true →
  unreadable (event_matrix_csv fs) = true →
  forecasts_unreadable fs = true →
  ∃ m1 m2 m3 m4,
    Forall (λ w, is_message w = true) [m1; m2; m3; m4]
    ∧ ∀ page,
        script fs inputs page
        = (page
           ++ [Plain (Markdown css);
               Placed "sidebar" (Title "📊 Navigation");
               Placed "sidebar" (Radio "Select Page" page_names);
               Plain m1; Plain m2; Plain m3; Plain m4;
               Placed "sidebar" (Plain (Markdown "---"));
               Placed "sidebar" (Plain (Subheader "Filters"));
               Placed "sidebar"
                 (Plain (Selectbox "Forecast Scenario"
                           [Str "base"; Str "optimistic"; Str "pessimistic"]))]
           ++ match page_choice inputs with
              | Overview =>
                  [Plain (Markdown
                            (main_header "Ethiopia Financial Inclusion Dashboard"));
                   Plain (Markdown "**Forecasting Access and Usage (2025-2027)**");
                   Plain (Subheader "📈 Key Performance Indicators");
                   Plain (Within "col1"
                            (Metric "Latest Account Ownership" "N/A" None));
                   Plain (Within "col2"
                            (Metric "Mobile Money Accounts" "N/A" None));
                   Plain (Within "col3"
                            (Metric "Digital Payment Usage" "N/A" None));
                   Plain (Within "col4" (Metric "2027 Forecast" "N/A" None));
                   Plain (Markdown "---");
                   Plain (Subheader "🔍 Key Insights");
                   Plain (Within "col_a"
                            (Markdown ("<div class=" +:+ dq +:+ "insight-box"
                                       +:+ dq +:+ ">")));
                   Plain (Within "col_a" (Markdown "**📊 Current State**"));
                   Plain (Within "col_a"
                            (Write ("- Total events tracked: "
                                    +:+ str_of_len empty_frame)));
                   Plain (Within "col_a" (Markdown "</div>"));
                   Plain (Within "col_b"
                            (Markdown ("<div class=" +:+ dq +:+ "insight-box"
                                       +:+ dq +:+ ">")));
                   Plain (Within "col_b" (Markdown "**🎯 Forecast Outlook**"));
                   Plain (Within "col_b"
                            (Write "- Key drivers: Telebirr, M-Pesa, NFIS-II"));
                   Plain (Within "col_b" (Markdown "</div>"));
                   Plain (Markdown "---");
                   Plain (Subheader "📉 Historical Trend + Forecast")]
              | DataCoverage =>
                  [Plain (Markdown (main_header "Data Coverage & Quality"));
                   Plain (Subheader "📋 Dataset Summary");
                   Placed "col1" (Plain (Metric "Total Observations" "0" None));
                   Placed "col2" (Plain (Metric "Total Events" "0" None));
                   Placed "col3" (Plain (Metric "Impact Links" "0" None));
                   Plain (Markdown "---");
                   Plain (Subheader "📊 Indicator Coverage Over Time");
                   Plain (InfoBox "No observation data available");
                   Plain (Markdown "---");
                   Plain (Subheader "📅 Event Coverage")]
              | Trends =>
                  [Plain (Markdown (main_header "Financial Inclusion Trends"));
                   Multiselect "Select Indicators to Display" [] [];
                   Plain (InfoBox "Select indicators to display trends")]
              | EventsImpact =>
                  [Plain (Markdown (main_header "Events & Impact Analysis"));
                   Plain (Subheader "📅 Event Timeline");
                   Plain (WarningBox "No event data available");
                   Plain (Markdown "---");
                   Plain (Subheader "🔗 Event-Indicator Impact Matrix");
                   Plain (InfoBox "Event matrix not available. Run Task 3 notebook to generate.")]
              | Forecasts =>
                  [Plain (Markdown
                            (main_header "Financial Inclusion Forecasts (2025-2027)"));
                   Plain (ErrorBox "Forecast data not available. Run Task 4 notebook to generate forecasts.")]
              end
           ++ [Plain (Markdown "---"); Plain (Markdown footer)],
           Done ()).
Proof.
  intros Hu Hf Hm Hfc.
  destruct (loads_without_data fs Hu Hf Hm Hfc)
    as (m1 & m2 & m3 & m4 & Hmsg & L1 & L2 & L3 & L4).
  exists m1, m2, m3, m4. split; [exact Hmsg|].
  match goal with
  | |- ∀ page, ?m page = (page ++ ?o, Done ()) => change (renders m o ())
  end.
  unfold script.
  destruct (page_choice inputs);
    (eapply renders_eq;
     [ unfold st_markdown, st_subheader;
       eapply renders_bind; [apply renders_plain|]; cbn beta;
       eapply renders_bind; [apply renders_placed, renders_show|]; cbn beta;
       eapply renders_bind; [apply renders_placed, renders_show|]; cbn beta;
       eapply renders_bind; [apply renders_ui, L1|]; cbn beta; cbn [fst snd];
       rewrite split_unified_run by done; cbn [df_empty columns empty_frame];
       eapply renders_bind; [apply renders_py|]; cbn beta; cbn [fst snd];
       eapply renders_bind; [apply renders_ui, L2|]; cbn beta;
       eapply renders_bind; [apply renders_ui, L3|]; cbn beta;
       eapply renders_bind; [apply renders_ui, L4|]; cbn beta; cbn [fst snd];
       eapply renders_bind; [apply renders_placed, renders_plain|]; cbn beta;
       eapply renders_bind; [apply renders_placed, renders_plain|]; cbn beta;
       eapply renders_bind; [apply renders_placed, renders_ret|]; cbn beta;
       eapply renders_bind; [apply renders_placed, renders_plain|]; cbn beta;
       eapply renders_bind;
         [|eapply renders_bind; [apply renders_plain|apply renders_plain]]
     | ]).
  - apply renders_ui_from_empty. vm_compute. reflexivity.
  - reflexivity.
  - unfold page_data_coverage, indicator_coverage, event_coverage,
      st_markdown, st_subheader, st_metric, st_info.
    change (df_empty empty_frame) with true. cbn [negb andb]. render.
  - reflexivity.
  - unfold page_trends, available_indicators, st_markdown, st_info.
    change (df_empty empty_frame) with true. cbn [negb andb].
    eapply renders_bind; [apply renders_plain|]. cbn beta.
    eapply renders_bind; [apply renders_py|]. cbn beta.
    eapply renders_bind; [by apply st_multiselect_renders|]. cbn beta.
    destruct (multiselect_value _ _ _); apply renders_plain.
  - reflexivity.
  - unfold page_events, event_timeline, impact_matrix, event_effects,
      st_markdown, st_subheader, st_warning, st_info.
    change (df_empty empty_frame) with true. cbn [negb andb]. render.
  - reflexivity.
  - apply renders_ui_from_empty. vm_compute. reflexivity.
  - reflexivity.
Qed.

(** X21. Over an observation table with rows and a [year] column of
    whole numbers, the year range filter of the sidebar offers the years
    from the earliest observed one to 2027.  When no row has a year, no
    slider is shown and the range is (2014, 2027).  Otherwise the slider
    runs from the least year of the table to 2027 and starts on that full
    range, and the filter returns what the user set, or the full range
    while the slider is untouched; when Streamlit refuses these bounds
    the script stops there.  Neither [sorted] nor [int] raises. *)
Theorem year_slider_starts_at_first_year (obs : DataFrame)
    (set : option (Z * Z)) :
  df_empty obs = false →
  has_column obs "year" = true →
  whole_years obs = true →
  match observed_years obs with
  | [] => ∀ page, year_range_filter obs set page = (page, Done (2014, 2027))
  | _ :: _ =>
      ∃ first,
        first ∈ observed_years obs
        ∧ (∀ y, y ∈ observed_years obs → first ≤ y)
        ∧ ∀ page,
            year_range_filter obs set page
            = if slider_refuses first 2027 (first, 2027)
              then (page, Failed StreamlitAPIException)
              else (page ++ [Slider "Year Range" first 2027 (first, 2027)],
                    Done (default (first, 2027) set))
  end.
Proof.
  intros He Hyear Hw.
  pose proof (year_cells_numeric obs Hw) as Hnum.
  pose proof (λ y, observed_years_spec obs y Hw) as Hyears.
  set (s := List.filter notna (map (cell_of "year") (rows obs))) in *.
  assert (Hkind : Forall (λ c, kind_of c = Some KNum) (unique s)).
  { apply Forall_forall. intros c Hc. rewrite elem_of_unique in Hc.
    rewrite Forall_forall in Hnum. by destruct (Hnum c Hc) as (q & -> & _). }
  assert (Hrun : ∀ page,
    year_range_filter obs set page
    = match sort_by cell_leb (unique s) with
      | [] => (page, Done (2014, 2027))
      | c :: l =>
          (first_year ← py (m ← py_min (c :: l); py_int m);
           st_slider "Year Range" first_year 2027 (first_year, 2027) set) page
      end).
  { intros page. unfold year_range_filter. rewrite He, Hyear. cbn [negb andb].
    rewrite (getitem_has _ _ Hyear), app_bind_run. cbn [py outcome_of].
    fold s. unfold py_sorted. rewrite (homogeneous_kind KNum _ Hkind).
    rewrite app_bind_run. cbn [py outcome_of].
    by destruct (sort_by cell_leb (unique s)). }
  pose proof (sort_perm _ cell_leb (unique s)) as Hperm.
  assert (Hin : ∀ c, c ∈ sort_by cell_leb (unique s) ↔ c ∈ s).
  { intros c. by rewrite Hperm, elem_of_unique. }
  rewrite Forall_forall in Hnum.
  destruct (observed_years obs) as [|y0 ys] eqn:Hobs.
  - intros page. rewrite Hrun.
    destruct (sort_by cell_leb (unique s)) as [|c l] eqn:Hsort; [done|].
    exfalso. assert (Hc : c ∈ s) by (apply Hin; left).
    destruct (Hnum c Hc) as (q & -> & _).
    assert (Hq : Qfloor q ∈ @nil Z) by (apply Hyears; by exists q).
    by apply elem_of_nil in Hq.
  - destruct (sort_by cell_leb (unique s)) as [|c l] eqn:Hsort.
    { exfalso. assert (Hy : y0 ∈ y0 :: ys) by left.
      apply Hyears in Hy as (q & Hq & _). apply Hin in Hq.
      by apply elem_of_nil in Hq. }
    destruct (py_min_least c l) as (m & Hm & Hmin & Hle).
    { by rewrite Hperm. }
    assert (Hms : m ∈ s) by by apply Hin.
    destruct (Hnum m Hms) as (q & -> & Hq).
    exists (Qfloor q). split; [|split].
    + apply Hyears. by exists q.
    + intros y Hy. apply Hyears in Hy as (q' & Hq' & <-).
      apply Hin in Hq'. specialize (Hle _ Hq'). cbn in Hle.
      apply Qle_bool_iff in Hle. by apply Qfloor_resp_le.
    + intros page. rewrite Hrun, app_bind_run, Hm.
      cbn [py outcome_of mbind result_bind py_int].
      rewrite (py_int_whole q Hq). cbn [outcome_of]. unfold st_slider.
      by destruct (slider_refuses (Qfloor q) 2027 (Qfloor q, 2027)).
Qed.

(** X22. With a long-form forecast table and a wide table that has
    [indicator_code] and [year] with readable years, over an observation
    table, the Forecasts page renders to the end without raising.  The
    table it shows is the wide one, while the download is the CSV of the
    long one.  When an indicator is selected the scenario chart is on the
    page, and it has the traces of the uncertainty band exactly when the
    wide table has both [lower] and [upper] and a row for the indicator:
    a wide table without bounds, or without the indicator, gives the
    chart without band. *)
Theorem forecasts_page_with_wide (s : Session) (fl fw : DataFrame) :
  forecast_long s = Some fl →
  forecast_wide s = Some fw →
  observation_table (observations s) = true →
  forecast_long_table fl = true →
  years_readable fl = true →
  chartable_wide fw = true →
  ∃ out,
    (∀ page, page_forecasts s page = (page ++ out, Ok ()))
    ∧ Dataframe fw ∈ out
    ∧ DownloadButton "Download Forecast CSV" (to_csv fl)
        "ethiopia_fi_forecast_2025_2027.csv" "text/csv" ∈ out
    ∧ ∀ sel,
        selectbox_value (unique (map (cell_of "indicator_code") (rows fl)))
          (indicator_pick s) = Some sel →
        truthy sel = true →
        ∃ fig, forecast_figure s fl sel = Ok fig ∧ PlotlyChart fig ∈ out
               ∧ existsb band_trace (traces fig) = has_band fw sel.
Proof.
  intros Hl Hw Hobs Ht Hy Hcw.
  destruct (forecast_comparison_runs_wide s fl fw Hw Hobs Ht Hy Hcw)
    as (oc & Hoc & Hchart).
  destruct (forecast_findings_runs fl Ht) as (ofi & Hofi & _).
  eexists. split; [|split; [|split]].
  - match goal with
    | |- ∀ page, _ = (page ++ ?o, _) => change (runs (page_forecasts s) o ())
    end.
    unfold page_forecasts. rewrite Hl. unfold st_markdown.
    eapply runs_bind; [apply runs_emit|].
    eapply runs_bind; [exact Hoc|].
    eapply runs_bind.
    { unfold forecast_data_table. rewrite Hw.
      unfold st_markdown, st_subheader, st_dataframe. emits. apply runs_emit. }
    eapply runs_bind; [|exact Hofi].
    unfold forecast_download, st_markdown, st_subheader. emits. apply runs_emit.
  - rewrite !elem_of_app. right. right. left. right. right. left.
  - rewrite !elem_of_app. right. right. right. left.
    cbn [app]. rewrite !elem_of_cons. auto.
  - intros sel Hsel Htr. destruct (Hchart sel Hsel Htr) as (fig & Hfig & Hin & Hb).
    exists fig. split; [done|]. split; [|done].
    rewrite !elem_of_app. right. by left.
Qed.

(** X23. The scenario chart filters the wide table by [indicator_code]
    and sorts it by [year] before it tests for the bounds.  So with a
    wide table that lacks one of these two columns, and an indicator
    selected, the Forecasts page raises [KeyError] for the first one
    missing; it ends after the indicator selector: no chart, no table, no
    download and no findings are shown, although the long table is
    complete. *)
Theorem forecasts_page_needs_wide_keys (s : Session) (fl fw : DataFrame)
    (sel : cell) (c : string) :
  forecast_long s = Some fl →
  forecast_wide s = Some fw →
  observation_table (observations s) = true →
  forecast_long_table fl = true →
  years_readable fl = true →
  missing_wide_key fw = Some c →
  selectbox_value (unique (map (cell_of "indicator_code") (rows fl)))
    (indicator_pick s) = Some sel →
  truthy sel = true →
  ∀ page,
    page_forecasts s page
    = (page
       ++ [Markdown ("<p class=" +:+ dq +:+ "main-header" +:+ dq
                     +:+ ">Financial Inclusion Forecasts (2025-2027)</p>");
           Subheader "📊 Scenario Comparison";
           Selectbox "Select Indicator"
             (unique (map (cell_of "indicator_code") (rows fl)))],
       Raise (KeyError c)).
Proof.
  intros Hl Hw Hobs Ht Hy Hc Hsel Htr.
  pose proof (forecast_comparison_fails_wide s fl fw sel c Hw Hobs Ht Hy Hc
                Hsel Htr) as Hfail.
  match goal with
  | |- ∀ page, ?m page = (page ++ ?o, Raise ?e) => change (fails m o e)
  end.
  unfold page_forecasts. rewrite Hl. unfold st_markdown.
  eapply (fails_bind _ _ [_]); [apply runs_emit|]. cbn beta.
  apply fails_first. exact Hfail.
Qed.

(** X24. On a forecast table with rows, [get_forecast_value] raises
    [KeyError] when the table lacks [indicator_code], [year] or
    [scenario], for the first of them that is missing.  With the three
    keys, a lookup that matches no row returns [None], also on a table
    without [forecast_value]; a lookup that matches returns the
    [forecast_value] of the first matching row, be it missing or not, and
    raises [KeyError] when the table has no [forecast_value].  So a table
    without that column fails only the lookups that match. *)
Theorem get_forecast_value_failures (fl : DataFrame)
    (indicator year scenario : cell) :
  df_empty fl = false →
  match missing_forecast_key fl with
  | Some c =>
      get_forecast_value (Some fl) indicator year scenario = Raise (KeyError c)
  | None =>
      match forecast_matches (Some fl) indicator year scenario with
      | [] => get_forecast_value (Some fl) indicator year scenario = Ok None
      | r :: _ =>
          get_forecast_value (Some fl) indicator year scenario
          = if has_column fl "forecast_value"
            then Ok (Some (cell_of "forecast_value" r))
            else Raise (KeyError "forecast_value")
      end
  end.
Proof.
  intros He. unfold missing_forecast_key, get_forecast_value, forecast_matches.
  rewrite He. cbn [List.find].
  destruct (has_column fl "indicator_code") eqn:Hcode; cbn [negb].
  2:{ unfold getitem. by rewrite Hcode. }
  rewrite (getitem_has _ _ Hcode), bind_Ok.
  destruct (has_column fl "year") eqn:Hyear; cbn [negb].
  2:{ unfold getitem. by rewrite Hyear. }
  rewrite (getitem_has _ _ Hyear), bind_Ok.
  destruct (has_column fl "scenario") eqn:Hscen; cbn [negb].
  2:{ unfold getitem. by rewrite Hscen. }
  rewrite (getitem_has _ _ Hscen), bind_Ok.
  rewrite !series_eq_column, !mask_and_map.
  unfold getitem_mask. rewrite select_map.
  rewrite (filter_ext (λ r, py_eq (cell_of "indicator_code" r) indicator
                            && py_eq (cell_of "year" r) year
                            && py_eq (cell_of "scenario" r) scenario)
             (forecast_match fl indicator year scenario)).
  2:{ intros r. unfold forecast_match. by rewrite !frame_cell_has. }
  rewrite df_empty_rows by (by eapply has_column_nonempty).
  cbn [rows].
  destruct (List.filter _ (rows fl)) as [|r l] eqn:Hf.
  - by rewrite bool_decide_eq_true_2.
  - rewrite bool_decide_eq_false_2 by done. unfold getitem.
    change (has_column {| columns := columns fl; rows := r :: l;
     datetime64 := datetime64 fl |} "forecast_value")
      with (has_column fl "forecast_value").
    by destruct (has_column fl "forecast_value").
Qed.
End Extras.

(** ** The further properties on concrete tables *)

(** X1 on observations without [indicator_code], on observations without
    [value_numeric], on a sheet whose dates are a timestamp and a text,
    and on the three observations of indicator X. *)
Lemma get_indicator_series_failures_witness :
  get_indicator_series Sample.obs_codeless (Str "X")
  = Raise (KeyError "indicator_code")
  ∧ (∃ k, get_indicator_series Sample.obs_valueless (Str "X")
          = Raise (KeyError k))
  ∧ get_indicator_series Sample.unparsed (Str "X") = Raise TypeError
  ∧ ∃ series,
      get_indicator_series Demo.obs_xyz (Str "X") = Ok series
      ∧ columns series = columns Demo.obs_xyz
      ∧ rows series ≡ₚ List.filter (in_series Demo.obs_xyz (Str "X"))
                         (rows Demo.obs_xyz).
Proof.
  split; [|split; [|split]].
  - destruct (get_indicator_series_failures Sample.obs_codeless (Str "X"))
      as (Hkey & _); [reflexivity|].
    apply Hkey. reflexivity.
  - destruct (get_indicator_series_failures Sample.obs_valueless (Str "X"))
      as (_ & Hkey & _); [reflexivity|].
    apply Hkey; reflexivity.
  - destruct (get_indicator_series_failures Sample.unparsed (Str "X"))
      as (_ & _ & Htype & _); [reflexivity|].
    apply Htype; reflexivity.
  - destruct (get_indicator_series_failures Demo.obs_xyz (Str "X"))
      as (_ & _ & _ & Hok); [reflexivity|].
    apply Hok; reflexivity.
Defined.


(** X3 on the unified table of the examples. *)
Lemma observation_year_column_witness :
  let σ : gmap positive DataFrame := {[1%positive := Demo.unified]} in
  observation_dates_parsed Demo.unified = true
  ∧ ∃ σ' lo obs,
      get_observations 1%positive σ = (σ', Ok lo) ∧ σ' !! lo = Some obs
      ∧ (has_column Demo.unified "observation_date" = true →
         columns obs = (if has_column Demo.unified "year"
                        then columns Demo.unified
                        else columns Demo.unified ++ ["year"])
         ∧ Forall (λ r, cell_of "year" r =
                        match cell_of "observation_date" r with
                        | Date t => Num (inject_Z (dt_year t))
                        | _ => NA
                        end) (rows obs))
      ∧ (has_column Demo.unified "observation_date" = false →
         obs = record_frame Demo.unified "observation").
Proof.
  intros σ.
  assert (Hp : observation_dates_parsed Demo.unified = true)
    by (vm_compute; reflexivity).
  split; [exact Hp|].
  apply (observation_year_column σ 1%positive Demo.unified);
    [apply lookup_singleton_eq|reflexivity|reflexivity|exact Hp].
Defined.

(** X4 on a table without [record_type], on the table whose events are
    dated in different time zones, and on a sheet whose dates were read
    as text. *)
Lemma partition_failures_witness :
  let ρ : gmap positive DataFrame := {[1%positive := Demo.forecast_x]} in
  let τ : gmap positive DataFrame := {[1%positive := Demo.unified_zones]} in
  let σ : gmap positive DataFrame := {[1%positive := Sample.unparsed]} in
  (get_observations 1%positive ρ = (ρ, Raise (KeyError "record_type"))
   ∧ get_events 1%positive ρ = (ρ, Raise (KeyError "record_type")))
  ∧ (∃ τ', get_events 1%positive τ = (τ', Raise ValueError)
           ∧ τ' !! 1%positive = Some Demo.unified_zones)
  ∧ (∃ σ', get_observations 1%positive σ = (σ', Raise AttributeError)
           ∧ σ' !! 1%positive = Some Sample.unparsed)
  ∧ ∃ σ' le ev,
      get_events 1%positive σ = (σ', Ok le) ∧ σ' !! le = Some ev
      ∧ σ' !! 1%positive = Some Sample.unparsed
      ∧ labels ev = map fst (record_rows Sample.unparsed "event").
Proof.
  intros ρ τ σ. split; [|split; [|split]].
  - destruct (partition_failures ρ 1%positive Demo.forecast_x) as [Hkey _];
      [apply lookup_singleton_eq|reflexivity|].
    apply Hkey. reflexivity.
  - destruct (partition_failures τ 1%positive Demo.unified_zones) as [_ Hrt];
      [apply lookup_singleton_eq|reflexivity|].
    destruct (Hrt eq_refl) as (Hraise & _).
    apply Hraise. vm_compute. reflexivity.
  - destruct (partition_failures σ 1%positive Sample.unparsed) as [_ Hrt];
      [apply lookup_singleton_eq|reflexivity|].
    destruct (Hrt eq_refl) as (_ & _ & Hraise & _).
    apply Hraise. vm_compute. reflexivity.
  - destruct (partition_failures σ 1%positive Sample.unparsed) as [_ Hrt];
      [apply lookup_singleton_eq|reflexivity|].
    destruct (Hrt eq_refl) as (_ & Hev & _).
    apply Hev. vm_compute. reflexivity.
Defined.

(** X5 on the workbook of the examples, whose dates are accepted, and on
    an enriched file with dates of different time zones. *)
Lemma load_parses_dates_only_witness :
  (∃ main impact,
     load_unified_data Demo.files_without_impact [] = ([], Ok (main, impact))
     ∧ labels main = labels Demo.unified
     ∧ columns main = columns Demo.unified
     ∧ Forall2 (λ r r', ∀ c, c ≠ "observation_date" → r'.2 !! c = r.2 !! c)
         (rows Demo.unified) (rows main)
     ∧ Forall2 (λ r r', cell_of "observation_date" r'
                        = to_datetime_cell (cell_of "observation_date" r))
         (rows Demo.unified) (rows main)
     ∧ is_datetime64 main "observation_date" = true
     ∧ datetime_column main "observation_date" = true)
  ∧ load_unified_data Demo.files_zones []
    = ([] ++ [ErrorBox ("Error loading unified data: "
                        +:+ str_of_exn ValueError)],
       Ok (empty_frame, empty_frame)).
Proof.
  split.
  - destruct (load_parses_dates_only Demo.files_without_impact [] Demo.unified)
      as [_ Hok]; [reflexivity|].
    destruct Hok as (main & impact & Hrun & Hlabels & Hcols & Hrows & Hdates & _).
    { vm_compute. reflexivity. }
    exists main, impact. split; [exact Hrun|]. split; [exact Hlabels|].
    split; [exact Hcols|]. split; [exact Hrows|]. apply Hdates. reflexivity.
  - destruct (load_parses_dates_only Demo.files_zones [] Demo.unparsed_zones)
      as [Hrefused _]; [reflexivity|].
    apply Hrefused. vm_compute. reflexivity.
Defined.

(** X6 on an unreadable enriched file, with and without a workbook. *)
Lemma enriched_file_shadows_workbook_witness :
  load_unified_data Sample.files_enriched_only []
  = load_unified_data Sample.files_enriched_unreadable []
  ∧ (∀ e, enriched_csv Sample.files_enriched_unreadable = Some (Raise e) →
          load_unified_data Sample.files_enriched_unreadable []
          = ([] ++ [ErrorBox ("Error loading unified data: " +:+ str_of_exn e)],
             Ok (empty_frame, empty_frame))).
Proof.
  apply (enriched_file_shadows_workbook Sample.files_enriched_unreadable
           Sample.files_enriched_only []).
  - by eexists.
  - reflexivity.
Defined.

(** X8 on the session with two observations of account ownership and no
    wide table. *)
Lemma overview_page_renders_witness :
  ∃ out,
    (∀ page, page_overview Demo.session_acc page = (page ++ out, Ok ()))
    ∧ (∃ t1 t2 t3 l4 t4 d4,
         Within "col1" (Metric "Latest Account Ownership" t1 None) ∈ out
         ∧ Within "col2" (Metric "Mobile Money Accounts" t2 None) ∈ out
         ∧ Within "col3" (Metric "Digital Payment Usage" t3 None) ∈ out
         ∧ Within "col4" (Metric l4 t4 d4) ∈ out)
    ∧ (df_empty (observations Demo.session_acc) = true → chart_traces out = [])
    ∧ (df_empty (observations Demo.session_acc) = false →
       ∃ fig, overview_figure Demo.session_acc = Ok fig ∧ PlotlyChart fig ∈ out).
Proof.
  apply (overview_page_renders Demo.session_acc); reflexivity.
Defined.

(** X9 on the same session with a wide table that has [lower] and no
    [upper]. *)
Lemma overview_needs_upper_bound_witness :
  ∃ out,
    (∀ page, page_overview Sample.session_lower page
             = (page ++ out, Raise (KeyError "upper")))
    ∧ chart_traces out = [].
Proof.
  apply (overview_needs_upper_bound Sample.session_lower Sample.wide_lower 55);
    reflexivity.
Defined.

(** X10 on the same session with a wide table that has both bounds. *)
Lemma forecast_band_shape_witness :
  ∃ lines band,
    traces Sample.figure_both = lines ++ band
    ∧ Forall (λ t, band_trace t = false) lines
    ∧ match forecast_wide Sample.session_both with
      | None => band = []
      | Some fw =>
          if has_band fw (Str "ACC_OWNERSHIP")
          then ∃ wide_data dates,
                 wide_data ≡ₚ indicator_rows fw (Str "ACC_OWNERSHIP")
                 ∧ length dates = length wide_data
                 ∧ band = band_of dates wide_data
          else band = []
      end.
Proof.
  apply (forecast_band_shape Sample.session_both Demo.forecast_acc
           (Str "ACC_OWNERSHIP") Sample.figure_both).
  reflexivity.
Defined.

(** X11 on a forecast of 61. *)
Lemma target_verdicts_agree_witness :
  ∃ kpi findings,
    (∀ page, kpi_forecast (Some (Num 61)) page = (page ++ [kpi], Ok ()))
    ∧ (∀ page, finding_access (Some (Num 61)) page = (page ++ findings, Ok ()))
    ∧ (metric_delta kpi = Some "✓ Target met"
       ↔ target_met (Some (Num 61)) = true)
    ∧ (Write "  - ✓ On track to meet 60% target" ∈ findings
       ↔ target_met (Some (Num 61)) = true)
    ∧ (truthy_opt (Some (Num 61)) = false →
       kpi = Metric "2027 Forecast" "N/A" None ∧ findings = []).
Proof.
  apply (target_verdicts_agree (Some (Num 61))).
  intros c Hc. injection Hc as <-. reflexivity.
Defined.

(** X12 on observations of account ownership and digital payment usage,
    the selector untouched. *)
Lemma trends_page_shows_selection_witness :
  let options :=
    unique (map (cell_of "indicator_code") (rows Sample.obs_years)) in
  let selected :=
    multiselect_value options (default_indicators options) None in
  ∃ lines tables,
    (∀ page,
       page_trends Sample.obs_years None page
       = (page
          ++ [Plain (Markdown (main_header "Financial Inclusion Trends"));
              Multiselect "Select Indicators to Display" options
                (default_indicators options);
              Plain (PlotlyChart {| traces := lines; layout := trend_layout |})]
          ++ map (λ w, Placed "📄 View Data Table" (Plain w)) tables,
          Done ()))
    ∧ Forall2 (λ code t,
                 trace_name t = text_of code
                 ∧ trace_y t ≡ₚ map (cell_of "value_numeric")
                                  (List.filter (in_series Sample.obs_years code)
                                               (rows Sample.obs_years)))
        (List.filter (has_data Sample.obs_years) selected) lines
    ∧ subheaders tables
      = map text_of (List.filter (has_data Sample.obs_years) selected)
    ∧ length (dataframes tables) = length lines.
Proof.
  apply (trends_page_shows_selection Sample.obs_years None);
    [reflexivity|reflexivity|reflexivity|discriminate].
Defined.

(** X13 on observations of account ownership alone. *)
Lemma trends_default_refused_witness :
  let codes := map (cell_of "indicator_code") (rows Demo.obs_acc) in
  Str "ACC_OWNERSHIP" ∈ codes
  ∧ (Str "USG_DIGITAL_PAYMENT" ∉ codes)
  ∧ ∀ page,
      page_trends Demo.obs_acc (Some [0%nat]) page
      = (page ++ [Plain (Markdown (main_header "Financial Inclusion Trends"))],
         Failed StreamlitAPIException).
Proof.
  intros codes.
  assert (Hacc : Str "ACC_OWNERSHIP" ∈ codes).
  { apply (bool_decide_eq_true_1 _). reflexivity. }
  assert (Husg : Str "USG_DIGITAL_PAYMENT" ∉ codes).
  { apply (bool_decide_eq_false_1 _). reflexivity. }
  split; [exact Hacc|]. split; [exact Husg|].
  destruct (trends_default_refused Demo.obs_acc (Some [0%nat])) as [Hrefused _].
  - right. reflexivity.
  - by apply Hrefused.
Defined.

(** X14 on four events, three of them dated, with the second category
    picked. *)
Lemma timeline_shows_selected_categories_witness :
  let categories := event_categories Sample.events in
  let selected := multiselect_value categories categories (Some [1%nat]) in
  ∃ fig listed,
    (∀ page,
       event_timeline Sample.events (Some [1%nat]) page
       = (page ++ [Plain (Subheader "📅 Event Timeline");
                   Multiselect "Filter by Category" categories categories;
                   PxChart fig;
                   Placed "📋 View Event List" (Plain (Dataframe listed))],
          Done ()))
    ∧ px_call fig
      = Scatter {| columns := columns Sample.events;
                   rows := timeline_rows Sample.events selected;
                   datetime64 := datetime64 Sample.events |}
          "event_date_parsed" "category" (Some "category") ["indicator"]
    ∧ (∀ r, r ∈ timeline_rows Sample.events selected ↔
            r ∈ rows Sample.events
            ∧ notna (cell_of "event_date_parsed" r) = true
            ∧ (selected = []
               ∨ ∃ c, c ∈ selected ∧ same_value (cell_of "category" r) c = true))
    ∧ timeline_rows Sample.events [] = dated_events Sample.events
    ∧ timeline_rows Sample.events categories = dated_events Sample.events.
Proof.
  apply (timeline_shows_selected_categories Sample.events (Some [1%nat])).
  reflexivity.
Defined.

(** X15 on the same events, the selector untouched. *)
Lemma event_list_newest_first_witness :
  let categories := event_categories Sample.events in
  let selected := multiselect_value categories categories None in
  let cols := ["indicator"; "category"; "event_date_parsed"] in
  ∃ fig listed,
    (∀ page,
       event_timeline Sample.events None page
       = (page ++ [Plain (Subheader "📅 Event Timeline");
                   Multiselect "Filter by Category" categories categories;
                   PxChart fig;
                   Placed "📋 View Event List" (Plain (Dataframe listed))],
          Done ()))
    ∧ columns listed = cols
    ∧ rows listed ≡ₚ map (restrict_row cols) (timeline_rows Sample.events selected)
    ∧ (∀ r c, c ∈ cols → cell_of c (restrict_row cols r) = cell_of c r)
    ∧ StronglySorted newest_first (rows listed).
Proof.
  apply (event_list_newest_first Sample.events None). reflexivity.
Defined.

(** X17 on the same events. *)
Lemma event_coverage_adds_up_witness :
  ∃ bars with_date without_date,
    (∀ page,
       event_coverage Sample.events page
       = (page
          ++ [Plain (Markdown "---");
              Plain (Subheader "📅 Event Coverage");
              Placed "col_a"
                (PxChart {| px_call := Bar (map fst bars) (map snd bars);
                            px_args := [("labels.x", "Category");
                                        ("labels.y", "Count");
                                        ("title", "Events by Category")];
                            px_updates := [] |});
              Placed "col_b"
                (PxChart {| px_call := Pie [with_date; without_date]
                                           ["With Date"; "Without Date"];
                            px_args := [("title", "Event Date Availability")];
                            px_updates := [] |})],
          Done ()))
    ∧ with_date + without_date = Z.of_nat (len Sample.events)
    ∧ with_date = Z.of_nat (length (dated_events Sample.events))
    ∧ total (map snd bars)
      = Z.of_nat (length (List.filter (λ r, notna (cell_of "category" r))
                                      (rows Sample.events)))
    ∧ Forall (λ bar : cell * Z,
                bar.2 = Z.of_nat (length (List.filter
                                            (λ r, py_eq (cell_of "category" r) bar.1)
                                            (rows Sample.events)))
                ∧ 0 < bar.2) bars
    ∧ distinct_keys (map fst bars) = true
    ∧ StronglySorted (λ a b : cell * Z, b.2 ≤ a.2) bars.
Proof.
  apply (event_coverage_adds_up Sample.events); reflexivity.
Defined.

(** X18 on observations of two indicators in two years. *)
Lemma coverage_counts_the_series_witness :
  ∃ coverage,
    pivot_count Sample.obs_years = Ok coverage
    ∧ pivot_values coverage
      = map (λ code, map (coverage_count Sample.obs_years code)
                         (pivot_columns coverage))
            (pivot_index coverage)
    ∧ distinct_keys (pivot_index coverage) = true
    ∧ distinct_keys (pivot_columns coverage) = true
    ∧ (∀ code,
         total (map (coverage_count Sample.obs_years code)
                    (pivot_columns coverage))
         = Z.of_nat (length (List.filter (in_series Sample.obs_years code)
                                         (rows Sample.obs_years))))
    ∧ (∀ code, has_data Sample.obs_years code = true →
               ∃ k, k ∈ pivot_index coverage ∧ py_eq code k = true)
    ∧ (imshow_raises (PivotImage coverage) = None →
       ∃ fig,
         px_call fig = Imshow (PivotImage coverage)
         ∧ ∀ page,
             indicator_coverage Sample.obs_years page
             = (page ++ [Plain (Markdown "---");
                         Plain (Subheader "📊 Indicator Coverage Over Time");
                         PxChart fig;
                         Placed "📄 View Coverage Table" (PivotTable coverage)],
                Done ())).
Proof.
  apply (coverage_counts_the_series Sample.obs_years);
    [reflexivity|reflexivity|reflexivity|].
  apply Forall_forall. repeat constructor.
Defined.

(** X20 on no data file at all, for the Trends page. *)
Lemma script_survives_missing_data_witness :
  ∃ out,
    ∀ page,
      script Sample.no_files (Sample.untouched Trends) page
      = (page ++ out, Done ()).
Proof.
  destruct (script_survives_missing_data Sample.no_files
              (Sample.untouched Trends))
    as (m1 & m2 & m3 & m4 & _ & Hrun); [reflexivity..|].
  eexists. exact Hrun.
Defined.

(** X21 on the same observations: the years are 2021 and 2017. *)
Lemma year_slider_starts_at_first_year_witness :
  ∃ first,
    first ∈ observed_years Sample.obs_years
    ∧ (∀ y, y ∈ observed_years Sample.obs_years → first ≤ y)
    ∧ ∀ page,
        year_range_filter Sample.obs_years (Some (2018, 2025)) page
        = if slider_refuses first 2027 (first, 2027)
          then (page, Failed StreamlitAPIException)
          else (page ++ [Slider "Year Range" first 2027 (first, 2027)],
                Done (default (first, 2027) (Some (2018, 2025)))).
Proof.
  apply (year_slider_starts_at_first_year Sample.obs_years (Some (2018, 2025)));
    reflexivity.
Defined.

(** X22 on the session with both bounds in the wide table. *)
Lemma forecasts_page_with_wide_witness :
  ∃ out,
    (∀ page, page_forecasts Sample.session_both page = (page ++ out, Ok ()))
    ∧ Dataframe Sample.wide_both ∈ out
    ∧ DownloadButton "Download Forecast CSV" (to_csv Demo.forecast_acc)
        "ethiopia_fi_forecast_2025_2027.csv" "text/csv" ∈ out
    ∧ ∀ sel,
        selectbox_value
          (unique (map (cell_of "indicator_code") (rows Demo.forecast_acc)))
          (indicator_pick Sample.session_both) = Some sel →
        truthy sel = true →
        ∃ fig, forecast_figure Sample.session_both Demo.forecast_acc sel = Ok fig
               ∧ PlotlyChart fig ∈ out
               ∧ existsb band_trace (traces fig) = has_band Sample.wide_both sel.
Proof.
  apply (forecasts_page_with_wide Sample.session_both Demo.forecast_acc
           Sample.wide_both); reflexivity.
Defined.

(** X23 on the same session with a wide table without [indicator_code]. *)
Lemma forecasts_page_needs_wide_keys_witness :
  missing_wide_key Sample.wide_keyless = Some "indicator_code"
  ∧ ∀ page,
      page_forecasts Sample.session_keyless page
      = (page
         ++ [Markdown ("<p class=" +:+ dq +:+ "main-header" +:+ dq
                       +:+ ">Financial Inclusion Forecasts (2025-2027)</p>");
             Subheader "📊 Scenario Comparison";
             Selectbox "Select Indicator"
               (unique (map (cell_of "indicator_code")
                            (rows Demo.forecast_acc)))],
         Raise (KeyError "indicator_code")).
Proof.
  split; [reflexivity|].
  apply (forecasts_page_needs_wide_keys Sample.session_keyless
           Demo.forecast_acc Sample.wide_keyless (Str "ACC_OWNERSHIP")
           "indicator_code"); reflexivity.
Defined.

(** X24 on the wide table of the examples, which has no [scenario]. *)
Lemma get_forecast_value_failures_witness :
  get_forecast_value (Some Sample.wide_both) (Str "ACC_OWNERSHIP") (Num 2027)
    (Str "base")
  = Raise (KeyError "scenario").
Proof.
  apply (get_forecast_value_failures Sample.wide_both (Str "ACC_OWNERSHIP")
           (Num 2027) (Str "base")).
  reflexivity.
Defined.

(** ** The data preparation, evaluated *)

Example preparation_without_record_type :
  (load_session Sample.files_untyped base 0 []).2
  = Raise (KeyError "record_type").
Proof. vm_compute. reflexivity. Qed.

Example preparation_with_mixed_event_dates :
  (load_session Sample.files_zones base 0 []).2 = Raise ValueError.
Proof. vm_compute. reflexivity. Qed.

Example preparation_with_refused_dates :
  (λ s, (observations s, events s))
    <$> (load_session Demo.files_zones base 0 []).2
  = Ok (empty_frame, empty_frame).
Proof. vm_compute. reflexivity. Qed.
